(* ===== verification/_CoqProject ===== *)
-Q . S2P
Prelude.v
AlphaVantage.v
Events.v
Interfaces.v
Collaborators.v
Portfolio.v
Performance.v
Sharpe.v
Backtest.v
Reporting.v
Options.v
Spreads.v
Indicators.v
Forecaster.v
Futures.v
VaR.v
IB.v
Hurst.v
ADF.v
SecMaster.v
DataExtraction.v
