(* ===== verification/Prelude.v ===== *)
(** * A verified model of the trading code of Algorithmic-Trading

    This development models, in Rocq, the event-driven backtesting engine
    under [src/Quantiative Finance/Automated Trading/], the analytics
    scripts beside it and the option tools under [src/Quantiative
    Finance/Options/], and proves the properties that make them correct
    (or shows where they are not).  The engine is a closed control loop:
    [backtest.py] pulls one bar at a time from a data handler, the strategy
    turns each market tick into signals, [portfolio.py] turns signals into
    orders and fills into positions and holdings, an execution handler
    (simulated, or [ib_execution.py] against Interactive Brokers) turns
    orders into fills, and [performance.py] summarises the equity curve.

    ** Files, in dependency order

    - [Prelude] (this file): the shared vocabulary.  Python's exceptions
      ([py_error]: [KeyError], [IndexError], [TypeError], [ValueError],
      [AttributeError], [NameError], numpy's [LinAlgError],
      [mysql.connector.Error] as [DBError]) and the [result] monad that
      carries them, with stdpp's [x ← m; k] notation; the state and
      exception monad [stexc] of methods; Python dictionaries as stdpp
      [gmap string V] with [dict_get] ([d[k]]), [dict_update]
      ([d[k] += x]) and [zero_dict]; a monadic for-loop [for_each];
      rational sums [Qsum]; the hint databases [trading] and [st_pres]
      (the invariant rules of [stexc]: [st_preserves] of returns, binds,
      raises and [try]/[finally]).
    - [AlphaVantage]: the daily download that five scripts copy line for
      line ([get_daily_historic_data_alphavantage]: the answer filtered
      by date into a frame, or [[]] on an exception), the day numbers of
      [dt.datetime] ([days_from_civil]), and the dates of the frame;
      [spy_csv_data.py] ([SpyCsvData]), whose class carries the same
      download and whose [__main__] block saves the SPY bars of
      1998-01-02 .. 2008-01-31 or ends in [AttributeError];
      [Alpha_Vantage_API_test.py] ([AlphaVantageAPITest]), the same loop
      without the date bounds.
    - [Events]: the four event kinds.  [event.py] is not part of [src/]
      and is modelled from the spec (spec_modelled in the manifest).
    - [Interfaces]: the collaborators the engine only calls, as type
      classes with laws: [DataHandler], [Strategy], [ExecutionHandler].
    - [Collaborators]: instances of them from the spec: a historic bar
      feed, a simulated broker, a one-shot strategy.
    - [Portfolio]: class [Portfolio] of [portfolio.py]: a record of its
      attributes, one definition per method; the bookkeeping invariant and
      its preservation, the order-sizing table, the fill arithmetic.
    - [Performance]: [create_drawdowns] of [performance.py] (pandas' NaN as
      [option]); the single-pass drawdown equals the peak-to-trough
      reference definition.
    - [Sharpe]: [create_sharpe_ratio] of [performance.py] and the three
      Sharpe ratios of [Sharpe.py] (exact rationals, square roots in [R]),
      the market-neutral one on two Series aligned by date as pandas
      aligns them, and the script's [__main__] block ([SharpeScript]).
    - [Backtest]: class [Backtest] of [backtest.py]: the FIFO queue, the
      dispatch of [_run_backtest], the heartbeat loop, termination of both
      loops, invariants of a run over any handlers, from the construction
      [_generate_trading_instances] performs ([Backtest.__init__] calls it
      without its argument and raises [TypeError]: [backtest_init]).
    - [Reporting]: [create_equity_curve_dataframe], [output_summary_stats],
      [_output_performance] and [simulate_trading] (a method of a
      [Backtest] object, which [Backtest.__init__] never returns: it
      raises [TypeError], [backtest_init]).
    - [Options], [Spreads]: the Call, Options and Short_Call classes and
      Call_Spread of [Options/], DataFrames as lists of row records.
    - [Indicators]: [Technical_Indicators _Class.py]: [Stock.__init__],
      its download retry loop (downloads as an oracle, fuel) and
      [get_financial_data] (the five pages as an oracle of the URL, the
      decoded JSON as an inductive, [temp_dir] in [stexc]: later pages
      overwrite earlier ones, the first exception ends the loop and keeps
      what was read); pandas' [ewm] and [rolling] kernels, MACD, ATR and
      Bollinger bands.  Module [FAStock]: the [Stock] class of
      [Fundamental Analysis/Data Extraction/Stock_Class.py], the same
      code without the daily returns.
    - [Forecaster]: [Price_Forecaster_ML.py]: [create_lagged_series] and
      the [__main__] block: the train/test split, the classifiers (their
      learning algorithms as arguments), hit rates and confusion
      matrices.
    - [Futures]: [futures_rollover_weights] of [Cont_Futures.py]: the
      business-day calendar, [DataFrame.loc] label slices and label-list
      assignments; weights in [[0, 1]] summing to 1 per row when roll
      windows do not overlap, the frame's shape, the [KeyError] path.
    - [VaR]: [var_cov_var] and the [__main__] block of [var.py], over
      scipy's normal quantile as a Section variable; the refinement of the
      "probability c of losing no more than the VaR" contract.
    - [IB]: the methods of [IBExecution] of [ib_execution.py] in a state
      and exception monad, one by one: the module does not parse (line
      99) and [__init__] raises in [register_handlers] (line 167), so no
      session runs and none is claimed; lemmas say what each method does
      to the attributes.
    - [Hurst]: [hurst] of [Hurst.py] in [R]: its invariance under a
      change of unit and origin, its exact answer on power-law scaling,
      the [LinAlgError] on series shorter than 100 points or holding a
      NaN, and the script's [__main__] block ([HurstScript]) on the
      random draws as inputs.
    - [ADF]: the [__main__] block of [adf.py] ([AdfScript]), over
      statsmodels' [adfuller] as a Section variable.
    - [SecMaster]: the securities master scripts [MySQL_Connection.py],
      [Insert_Symbols.py] and [Price_Retrieval.py] (Modules
      [MySQLConnection], [InsertSymbols], [PriceRetrieval]) in [stexc]
      over a model of the MySQL server: its tables with [AUTO_INCREMENT]
      ids and primary keys, and the lines the scripts print.  Every
      script keeps the tables well formed; a refused connection ends every
      [try]/[finally] in [NameError] from the [finally] clause; symbols
      inserted are read back with ids [1..n]; the download keeps the 175
      days before today, never today; the retrieval loop inserts one
      11-column tuple per bar and returns the tickers without data.
      [Retrieving_data.py] ([RetrievingData]): the join of [symbol] and
      [daily_price] ordered by date reads back, as a round trip, the
      bars [Price_Retrieval.py] inserted.
    - [DataExtraction]: [Pandas_Datareader.py] and [YahooFinancials.py]
      of [Technical Analysis/Data Extraction] ([PandasDatareader],
      [YahooFinancials]): their three-round download loop over the
      tickers not yet in [drop], pandas' column assignment (the first
      non-empty series gives the frame its index, later ones are
      reindexed on it, a repeated date raises), the statistics of
      [Pandas_Datareader.py] and the JSON answer of [yahoofinancials].
      The loop returns within the three rounds with one aligned column
      per ticker that downloaded; dates outside the first series' index
      are lost.

    ** Numbers

    Python floats are exact rationals [Q] (or reals [R] where a square
    root or a normal quantile enters); rounding is modelled only where the
    code rounds ([round] in [Options]).  Python ints are [Z], unbounded as
    in Python.  Dates are day numbers [Z] (days since 1970-01-01 where the
    code names a calendar date; [Futures] counts from a Monday).  A
    pandas or numpy NaN is [None].  The random draws of [numpy.random]
    are inputs.

    ** Loops and fuel

    The inner loop of [_run_backtest] runs with fuel equal to the queue's
    weight, which every dispatch decreases, and is proved to finish with
    it; the heartbeat loop runs with fuel [S (bars_remaining d)].  The
    retry loop of [Stock.get_historical_price_data] runs with fuel and is
    proved to return exactly when three downloads succeed among the calls
    the fuel allows, so it diverges on a source that keeps failing.  The
    three-round loop of the Data Extraction scripts runs with fuel 4 (three
    rounds and the final test), proved enough from [attempt = 0].  All
    other loops are structural recursions over the data.  The retrieval
    loop of [Price_Retrieval.py] is a structural recursion over the first
    [TICKER_COUNT] tickers.

    ** Not modelled

    Network I/O (AlphaVantage, Quandl, Yahoo, Wikipedia, the TWS socket)
    is an input of the model: the answer, or the parsed page, is a value
    the functions receive.  The MySQL server is modelled as state; its
    SQL parser, types and the schema scripts outside [src/] are not (the
    tables [symbol], [daily_price] are part of the initial state).  Not
    modelled: plotting, CSV export, the learning algorithms of
    scikit-learn and statsmodels' [adfuller] (library code, arguments of
    the model), the formatting of printed numbers and frames, the
    exponentially weighted deviation of [Pandas_Datareader.py] (its
    kernel is pandas' code), and two scripts that never run:
    [Intraday_Data.py] stops at its import of [matplotlib.plot], and
    [alpha_vantage_conn.py] is dead code (its class is shadowed where it
    is imported, and its method has no [self]).  They are listed with
    status not_modelled or partly in PROJECT.json.  [time.sleep] and
    [warnings.filterwarnings] have no observable effect on the state.  [Call_Class.py] and
    [Call_Spread_Class.py] are verbatim copies of the classes of
    [Call_Spread.py] and share their model. *)

From stdpp Require Export base gmap strings list.
From Stdlib Require Export QArith Qminmax Lqa.

Declare Scope trading_scope.
Delimit Scope trading_scope with trading.
Open Scope Q_scope.

(** ** Python exceptions and the result monad *)

Inductive py_error : Type :=
| KeyError (key : string)
| IndexError
| TypeError (what : string)
| ValueError (what : string)
| AttributeError (what : string)
| NameError (name : string)
| LinAlgError (what : string)
| DBError (what : string).

Inductive result (A : Type) : Type :=
| Ok (a : A)
| Err (e : py_error).
Arguments Ok {A} _.
Arguments Err {A} _.

#[export] Instance result_ret : MRet result := λ A a, Ok a.
#[export] Instance result_bind : MBind result :=
  λ A B f r, match r with Ok a => f a | Err e => Err e end.

Definition is_ok {A} (r : result A) : bool :=
  match r with Ok _ => true | Err _ => false end.

(** [raise] in a position where Python raises. *)
Notation "'raise' e" := (Err e) (at level 10) : trading_scope.

(** ** Python dictionaries keyed by strings *)

(** [d[k]]: a lookup that raises [KeyError] on a missing key. *)
Definition dict_get {V} (d : gmap string V) (k : string) : result V :=
  match d !! k with Some v => Ok v | None => Err (KeyError k) end.

(** [d[k] = f(d[k])], e.g. [d[k] += x]: read (raising on a missing key),
    then write back. *)
Definition dict_update {V} (f : V → V) (d : gmap string V) (k : string)
    : result (gmap string V) :=
  v ← dict_get d k; Ok (<[k := f v]> d).

(** [dict((k, v) for k in ks)]: keys inserted in list order. *)
Definition zero_dict {V} (ks : list string) (v : V) : gmap string V :=
  foldl (λ m k, <[k := v]> m) ∅ ks.

(** A Python [for x in xs:] loop whose body may raise. *)
Fixpoint for_each {A B} (xs : list B) (body : A → B → result A) (a : A)
    : result A :=
  match xs with
  | [] => Ok a
  | x :: xs' => a' ← body a x; for_each xs' body a'
  end.

(** ** Methods that change an object and may raise

    [stexc S A]: a method of an object whose attributes are [S], returning
    an [A] or raising; the attributes are returned in both cases, as the
    method had left them when it returned or raised. *)

Definition stexc (S A : Type) : Type := S → S * result A.

Definition st_ret {S A} (a : A) : stexc S A := λ s, (s, Ok a).

Definition st_bind {S A B} (m : stexc S A) (k : A → stexc S B) : stexc S B :=
  λ s, match m s with
       | (s', Ok a) => k a s'
       | (s', Err e) => (s', Err e)
       end.

Definition st_raise {S A} (e : py_error) : stexc S A := λ s, (s, Err e).

Definition st_get {S} : stexc S S := λ s, (s, Ok s).

Definition st_put {S} (s' : S) : stexc S unit := λ _, (s', Ok tt).

Declare Scope stexc_scope.
Delimit Scope stexc_scope with stexc.
Notation "x ⇐ m ; k" := (st_bind m (λ x, k))
  (at level 20, m at level 100, k at level 200, right associativity) : stexc_scope.

(** A pure computation that may raise, inside a method. *)
Definition st_lift {S A} (r : result A) : stexc S A := λ s, (s, r).

(** [try: m finally: fin]: [fin] runs on both paths; an exception it
    raises replaces the one of [m]. *)
Definition st_finally {S A} (m : stexc S A) (fin : stexc S unit) : stexc S A :=
  λ s, match m s with
       | (s1, r) => match fin s1 with
                    | (s2, Err e) => (s2, Err e)
                    | (s2, Ok _) => (s2, r)
                    end
       end.

(** [m] keeps the invariant [P] of the state, whatever it returns or
    raises. *)
Definition st_preserves {S A} (P : S → Prop) (m : stexc S A) : Prop := ∀ s, P s → P (m s).1.

(** ** Rational sums *)

Definition Qsum (l : list Q) : Q := fold_right Qplus 0 l.

(** Decide a closed decidable proposition by evaluating its [bool_decide]. *)
Ltac decide_by_eval := apply (bool_decide_unpack _); vm_compute; exact I.

Create HintDb trading.
Create Rewrite HintDb trading_simpl.
Create HintDb st_pres.

(** ** Lemmas on the result monad *)

Lemma bind_Ok {A B} (a : A) (f : A → result B) : (Ok a ≫= f) = f a.
Proof. reflexivity. Qed.

Lemma bind_Err {A B} e (f : A → result B) : (Err e ≫= f) = Err e.
Proof. reflexivity. Qed.

Lemma bind_eq_Ok {A B} (r : result A) (f : A → result B) b :
  (r ≫= f) = Ok b ↔ ∃ a, r = Ok a ∧ f a = Ok b.
Proof.
  destruct r as [a|e]; simpl; split.
  - eauto.
  - by intros (? & [= ->] & ?).
  - discriminate.
  - by intros (? & ? & ?).
Qed.

#[export] Hint Rewrite @bind_Ok @bind_Err : trading_simpl.

(** ** Lemmas on dictionaries *)

Lemma dict_get_Ok {V} (d : gmap string V) k v :
  dict_get d k = Ok v ↔ d !! k = Some v.
Proof. unfold dict_get. destruct (d !! k); split; congruence. Qed.

Lemma dict_get_lookup {V} (d : gmap string V) k v :
  d !! k = Some v → dict_get d k = Ok v.
Proof. apply dict_get_Ok. Qed.

Lemma dict_get_missing {V} (d : gmap string V) k :
  d !! k = None → dict_get d k = Err (KeyError k).
Proof. unfold dict_get. by intros ->. Qed.

Lemma dict_update_lookup {V} (f : V → V) (d : gmap string V) k v :
  d !! k = Some v → dict_update f d k = Ok (<[k := f v]> d).
Proof. intros H. unfold dict_update. by rewrite (dict_get_lookup _ _ _ H). Qed.

Lemma dict_update_missing {V} (f : V → V) (d : gmap string V) k :
  d !! k = None → dict_update f d k = Err (KeyError k).
Proof. intros H. unfold dict_update. by rewrite (dict_get_missing _ _ H). Qed.

#[export] Hint Resolve dict_get_lookup dict_update_lookup : trading.

Lemma zero_dict_lookup_acc {V} (ks : list string) (v : V) (m : gmap string V) k :
  foldl (λ m k, <[k := v]> m) m ks !! k =
  if decide (k ∈ ks) then Some v else m !! k.
Proof.
  revert m. induction ks as [|k' ks IH]; intros m; cbn [foldl].
  - case_decide; [set_solver | done].
  - rewrite IH, lookup_insert. repeat case_decide; subst; set_solver.
Qed.

Lemma zero_dict_lookup {V} (ks : list string) (v : V) k :
  zero_dict ks v !! k = if decide (k ∈ ks) then Some v else None.
Proof. unfold zero_dict. rewrite zero_dict_lookup_acc. by case_decide. Qed.

Lemma zero_dict_dom {V} (ks : list string) (v : V) k :
  is_Some (zero_dict ks v !! k) ↔ k ∈ ks.
Proof.
  rewrite zero_dict_lookup. case_decide; split; intros; try done; by inversion 1.
Qed.

(** ** A loop invariant rule for [for_each] *)

Lemma for_each_inv {A B} (P : A → Prop) (xs : list B) body a a' :
  P a →
  (∀ x b b', x ∈ xs → P b → body b x = Ok b' → P b') →
  for_each xs body a = Ok a' → P a'.
Proof.
  revert a. induction xs as [|x xs IH]; intros a Ha Hbody; simpl.
  - by intros [= <-].
  - destruct (body a x) as [b|e] eqn:Hb; simpl; [|discriminate].
    apply IH; [eapply Hbody; eauto; set_solver|].
    intros. eapply Hbody; eauto. set_solver.
Qed.

(** A loop whose body cannot fail on any element returns [Ok]. *)
Lemma for_each_total {A B} (xs : list B) body (a : A) :
  (∀ x b, x ∈ xs → is_ok (body b x) = true) →
  ∃ a', for_each xs body a = Ok a'.
Proof.
  revert a. induction xs as [|x xs IH]; intros a Hok; simpl; [eauto|].
  pose proof (Hok x a ltac:(set_solver)) as Hx.
  destruct (body a x) as [b|e]; simpl; [|discriminate].
  apply IH. intros; apply Hok; set_solver.
Qed.

(** ** Lemmas on rational sums *)

Lemma Qsum_cons x l : Qsum (x :: l) = x + Qsum l.
Proof. reflexivity. Qed.

Lemma Qsum_app l1 l2 : Qsum (l1 ++ l2) == Qsum l1 + Qsum l2.
Proof.
  induction l1 as [|x l1 IH]; simpl; [ring|]. rewrite IH. ring.
Qed.

#[export] Instance Qsum_proper : Proper (Forall2 Qeq ==> Qeq) Qsum.
Proof. intros l1 l2 H. induction H as [|x y l1 l2 Hxy _ IH]; simpl; [done|]. by rewrite Hxy, IH. Qed.

Lemma Qsum_map_ext {A} (f g : A → Q) (l : list A) :
  (∀ x, x ∈ l → f x == g x) → Qsum (map f l) == Qsum (map g l).
Proof.
  induction l as [|x l IH]; intros Hfg; simpl; [done|].
  rewrite (Hfg x ltac:(set_solver)), IH; [done|].
  intros; apply Hfg; set_solver.
Qed.

#[export] Hint Resolve Qsum_map_ext : trading.

(** ** [Qmax] returns one of its arguments *)

(** A loop that appends one result per element, [acc.append(f(x))], runs to
    the end when no step raises, and appends the results in order. *)
Lemma for_each_append {A B} (xs : list A) (f : A → result B) (acc : list B) :
  (∀ x, x ∈ xs → ∃ b, f x = Ok b) →
  ∃ bs, for_each xs (λ acc x, b ← f x; Ok (acc ++ [b])) acc = Ok (acc ++ bs) ∧
        Forall2 (λ x b, f x = Ok b) xs bs.
Proof.
  revert acc. induction xs as [|x xs IH]; intros acc Hok.
  - exists []. rewrite app_nil_r. by split.
  - destruct (Hok x) as [b Hb]; [set_solver|]. cbn [for_each]. rewrite Hb, !bind_Ok.
    destruct (IH (acc ++ [b])) as (bs & Hrun & Hrel); [intros y Hy; apply Hok; set_solver|].
    exists (b :: bs). rewrite Hrun, <- app_assoc. by split; [|constructor].
Qed.

(** ** Lists *)
Lemma filter_none {A} (P : A → Prop) `{∀ x, Decision (P x)} (l : list A) :
  (∀ x, x ∈ l → ¬ P x) → filter P l = [].
Proof.
  induction l as [|x l IH]; intros Hn; [done|].
  rewrite filter_cons, decide_False by (apply Hn; set_solver). apply IH. set_solver.
Qed.

Lemma filter_all {A} (P : A → Prop) `{∀ x, Decision (P x)} (l : list A) :
  (∀ x, x ∈ l → P x) → filter P l = l.
Proof.
  induction l as [|x l IH]; intros Hp; [done|].
  rewrite filter_cons, decide_True by (apply Hp; set_solver). f_equal. apply IH. set_solver.
Qed.

(** A list mapped with a fallible function, [[f(x) for x in xs]], has
    its results in the image of [f]. *)
Lemma mapM_Ok_Forall {A B} (f : A → result B) (P : B → Prop) (l : list A) ys :
  (∀ x y, f x = Ok y → P y) → mapM f l = Ok ys → Forall P ys.
Proof.
  intros Hf. revert ys. induction l as [|x l IH]; intros ys; simpl.
  - by intros [= <-].
  - destruct (f x) as [y|e] eqn:Hx; [|discriminate]. simpl.
    destruct (mapM f l) as [k|e] eqn:Hl; [|discriminate]. intros [= <-]. constructor; eauto.
Qed.


Lemma last_cons_ne {A} (x : A) (l : list A) : l ≠ [] → last (x :: l) = last l.
Proof. by destruct l. Qed.

Lemma last_map_Some {A B} (f : A → B) (l : list A) : last (map f l) = option_map f (last l).
Proof. induction l as [|x [|y l] IH]; [done | done |]. exact IH. Qed.

Lemma Forall2_last {A B} (R : A → B → Prop) l k :
  Forall2 R l k → option_Forall2 R (last l) (last k).
Proof.
  induction 1 as [|x y l k Hxy Hlk IH]; [constructor|].
  destruct Hlk; [by constructor | exact IH].
Qed.

(** ** Rationals *)

Lemma Qeq_bool_false (a b : Q) : ¬ a == b → Qeq_bool a b = false.
Proof. intros H. destruct (Qeq_bool a b) eqn:E; [apply Qeq_bool_eq in E; contradiction | done]. Qed.

Lemma Qmax_cases a b : (a < b ∧ Qmax a b = b) ∨ (b <= a ∧ Qmax a b = a).
Proof.
  unfold Qmax, GenericMinMax.gmax. destruct (a ?= b) eqn:E.
  - right. split; [|done]. apply Qle_lteq. right. symmetry. by apply Qeq_alt.
  - left. split; [by apply Qlt_alt | done].
  - right. split; [|done]. apply Qlt_le_weak. by apply Qgt_alt.
Qed.

(** ** Running methods in [stexc] *)

Lemma st_bind_run_Ok {S A B} (m : stexc S A) (k : A → stexc S B) s s' a :
  m s = (s', Ok a) → st_bind m k s = k a s'.
Proof. intros H. unfold st_bind. by rewrite H. Qed.

Lemma st_bind_run_Err {S A B} (m : stexc S A) (k : A → stexc S B) s s' e :
  m s = (s', Err e) → st_bind m k s = (s', Err e).
Proof. intros H. unfold st_bind. by rewrite H. Qed.

Lemma st_get_bind {S B} (k : S → stexc S B) s : st_bind st_get k s = k s s.
Proof. reflexivity. Qed.

Lemma st_finally_run {S A} (m : stexc S A) fin s s1 r :
  m s = (s1, r) → st_finally m fin s = match fin s1 with (s2, Err e) => (s2, Err e) | (s2, Ok _) => (s2, r) end.
Proof. intros H. unfold st_finally. by rewrite H. Qed.

(** ** Invariants of methods in [stexc] *)

Section Preserves.

Context {S : Type} (P : S → Prop).

Lemma st_preserves_ret {A} (a : A) : st_preserves P (st_ret a).
Proof. by intros s. Qed.

Lemma st_preserves_raise {A} e : st_preserves P (st_raise (A:=A) e).
Proof. by intros s. Qed.

Lemma st_preserves_get : st_preserves P st_get.
Proof. by intros s. Qed.

Lemma st_preserves_lift {A} (r : result A) : st_preserves P (st_lift r).
Proof. by intros s. Qed.

Lemma st_preserves_bind {A B} (m : stexc S A) (k : A → stexc S B) :
  st_preserves P m → (∀ a, st_preserves P (k a)) → st_preserves P (st_bind m k).
Proof.
  intros Hm Hk s Hs. unfold st_bind. specialize (Hm s Hs).
  destruct (m s) as [s' [a|e]]; [by apply Hk | done].
Qed.

Lemma st_preserves_finally {A} (m : stexc S A) fin :
  st_preserves P m → st_preserves P fin → st_preserves P (st_finally m fin).
Proof.
  intros Hm Hf s Hs. unfold st_finally. specialize (Hm s Hs).
  destruct (m s) as [s1 r]. specialize (Hf s1 Hm). by destruct (fin s1) as [s2 [?|?]].
Qed.

End Preserves.

#[export] Hint Resolve st_preserves_ret st_preserves_raise st_preserves_get st_preserves_lift
  st_preserves_bind st_preserves_finally : st_pres.
