(* ===== verification/AlphaVantage.v ===== *)
(** * AlphaVantage: the daily download shared by the scripts

    [Price_Forecaster_ML.py], [Sharpe.py], [var.py], [Hurst.py] and
    [adf.py] each define, line for line, the same
    [get_daily_historic_data_alphavantage(ticker, start_date, end_date)]:
    it asks AlphaVantage for the daily adjusted bars of a ticker and turns
    the JSON answer (a dict from date strings to bars) into a price frame,
    the dates in increasing order and between two bounds; on an exception
    it returns an empty list instead of a frame.  The answer is a [gmap]
    from day numbers to bars whose fields are already numbers ([float]
    and [int] on the strings of the JSON are not modelled), [None] when
    the request raises.  The model is the one of [Price_Forecaster_ML.py];
    each other script's copy is a definition equal to it in the script's
    file.  [spy_csv_data.py] carries the download as a method of its
    class [AlphaVantage] (Module [SpyCsvData]), and
    [Alpha_Vantage_API_test.py] runs its loop without the date bounds
    (Module [AlphaVantageAPITest]).  The lemmas: the frame's
    dates are the answer's dates in range, strictly increasing. *)

From S2P Require Import Prelude.
From stdpp Require Import sorting.

(** ** The download *)

(** The fields of a bar of the JSON answer that are read. *)
Record av_bar := mkAvBar {
  av_open : Q;
  av_high : Q;
  av_low : Q;
  av_close : Q;
  av_volume : Z;
  av_adjusted_close : Q
}.

(** A row of the frame: [Date] (the index), [Open], [High], [Low],
    [Close], [Volume], [Adj Close]. *)
Record price_row := mkPriceRow {
  pr_date : Z;
  pr_open : Q;
  pr_high : Q;
  pr_low : Q;
  pr_close : Q;
  pr_volume : Z;
  pr_adj_close : Q
}.

(** What the download returns: [[]] after an exception, else a frame. *)
Inductive av_result :=
| AvEmptyList
| AvFrame (rows : list price_row).

(** [not (date < start_date or date > end_date)]. *)
Definition in_dates (start_date end_date d : Z) : bool :=
  negb (bool_decide (d < start_date ∨ d > end_date)%Z).

Definition row_of (d : Z) (b : av_bar) : price_row :=
  mkPriceRow d (av_open b) (av_high b) (av_low b) (av_close b) (av_volume b) (av_adjusted_close b).

(** [for date_str in sorted(data.keys())]: the dates out of range are
    skipped, each other one appends the tuple of its bar. *)
Definition get_daily_historic_data_alphavantage (response : option (gmap Z av_bar))
    (start_date end_date : Z) : av_result :=
  match response with
  | None => AvEmptyList
  | Some data =>
      AvFrame (omap (λ d, row_of d <$> data !! d)
                 (filter (λ d, in_dates start_date end_date d)
                    (merge_sort Z.le (map_to_list data).*1)))
  end.

(** [dt.datetime(y, m, d)] as a day number: the days since 1970-01-01
    in the proleptic Gregorian calendar. *)
Definition days_from_civil (y m d : Z) : Z :=
  let y' := if (m <=? 2)%Z then (y - 1)%Z else y in
  let era := (y' / 400)%Z in
  let yoe := (y' - era * 400)%Z in
  let doy := ((153 * (if (2 <? m)%Z then m - 3 else m + 9) + 2) / 5 + d - 1)%Z in
  let doe := (yoe * 365 + yoe / 4 - yoe / 100 + doy)%Z in
  (era * 146097 + doe - 719468)%Z.

(** ** [spy_csv_data.py]

    The script's class [AlphaVantage] carries the same download as a
    method, with the print of its error path; its [__main__] block saves
    the SPY bars from 1998-01-02 to 2008-01-31 as a CSV file (the writing
    itself is not modelled: its rows are the result). *)

Module SpyCsvData.

Definition start_date : Z := days_from_civil 1998 1 2.
Definition end_date : Z := days_from_civil 2008 1 31.

(** [AlphaVantage.get_daily_historic_data]: the answer is the exception's
    text or the data; the lines printed and the value returned. *)
Definition get_daily_historic_data (ticker : string) (response : string + gmap Z av_bar)
    (start_date end_date : Z) : list string * av_result :=
  match response with
  | inl e => (["Could not download AlphaVantage data for " +:+ ticker +:+ " ticker (" +:+ e +:+ ")...skipping."],
              AvEmptyList)
  | inr data => ([], get_daily_historic_data_alphavantage (Some data) start_date end_date)
  end.

(** The [__main__] block: [spy.to_csv] on the empty list of the error
    path raises [AttributeError]. *)
Definition main (response : string + gmap Z av_bar) : list string * result (list price_row) :=
  let '(out, spy) := get_daily_historic_data "SPY" response start_date end_date in
  ("Obtaining SPY data from AlphaVantage and saving as CSV..." :: out,
   match spy with
   | AvEmptyList => Err (AttributeError "'list' object has no attribute 'to_csv'")
   | AvFrame rows => Ok rows
   end).

End SpyCsvData.

(** ** [Alpha_Vantage_API_test.py]

    The script downloads MSFT's bars (no [try]: an exception ends it) and
    builds [prices], the tuples of all the answer's days in increasing
    order. *)

Module AlphaVantageAPITest.

Definition prices (data : gmap Z av_bar) : list price_row :=
  omap (λ d, row_of d <$> data !! d) (merge_sort Z.le (map_to_list data).*1).

(** The answer, or the exception [ts.get_daily_adjusted] raises. *)
Definition main (response : result (gmap Z av_bar)) : result (list price_row) :=
  data ← response; Ok (prices data).

End AlphaVantageAPITest.

(** ** Demo data

    Four days of bars, closing at 11, 10, 9.999995 and 10. *)

Definition demo_av_data : gmap Z av_bar :=
  <[5%Z := mkAvBar 1 1 1 1 100 10]> (<[3%Z := mkAvBar 1 1 1 1 100 10]>
  (<[4%Z := mkAvBar 1 1 1 1 50 (1999999 # 200000)]> (<[2%Z := mkAvBar 1 1 1 1 100 11]> ∅))).


(** ** The dates of the frame *)

Section Dates.
Variable data : gmap Z av_bar.

Lemma omap_rows_dates (ks : list Z) :
  Forall (λ d, is_Some (data !! d)) ks → map pr_date (omap (λ d, row_of d <$> data !! d) ks) = ks.
Proof.
  induction 1 as [|d ks [b Hb] _ IH]; [done|]. cbn. rewrite Hb. cbn. by rewrite IH.
Qed.

Lemma sorted_keys_elem d : d ∈ merge_sort Z.le (map_to_list data).*1 ↔ is_Some (data !! d).
Proof.
  rewrite (merge_sort_Permutation Z.le _), list_elem_of_fmap. split.
  - intros ([k b] & -> & Hkb%elem_of_map_to_list). by exists b.
  - intros [b Hb]. exists (d, b). split; [done|]. by apply elem_of_map_to_list.
Qed.

Lemma download_dates a e ts :
  get_daily_historic_data_alphavantage (Some data) a e = AvFrame ts →
  map pr_date ts = filter (λ d, in_dates a e d) (merge_sort Z.le (map_to_list data).*1).
Proof.
  intros [= <-]. apply omap_rows_dates, Forall_forall. intros d [_ Hd]%list_elem_of_filter.
  by apply sorted_keys_elem.
Qed.

Lemma StronglySorted_lt (l : list Z) : StronglySorted Z.le l → NoDup l → StronglySorted Z.lt l.
Proof.
  induction 1 as [|x l _ IH Hx]; intros Hnd; constructor; apply NoDup_cons in Hnd as [Hn Hnd].
  - by apply IH.
  - apply Forall_forall. intros y Hy. pose proof (proj1 (Forall_forall _ _) Hx y Hy).
    assert (x ≠ y) by (intros ->; contradiction). lia.
Qed.

Lemma StronglySorted_filter {A} (R : A → A → Prop) (P : A → Prop) `{∀ x, Decision (P x)} l :
  StronglySorted R l → StronglySorted R (filter P l).
Proof.
  induction 1 as [|x l _ IH Hx]; [constructor|]. rewrite filter_cons. case_decide; [|done].
  constructor; [done|]. apply Forall_forall. intros y [_ Hy]%list_elem_of_filter.
  exact (proj1 (Forall_forall _ _) Hx y Hy).
Qed.

Lemma sorted_keys_strict : StronglySorted Z.lt (merge_sort Z.le (map_to_list data).*1).
Proof.
  apply StronglySorted_lt.
  - apply StronglySorted_merge_sort; [intros x y z; lia | intros x y; lia].
  - apply (proj2 (NoDup_Permutation_proper _ _ (merge_sort_Permutation Z.le ((map_to_list data).*1)))).
    apply NoDup_fst_map_to_list.
Qed.

End Dates.

(** The calendar: the epoch, the first day of 2000 and the leap day of
    2000. *)
Lemma days_from_civil_checks :
  days_from_civil 1970 1 1 = 0%Z ∧ days_from_civil 2000 1 1 = 10957%Z ∧
  days_from_civil 2000 3 1 = 11017%Z ∧ days_from_civil 2000 2 29 = 11016%Z.
Proof. split_and!; reflexivity. Qed.

(** C36: [spy_csv_data.py]: a failed download prints two lines and ends in
    [AttributeError]; otherwise the rows saved are the answer's days from
    1998-01-02 to 2008-01-31, both included, in increasing order. *)
Theorem spy_csv_main_spec response :
  match response with
  | inl e => SpyCsvData.main response =
               (["Obtaining SPY data from AlphaVantage and saving as CSV...";
                 "Could not download AlphaVantage data for SPY ticker (" +:+ e +:+ ")...skipping."],
                Err (AttributeError "'list' object has no attribute 'to_csv'"))
  | inr data => ∃ rows, SpyCsvData.main response =
                  (["Obtaining SPY data from AlphaVantage and saving as CSV..."], Ok rows) ∧
                StronglySorted Z.lt (map pr_date rows) ∧
                ∀ d, d ∈ map pr_date rows ↔ is_Some (data !! d) ∧ (10228 ≤ d ≤ 13909)%Z
  end.
Proof.
  destruct response as [e|data]; [done|]. cbn.
  eexists. split; [reflexivity|].
  assert (map pr_date (omap (λ d, row_of d <$> data !! d)
            (filter (λ d, in_dates SpyCsvData.start_date SpyCsvData.end_date d)
               (merge_sort Z.le (map_to_list data).*1))) =
          filter (λ d, in_dates SpyCsvData.start_date SpyCsvData.end_date d) (merge_sort Z.le (map_to_list data).*1))
    as -> by (by apply download_dates).
  split; [apply StronglySorted_filter, sorted_keys_strict|].
  intros d. rewrite list_elem_of_filter, sorted_keys_elem. unfold in_dates.
  replace SpyCsvData.start_date with 10228%Z by reflexivity.
  replace SpyCsvData.end_date with 13909%Z by reflexivity.
  destruct (bool_decide _) eqn:E; cbn.
  - apply bool_decide_eq_true in E. split; [intros [[] _]|intros [_ ?]; lia].
  - apply bool_decide_eq_false in E. split; [intros [_ ?]; split; [done|lia]|intros [? _]; by split].
Qed.

(** The test script's [prices] is the frame of the download over any
    range of dates that holds every day of the answer. *)
Lemma api_test_prices_download data a e :
  map_Forall (λ d _, a ≤ d ≤ e)%Z data →
  get_daily_historic_data_alphavantage (Some data) a e = AvFrame (AlphaVantageAPITest.prices data).
Proof.
  intros Hin. cbn. f_equal. unfold AlphaVantageAPITest.prices. f_equal.
  apply filter_all. intros d Hd%sorted_keys_elem. destruct Hd as [b Hb].
  specialize (Hin d b Hb). cbn in Hin. unfold in_dates. rewrite bool_decide_eq_false_2 by lia. done.
Qed.
