(* ===== verification/Events.v ===== *)
(** * Events: the four event kinds that flow through the queue

    [event.py] is imported by [portfolio.py], [backtest.py] and
    [ib_execution.py] but is not part of [src/]; its classes are modelled
    from the spec's data model (section 3).  Fields keep the string-typed
    discriminants of the Python code ([signal_type] is "LONG", "SHORT" or
    "EXIT"; [direction] is "BUY" or "SELL"; [order_type] is "MKT" or
    "LMT"), because [portfolio.py] compares them as strings and behaves in
    a specific way on any other string. *)

From S2P Require Import Prelude.

Record SignalEvent := mkSignalEvent {
  signal_symbol : string;
  signal_datetime : Z;
  signal_type : string;
  signal_strength : Q
}.

Record OrderEvent := mkOrderEvent {
  order_symbol : string;
  order_type : string;
  order_quantity : Z;
  order_direction : string
}.

Record FillEvent := mkFillEvent {
  fill_timeindex : Z;
  fill_symbol : string;
  fill_exchange : string;
  fill_quantity : Z;
  fill_direction : string;
  fill_cost : Q;
  fill_commission : Q
}.

(** [Event] with its [type] attribute as the constructor. *)
Inductive event : Type :=
| MarketEvent
| SignalEv (s : SignalEvent)
| OrderEv (o : OrderEvent)
| FillEv (f : FillEvent).

(** The [type] string each event class sets in its constructor. *)
Definition event_type (e : event) : string :=
  match e with
  | MarketEvent => "MARKET"
  | SignalEv _ => "SIGNAL"
  | OrderEv _ => "ORDER"
  | FillEv _ => "FILL"
  end.

Definition is_market (e : event) : bool :=
  match e with MarketEvent => true | _ => false end.
Definition is_signal (e : event) : bool :=
  match e with SignalEv _ => true | _ => false end.
Definition is_order (e : event) : bool :=
  match e with OrderEv _ => true | _ => false end.
Definition is_fill (e : event) : bool :=
  match e with FillEv _ => true | _ => false end.

(** The queue holds Python objects, and [Portfolio.update_signal] puts
    [None] on it when no order is generated: a queue item is an
    [option event]. *)
Abbreviation queue_item := (option event).

(** The type string determines the kind: dispatch on [event.type] is
    dispatch on the constructor. *)
Lemma event_type_kind e1 e2 :
  event_type e1 = event_type e2 →
  (is_market e1, is_signal e1, is_order e1, is_fill e1) =
  (is_market e2, is_signal e2, is_order e2, is_fill e2).
Proof. destruct e1, e2; simpl; congruence. Qed.
