(* ===== verification/Interfaces.v ===== *)
(** * Interfaces: the collaborators the engine calls

    [backtest.py] receives its data handler, strategy and execution handler
    as classes and only calls a handful of their methods; their modules
    ([data.py], [strategy.py], [execution.py]) are not part of [src/].  Each
    is a type class here, stated from the spec's section 6 and from the
    calls the engine makes, with the laws the engine's proofs rely on:

    - [DataHandler]: [symbol_list], [get_latest_bar_datetime],
      [get_latest_bar_value], [continue_backtest] and [update_bars], which
      returns the events it puts on the queue (only MARKET events), and a
      measure [bars_remaining] that [update_bars] decreases while
      [continue_backtest] holds;
    - [Strategy]: [calculate_signals], which puts at most [max_signals]
      SIGNAL events on the queue;
    - [ExecutionHandler]: [execute_order], which puts at most [max_fills]
      FILL events on the queue.

    The queue is shared (aliased) by all components: an operation returns
    the events it puts, and [Backtest] appends them to the one queue. *)

From S2P Require Import Prelude Events.

Class DataHandler (D : Type) := {
  bars_symbol_list : D → list string;
  get_latest_bar_datetime : D → string → Z;
  get_latest_bar_value : D → string → string → Q;
  continue_backtest : D → bool;
  update_bars : D → D * list event;
  bars_remaining : D → nat;
  update_bars_market :
    ∀ d, Forall (λ e, e = MarketEvent) (update_bars d).2;
  update_bars_progress :
    ∀ d, continue_backtest d = true →
         (bars_remaining (update_bars d).1 < bars_remaining d)%nat
}.

Class Strategy (S D : Type) := {
  calculate_signals : S → D → event → S * list event;
  max_signals : nat;
  calculate_signals_kind :
    ∀ s d e, Forall (λ e', is_signal e' = true) (calculate_signals s d e).2;
  calculate_signals_bound :
    ∀ s d e, (length (calculate_signals s d e).2 ≤ max_signals)%nat
}.

Class ExecutionHandler (X D : Type) := {
  execute_order : X → D → event → X * list event;
  max_fills : nat;
  execute_order_kind :
    ∀ x d e, Forall (λ e', is_fill e' = true) (execute_order x d e).2;
  execute_order_bound :
    ∀ x d e, (length (execute_order x d e).2 ≤ max_fills)%nat
}.
