(* ===== verification/Collaborators.v ===== *)
(** * Collaborators: a historic bar feed and a simulated broker

    Instances of the [Interfaces] classes, modelled from the spec (their
    modules are not in [src/]):

    - [HistoricBars]: the spec's Data Provider (section 6) replaying a
      finite list of ticks; a tick is a timestamp and the adjusted close of
      every symbol.  [update_bars] moves the next tick to "latest", puts one
      MARKET event, and [continue_backtest] reports whether ticks remain, so
      a feed of N ticks produces exactly N MARKET events (spec scenario 5).
    - [SimExec]: the spec's simulated execution handler, filling every
      order at the latest price with a flat commission.
    - [FirstBarLong]: a strategy used by the scenarios: it signals LONG on
      the first symbol at the first tick and never again. *)

From S2P Require Import Prelude Events Interfaces.

(** ** The historic bar feed *)

Record tick := mkTick { tick_datetime : Z; tick_close : gmap string Q }.

Record HistoricBars := mkHistoricBars {
  hb_symbol_list : list string;
  hb_latest : option tick;
  hb_pending : list tick
}.

Definition hb_latest_datetime (d : HistoricBars) (s : string) : Z :=
  match hb_latest d with Some t => tick_datetime t | None => 0%Z end.

Definition hb_latest_value (d : HistoricBars) (s field : string) : Q :=
  match hb_latest d with Some t => default 0 (tick_close t !! s) | None => 0 end.

Definition hb_continue (d : HistoricBars) : bool :=
  match hb_pending d with [] => false | _ => true end.

Definition hb_update_bars (d : HistoricBars) : HistoricBars * list event :=
  match hb_pending d with
  | t :: rest => (mkHistoricBars (hb_symbol_list d) (Some t) rest, [MarketEvent])
  | [] => (d, [MarketEvent])
  end.

(** The simulated broker's state is the flat commission it charges per
    fill; the one-shot strategy's state says whether it has signalled. *)
Definition sim_execute_order (commission : Q) (d : HistoricBars) (e : event)
    : Q * list event :=
  match e with
  | OrderEv o =>
      (commission,
       [FillEv (mkFillEvent (hb_latest_datetime d (order_symbol o)) (order_symbol o)
                  "ARCA" (order_quantity o) (order_direction o)
                  (hb_latest_value d (order_symbol o) "adj_close") commission)])
  | _ => (commission, [])
  end.

Definition first_bar_long (done_ : bool) (d : HistoricBars) (e : event)
    : bool * list event :=
  match e, done_, hb_symbol_list d with
  | MarketEvent, false, s :: _ =>
      (true, [SignalEv (mkSignalEvent s (hb_latest_datetime d s) "LONG" 1)])
  | _, _, _ => (done_, [])
  end.

Lemma hb_update_bars_market d : Forall (λ e, e = MarketEvent) (hb_update_bars d).2.
Proof. unfold hb_update_bars. destruct (hb_pending d); repeat constructor. Qed.

Lemma hb_update_bars_progress d :
  hb_continue d = true →
  (length (hb_pending (hb_update_bars d).1) < length (hb_pending d))%nat.
Proof. unfold hb_continue, hb_update_bars. destruct (hb_pending d); simpl; [discriminate | lia]. Qed.

#[export] Instance HistoricBars_DataHandler : DataHandler HistoricBars := {|
  bars_symbol_list := hb_symbol_list;
  get_latest_bar_datetime := hb_latest_datetime;
  get_latest_bar_value := hb_latest_value;
  continue_backtest := hb_continue;
  update_bars := hb_update_bars;
  bars_remaining d := length (hb_pending d);
  update_bars_market := hb_update_bars_market;
  update_bars_progress := hb_update_bars_progress
|}.

(** ** The simulated execution handler *)

Lemma sim_execute_order_kind c d e :
  Forall (λ e', is_fill e' = true) (sim_execute_order c d e).2.
Proof. destruct e; simpl; repeat constructor. Qed.

Lemma sim_execute_order_bound c d e : (length (sim_execute_order c d e).2 ≤ 1)%nat.
Proof. destruct e; simpl; lia. Qed.

#[export] Instance SimExec : ExecutionHandler Q HistoricBars := {|
  execute_order := sim_execute_order;
  max_fills := 1;
  execute_order_kind := sim_execute_order_kind;
  execute_order_bound := sim_execute_order_bound
|}.

(** ** A one-shot strategy *)

Lemma first_bar_long_kind b d e :
  Forall (λ e', is_signal e' = true) (first_bar_long b d e).2.
Proof. unfold first_bar_long. repeat case_match; repeat constructor. Qed.

Lemma first_bar_long_bound b d e : (length (first_bar_long b d e).2 ≤ 1)%nat.
Proof. unfold first_bar_long. repeat case_match; simpl; lia. Qed.

#[export] Instance FirstBarLong : Strategy bool HistoricBars := {|
  calculate_signals := first_bar_long;
  max_signals := 1;
  calculate_signals_kind := first_bar_long_kind;
  calculate_signals_bound := first_bar_long_bound
|}.
