(* ===== verification/Portfolio.v ===== *)
(** * Portfolio: [portfolio.py], class [Portfolio]

    The portfolio's attributes are the record [portfolio]; [self.bars] and
    [self.events] are shared with the backtest, so every method takes the
    data handler's current state as an argument and returns the items it
    puts on the queue.  Each method is one definition, in the order of the
    source.  A dictionary is a [gmap string _]: [current_holdings] and each
    holdings snapshot are one dictionary holding the symbols' values and the
    keys "cash", "commission", "total", exactly as in the Python code (the
    "datetime" key of a snapshot is kept beside the dictionary).  A method
    that raises ([KeyError] on an unknown symbol, [IndexError] on an empty
    symbol list) returns [Err].

    The invariant [portfolio_inv] states the bookkeeping the code maintains:
    the dictionaries' keys, [total = cash] in [current_holdings], the
    conservation [cash + Σ holdings + commission = initial_capital], and
    [total = cash + Σ market values] in every holdings snapshot.  Every
    method preserves it; the functional theorems give each method's result
    on every branch. *)

From S2P Require Import Prelude Events Interfaces Collaborators.

Record portfolio := mkPortfolio {
  symbol_list : list string;
  start_date : Z;
  initial_capital : Q;
  all_positions : list (Z * gmap string Z);
  current_positions : gmap string Z;
  all_holdings : list (Z * gmap string Q);
  current_holdings : gmap string Q
}.

(** [self.current_positions = ...], [self.current_holdings = ...] and the two
    [append]s of [update_timeindex], as functional record updates. *)
Definition set_current_positions (p : portfolio) (cp : gmap string Z) : portfolio :=
  mkPortfolio (symbol_list p) (start_date p) (initial_capital p) (all_positions p)
              cp (all_holdings p) (current_holdings p).

Definition set_current_holdings (p : portfolio) (h : gmap string Q) : portfolio :=
  mkPortfolio (symbol_list p) (start_date p) (initial_capital p) (all_positions p)
              (current_positions p) (all_holdings p) h.

Definition append_snapshots (p : portfolio) (dt : Z) (dp : gmap string Z)
    (dh : gmap string Q) : portfolio :=
  mkPortfolio (symbol_list p) (start_date p) (initial_capital p)
              (all_positions p ++ [(dt, dp)]) (current_positions p)
              (all_holdings p ++ [(dt, dh)]) (current_holdings p).

(** The keys the holdings dictionaries use besides the symbols. *)
Definition reserved_keys : list string := ["cash"; "commission"; "total"].

(** ** Construction *)

Definition construct_all_positions (syms : list string) (start : Z)
    : list (Z * gmap string Z) :=
  [(start, zero_dict syms 0%Z)].

(** [d = dict(...)] then [d['cash']], [d['commission']], [d['total']]. *)
Definition holdings_dict (syms : list string) (cash commission total : Q)
    : gmap string Q :=
  <["total" := total]> (<["commission" := commission]>
    (<["cash" := cash]> (zero_dict syms 0))).

Definition construct_all_holdings (syms : list string) (start : Z) (capital : Q)
    : list (Z * gmap string Q) :=
  [(start, holdings_dict syms capital 0 capital)].

Definition construct_current_holdings (syms : list string) (capital : Q)
    : gmap string Q :=
  holdings_dict syms capital 0 capital.

Section WithBars.
Context {D : Type} `{!DataHandler D}.

(** [Portfolio.__init__(bars, events, start_date, initial_capital)] *)
Definition init_portfolio (bars : D) (start : Z) (capital : Q) : portfolio :=
  let syms := bars_symbol_list bars in
  {| symbol_list := syms;
     start_date := start;
     initial_capital := capital;
     all_positions := construct_all_positions syms start;
     current_positions := zero_dict syms 0%Z;
     all_holdings := construct_all_holdings syms start capital;
     current_holdings := construct_current_holdings syms capital |}.

(** ** [update_timeindex] *)

(** The body of [for s in self.symbol_list: dp[s] = self.current_positions[s]]. *)
Definition copy_position (cp : gmap string Z) (dp : gmap string Z) (s : string)
    : result (gmap string Z) :=
  v ← dict_get cp s; Ok (<[s := v]> dp).

(** The body of the holdings loop: [market_value = current_positions[s] *
    bars.get_latest_bar_value(s, "adj_close")], [dh[s] = market_value],
    [dh['total'] += market_value]. *)
Definition mark_to_market (bars : D) (cp : gmap string Z) (dh : gmap string Q)
    (s : string) : result (gmap string Q) :=
  q ← dict_get cp s;
  let market_value := inject_Z q * get_latest_bar_value bars s "adj_close" in
  dict_update (λ t, t + market_value) (<[s := market_value]> dh) "total".

Definition update_timeindex (bars : D) (p : portfolio) : result portfolio :=
  latest_datetime ← (match symbol_list p with
                     | [] => Err IndexError
                     | s0 :: _ => Ok (get_latest_bar_datetime bars s0)
                     end);
  dp ← for_each (symbol_list p) (copy_position (current_positions p))
                (zero_dict (symbol_list p) 0%Z);
  cash ← dict_get (current_holdings p) "cash";
  commission ← dict_get (current_holdings p) "commission";
  dh ← for_each (symbol_list p) (mark_to_market bars (current_positions p))
                (holdings_dict (symbol_list p) cash commission cash);
  Ok (append_snapshots p latest_datetime dp dh).

(** ** Fills *)

(** [fill_dir = 0; if direction == 'BUY': fill_dir = 1;
    if direction == 'SELL': fill_dir = -1] *)
Definition fill_dir (direction : string) : Z :=
  let d := 0%Z in
  let d := if bool_decide (direction = "BUY") then 1%Z else d in
  if bool_decide (direction = "SELL") then (-1)%Z else d.

Definition update_positions_from_fill (fill : FillEvent) (p : portfolio)
    : result portfolio :=
  let d := fill_dir (fill_direction fill) in
  cp ← dict_update (λ v, v + d * fill_quantity fill)%Z
                   (current_positions p) (fill_symbol fill);
  Ok (set_current_positions p cp).

(** The price is the latest adjusted close of the bar feed, not the
    [fill_cost] carried by the event. *)
Definition update_holdings_from_fill (bars : D) (fill : FillEvent) (p : portfolio)
    : result portfolio :=
  let d := fill_dir (fill_direction fill) in
  let price := get_latest_bar_value bars (fill_symbol fill) "adj_close" in
  let cost := inject_Z d * price * inject_Z (fill_quantity fill) in
  let commission := fill_commission fill in
  h ← dict_update (λ v, v + cost) (current_holdings p) (fill_symbol fill);
  h ← dict_update (λ v, v + commission) h "commission";
  h ← dict_update (λ v, v - (cost + commission)) h "cash";
  h ← dict_update (λ v, v - (cost + commission)) h "total";
  Ok (set_current_holdings p h).

Definition update_fill (bars : D) (e : event) (p : portfolio) : result portfolio :=
  match e with
  | FillEv f => p' ← update_positions_from_fill f p; update_holdings_from_fill bars f p'
  | _ => Ok p
  end.

(** ** Signals *)

Definition generate_naive_order (p : portfolio) (signal : SignalEvent)
    : result (option OrderEvent) :=
  let symbol := signal_symbol signal in
  let direction := signal_type signal in
  let mkt_quantity := 100%Z in
  cur_quantity ← dict_get (current_positions p) symbol;
  let order_type := "MKT" in
  let order := None in
  let order := if bool_decide (direction = "LONG") && Z.eqb cur_quantity 0
               then Some (mkOrderEvent symbol order_type mkt_quantity "BUY") else order in
  let order := if bool_decide (direction = "SHORT") && Z.eqb cur_quantity 0
               then Some (mkOrderEvent symbol order_type mkt_quantity "SELL") else order in
  let order := if bool_decide (direction = "EXIT") && Z.gtb cur_quantity 0
               then Some (mkOrderEvent symbol order_type (Z.abs cur_quantity) "SELL") else order in
  let order := if bool_decide (direction = "EXIT") && Z.ltb cur_quantity 0
               then Some (mkOrderEvent symbol order_type (Z.abs cur_quantity) "BUY") else order in
  Ok order.

(** [self.events.put(order_event)]: [None] is put when no order results. *)
Definition update_signal (p : portfolio) (e : event) : result (list queue_item) :=
  match e with
  | SignalEv s => o ← generate_naive_order p s; Ok [option_map OrderEv o]
  | _ => Ok []
  end.

(** The cash outflow of a fill: [fill_dir * fill_cost * fill.quantity] with
    the bar price. *)
Definition fill_outflow bars (f : FillEvent) : Q :=
  inject_Z (fill_dir (fill_direction f))
  * get_latest_bar_value bars (fill_symbol f) "adj_close" * inject_Z (fill_quantity f).

(** The rule table of the spec (section 4.2): LONG or SHORT from a flat
    position opens 100 units; EXIT closes the whole position; every other
    combination yields no order. *)
Definition naive_order_table (symbol signal_type : string) (cur : Z) : option OrderEvent :=
  if bool_decide (signal_type = "LONG") then
    (if Z.eqb cur 0 then Some (mkOrderEvent symbol "MKT" 100 "BUY") else None)
  else if bool_decide (signal_type = "SHORT") then
    (if Z.eqb cur 0 then Some (mkOrderEvent symbol "MKT" 100 "SELL") else None)
  else if bool_decide (signal_type = "EXIT") then
    match Z.compare cur 0 with
    | Gt => Some (mkOrderEvent symbol "MKT" cur "SELL")
    | Lt => Some (mkOrderEvent symbol "MKT" (- cur) "BUY")
    | Eq => None
    end
  else None.

End WithBars.

(** ** The bookkeeping invariant *)

(** Σ over the symbols of the values a holdings dictionary stores. *)
Definition holdings_value (syms : list string) (h : gmap string Q) : Q :=
  Qsum (map (λ s, default 0 (h !! s)) syms).

(** A holdings snapshot whose total is its cash plus its market values. *)
Definition snapshot_ok (syms : list string) (h : gmap string Q) : Prop :=
  ∃ cash total, h !! "cash" = Some cash ∧ h !! "total" = Some total ∧
    total == cash + holdings_value syms h.

(** The value [update_timeindex] records for a symbol. *)
Definition market_value {D} `{!DataHandler D} (bars : D) (cp : gmap string Z)
    (s : string) : Q :=
  inject_Z (default 0%Z (cp !! s)) * get_latest_bar_value bars s "adj_close".

Record portfolio_inv (p : portfolio) : Prop := {
  inv_nodup : NoDup (symbol_list p);
  inv_reserved : ∀ s, s ∈ symbol_list p → s ∉ reserved_keys;
  inv_positions_dom : ∀ s, is_Some (current_positions p !! s) ↔ s ∈ symbol_list p;
  inv_holdings_dom : ∀ s, s ∈ symbol_list p → is_Some (current_holdings p !! s);
  inv_current : ∃ cash commission total,
    current_holdings p !! "cash" = Some cash ∧
    current_holdings p !! "commission" = Some commission ∧
    current_holdings p !! "total" = Some total ∧
    total == cash ∧
    cash + holdings_value (symbol_list p) (current_holdings p) + commission
      == initial_capital p;
  inv_snapshots : Forall (λ sh, snapshot_ok (symbol_list p) sh.2) (all_holdings p);
  inv_lengths : length (all_positions p) = length (all_holdings p)
}.

(** ** Lemmas on holdings dictionaries *)


(** ** Witnesses on a concrete bar feed

    Two symbols, X at 10 and Y at 20, one tick at time 1, and a portfolio
    started at time 0 with capital 100000 (the spec's scenario 1). *)

Definition demo_bars : HistoricBars :=
  mkHistoricBars ["X"; "Y"] (Some (mkTick 1 (<["X" := 10]> (<["Y" := 20]> ∅)))) [].

Definition demo_portfolio : portfolio := init_portfolio demo_bars 0 100000.

(** The spec's scenario 1: BUY 100 X with a commission of 1. *)
Definition demo_buy : FillEvent := mkFillEvent 1 "X" "ARCA" 100 "BUY" 10 1.
Definition demo_sell : FillEvent := mkFillEvent 1 "X" "ARCA" 100 "SELL" 10 1.

Lemma holdings_value_cons s syms h :
  holdings_value (s :: syms) h = default 0 (h !! s) + holdings_value syms h.
Proof. reflexivity. Qed.

Lemma holdings_value_insert_other syms h k v :
  k ∉ syms → holdings_value syms (<[k := v]> h) == holdings_value syms h.
Proof.
  intros Hk. apply Qsum_map_ext. intros s Hs.
  rewrite lookup_insert_ne; [reflexivity | set_solver].
Qed.

Lemma holdings_value_update syms h k v x :
  NoDup syms → k ∈ syms → h !! k = Some v →
  holdings_value syms (<[k := v + x]> h) == holdings_value syms h + x.
Proof.
  induction syms as [|s syms IH]; intros Hnd Hk Hv; [set_solver|].
  apply NoDup_cons in Hnd as [Hs Hnd]. rewrite !holdings_value_cons.
  destruct (decide (k = s)) as [->|Hne].
  - rewrite lookup_insert_eq, Hv, holdings_value_insert_other by done. simpl. ring.
  - rewrite lookup_insert_ne by done. rewrite IH by set_solver. ring.
Qed.

Lemma holdings_value_ext syms h1 h2 :
  (∀ s, s ∈ syms → h1 !! s = h2 !! s) →
  holdings_value syms h1 == holdings_value syms h2.
Proof. intros H. apply Qsum_map_ext. intros s Hs. by rewrite H. Qed.

Lemma holdings_value_zero syms h :
  (∀ s, s ∈ syms → h !! s = Some 0) → holdings_value syms h == 0.
Proof.
  induction syms as [|s syms IH]; intros H; [reflexivity|].
  rewrite holdings_value_cons, H, IH by set_solver. reflexivity.
Qed.

Lemma reserved_not_symbol (syms : list string) k :
  (∀ s, s ∈ syms → s ∉ reserved_keys) → k ∈ reserved_keys → k ∉ syms.
Proof. intros H Hk Hin. exact (H k Hin Hk). Qed.

#[export] Hint Resolve reserved_not_symbol : trading.

Lemma reserved_ne_l k s : s ∉ reserved_keys → k ∈ reserved_keys → k ≠ s.
Proof. intros Hs Hk ->. contradiction. Qed.

Lemma reserved_ne_r k s : s ∉ reserved_keys → k ∈ reserved_keys → s ≠ k.
Proof. intros Hs Hk ->. contradiction. Qed.

Lemma reserved_cash : "cash" ∈ reserved_keys.
Proof. unfold reserved_keys. set_solver. Qed.
Lemma reserved_commission : "commission" ∈ reserved_keys.
Proof. unfold reserved_keys. set_solver. Qed.
Lemma reserved_total : "total" ∈ reserved_keys.
Proof. unfold reserved_keys. set_solver. Qed.

#[export] Hint Resolve reserved_cash reserved_commission reserved_total : trading.

Ltac reserved_mem :=
  first [exact reserved_cash | exact reserved_commission | exact reserved_total].

(** Disequality of two dictionary keys: two distinct literals, or a literal
    reserved key and a symbol known not to be reserved. *)
Ltac key_ne :=
  first [ discriminate
        | match goal with H : ?s ∉ reserved_keys |- _ =>
            first [ apply (reserved_ne_l _ _ H) | apply (reserved_ne_r _ _ H) ];
            reserved_mem
          end ].

(** Rewrite a lookup through inserts at other keys. *)
Ltac lookup_through :=
  repeat (rewrite lookup_insert_ne by key_ne); try rewrite lookup_insert_eq.

Lemma holdings_dict_cash syms c m t : holdings_dict syms c m t !! "cash" = Some c.
Proof. unfold holdings_dict. by rewrite !lookup_insert. Qed.

Lemma holdings_dict_commission syms c m t :
  holdings_dict syms c m t !! "commission" = Some m.
Proof. unfold holdings_dict. by rewrite !lookup_insert. Qed.

Lemma holdings_dict_total syms c m t : holdings_dict syms c m t !! "total" = Some t.
Proof. unfold holdings_dict. by rewrite !lookup_insert. Qed.

Lemma holdings_dict_symbol syms c m t s :
  s ∉ reserved_keys → s ∈ syms → holdings_dict syms c m t !! s = Some 0.
Proof.
  intros Hr Hs. unfold holdings_dict.
  rewrite !lookup_insert_ne by (intros <-; apply Hr; set_solver).
  rewrite zero_dict_lookup. by case_decide.
Qed.

Lemma holdings_dict_value syms c m t :
  (∀ s, s ∈ syms → s ∉ reserved_keys) → holdings_value syms (holdings_dict syms c m t) == 0.
Proof. intros H. apply holdings_value_zero. intros s Hs. apply holdings_dict_symbol; auto. Qed.

#[export] Hint Rewrite holdings_dict_cash holdings_dict_commission holdings_dict_total
  : trading_simpl.

Lemma fill_dir_buy : fill_dir "BUY" = 1%Z.
Proof. reflexivity. Qed.
Lemma fill_dir_sell : fill_dir "SELL" = (-1)%Z.
Proof. reflexivity. Qed.

#[export] Hint Rewrite fill_dir_buy fill_dir_sell : trading_simpl.

Section Properties.
Context {D : Type} `{!DataHandler D}.
Implicit Types (bars : D) (p : portfolio).

(** ** The two loops of [update_timeindex] *)

Lemma copy_position_ok (cp dp : gmap string Z) s v :
  cp !! s = Some v → copy_position cp dp s = Ok (<[s := v]> dp).
Proof. intros H. unfold copy_position. by rewrite (dict_get_lookup _ _ _ H). Qed.

Lemma mark_to_market_ok bars (cp : gmap string Z) (dh : gmap string Q) s q t :
  cp !! s = Some q → s ≠ "total" → dh !! "total" = Some t →
  mark_to_market bars cp dh s =
  Ok (<["total" := t + inject_Z q * get_latest_bar_value bars s "adj_close"]>
       (<[s := inject_Z q * get_latest_bar_value bars s "adj_close"]> dh)).
Proof.
  intros Hq Hs Ht. unfold mark_to_market. rewrite (dict_get_lookup _ _ _ Hq), bind_Ok.
  rewrite (dict_update_lookup _ _ _ t); [done | by rewrite lookup_insert_ne].
Qed.

Lemma copy_position_loop (cp : gmap string Z) (l : list string) (dp : gmap string Z) :
  (∀ s, s ∈ l → is_Some (cp !! s)) →
  ∃ dp', for_each l (copy_position cp) dp = Ok dp' ∧
         ∀ s, dp' !! s = if decide (s ∈ l) then cp !! s else dp !! s.
Proof.
  revert dp. induction l as [|s l IH]; intros dp Hl; cbn [for_each].
  - exists dp. split; [done|]. intros s'. case_decide; set_solver.
  - destruct (Hl s ltac:(set_solver)) as [v Hv].
    rewrite (copy_position_ok _ _ _ _ Hv), bind_Ok.
    destruct (IH (<[s:=v]> dp)) as [dp' [Hrun Hdp']]; [intros; apply Hl; set_solver|].
    exists dp'. split; [exact Hrun|]. intros s'. rewrite Hdp', lookup_insert.
    repeat case_decide; subst; try congruence; set_solver.
Qed.

Lemma mark_to_market_loop bars (cp : gmap string Z) (l : list string)
    (dh : gmap string Q) t :
  NoDup l → (∀ s, s ∈ l → is_Some (cp !! s)) → (∀ s, s ∈ l → s ∉ reserved_keys) →
  dh !! "total" = Some t →
  ∃ dh' t', for_each l (mark_to_market bars cp) dh = Ok dh' ∧
    dh' !! "total" = Some t' ∧ t' == t + Qsum (map (market_value bars cp) l) ∧
    (∀ s, s ∈ l → dh' !! s = Some (market_value bars cp s)) ∧
    (∀ k, k ∉ l → k ≠ "total" → dh' !! k = dh !! k).
Proof.
  revert dh t. induction l as [|s l IH]; intros dh t Hnd Hcp Hres Ht; cbn [for_each].
  - exists dh, t. split_and!; [done|done|simpl; ring|set_solver|done].
  - apply NoDup_cons in Hnd as [Hsl Hnd].
    destruct (Hcp s ltac:(set_solver)) as [q Hq].
    assert (s ≠ "total") as Hst by (intros ->; apply (Hres "total"); set_solver).
    rewrite (mark_to_market_ok _ _ _ _ _ _ Hq Hst Ht), bind_Ok.
    destruct (IH (<["total" := t + inject_Z q * get_latest_bar_value bars s "adj_close"]>
                   (<[s := inject_Z q * get_latest_bar_value bars s "adj_close"]> dh))
                 (t + inject_Z q * get_latest_bar_value bars s "adj_close"))
      as (dh' & t' & Hrun & Ht' & Hsum & Hin & Hout);
      [done | intros; apply Hcp; set_solver | intros; apply Hres; set_solver
      | by rewrite lookup_insert_eq |].
    assert (market_value bars cp s = inject_Z q * get_latest_bar_value bars s "adj_close")
      as Hmv by (unfold market_value; by rewrite Hq).
    exists dh', t'. split_and!; [done | done | | |].
    + rewrite Hsum. simpl. rewrite Hmv. ring.
    + intros s' Hs'. destruct (decide (s' ∈ l)) as [Hin'|Hnin]; [by apply Hin|].
      assert (s' = s) as -> by set_solver.
      rewrite Hout by done. rewrite lookup_insert_ne by congruence.
      by rewrite lookup_insert_eq, Hmv.
    + intros k Hk Hkt. rewrite Hout by set_solver.
      rewrite lookup_insert_ne by congruence. rewrite lookup_insert_ne by set_solver. done.
Qed.

Lemma latest_datetime_ok bars p :
  symbol_list p ≠ [] →
  match symbol_list p with
  | [] => Err IndexError
  | s0 :: _ => Ok (get_latest_bar_datetime bars s0)
  end = Ok (get_latest_bar_datetime bars (hd "" (symbol_list p))).
Proof. by destruct (symbol_list p). Qed.

Lemma positions_copy_eq p (dp : gmap string Z) :
  (∀ s, is_Some (current_positions p !! s) ↔ s ∈ symbol_list p) →
  (∀ s, dp !! s = if decide (s ∈ symbol_list p) then current_positions p !! s
                  else zero_dict (symbol_list p) 0%Z !! s) →
  dp = current_positions p.
Proof.
  intros Hdom Hdp. apply map_eq. intros s. rewrite Hdp, zero_dict_lookup.
  case_decide as Hs; [done|]. symmetry. apply eq_None_not_Some. by rewrite Hdom.
Qed.

(** ** [update_timeindex] *)

(** C2: [update_timeindex] on a portfolio satisfying the invariant with a
    non-empty symbol list succeeds and appends exactly one positions
    snapshot, a copy of [current_positions], and one holdings snapshot
    stamped with the latest datetime of the first symbol, in which every
    symbol is marked to its latest adjusted close, cash and commission are
    carried forward and the total is cash plus the sum of market values. *)
Theorem update_timeindex_spec bars p :
  portfolio_inv p → symbol_list p ≠ [] →
  ∃ dh cash t,
    update_timeindex bars p =
      Ok (append_snapshots p (get_latest_bar_datetime bars (hd "" (symbol_list p)))
                           (current_positions p) dh) ∧
    (∀ s, s ∈ symbol_list p → dh !! s = Some (market_value bars (current_positions p) s)) ∧
    current_holdings p !! "cash" = Some cash ∧ dh !! "cash" = Some cash ∧
    dh !! "commission" = current_holdings p !! "commission" ∧
    dh !! "total" = Some t ∧
    t == cash + Qsum (map (market_value bars (current_positions p)) (symbol_list p)).
Proof.
  intros [Hnd Hres Hpd Hhd (cash & comm & tot & Hc & Hcm & Ht & Htc & Hcons) Hsn Hlen] Hne.
  assert (Hcp : ∀ s, s ∈ symbol_list p → is_Some (current_positions p !! s))
    by (intros; by apply Hpd).
  destruct (copy_position_loop (current_positions p) (symbol_list p)
              (zero_dict (symbol_list p) 0%Z) Hcp) as (dp & Hdp & Hdpl).
  destruct (mark_to_market_loop bars (current_positions p) (symbol_list p)
              (holdings_dict (symbol_list p) cash comm cash) cash Hnd Hcp Hres
              (holdings_dict_total _ _ _ _)) as (dh & t & Hdh & Htot & Hsum & Hin & Hout).
  pose proof (positions_copy_eq p dp Hpd Hdpl) as ->.
  assert (Hr : ∀ k, k ∈ reserved_keys → k ∉ symbol_list p) by eauto with trading.
  exists dh, cash, t. unfold update_timeindex.
  rewrite latest_datetime_ok, bind_Ok, Hdp, bind_Ok, (dict_get_lookup _ _ _ Hc), bind_Ok,
    (dict_get_lookup _ _ _ Hcm), bind_Ok, Hdh, bind_Ok by done.
  split_and!; try done.
  - rewrite Hout by (done || apply Hr; set_solver). apply holdings_dict_cash.
  - rewrite Hout by (done || apply Hr; set_solver). rewrite Hcm. apply holdings_dict_commission.
Qed.

Lemma holdings_value_marked syms (dh : gmap string Q) (f : string → Q) :
  (∀ s, s ∈ syms → dh !! s = Some (f s)) → holdings_value syms dh == Qsum (map f syms).
Proof. intros H. apply Qsum_map_ext. intros s Hs. by rewrite H. Qed.

(** [update_timeindex] preserves the bookkeeping invariant. *)
Theorem update_timeindex_inv bars p p' :
  portfolio_inv p → update_timeindex bars p = Ok p' → portfolio_inv p'.
Proof.
  intros Hinv Hrun. destruct (decide (symbol_list p = [])) as [Hnil|Hne].
  { unfold update_timeindex in Hrun. by rewrite Hnil in Hrun. }
  destruct (update_timeindex_spec bars p Hinv Hne)
    as (dh & cash & t & Hrun' & Hin & _ & Hcash & _ & Htot & Hsum).
  rewrite Hrun' in Hrun. injection Hrun as <-.
  destruct Hinv as [Hnd Hres Hpd Hhd Hcur Hsn Hlen].
  constructor; simpl; try done.
  - apply Forall_app. split; [done|]. apply Forall_singleton. simpl.
    exists cash, t. split_and!; [done|done|].
    by rewrite Hsum, (holdings_value_marked _ _ _ Hin).
  - rewrite !length_app. simpl. lia.
Qed.

(** with an empty symbol list, [update_timeindex] raises [IndexError]
    ([self.symbol_list[0]]). *)
Theorem update_timeindex_empty bars p :
  symbol_list p = [] → update_timeindex bars p = Err IndexError.
Proof. intros H. unfold update_timeindex. by rewrite H. Qed.

(** A successful [update_timeindex] appends one snapshot of each kind. *)
Lemma update_timeindex_shape bars p p' :
  update_timeindex bars p = Ok p' → ∃ dt dp dh, p' = append_snapshots p dt dp dh.
Proof.
  unfold update_timeindex. intros H.
  repeat (apply bind_eq_Ok in H as (? & _ & H); cbv beta in H).
  injection H as <-. eauto.
Qed.

(** A fill leaves the snapshot lists alone. *)
Lemma update_fill_snapshots bars e p p' :
  update_fill bars e p = Ok p' →
  all_positions p' = all_positions p ∧ all_holdings p' = all_holdings p.
Proof.
  destruct e; cbn [update_fill]; try by intros [= <-].
  intros H. apply bind_eq_Ok in H as (p1 & H1 & H).
  apply bind_eq_Ok in H1 as (cp & _ & H1). injection H1 as <-.
  unfold update_holdings_from_fill in H.
  repeat (apply bind_eq_Ok in H as (? & _ & H); cbv beta in H).
  by injection H as <-.
Qed.

(** ** Fills *)

Lemma fill_dir_cases dir :
  fill_dir dir = (if bool_decide (dir = "SELL") then -1
                  else if bool_decide (dir = "BUY") then 1 else 0)%Z.
Proof. unfold fill_dir. by repeat case_bool_decide; subst. Qed.

Lemma fill_symbol_not_reserved p (f : FillEvent) q :
  portfolio_inv p → current_positions p !! fill_symbol f = Some q →
  fill_symbol f ∉ reserved_keys.
Proof. intros Hinv Hq. apply (inv_reserved _ Hinv), (inv_positions_dom _ Hinv). by rewrite Hq. Qed.

(** C1: on a FILL event whose symbol the portfolio tracks, [update_fill]
    adds [fill_dir * quantity] to the symbol's position, adds the cost
    [fill_dir * price * quantity] (price: the bar's latest adjusted close)
    to its holding, adds the commission to "commission", and subtracts cost
    plus commission from "cash" and from "total"; nothing else changes. *)
Theorem update_fill_spec bars p f (q : Z) (hs cash comm tot : Q) :
  portfolio_inv p →
  current_positions p !! fill_symbol f = Some q →
  current_holdings p !! fill_symbol f = Some hs →
  current_holdings p !! "cash" = Some cash →
  current_holdings p !! "commission" = Some comm →
  current_holdings p !! "total" = Some tot →
  update_fill bars (FillEv f) p =
    Ok (set_current_holdings
          (set_current_positions p
             (<[fill_symbol f := (q + fill_dir (fill_direction f) * fill_quantity f)%Z]>
                (current_positions p)))
          (<["total" := tot - (fill_outflow bars f + fill_commission f)]>
           (<["cash" := cash - (fill_outflow bars f + fill_commission f)]>
            (<["commission" := comm + fill_commission f]>
             (<[fill_symbol f := hs + fill_outflow bars f]> (current_holdings p)))))).
Proof.
  intros Hinv Hq Hhs Hc Hcm Ht.
  pose proof (fill_symbol_not_reserved p f q Hinv Hq) as Hr.
  unfold update_fill, update_positions_from_fill.
  rewrite (dict_update_lookup _ _ _ q Hq), bind_Ok.
  unfold update_holdings_from_fill; simpl.
  rewrite (dict_update_lookup _ _ _ hs Hhs), bind_Ok.
  rewrite (dict_update_lookup _ _ _ comm), bind_Ok by (lookup_through; done).
  rewrite (dict_update_lookup _ _ _ cash), bind_Ok by (lookup_through; done).
  rewrite (dict_update_lookup _ _ _ tot), bind_Ok by (lookup_through; done).
  reflexivity.
Qed.

(** a FILL for a symbol the portfolio does not track raises
    [KeyError] in [update_positions_from_fill], before any state changes. *)
Theorem update_fill_unknown_symbol bars p f :
  portfolio_inv p → fill_symbol f ∉ symbol_list p →
  update_fill bars (FillEv f) p = Err (KeyError (fill_symbol f)).
Proof.
  intros Hinv Hs. unfold update_fill, update_positions_from_fill.
  rewrite dict_update_missing; [done|].
  apply eq_None_not_Some. by rewrite (inv_positions_dom _ Hinv).
Qed.

Lemma insert_existing_dom {V} (m : gmap string V) k v s :
  is_Some (m !! k) → is_Some (<[k := v]> m !! s) ↔ is_Some (m !! s).
Proof. intros Hk. rewrite lookup_insert_is_Some. destruct (decide (k = s)); subst; naive_solver. Qed.

(** A successful [update_fill] on a FILL event is the result
    [update_fill_spec] describes. *)
Lemma update_fill_success bars p f p' :
  portfolio_inv p → update_fill bars (FillEv f) p = Ok p' →
  ∃ q hs cash comm tot,
    current_positions p !! fill_symbol f = Some q ∧
    current_holdings p !! fill_symbol f = Some hs ∧
    current_holdings p !! "cash" = Some cash ∧
    current_holdings p !! "commission" = Some comm ∧
    current_holdings p !! "total" = Some tot ∧
    p' = set_current_holdings
          (set_current_positions p
             (<[fill_symbol f := (q + fill_dir (fill_direction f) * fill_quantity f)%Z]>
                (current_positions p)))
          (<["total" := tot - (fill_outflow bars f + fill_commission f)]>
           (<["cash" := cash - (fill_outflow bars f + fill_commission f)]>
            (<["commission" := comm + fill_commission f]>
             (<[fill_symbol f := hs + fill_outflow bars f]> (current_holdings p))))).
Proof.
  intros Hinv Hrun.
  destruct (current_positions p !! fill_symbol f) as [q|] eqn:Hq.
  2:{ unfold update_fill, update_positions_from_fill in Hrun.
      by rewrite dict_update_missing in Hrun. }
  assert (Hs : fill_symbol f ∈ symbol_list p)
    by (apply (inv_positions_dom _ Hinv); by rewrite Hq).
  destruct (inv_holdings_dom _ Hinv _ Hs) as [hs Hhs].
  pose proof (inv_current _ Hinv) as (cash & comm & tot & Hc & Hcm & Ht & _ & _).
  rewrite (update_fill_spec bars p f q hs cash comm tot Hinv Hq Hhs Hc Hcm Ht) in Hrun.
  injection Hrun as <-. eexists _, _, _, _, _. split_and!; eauto.
Qed.

Lemma update_fill_inv bars p e p' :
  portfolio_inv p → update_fill bars e p = Ok p' → portfolio_inv p'.
Proof.
  intros Hinv Hrun. destruct e as [| | |f]; try (injection Hrun as <-; exact Hinv).
  destruct (update_fill_success bars p f p' Hinv Hrun)
    as (q & hs & cash & comm & tot & Hq & Hhs & Hc & Hcm & Ht & ->).
  pose proof (fill_symbol_not_reserved p f q Hinv Hq) as Hr.
  pose proof (inv_current _ Hinv) as (cash' & comm' & tot' & Hc' & Hcm' & Ht' & Htc & Hcons).
  rewrite Hc in Hc'; rewrite Hcm in Hcm'; rewrite Ht in Ht'.
  injection Hc' as <-. injection Hcm' as <-. injection Ht' as <-.
  assert (Hs : fill_symbol f ∈ symbol_list p)
    by (apply (inv_positions_dom _ Hinv); by rewrite Hq).
  destruct Hinv as [Hnd Hres Hpd Hhd Hcur Hsn Hlen].
  assert (Hns : ∀ k, k ∈ reserved_keys → k ∉ symbol_list p) by eauto with trading.
  constructor; cbn [symbol_list initial_capital current_positions current_holdings
    all_positions all_holdings set_current_holdings set_current_positions];
    [exact Hnd | exact Hres | | | | exact Hsn | exact Hlen].
  - intros s'. rewrite insert_existing_dom by (by rewrite Hq). apply Hpd.
  - intros s' Hs'. rewrite !insert_existing_dom; [by apply Hhd | ..];
      lookup_through; eauto.
  - exists (cash - (fill_outflow bars f + fill_commission f)), (comm + fill_commission f),
      (tot - (fill_outflow bars f + fill_commission f)).
    split_and!; try (lookup_through; done).
    + by rewrite Htc.
    + rewrite !holdings_value_insert_other by (apply Hns; reserved_mem).
      rewrite (holdings_value_update _ _ _ hs) by done.
      rewrite <- Hcons. ring.
Qed.

Lemma init_inv bars start capital :
  NoDup (bars_symbol_list bars) →
  Forall (λ s, s ∉ reserved_keys) (bars_symbol_list bars) →
  portfolio_inv (init_portfolio bars start capital).
Proof.
  intros Hnd Hres. rewrite Forall_forall in Hres. constructor; cbn [symbol_list init_portfolio current_positions
    current_holdings all_holdings all_positions initial_capital construct_all_positions
    construct_all_holdings]; [done | done | | | | | done].
  - intros s. apply zero_dict_dom.
  - intros s Hs. unfold construct_current_holdings.
    rewrite holdings_dict_symbol by auto. by eexists.
  - exists capital, 0, capital. unfold construct_current_holdings.
    rewrite holdings_dict_cash, holdings_dict_commission, holdings_dict_total,
      holdings_dict_value by done.
    split_and!; try done. ring.
  - apply Forall_singleton. exists capital, capital. simpl.
    rewrite holdings_dict_cash, holdings_dict_total, holdings_dict_value by done.
    split_and!; try done. ring.
Qed.

(** C5: [Portfolio.__init__] over a symbol list without duplicates and
    without the reserved keys "cash", "commission" and "total" builds a
    portfolio that satisfies the bookkeeping invariant, holds a zero
    position in every symbol, has cash = total = initial capital and no
    commission, and has exactly one snapshot of each kind, stamped with
    the start date. *)
Theorem init_portfolio_spec bars start capital :
  NoDup (bars_symbol_list bars) →
  Forall (λ s, s ∉ reserved_keys) (bars_symbol_list bars) →
  let p := init_portfolio bars start capital in
  portfolio_inv p ∧
  (∀ s, s ∈ bars_symbol_list bars → current_positions p !! s = Some 0%Z) ∧
  current_holdings p !! "cash" = Some capital ∧
  current_holdings p !! "total" = Some capital ∧
  current_holdings p !! "commission" = Some 0 ∧
  map fst (all_positions p) = [start] ∧ map fst (all_holdings p) = [start].
Proof.
  intros Hnd Hres p. split_and!; [by apply init_inv | | | | | done | done].
  - intros s Hs. simpl. rewrite zero_dict_lookup. by case_decide.
  - apply holdings_dict_cash.
  - apply holdings_dict_total.
  - apply holdings_dict_commission.
Qed.

(** ** The naive order-sizing policy *)

(** C6: [generate_naive_order] is exactly the rule table: its four
    sequential [if]s never overwrite one another and implement the table
    on every (signal type, current quantity) pair, including "no order". *)
Theorem generate_naive_order_table p sg cur :
  current_positions p !! signal_symbol sg = Some cur →
  generate_naive_order p sg = Ok (naive_order_table (signal_symbol sg) (signal_type sg) cur).
Proof.
  intros Hcur. unfold generate_naive_order, naive_order_table.
  rewrite (dict_get_lookup _ _ _ Hcur), bind_Ok.
  destruct (signal_type sg) as [|a ty]; [done|].
  repeat case_bool_decide; simplify_eq; destruct cur; reflexivity.
Qed.

(** a signal for a symbol the portfolio does not track raises
    [KeyError] ([self.current_positions[symbol]]). *)
Theorem generate_naive_order_unknown p sg :
  current_positions p !! signal_symbol sg = None →
  generate_naive_order p sg = Err (KeyError (signal_symbol sg)).
Proof. intros H. unfold generate_naive_order. by rewrite dict_get_missing. Qed.

(** every order the policy emits is a market order for the signal's
    symbol, with a positive quantity and direction BUY or SELL, and filling
    it moves the position to the signal's target: 100 for LONG, -100 for
    SHORT, 0 for EXIT. *)
Theorem naive_order_fill_target p sg cur o :
  current_positions p !! signal_symbol sg = Some cur →
  generate_naive_order p sg = Ok (Some o) →
  order_symbol o = signal_symbol sg ∧ order_type o = "MKT" ∧
  (0 < order_quantity o)%Z ∧
  (order_direction o = "BUY" ∨ order_direction o = "SELL") ∧
  (cur + fill_dir (order_direction o) * order_quantity o =
     if bool_decide (signal_type sg = "LONG") then 100
     else if bool_decide (signal_type sg = "SHORT") then -100 else 0)%Z.
Proof.
  intros Hcur. rewrite (generate_naive_order_table _ _ _ Hcur).
  unfold naive_order_table. intros Ho.
  repeat case_bool_decide; simplify_eq;
    destruct cur; simpl in Ho; simplify_eq; simpl; split_and!; auto;
    autorewrite with trading_simpl; lia.
Qed.

(** ** Sequences of fills *)

Lemma update_fill_total bars p f p' tot :
  portfolio_inv p → current_holdings p !! "total" = Some tot →
  update_fill bars (FillEv f) p = Ok p' →
  current_holdings p' !! "total" = Some (tot - (fill_outflow bars f + fill_commission f)).
Proof.
  intros Hinv Htot Hrun.
  destruct (update_fill_success bars p f p' Hinv Hrun)
    as (q & hs & cash & comm & tot' & _ & _ & _ & _ & Ht & ->).
  rewrite Htot in Ht. injection Ht as <-. simpl. by rewrite lookup_insert_eq.
Qed.

(** C4 (spec section 8): after any sequence of FILL events, each handled
    against the bar state current at that moment, the portfolio's total is
    the starting total minus, for every fill, its signed cost
    [fill_dir * price * quantity] plus its commission. *)
Theorem fills_total_accounting (fs : list (D * FillEvent)) p p' tot :
  portfolio_inv p → current_holdings p !! "total" = Some tot →
  for_each fs (λ p bf, update_fill bf.1 (FillEv bf.2) p) p = Ok p' →
  ∃ tot', current_holdings p' !! "total" = Some tot' ∧
    tot' == tot - Qsum (map (λ bf, fill_outflow bf.1 bf.2 + fill_commission bf.2) fs).
Proof.
  revert p tot. induction fs as [|[b f] fs IH]; intros p tot Hinv Htot Hrun;
    cbn [for_each fst snd] in Hrun.
  - injection Hrun as <-. exists tot. split; [done|]. simpl. ring.
  - destruct (update_fill b (FillEv f) p) as [p1|e] eqn:H1;
      [rewrite bind_Ok in Hrun | by rewrite bind_Err in Hrun].
    destruct (IH p1 _ (update_fill_inv _ _ _ _ Hinv H1)
                (update_fill_total _ _ _ _ _ Hinv Htot H1) Hrun) as (tot' & Ht' & Heq).
    exists tot'. split; [done|]. rewrite Heq. simpl. ring.
Qed.

(** a FILL whose direction is neither "BUY" nor "SELL" has
    [fill_dir = 0]: the position and the symbol's holding are unchanged,
    yet the commission is charged: cash and total drop by it. *)
Theorem update_fill_unknown_direction bars p f p' cash :
  portfolio_inv p →
  fill_direction f ≠ "BUY" → fill_direction f ≠ "SELL" →
  current_holdings p !! "cash" = Some cash →
  update_fill bars (FillEv f) p = Ok p' →
  current_positions p' = current_positions p ∧
  (∀ hs, current_holdings p !! fill_symbol f = Some hs →
     ∃ hs', current_holdings p' !! fill_symbol f = Some hs' ∧ hs' == hs) ∧
  ∃ cash', current_holdings p' !! "cash" = Some cash' ∧ cash' == cash - fill_commission f.
Proof.
  intros Hinv Hb Hs Hc Hrun.
  assert (Hd : fill_dir (fill_direction f) = 0%Z)
    by (rewrite fill_dir_cases; by repeat case_bool_decide).
  destruct (update_fill_success bars p f p' Hinv Hrun)
    as (q & hs & cash' & comm & tot & Hq & Hhs & Hc' & _ & _ & ->).
  rewrite Hc in Hc'. injection Hc' as <-.
  pose proof (fill_symbol_not_reserved p f q Hinv Hq) as Hr.
  assert (Hout : fill_outflow bars f == 0) by (unfold fill_outflow; rewrite Hd; ring).
  simpl. split_and!.
  - rewrite Hd, Z.mul_0_l, Z.add_0_r. by apply insert_id.
  - intros hs0 Hhs0. rewrite Hhs in Hhs0. injection Hhs0 as <-.
    eexists. split; [lookup_through; done|]. rewrite Hout. ring.
  - eexists. split; [lookup_through; done|]. rewrite Hout. ring.
Qed.

(** buying and then selling the same quantity of a tracked symbol
    against the same bar state leaves its position where it was and
    costs exactly the two commissions in cash. *)
Theorem update_fill_round_trip bars p f1 f2 p1 p2 cash :
  portfolio_inv p →
  fill_direction f1 = "BUY" → fill_direction f2 = "SELL" →
  fill_symbol f2 = fill_symbol f1 → fill_quantity f2 = fill_quantity f1 →
  current_holdings p !! "cash" = Some cash →
  update_fill bars (FillEv f1) p = Ok p1 → update_fill bars (FillEv f2) p1 = Ok p2 →
  current_positions p2 = current_positions p ∧
  ∃ cash2, current_holdings p2 !! "cash" = Some cash2 ∧
    cash2 == cash - fill_commission f1 - fill_commission f2.
Proof.
  intros Hinv Hb Hs Hsym Hqty Hc H1 H2.
  pose proof (update_fill_inv _ _ _ _ Hinv H1) as Hinv1.
  destruct (update_fill_success bars p f1 p1 Hinv H1)
    as (q & hs & c1 & comm & tot & Hq & _ & Hc1 & _ & _ & ->).
  rewrite Hc in Hc1. injection Hc1 as <-.
  destruct (update_fill_success bars _ f2 p2 Hinv1 H2)
    as (q' & hs' & c2 & comm' & tot' & Hq' & _ & Hc2 & _ & _ & ->).
  pose proof (fill_symbol_not_reserved p f1 q Hinv Hq) as Hr.
  simpl in Hq', Hc2 |- *. rewrite Hsym in Hq' |- *.
  rewrite lookup_insert_eq in Hq'. injection Hq' as <-.
  rewrite lookup_insert_ne, lookup_insert_eq in Hc2 by key_ne. injection Hc2 as <-.
  split.
  - rewrite insert_insert_eq, Hs, Hb, Hqty, fill_dir_buy, fill_dir_sell.
    replace (q + 1 * fill_quantity f1 + -1 * fill_quantity f1)%Z with q by lia.
    by apply insert_id.
  - eexists. split; [lookup_through; done|].
    unfold fill_outflow. rewrite Hs, Hb, Hsym, Hqty, fill_dir_buy, fill_dir_sell.
    simpl. ring.
Qed.

End Properties.

Lemma demo_inv : portfolio_inv demo_portfolio.
Proof.
  apply init_inv.
  - decide_by_eval.
  - decide_by_eval.
Qed.

Lemma init_portfolio_spec_witness :
  NoDup (bars_symbol_list demo_bars) ∧
  Forall (λ s, s ∉ reserved_keys) (bars_symbol_list demo_bars) ∧
  current_holdings demo_portfolio !! "cash" = Some 100000.
Proof.
  assert (Hnd : NoDup (bars_symbol_list demo_bars))
    by (decide_by_eval).
  assert (Hr : Forall (λ s, s ∉ reserved_keys) (bars_symbol_list demo_bars))
    by (decide_by_eval).
  split_and!; [exact Hnd | exact Hr |].
  exact (proj1 (proj2 (proj2 (init_portfolio_spec demo_bars 0 100000 Hnd Hr)))).
Defined.

Lemma update_timeindex_spec_witness :
  symbol_list demo_portfolio ≠ [] ∧ is_ok (update_timeindex demo_bars demo_portfolio) = true.
Proof.
  assert (Hne : symbol_list demo_portfolio ≠ []) by (vm_compute; discriminate).
  split; [exact Hne|].
  destruct (update_timeindex_spec demo_bars demo_portfolio demo_inv Hne) as (dh & c & t & -> & _).
  reflexivity.
Defined.

Lemma update_timeindex_empty_witness :
  update_timeindex demo_bars (init_portfolio (mkHistoricBars [] None []) 0 1) = Err IndexError.
Proof. apply update_timeindex_empty. reflexivity. Defined.

Lemma update_fill_spec_witness :
  ∃ p', update_fill demo_bars (FillEv demo_buy) demo_portfolio = Ok p' ∧
        current_positions p' !! "X" = Some 100%Z ∧
        current_holdings p' !! "cash" = Some 98999.
Proof.
  eexists. rewrite (update_fill_spec demo_bars demo_portfolio demo_buy 0 0 100000 0 100000
                      demo_inv); [split_and! | ..]; vm_compute; reflexivity.
Defined.

Lemma update_fill_unknown_symbol_witness :
  update_fill demo_bars (FillEv (mkFillEvent 1 "Z" "ARCA" 5 "BUY" 1 0)) demo_portfolio
  = Err (KeyError "Z").
Proof.
  apply (update_fill_unknown_symbol demo_bars demo_portfolio
           (mkFillEvent 1 "Z" "ARCA" 5 "BUY" 1 0) demo_inv).
  decide_by_eval.
Defined.

Lemma generate_naive_order_table_witness :
  generate_naive_order demo_portfolio (mkSignalEvent "X" 1 "LONG" 1)
  = Ok (Some (mkOrderEvent "X" "MKT" 100 "BUY")).
Proof. rewrite (generate_naive_order_table _ _ 0); reflexivity. Defined.

Lemma generate_naive_order_unknown_witness :
  generate_naive_order demo_portfolio (mkSignalEvent "Z" 1 "LONG" 1) = Err (KeyError "Z").
Proof. apply generate_naive_order_unknown. reflexivity. Defined.

Lemma naive_order_fill_target_witness :
  (0 + fill_dir "SELL" * 100 = -100)%Z.
Proof.
  destruct (naive_order_fill_target demo_portfolio (mkSignalEvent "X" 1 "SHORT" 1) 0
              (mkOrderEvent "X" "MKT" 100 "SELL")) as (_ & _ & _ & _ & H);
    [reflexivity | reflexivity | exact H].
Defined.

Lemma fills_total_accounting_witness :
  ∃ p' tot', for_each [(demo_bars, demo_buy); (demo_bars, demo_sell)]
               (λ p bf, update_fill bf.1 (FillEv bf.2) p) demo_portfolio = Ok p' ∧
             current_holdings p' !! "total" = Some tot' ∧ tot' == 99998.
Proof.
  destruct (for_each [(demo_bars, demo_buy); (demo_bars, demo_sell)]
             (λ p bf, update_fill bf.1 (FillEv bf.2) p) demo_portfolio) as [p'|e] eqn:Hrun;
    [| vm_compute in Hrun; discriminate].
  destruct (fills_total_accounting [(demo_bars, demo_buy); (demo_bars, demo_sell)]
              demo_portfolio p' 100000 demo_inv) as (tot' & Ht & Heq);
    [reflexivity | exact Hrun |].
  exists p', tot'. split_and!; [done | exact Ht |].
  rewrite Heq. vm_compute. reflexivity.
Defined.

Lemma update_fill_unknown_direction_witness :
  ∃ p', update_fill demo_bars (FillEv (mkFillEvent 1 "X" "ARCA" 100 "HOLD" 10 1))
          demo_portfolio = Ok p' ∧ current_positions p' = current_positions demo_portfolio.
Proof.
  destruct (update_fill demo_bars (FillEv (mkFillEvent 1 "X" "ARCA" 100 "HOLD" 10 1))
             demo_portfolio) as [p'|e] eqn:Hrun; [| vm_compute in Hrun; discriminate].
  exists p'. split; [done|].
  destruct (update_fill_unknown_direction demo_bars demo_portfolio
              (mkFillEvent 1 "X" "ARCA" 100 "HOLD" 10 1) p' 100000 demo_inv)
    as (Hpos & _ & _); [discriminate | discriminate | reflexivity | exact Hrun | exact Hpos].
Defined.

Lemma update_fill_round_trip_witness :
  ∃ p1 p2, update_fill demo_bars (FillEv demo_buy) demo_portfolio = Ok p1 ∧
           update_fill demo_bars (FillEv demo_sell) p1 = Ok p2 ∧
           current_positions p2 = current_positions demo_portfolio.
Proof.
  destruct (update_fill demo_bars (FillEv demo_buy) demo_portfolio) as [p1|e] eqn:H1;
    [| vm_compute in H1; discriminate].
  destruct (update_fill demo_bars (FillEv demo_sell) p1) as [p2|e] eqn:H2;
    [| vm_compute in H1; injection H1 as <-; vm_compute in H2; discriminate].
  exists p1, p2. split_and!; [done | done |].
  destruct (update_fill_round_trip demo_bars demo_portfolio demo_buy demo_sell p1 p2 100000
              demo_inv) as (Hpos & _); try reflexivity; assumption.
Defined.
