(* ===== verification/Performance.v ===== *)
(** * Performance: [performance.py]

    [create_drawdowns(pnl)] walks the equity curve from index 1 with a
    high-water mark seeded at [hwm[0] = 0]; its drawdown and duration
    series are pandas Series created empty, so index 0 stays NaN and a
    duration computed from a NaN predecessor is NaN.  A NaN is [None] here:
    the series are [list (option Q)] and [list (option nat)], and
    [series_max] is pandas' [max()], which skips NaN and is NaN on a series
    with no number.  Python's [max(hwm, x)] is [Qmax], and [max(hwm, NaN)]
    keeps [hwm] ([NaN > hwm] is false).

    The main theorem shows that the single pass returns the largest
    peak-to-trough decline of the curve, [peak_trough] being the reference
    definition (a peak at or before the trough), whenever the curve is
    non-negative, as an equity curve is.  The seed [hwm[0] = 0] makes the
    result wrong for a curve that starts below zero (the spec's open
    question): [create_drawdowns_negative_seed] exhibits it. *)

From S2P Require Import Prelude.

(** ** The loop of [create_drawdowns] *)

(** One step: [hwm.append(max(hwm[t-1], pnl[t]))],
    [drawdown[t] = hwm[t] - pnl[t]],
    [duration[t] = 0 if drawdown[t] == 0 else duration[t-1] + 1]. *)
Definition drawdown_step (hwm : Q) (dur : option nat) (x : option Q)
    : Q * option Q * option nat :=
  let hwm' := match x with Some v => Qmax hwm v | None => hwm end in
  let dd := option_map (λ v, hwm' - v) x in
  let dur' := match dd with
              | Some d => if Qeq_bool d 0 then Some 0%nat else option_map S dur
              | None => option_map S dur
              end in
  (hwm', dd, dur').

Fixpoint drawdown_loop (hwm : Q) (dur : option nat) (pnl : list (option Q))
    : list (option Q * option nat) :=
  match pnl with
  | [] => []
  | x :: rest =>
      let '(hwm', dd, dur') := drawdown_step hwm dur x in
      (dd, dur') :: drawdown_loop hwm' dur' rest
  end.

(** pandas' [Series.max()]: NaN entries are skipped. *)
Fixpoint series_max (l : list (option Q)) : option Q :=
  match l with
  | [] => None
  | None :: r => series_max r
  | Some x :: r => Some (match series_max r with None => x | Some m => Qmax x m end)
  end.

Fixpoint series_max_nat (l : list (option nat)) : option nat :=
  match l with
  | [] => None
  | None :: r => series_max_nat r
  | Some x :: r => Some (match series_max_nat r with None => x | Some m => Nat.max x m end)
  end.

(** [create_drawdowns(pnl)]: the drawdown series (NaN at index 0), its
    maximum and the maximum duration. *)
Definition create_drawdowns (pnl : list (option Q))
    : list (option Q) * option Q * option nat :=
  match pnl with
  | [] => ([], None, None)
  | _ :: rest =>
      let rows := drawdown_loop 0 None rest in
      (None :: map fst rows, series_max (map fst rows), series_max_nat (map snd rows))
  end.

(** ** pandas' [pct_change] *)

(** [Series.pct_change()] with its default [fill_method='pad']: a NaN is
    first replaced by the last number before it, then each entry is
    [x[t] / x[t-1] - 1]; the first entry is NaN, and a division by zero
    (inf or NaN in pandas) is [None]. *)
Definition pct_ratio (prev cur : option Q) : option Q :=
  match prev, cur with
  | Some a, Some b => if Qeq_bool a 0 then None else Some (b / a - 1)
  | _, _ => None
  end.

Fixpoint pct_change_from (prev : option Q) (xs : list (option Q)) : list (option Q) :=
  match xs with
  | [] => []
  | x :: rest =>
      let x' := match x with Some v => Some v | None => prev end in
      pct_ratio prev x' :: pct_change_from x' rest
  end.

Definition pct_change (xs : list (option Q)) : list (option Q) := pct_change_from None xs.

(** ** The reference definition of a drawdown *)

(** [peak_trough xs a b]: [a] occurs in [xs] at or before [b]. *)
Inductive peak_trough : list Q → Q → Q → Prop :=
| pt_here x rest y : y ∈ x :: rest → peak_trough (x :: rest) x y
| pt_later x rest a b : peak_trough rest a b → peak_trough (x :: rest) a b.

#[export] Hint Constructors peak_trough : trading.

(** ** Lemmas on the loop *)

(** One row of the loop: the drawdown is non-negative, a zero drawdown
    resets the duration, a positive one extends the previous duration. *)
Definition drawdown_row_ok (prev : option nat) (row : option Q * option nat) : Prop :=
  ∀ v, row.1 = Some v →
    0 <= v ∧ (v == 0 → row.2 = Some 0%nat) ∧ (¬ v == 0 → row.2 = option_map S prev).

Fixpoint rows_ok (prev : option nat) (rows : list (option Q * option nat)) : Prop :=
  match rows with
  | [] => True
  | r :: rest => drawdown_row_ok prev r ∧ rows_ok r.2 rest
  end.

Lemma drawdown_loop_cons hwm dur x rest :
  drawdown_loop hwm dur (x :: rest) =
  ((drawdown_step hwm dur x).1.2, (drawdown_step hwm dur x).2)
    :: drawdown_loop (drawdown_step hwm dur x).1.1 (drawdown_step hwm dur x).2 rest.
Proof. simpl. by destruct (drawdown_step hwm dur x) as [[??]?]. Qed.

Lemma drawdown_step_Some hwm dur v :
  drawdown_step hwm dur (Some v) =
  (Qmax hwm v, Some (Qmax hwm v - v),
   if Qeq_bool (Qmax hwm v - v) 0 then Some 0%nat else option_map S dur).
Proof. reflexivity. Qed.

Lemma series_max_cons_Some x l :
  series_max (Some x :: l) =
  Some (match series_max l with None => x | Some m => Qmax x m end).
Proof. reflexivity. Qed.

(** The single pass computes, from a seed [hwm], the largest of the
    seed-to-point declines and of the peak-to-trough declines, and attains
    one of them. *)
Lemma drawdown_loop_max hwm dur xs :
  xs ≠ [] →
  ∃ m, series_max (map fst (drawdown_loop hwm dur (map Some xs))) = Some m ∧
    (∀ y, y ∈ xs → hwm - y <= m) ∧
    (∀ a b, peak_trough xs a b → a - b <= m) ∧
    ((∃ y, y ∈ xs ∧ m == hwm - y) ∨ (∃ a b, peak_trough xs a b ∧ m == a - b)).
Proof.
  revert hwm dur. induction xs as [|x rest IH]; intros h dur Hne; [done|].
  rewrite map_cons, drawdown_loop_cons, drawdown_step_Some. cbn [fst snd map].
  rewrite series_max_cons_Some.
  pose proof (Q.le_max_l h x) as Hl. pose proof (Q.le_max_r h x) as Hr.
  assert (Hat0 : (∃ y, y ∈ x :: rest ∧ Qmax h x - x == h - y) ∨
                 (∃ a b, peak_trough (x :: rest) a b ∧ Qmax h x - x == a - b)).
  { destruct (Qmax_cases h x) as [[_ E]|[_ E]]; rewrite E.
    - right. exists x, x. split; [constructor; set_solver | ring].
    - left. exists x. split; [set_solver | ring]. }
  destruct rest as [|y rest'].
  - exists (Qmax h x - x). split_and!; [done | | | done].
    + intros z Hz. apply list_elem_of_singleton in Hz as ->. lra.
    + intros a b Hab. inversion Hab as [? ? ? Hb|? ? ? ? Hp]; subst; [|inversion Hp].
      apply list_elem_of_singleton in Hb as ->. lra.
  - edestruct (IH (Qmax h x)) as (m' & Hm' & Hub & Hpt & Hat); [done|].
    rewrite Hm'. pose proof (Q.le_max_l (Qmax h x - x) m') as Hl'.
    pose proof (Q.le_max_r (Qmax h x - x) m') as Hr'.
    exists (Qmax (Qmax h x - x) m'). split_and!; [done | | |].
    + intros z Hz. apply elem_of_cons in Hz as [->|Hz]; [lra|].
      specialize (Hub z Hz). lra.
    + intros a b Hab. inversion Hab as [? ? ? Hb|? ? ? ? Hp]; subst.
      * apply elem_of_cons in Hb as [->|Hb]; [lra|]. specialize (Hub b Hb). lra.
      * specialize (Hpt a b Hp). lra.
    + destruct (Qmax_cases (Qmax h x - x) m') as [[_ E]|[_ E]]; rewrite E; [|exact Hat0].
      destruct Hat as [(z & Hz & Hzeq)|(a & b & Hab & Heq)].
      * destruct (Qmax_cases h x) as [[_ E2]|[_ E2]]; rewrite E2 in Hzeq.
        -- right. exists x, z. split; [constructor; set_solver | done].
        -- left. exists z. split; [set_solver | done].
      * right. exists a, b. split; [by constructor | done].
Qed.

(** The single pass over a non-negative curve attains the largest
    peak-to-trough decline. *)
Lemma drawdowns_max_nonneg (p0 : option Q) (xs : list Q) :
  xs ≠ [] → Forall (λ x, 0 <= x) xs →
  ∃ m, (create_drawdowns (p0 :: map Some xs)).1.2 = Some m ∧
    (∀ a b, peak_trough xs a b → a - b <= m) ∧
    (∃ a b, peak_trough xs a b ∧ m == a - b).
Proof.
  intros Hne Hpos. rewrite Forall_forall in Hpos.
  edestruct (drawdown_loop_max 0 None xs) as (m & Hm & Hub & Hpt & Hat); [done|].
  exists m. split_and!; [simpl; by rewrite Hm | done |].
  destruct Hat as [(y & Hy & Heq)|H]; [|done].
  destruct xs as [|x xs']; [done|].
  assert (Hxx : peak_trough (x :: xs') x x) by (constructor; set_solver).
  specialize (Hpt x x Hxx). specialize (Hpos y Hy).
  exists x, x. split; [done | lra].
Qed.

(** C13: on a non-empty equity curve with non-negative values (index 0
    is never read), [create_drawdowns] returns as maximum drawdown the
    largest peak-to-trough decline: every decline from a value to a later
    (or the same) value is at most it, and some such decline equals it. *)
Theorem create_drawdowns_max_peak_trough (p0 : option Q) (xs : list Q) :
  xs ≠ [] → Forall (λ x, 0 <= x) xs →
  ∃ m, (create_drawdowns (p0 :: map Some xs)).1.2 = Some m ∧
    (∀ a b, peak_trough xs a b → a - b <= m) ∧
    (∃ a b, peak_trough xs a b ∧ m == a - b).
Proof. exact (drawdowns_max_nonneg p0 xs). Qed.


Lemma drawdown_loop_rows_ok hwm dur pnl : rows_ok dur (drawdown_loop hwm dur pnl).
Proof.
  revert hwm dur. induction pnl as [|x rest IH]; intros h dur; [done|].
  rewrite drawdown_loop_cons. split; [|apply IH].
  intros v. destruct x as [w|]; [|discriminate]. rewrite drawdown_step_Some. simpl.
  intros [= <-]. pose proof (Q.le_max_r h w).
  split; [lra|]. destruct (Qeq_bool (Qmax h w - w) 0) eqn:E.
  - apply Qeq_bool_eq in E. split; [done|]. intros Hne. contradiction.
  - apply Qeq_bool_neq in E. split; [intros Heq; contradiction | done].
Qed.

(** C14 (spec section 8): in the drawdown computed by [create_drawdowns],
    every drawdown value is non-negative; at every step a zero drawdown
    sets the duration to 0 and a positive drawdown sets it to the previous
    duration plus one; the maximum drawdown, when defined, is non-negative. *)
Theorem create_drawdowns_invariant (p0 : option Q) (rest : list (option Q)) :
  rows_ok None (drawdown_loop 0 None rest) ∧
  Forall (λ d, ∀ v, d = Some v → 0 <= v) (create_drawdowns (p0 :: rest)).1.1 ∧
  ∀ m, (create_drawdowns (p0 :: rest)).1.2 = Some m → 0 <= m.
Proof.
  pose proof (drawdown_loop_rows_ok 0 None rest) as Hrows.
  assert (Hfst : Forall (λ d, ∀ v, d = Some v → 0 <= v) (map fst (drawdown_loop 0 None rest))).
  { revert Hrows. generalize (drawdown_loop 0 None rest) as rows. generalize (@None nat) as prev.
    intros prev rows. revert prev. induction rows as [|r rows IH]; intros prev; [constructor|].
    intros [Hr Hrs]. constructor; [intros v Hv; by apply (Hr v Hv) | exact (IH _ Hrs)]. }
  split_and!; [done | by constructor |].
  simpl. revert Hfst. generalize (map fst (drawdown_loop 0 None rest)) as l.
  induction l as [|[x|] l IH]; intros Hl m; simpl; [discriminate| |].
  - apply Forall_cons in Hl as [Hx Hl]. specialize (Hx x eq_refl).
    destruct (series_max l) as [m'|] eqn:E; intros [= <-]; [|done].
    specialize (IH Hl m' eq_refl). pose proof (Q.le_max_l x m'). lra.
  - apply Forall_cons in Hl as [_ Hl]. by apply IH.
Qed.

(** A defined duration stays defined. *)
Lemma drawdown_loop_dur_defined hwm n pnl :
  Forall (λ r, is_Some r.2) (drawdown_loop hwm (Some n) pnl).
Proof.
  revert hwm n. induction pnl as [|x rest IH]; intros h n; [constructor|].
  rewrite drawdown_loop_cons. destruct x as [w|].
  - rewrite drawdown_step_Some. simpl. destruct (Qeq_bool _ _); constructor; eauto.
  - simpl. constructor; eauto.
Qed.

(** A loop whose first point is a non-negative number never produces a
    NaN duration. *)
Lemma drawdown_loop_defined_nonneg (x : Q) (rest : list (option Q)) :
  0 <= x → Forall (λ r, is_Some r.2) (drawdown_loop 0 None (Some x :: rest)).
Proof.
  intros Hx. rewrite drawdown_loop_cons, drawdown_step_Some.
  destruct (Qmax_cases 0 x) as [[_ E]|[Hle E]]; rewrite E.
  - assert (Qeq_bool (x - x) 0 = true) as -> by (apply Qeq_bool_iff; ring).
    constructor; [by eexists | apply drawdown_loop_dur_defined].
  - assert (x == 0) as Hx0 by lra.
    assert (Qeq_bool (0 - x) 0 = true) as -> by (apply Qeq_bool_iff; rewrite Hx0; ring).
    constructor; [by eexists | apply drawdown_loop_dur_defined].
Qed.

(** With a non-negative [pnl[1]] the maximum duration is a number. *)
Lemma drawdowns_duration_defined (p0 : option Q) (x : Q) (rest : list (option Q)) :
  0 <= x → ∃ n, (create_drawdowns (p0 :: Some x :: rest)).2 = Some n.
Proof.
  intros Hx. pose proof (drawdown_loop_defined_nonneg x rest Hx) as H. cbn [create_drawdowns snd].
  rewrite drawdown_loop_cons in H |- *. apply Forall_cons in H as [[n Hn] _].
  cbn [map snd] in *. rewrite Hn. simpl. by eexists.
Qed.

(** the maximum duration [create_drawdowns] returns is a number
    (not NaN) when the first point its loop reads, [pnl[1]], is a
    non-negative number: the loop then never produces a NaN duration.  A
    curve whose [pnl[1]] is negative starts with a NaN duration, which
    persists until the drawdown first returns to zero. *)
Theorem create_drawdowns_durations_defined (p0 : option Q) (x : Q) (rest : list (option Q)) :
  0 <= x → ∃ n, (create_drawdowns (p0 :: Some x :: rest)).2 = Some n.
Proof. exact (drawdowns_duration_defined p0 x rest). Qed.

(** (spec scenario 3): the equity series 1.0, 1.1, 1.05, 1.2, 0.9
    has maximum drawdown 0.3 (from the peak 1.2 to 0.9) and maximum
    duration 1. *)
Theorem create_drawdowns_scenario3 :
  ∃ dd m, create_drawdowns [Some 1; Some (11#10); Some (105#100); Some (12#10); Some (9#10)]
          = (dd, Some m, Some 1%nat) ∧ m == 3#10.
Proof. do 2 eexists. split; vm_compute; reflexivity. Qed.

(** the seed [hwm[0] = 0] is wrong for a curve that starts below
    zero: the flat series -5, -5 never declines, yet [create_drawdowns]
    reports a maximum drawdown of 5 and a NaN maximum duration. *)
Theorem create_drawdowns_negative_seed :
  create_drawdowns [Some 1; Some (-5); Some (-5)] = ([None; Some 5; Some 5], Some 5, None) ∧
  ∀ a b, peak_trough [-5; -5] a b → a - b == 0.
Proof.
  split; [vm_compute; reflexivity|].
  intros a b Hab. inversion Hab as [? ? ? Hb|? ? ? ? Hp]; subst.
  - apply elem_of_cons in Hb as [->|Hb]; [ring|]. apply list_elem_of_singleton in Hb as ->. ring.
  - inversion Hp as [? ? ? Hb|? ? ? ? Hp']; subst; [|inversion Hp'].
    apply list_elem_of_singleton in Hb as ->. ring.
Qed.

(** ** Witnesses *)

Lemma create_drawdowns_max_peak_trough_witness :
  [11#10; 105#100; 12#10; 9#10] ≠ [] ∧ Forall (λ x, 0 <= x) [11#10; 105#100; 12#10; 9#10] ∧
  ∃ m, (create_drawdowns (Some 1 :: map Some [11#10; 105#100; 12#10; 9#10])).1.2 = Some m ∧
    (∀ a b, peak_trough [11#10; 105#100; 12#10; 9#10] a b → a - b <= m) ∧
    (∃ a b, peak_trough [11#10; 105#100; 12#10; 9#10] a b ∧ m == a - b).
Proof.
  assert (H1 : [11#10; 105#100; 12#10; 9#10] ≠ []) by discriminate.
  assert (H2 : Forall (λ x, 0 <= x) [11#10; 105#100; 12#10; 9#10])
    by (repeat constructor; vm_compute; discriminate).
  exact (conj H1 (conj H2 (create_drawdowns_max_peak_trough (Some 1) _ H1 H2))).
Defined.

Lemma create_drawdowns_durations_defined_witness :
  0 <= 11#10 ∧
  ∃ n, (create_drawdowns [Some 1; Some (11#10); Some (105#100); Some (12#10); Some (9#10)]).2 = Some n.
Proof.
  assert (H : 0 <= 11#10) by (vm_compute; discriminate).
  exact (conj H (create_drawdowns_durations_defined (Some 1) _ _ H)).
Defined.

Lemma length_pct_change_from prev xs : length (pct_change_from prev xs) = length xs.
Proof. revert prev. induction xs; intros; cbn; auto. Qed.

Lemma length_pct_change xs : length (pct_change xs) = length xs.
Proof. apply length_pct_change_from. Qed.
