(* ===== verification/Sharpe.v ===== *)
(** * Sharpe ratios: [performance.py] and [Sharpe.py]

    Two implementations of the annualised Sharpe ratio live in the
    repository:
    - [create_sharpe_ratio(returns, periods)] in [performance.py]:
      [np.sqrt(periods) * (np.mean(returns) / np.std(returns))]; on a
      pandas Series numpy delegates to the Series methods, so NaN entries
      are skipped and the standard deviation is the population one
      ([ddof=0]);
    - [annualised_sharpe(returns, N)] in [Sharpe.py]:
      [np.sqrt(N) * returns.mean() / returns.std()], pandas' sample
      standard deviation ([ddof=1]), used by [equity_sharpe] (excess
      returns over a 5% annual rate) and [market_neutral_sharpe] (half the
      difference of two return series, aligned on their dates as pandas
      aligns two Series).

    Means and variances are computed exactly in [Q]; the square roots are
    real ([R], through [Q2R]).  A ratio that numpy or pandas would return
    as NaN or infinity (no data, zero deviation, fewer than two points with
    [ddof=1]) is [None].  [SharpeScript] is the script's [__main__]
    block: the two downloads of [AlphaVantage], a [TypeError] where a
    failed one is indexed, and the two ratios it prints. *)

From S2P Require Import Prelude AlphaVantage Performance.
From Stdlib Require Import Qpower Reals Qreals Psatz.

(** pandas' NaN skipping. *)
Definition skipna (l : list (option Q)) : list Q := omap (λ x, x) l.

Definition Qlen (xs : list Q) : Q := inject_Z (Z.of_nat (length xs)).

Definition Qmean (xs : list Q) : Q := Qsum xs / Qlen xs.

Definition sum_sq_dev (xs : list Q) : Q :=
  Qsum (map (λ x, (x - Qmean xs) * (x - Qmean xs)) xs).

(** [np.std] ([ddof=0]) squared and [Series.std] ([ddof=1]) squared. *)
Definition Qvar_pop (xs : list Q) : Q := sum_sq_dev xs / Qlen xs.
Definition Qvar_sample (xs : list Q) : Q := sum_sq_dev xs / (Qlen xs - 1).

Definition create_sharpe_ratio (returns : list (option Q)) (periods : nat) : option R :=
  let xs := skipna returns in
  match xs with
  | [] => None
  | _ => if Qeq_bool (Qvar_pop xs) 0 then None
         else Some (sqrt (INR periods) * (Q2R (Qmean xs) / sqrt (Q2R (Qvar_pop xs))))%R
  end.

Definition annualised_sharpe (returns : list (option Q)) (N : nat) : option R :=
  let xs := skipna returns in
  if bool_decide (length xs < 2)%nat then None
  else if Qeq_bool (Qvar_sample xs) 0 then None
  else Some (sqrt (INR N) * Q2R (Qmean xs) / sqrt (Q2R (Qvar_sample xs)))%R.

(** [ticker['excess_daily_ret'] = ticker['daily_ret'] - 0.05/252] *)
Definition equity_sharpe (close : list (option Q)) : option R :=
  let daily_ret := pct_change close in
  let excess_daily_ret := map (option_map (λ r, r - 5 / 100 / 252)) daily_ret in
  annualised_sharpe excess_daily_ret 252.

(** [(a - b) / 2.0] on two returns, NaN if either is. *)
Definition net_return (a b : option Q) : option Q :=
  match a, b with Some x, Some y => Some ((x - y) / 2) | _, _ => None end.

(** [df['daily_ret'] = df['Close'].pct_change()] on a column indexed by
    dates. *)
Definition dated_pct_change (closes : list (Z * option Q)) : list (Z * option Q) :=
  zip closes.*1 (pct_change closes.*2).

(** The value of a dated Series at a date of another index: NaN when the
    date is missing. *)
Fixpoint date_lookup (d : Z) (col : list (Z * option Q)) : option Q :=
  match col with
  | [] => None
  | (d', r) :: rest => if bool_decide (d = d') then r else date_lookup d rest
  end.

(** [strat = pd.DataFrame(index=ticker.index)];
    [strat['net_ret'] = (ticker['daily_ret'] - benchmark['daily_ret'])/2.0]:
    the difference is aligned on the dates, and the assignment keeps the
    ticker's dates. *)
Definition market_neutral_sharpe (ticker benchmark : list (Z * option Q)) : option R :=
  let t := dated_pct_change ticker in
  let b := dated_pct_change benchmark in
  let net_ret := map (λ dr, net_return dr.2 (date_lookup dr.1 b)) t in
  annualised_sharpe net_ret 252.

(** ** The script [Sharpe.py] *)

Module SharpeScript.

(** [get_daily_historic_data_alphavantage] of [Sharpe.py] is, line for
    line, the download of [Price_Forecaster_ML.py]. *)
Definition get_daily_historic_data_alphavantage (response : option (gmap Z av_bar)) (start_date end_date : Z)
    : av_result :=
  AlphaVantage.get_daily_historic_data_alphavantage response start_date end_date.

(** [ticker['Close']] with its dates; on the [[]] a failed download
    returns, [ticker['Close']] raises [TypeError]. *)
Definition close_column (frame : av_result) : result (list (Z * option Q)) :=
  match frame with
  | AvEmptyList => Err (TypeError "list indices must be integers or slices, not str")
  | AvFrame ts => Ok (map (λ r, (pr_date r, Some (pr_close r))) ts)
  end.

(** The script prints ratios: the printed values are its state. *)
Definition print_ratio (v : option R) : stexc (list (option R)) unit := λ out, (out ++ [v], Ok tt).

Local Open Scope stexc_scope.

(** The [__main__] block, on AlphaVantage's answers for [GOOGL] and
    [SPY]. *)
Definition main (goog_response spy_response : option (gmap Z av_bar)) : stexc (list (option R)) unit :=
  let start_date := days_from_civil 2005 1 1 in
  let end_date := days_from_civil 2013 1 1 in
  let goog := get_daily_historic_data_alphavantage goog_response start_date end_date in
  let spy := get_daily_historic_data_alphavantage spy_response start_date end_date in
  goog_close ⇐ st_lift (close_column goog);
  _ ⇐ print_ratio (equity_sharpe goog_close.*2);
  spy_close ⇐ st_lift (close_column spy);
  print_ratio (market_neutral_sharpe goog_close spy_close).

End SharpeScript.

(** Four trading days of January 2005 for the script's demo: [GOOGL]
    closes at 100, 102, 101, 104 and [SPY] at 50, 50.5, 50, 51. *)
Definition demo_goog : gmap Z av_bar :=
  list_to_map [(12788%Z, mkAvBar 1 1 1 100 10 1); (12789%Z, mkAvBar 1 1 1 102 10 1);
               (12790%Z, mkAvBar 1 1 1 101 10 1); (12791%Z, mkAvBar 1 1 1 104 10 1)].

Definition demo_spy : gmap Z av_bar :=
  list_to_map [(12788%Z, mkAvBar 1 1 1 50 10 1); (12789%Z, mkAvBar 1 1 1 (101 # 2) 10 1);
               (12790%Z, mkAvBar 1 1 1 50 10 1); (12791%Z, mkAvBar 1 1 1 51 10 1)].

(** ** Rational lemmas: scaling and [Qeq]-compatibility *)

(** Two series equal up to [Qeq], NaN where the other is NaN. *)
Abbreviation opt_Qeq := (option_Forall2 Qeq).

Definition demo_returns : list (option Q) := [None; Some (11#1000); Some (-9#1000)].

Lemma skipna_scale k r : skipna (map (option_map (Qmult k)) r) = map (Qmult k) (skipna r).
Proof. induction r as [|[x|] r IH]; simpl; [done | by rewrite IH | done]. Qed.

Lemma Qsum_map_scale {A} c (f : A → Q) xs :
  Qsum (map (λ x, c * f x) xs) == c * Qsum (map f xs).
Proof. induction xs as [|x xs IH]; simpl; [ring|]. rewrite IH. ring. Qed.

Lemma Qlen_map {A} (f : A → Q) (xs : list A) : Qlen (map f xs) = inject_Z (Z.of_nat (length xs)).
Proof. unfold Qlen. by rewrite length_map. Qed.

Lemma Qmean_scale k xs : Qmean (map (Qmult k) xs) == k * Qmean xs.
Proof.
  unfold Qmean. rewrite Qlen_map. fold (Qlen xs).
  rewrite (Qsum_map_scale k (λ x, x)), map_id. unfold Qdiv. ring.
Qed.

Lemma sum_sq_dev_scale k xs : sum_sq_dev (map (Qmult k) xs) == k * k * sum_sq_dev xs.
Proof.
  unfold sum_sq_dev. rewrite map_map, <- Qsum_map_scale.
  apply Qsum_map_ext. intros x _. rewrite Qmean_scale. ring.
Qed.

Lemma Qvar_pop_scale k xs : Qvar_pop (map (Qmult k) xs) == k * k * Qvar_pop xs.
Proof. unfold Qvar_pop. rewrite sum_sq_dev_scale, Qlen_map. unfold Qdiv, Qlen. ring. Qed.

Lemma Qvar_sample_scale k xs : Qvar_sample (map (Qmult k) xs) == k * k * Qvar_sample xs.
Proof. unfold Qvar_sample. rewrite sum_sq_dev_scale, Qlen_map. unfold Qdiv, Qlen. ring. Qed.

Lemma Qsum_nonneg (xs : list Q) : Forall (λ x, 0 <= x) xs → 0 <= Qsum xs.
Proof. induction 1; simpl; [lra | lra]. Qed.

Lemma sum_sq_dev_nonneg xs : 0 <= sum_sq_dev xs.
Proof. apply Qsum_nonneg, Forall_forall. intros y Hy. apply list_elem_of_fmap in Hy as (x & -> & _). exact (Qsqr_nonneg (x - Qmean xs)). Qed.

Lemma Qlen_pos xs : xs ≠ [] → 0 < Qlen xs.
Proof.
  intros Hne. unfold Qlen. destruct xs; [done|]. unfold Qlt. simpl. lia.
Qed.

#[export] Instance Qmean_proper : Proper (Forall2 Qeq ==> Qeq) Qmean.
Proof.
  intros xs ys H. unfold Qmean, Qlen. rewrite (Forall2_length _ _ _ H). by rewrite H.
Qed.

#[export] Instance sum_sq_dev_proper : Proper (Forall2 Qeq ==> Qeq) sum_sq_dev.
Proof.
  intros xs ys H. unfold sum_sq_dev. apply Qsum_proper.
  apply Forall2_fmap. eapply Forall2_impl; [exact H|]. intros x y Hxy. simpl.
  by rewrite Hxy, H.
Qed.

#[export] Instance Qvar_pop_proper : Proper (Forall2 Qeq ==> Qeq) Qvar_pop.
Proof.
  intros xs ys H. unfold Qvar_pop, Qlen. rewrite (Forall2_length _ _ _ H). by rewrite H.
Qed.

#[export] Instance Qvar_sample_proper : Proper (Forall2 Qeq ==> Qeq) Qvar_sample.
Proof.
  intros xs ys H. unfold Qvar_sample, Qlen. rewrite (Forall2_length _ _ _ H). by rewrite H.
Qed.

#[export] Instance skipna_proper : Proper (Forall2 opt_Qeq ==> Forall2 Qeq) skipna.
Proof.
  intros r1 r2 H. induction H as [|a b r1 r2 Hab _ IH]; [constructor|].
  destruct Hab; simpl; [constructor|]; done.
Qed.

Lemma Qeq_bool_ext a b : a == b → Qeq_bool a 0 = Qeq_bool b 0.
Proof.
  intros H. destruct (Qeq_bool a 0) eqn:Ea, (Qeq_bool b 0) eqn:Eb; try done.
  - apply Qeq_bool_eq in Ea. apply Qeq_bool_neq in Eb. rewrite <- H in Eb. contradiction.
  - apply Qeq_bool_neq in Ea. apply Qeq_bool_eq in Eb. rewrite H in Ea. contradiction.
Qed.

Lemma Qeq_bool_scale k v : ¬ k == 0 → Qeq_bool (k * k * v) 0 = Qeq_bool v 0.
Proof.
  intros Hk. destruct (Qeq_bool v 0) eqn:Ev.
  - apply Qeq_bool_eq in Ev. apply Qeq_bool_iff. rewrite Ev. ring.
  - apply Qeq_bool_neq in Ev. apply not_true_iff_false. rewrite Qeq_bool_iff.
    intros H. apply Qmult_integral in H as [H|H]; [apply Qmult_integral in H as [H|H]|]; auto.
Qed.

(** ** Real-number lemmas *)

Open Scope R_scope.

Lemma Q2R_zero : Q2R 0 = 0.
Proof. unfold Q2R. simpl. ring. Qed.

Lemma Q2R_pos q : (0 < q)%Q → 0 < Q2R q.
Proof. intros H. rewrite <- Q2R_zero. by apply Qlt_Rlt. Qed.

Lemma Q2R_nonneg q : (0 <= q)%Q → 0 <= Q2R q.
Proof. intros H. rewrite <- Q2R_zero. by apply Qle_Rle. Qed.

Lemma sqrt_scale k v : 0 <= k → 0 <= v → sqrt (k * k * v) = k * sqrt v.
Proof. intros Hk Hv. rewrite sqrt_mult_alt, sqrt_square by nra. reflexivity. Qed.

(** A variance that is not zero has a positive square root. *)
Lemma sqrt_var_pos v : (0 <= v)%Q → Qeq_bool v 0 = false → 0 < sqrt (Q2R v).
Proof.
  intros Hv Hne. apply sqrt_lt_R0. apply Qeq_bool_neq in Hne.
  apply Q2R_pos. apply Qle_lteq in Hv as [Hv|Hv]; [done|]. by symmetry in Hv.
Qed.

Lemma Qlen_nonneg xs : (0 <= Qlen xs)%Q.
Proof. unfold Qle, Qlen. simpl. lia. Qed.

Lemma Qvar_pop_nonneg xs : (0 <= Qvar_pop xs)%Q.
Proof.
  unfold Qvar_pop, Qdiv. apply Qmult_le_0_compat; [apply sum_sq_dev_nonneg|].
  apply Qinv_le_0_compat, Qlen_nonneg.
Qed.

Lemma Qvar_sample_nonneg xs : (1 <= length xs)%nat → (0 <= Qvar_sample xs)%Q.
Proof.
  intros Hn. unfold Qvar_sample, Qdiv. apply Qmult_le_0_compat; [apply sum_sq_dev_nonneg|].
  apply Qinv_le_0_compat. unfold Qlen. unfold Qle, Qminus, Qplus; simpl. lia.
Qed.

(** ** [create_sharpe_ratio] *)

Lemma create_sharpe_ratio_unfold r p :
  create_sharpe_ratio r p =
  if bool_decide (skipna r = []) then None
  else if Qeq_bool (Qvar_pop (skipna r)) 0 then None
  else Some (sqrt (INR p) * (Q2R (Qmean (skipna r)) / sqrt (Q2R (Qvar_pop (skipna r))))).
Proof.
  unfold create_sharpe_ratio. destruct (skipna r) as [|x xs]; [done|].
  by rewrite bool_decide_false.
Qed.

(** the Sharpe ratio is invariant under scaling every return by the
    same positive factor: [np.mean] and [np.std] scale alike, whatever
    the NaN pattern of the series. *)
Theorem create_sharpe_ratio_scale (k : Q) r p :
  (0 < k)%Q → create_sharpe_ratio (map (option_map (Qmult k)) r) p = create_sharpe_ratio r p.
Proof.
  intros Hk. rewrite !create_sharpe_ratio_unfold, skipna_scale.
  assert (Hk0 : ¬ (k == 0)%Q) by (intros H; rewrite H in Hk; apply (Qlt_irrefl 0), Hk).
  destruct (skipna r) as [|x xs]; [done|].
  rewrite !bool_decide_false by done.
  rewrite (Qeq_bool_ext _ _ (Qvar_pop_scale k _)), Qeq_bool_scale by done.
  destruct (Qeq_bool (Qvar_pop (x :: xs)) 0) eqn:Ev; [done|].
  f_equal. rewrite (Qeq_eqR _ _ (Qmean_scale k _)), (Qeq_eqR _ _ (Qvar_pop_scale k _)), !Q2R_mult.
  pose proof (Q2R_pos _ Hk) as Hk'.
  rewrite sqrt_scale by (lra || apply Q2R_nonneg, Qvar_pop_nonneg).
  pose proof (sqrt_var_pos _ (Qvar_pop_nonneg _) Ev). field. lra.
Qed.

(** with a positive number of periods, a defined Sharpe ratio is
    positive exactly when the mean of the (non-NaN) returns is positive. *)
Theorem create_sharpe_ratio_sign r p s :
  (0 < p)%nat → create_sharpe_ratio r p = Some s → (0 < s ↔ (0 < Qmean (skipna r))%Q).
Proof.
  intros Hp. rewrite create_sharpe_ratio_unfold.
  destruct (bool_decide _); [discriminate|].
  destruct (Qeq_bool (Qvar_pop (skipna r)) 0) eqn:Ev; [discriminate|]. intros [= <-].
  pose proof (sqrt_var_pos _ (Qvar_pop_nonneg _) Ev) as Hsd.
  assert (0 < sqrt (INR p)) by (apply sqrt_lt_R0, lt_0_INR; lia).
  set (sd := sqrt (Q2R (Qvar_pop (skipna r)))) in *.
  replace (sqrt (INR p) * (Q2R (Qmean (skipna r)) / sd))
    with (sqrt (INR p) / sd * Q2R (Qmean (skipna r))) by (field; lra).
  assert (Hc : 0 < sqrt (INR p) / sd) by (apply Rdiv_lt_0_compat; lra).
  split; intros Hpos.
  - apply Rlt_Qlt. rewrite Q2R_zero. nra.
  - apply Q2R_pos in Hpos. nra.
Qed.

(** (spec scenario 4): returns with mean 0.001 and population
    deviation 0.01 over 252 periods give the ratio [sqrt 252 * 0.1]; the
    leading NaN of [pct_change] is skipped. *)
Theorem create_sharpe_ratio_scenario4 :
  create_sharpe_ratio [None; Some (11#1000); Some (-9#1000)] 252 = Some (sqrt 252 * / 10).
Proof.
  rewrite create_sharpe_ratio_unfold.
  change (skipna [None; Some (11#1000); Some (-9#1000)]) with [11#1000; -9#1000].
  rewrite bool_decide_false by discriminate.
  assert (Hv : (Qvar_pop [11#1000; -9#1000] == 1#10000)%Q) by (vm_compute; reflexivity).
  assert (Hm : (Qmean [11#1000; -9#1000] == 1#1000)%Q) by (vm_compute; reflexivity).
  assert (Qeq_bool (Qvar_pop [11#1000; -9#1000]) 0 = false) as -> by (vm_compute; reflexivity).
  f_equal. rewrite (Qeq_eqR _ _ Hm), (Qeq_eqR _ _ Hv), INR_IZR_INZ.
  unfold Q2R. simpl.
  replace (1 * / 10000) with (/ 100 * / 100) by field.
  rewrite sqrt_square by lra. change (Z.of_nat 252) with 252%Z. field.
Qed.

(** ** Witnesses *)


Lemma create_sharpe_ratio_scale_witness :
  (0 < 2)%Q ∧
  create_sharpe_ratio (map (option_map (Qmult 2)) demo_returns) 252 =
  create_sharpe_ratio demo_returns 252.
Proof.
  assert (H : (0 < 2)%Q) by (vm_compute; reflexivity).
  exact (conj H (create_sharpe_ratio_scale 2 _ _ H)).
Defined.

Lemma create_sharpe_ratio_sign_witness :
  (0 < 252)%nat ∧
  ∃ s, create_sharpe_ratio demo_returns 252 = Some s ∧
       (0 < s ↔ (0 < Qmean (skipna demo_returns))%Q).
Proof.
  assert (Hp : (0 < 252)%nat) by lia. split; [exact Hp|].
  destruct (create_sharpe_ratio demo_returns 252) as [s|] eqn:E.
  - exists s. split; [reflexivity|]. exact (create_sharpe_ratio_sign _ _ _ Hp E).
  - exfalso. revert E. rewrite create_sharpe_ratio_unfold.
    rewrite bool_decide_false by (vm_compute; discriminate).
    assert (Qeq_bool (Qvar_pop (skipna demo_returns)) 0 = false) as -> by (vm_compute; reflexivity).
    discriminate.
Defined.

(** ** The market-neutral ratio on dated Series *)

Lemma date_lookup_zip_map (f : option Q → option Q → option Q) (ds : list Z) xs ys :
  NoDup ds → length xs = length ds → length ys = length ds →
  map (λ dr, f dr.2 (date_lookup dr.1 (zip ds ys))) (zip ds xs) = zip_with f xs ys.
Proof.
  revert xs ys. induction ds as [|d ds IH]; intros [|x xs] [|y ys] Hnd Hx Hy; try discriminate; [done|].
  apply NoDup_cons in Hnd as [Hd Hnd]. cbn. rewrite bool_decide_true by done. f_equal.
  rewrite <-(IH xs ys Hnd) by (cbn in Hx, Hy; lia). apply map_ext_in. intros [d' x'] Hin%list_elem_of_In.
  cbn. rewrite bool_decide_false; [done|]. intros ->. apply Hd. exact (elem_of_zip_l _ _ _ _ Hin).
Qed.

Lemma date_lookup_missing d col : d ∉ col.*1 → date_lookup d col = None.
Proof.
  induction col as [|[d' r] col IH]; intros Hd; [done|]. cbn. rewrite bool_decide_false by set_solver.
  apply IH. set_solver.
Qed.

Lemma skipna_map_None {A} (l : list A) : skipna (map (λ _, None) l) = [].
Proof. by induction l. Qed.

(** C22: [market_neutral_sharpe] aligns the benchmark on the ticker's
    dates as pandas does, not by position: when the two frames have the
    same dates (each once), it is the annualised ratio of [(r_t - r_b)/2]
    over the two return series date by date; when no date of the ticker
    is a date of the benchmark, every net return is NaN and the ratio is
    NaN ([None]). *)
Theorem market_neutral_sharpe_aligned ticker benchmark :
  NoDup ticker.*1 →
  (ticker.*1 = benchmark.*1 →
   market_neutral_sharpe ticker benchmark =
     annualised_sharpe
       (zip_with (λ a b, match a, b with Some x, Some y => Some ((x - y) / 2)%Q | _, _ => None end)
          (pct_change ticker.*2) (pct_change benchmark.*2)) 252) ∧
  ((∀ d, d ∈ ticker.*1 → d ∉ benchmark.*1) → market_neutral_sharpe ticker benchmark = None).
Proof.
  intros Hnd. split.
  - intros Hd. unfold market_neutral_sharpe, dated_pct_change. f_equal. rewrite <-Hd.
    assert (Hl : length benchmark = length ticker)
      by (rewrite <-(length_fmap fst benchmark), <-Hd; apply length_fmap).
    apply date_lookup_zip_map; [done | |]; by rewrite length_pct_change, !length_fmap, ?Hl.
  - intros Hdis. unfold market_neutral_sharpe.
    rewrite (map_ext_in _ (λ _, None)); [unfold annualised_sharpe; rewrite skipna_map_None; reflexivity|].
    intros [d r] Hin%list_elem_of_In. cbn.
    rewrite date_lookup_missing; [by destruct r|].
    intros ([d' r'] & -> & Hb)%list_elem_of_fmap.
    apply (Hdis d'); [exact (elem_of_zip_l _ _ _ _ Hin) | exact (elem_of_zip_l _ _ _ _ Hb)].
Qed.
(** The [__main__] block of [Sharpe.py]: when the [GOOGL] download
    fails, [ticker['Close']] raises [TypeError] before anything is
    printed; when only the [SPY] download fails, the equity Sharpe ratio
    of [GOOGL] over 2005-2012 is printed and [market_neutral_sharpe]
    raises [TypeError]; otherwise the script prints the equity ratio and
    the market-neutral ratio of the two frames. *)
Theorem sharpe_main_spec goog spy gts sts out :
  let start_date := days_from_civil 2005 1 1 in
  let end_date := days_from_civil 2013 1 1 in
  let col ts := map (λ r, (pr_date r, Some (pr_close r))) ts in
  get_daily_historic_data_alphavantage (Some goog) start_date end_date = AvFrame gts →
  get_daily_historic_data_alphavantage (Some spy) start_date end_date = AvFrame sts →
  SharpeScript.main None (Some spy) out = (out, Err (TypeError "list indices must be integers or slices, not str")) ∧
  SharpeScript.main (Some goog) None out =
    (out ++ [equity_sharpe (col gts).*2], Err (TypeError "list indices must be integers or slices, not str")) ∧
  SharpeScript.main (Some goog) (Some spy) out =
    (out ++ [equity_sharpe (col gts).*2; market_neutral_sharpe (col gts) (col sts)], Ok tt).
Proof.
  intros start_date end_date col Hg Hs. unfold SharpeScript.main, SharpeScript.get_daily_historic_data_alphavantage.
  fold start_date end_date. rewrite Hg, Hs. split_and!; [reflexivity | reflexivity |].
  unfold st_bind, st_lift, SharpeScript.print_ratio. simpl. by rewrite <-app_assoc.
Qed.

Lemma sharpe_main_spec_witness :
  let col ts := map (λ r, (pr_date r, Some (pr_close r))) ts in
  let frame data := match get_daily_historic_data_alphavantage (Some data) (days_from_civil 2005 1 1)
                            (days_from_civil 2013 1 1) with AvFrame ts => ts | AvEmptyList => [] end in
  SharpeScript.main (Some demo_goog) (Some demo_spy) [] =
    ([equity_sharpe (col (frame demo_goog)).*2; market_neutral_sharpe (col (frame demo_goog)) (col (frame demo_spy))],
     Ok tt).
Proof.
  intros col frame.
  destruct (sharpe_main_spec demo_goog demo_spy (frame demo_goog) (frame demo_spy) [])
    as (_ & _ & H); [vm_compute; reflexivity | vm_compute; reflexivity | exact H].
Defined.

Lemma market_neutral_sharpe_aligned_witness :
  market_neutral_sharpe [(1%Z, Some (100 # 1)); (2%Z, Some (102 # 1)); (3%Z, Some (101 # 1))]
                        [(1%Z, Some (50 # 1)); (2%Z, Some (101 # 2)); (3%Z, Some (50 # 1))] =
  annualised_sharpe
    (zip_with (λ a b, match a, b with Some x, Some y => Some ((x - y) / 2)%Q | _, _ => None end)
       (pct_change [Some (100 # 1); Some (102 # 1); Some (101 # 1)])
       (pct_change [Some (50 # 1); Some (101 # 2); Some (50 # 1)])) 252 ∧
  market_neutral_sharpe [(1%Z, Some (100 # 1)); (2%Z, Some (102 # 1)); (3%Z, Some (101 # 1))]
                        [(7%Z, Some (50 # 1)); (8%Z, Some (101 # 2)); (9%Z, Some (50 # 1))] = None.
Proof.
  split.
  - refine (proj1 (market_neutral_sharpe_aligned _ _ _) _); [decide_by_eval | reflexivity].
  - refine (proj2 (market_neutral_sharpe_aligned _ _ _) _); [decide_by_eval |].
    intros d Hd. cbn in Hd |- *. set_solver.
Defined.
