(* ===== verification/Backtest.v ===== *)
(** * Backtest: [backtest.py], class [Backtest]

    The state of a backtest is the record [backtest]: the data handler,
    strategy, portfolio and execution handler it drives, the one event
    queue they all put on ([bt_events], a FIFO list whose head is the next
    [events.get(False)]), and the three counters.  [dispatch] is one pass
    of the inner [while] loop's body, [drain] the inner loop, [run_backtest]
    the heartbeat loop.

    The inner loop runs until the queue is empty while its own handlers
    refill it; [drain] takes fuel, and [drain_fuel] (one more than the
    queue's weight [queue_weight]) is proved to be enough: every dispatch
    lowers the weight, because the strategy emits at most [max_signals]
    SIGNALs per MARKET, the portfolio at most one item per SIGNAL and the
    execution handler at most [max_fills] FILLs per ORDER.  The heartbeat
    loop takes fuel [S (bars_remaining d)], which is enough by the
    [update_bars_progress] law. *)

From S2P Require Import Prelude Events Interfaces Collaborators Portfolio.

Local Open Scope nat_scope.

Section Backtest.
Context {D St X : Type} `{!DataHandler D, !Strategy St D, !ExecutionHandler X D}.

Record backtest := mkBacktest {
  bt_data : D;
  bt_strategy : St;
  bt_portfolio : portfolio;
  bt_execution : X;
  bt_events : list queue_item;
  bt_signals : nat;
  bt_orders : nat;
  bt_fills : nat
}.

(** [Backtest.__init__] calls [self._generate_trading_instances()]
    without its required argument [strategy_params_dict]: every
    construction raises [TypeError] after the attributes are set. *)
Definition backtest_init (symbol_list : list string) (initial_capital : Q)
    (heartbeat : nat) (start_date : Z) : result backtest :=
  Err (TypeError "_generate_trading_instances() missing 1 required positional argument").

(** [_generate_trading_instances(strategy_params_dict)], the construction
    [__init__] means to perform: the data handler, strategy and execution
    handler are built by their classes (given here as their initial
    states), the portfolio by [Portfolio(data_handler, events, start_date,
    initial_capital)]; the queue is empty and the counters are 0. *)
Definition generate_trading_instances (d0 : D) (s0 : St) (x0 : X) (start_date : Z)
    (initial_capital : Q) : backtest :=
  mkBacktest d0 s0 (init_portfolio d0 start_date initial_capital) x0 [] 0%nat 0%nat 0%nat.

Definition set_events (bt : backtest) (q : list queue_item) : backtest :=
  mkBacktest (bt_data bt) (bt_strategy bt) (bt_portfolio bt) (bt_execution bt) q
             (bt_signals bt) (bt_orders bt) (bt_fills bt).

(** ** One pass of the inner loop *)

Definition dispatch (bt : backtest) (item : queue_item) : result backtest :=
  match item with
  | None => Ok bt
  | Some e =>
      match e with
      | MarketEvent =>
          let '(s', out) := calculate_signals (bt_strategy bt) (bt_data bt) e in
          p' ← update_timeindex (bt_data bt) (bt_portfolio bt);
          Ok (mkBacktest (bt_data bt) s' p' (bt_execution bt)
                (bt_events bt ++ map Some out)
                (bt_signals bt) (bt_orders bt) (bt_fills bt))
      | SignalEv _ =>
          out ← update_signal (bt_portfolio bt) e;
          Ok (mkBacktest (bt_data bt) (bt_strategy bt) (bt_portfolio bt) (bt_execution bt)
                (bt_events bt ++ out)
                (S (bt_signals bt)) (bt_orders bt) (bt_fills bt))
      | OrderEv _ =>
          let '(x', out) := execute_order (bt_execution bt) (bt_data bt) e in
          Ok (mkBacktest (bt_data bt) (bt_strategy bt) (bt_portfolio bt) x'
                (bt_events bt ++ map Some out)
                (bt_signals bt) (S (bt_orders bt)) (bt_fills bt))
      | FillEv _ =>
          (* [self.fills ++ 1] is the expression [self.fills + (+1)]: the
             counter is left unchanged. *)
          p' ← update_fill (bt_data bt) e (bt_portfolio bt);
          Ok (mkBacktest (bt_data bt) (bt_strategy bt) p' (bt_execution bt)
                (bt_events bt) (bt_signals bt) (bt_orders bt) (bt_fills bt))
      end
  end.

(** The inner [while True] loop: pop the head, dispatch it, until the
    queue is empty ([queue.Empty]); [None] when the fuel runs out. *)
Fixpoint drain (fuel : nat) (bt : backtest) : option (result backtest) :=
  match fuel with
  | O => None
  | S fuel' =>
      match bt_events bt with
      | [] => Some (Ok bt)
      | item :: rest =>
          match dispatch (set_events bt rest) item with
          | Ok bt' => drain fuel' bt'
          | Err e => Some (Err e)
          end
      end
  end.

(** ** The measure of the inner loop *)

Definition item_weight (item : queue_item) : nat :=
  let w_order := S max_fills in
  let w_signal := S w_order in
  match item with
  | None => 1
  | Some MarketEvent => S (max_signals * w_signal)%nat
  | Some (SignalEv _) => w_signal
  | Some (OrderEv _) => w_order
  | Some (FillEv _) => 1
  end.

Definition queue_weight (q : list queue_item) : nat := sum_list_with item_weight q.

Definition drain_fuel (bt : backtest) : nat := S (queue_weight (bt_events bt)).

(** ** The heartbeat loop *)

Fixpoint run_backtest (fuel : nat) (bt : backtest) : option (result backtest) :=
  match fuel with
  | O => None
  | S fuel' =>
      if continue_backtest (bt_data bt) then
        let '(d', out) := update_bars (bt_data bt) in
        let bt1 := mkBacktest d' (bt_strategy bt) (bt_portfolio bt) (bt_execution bt)
                     (bt_events bt ++ map Some out)
                     (bt_signals bt) (bt_orders bt) (bt_fills bt) in
        match drain (drain_fuel bt1) bt1 with
        | Some (Ok bt2) => run_backtest fuel' bt2
        | r => r
        end
      else Some (Ok bt)
  end.

Definition run_fuel (bt : backtest) : nat := S (bars_remaining (bt_data bt)).

(** The step of the heartbeat loop before its inner loop. *)
Definition heartbeat_state (bt : backtest) : backtest :=
  mkBacktest (update_bars (bt_data bt)).1 (bt_strategy bt) (bt_portfolio bt) (bt_execution bt)
    (bt_events bt ++ map Some (update_bars (bt_data bt)).2)
    (bt_signals bt) (bt_orders bt) (bt_fills bt).

End Backtest.

Arguments backtest : clear implicits.

Definition market_count (q : list queue_item) : nat :=
  sum_list_with (λ i, match i with Some MarketEvent => 1 | _ => 0 end) q.

Definition demo_ticks : list tick :=
  [mkTick 1 (<["X" := 10%Q]> ∅); mkTick 2 (<["X" := 12%Q]> ∅); mkTick 3 (<["X" := 11%Q]> ∅)].

Definition demo_bt : backtest HistoricBars bool Q :=
  generate_trading_instances (mkHistoricBars ["X"] None demo_ticks) false 1%Q 0%Z 100000%Q.

Section Termination.
Context {D St X : Type} `{!DataHandler D, !Strategy St D, !ExecutionHandler X D}.
Implicit Types (bt : backtest D St X).

(** ** Weights *)

Lemma queue_weight_app (q1 q2 : list queue_item) :
  queue_weight (q1 ++ q2) = (queue_weight q1 + queue_weight q2)%nat.
Proof. apply sum_list_with_app. Qed.

Lemma queue_weight_uniform (l : list event) (w : nat) :
  Forall (λ e, item_weight (Some e) = w) l →
  queue_weight (map Some l) = (length l * w)%nat.
Proof.
  unfold queue_weight. induction 1 as [|e l He _ IH]; [done|].
  cbn [map sum_list_with length]. rewrite He, IH. lia.
Qed.

Lemma signals_weight s d e :
  queue_weight (map Some (calculate_signals s d e).2) ≤ max_signals * S (S max_fills).
Proof.
  rewrite (queue_weight_uniform _ (S (S max_fills))).
  - apply Nat.mul_le_mono_r, calculate_signals_bound.
  - eapply Forall_impl; [apply calculate_signals_kind|]. intros [] ?; done.
Qed.

Lemma fills_weight x d e : queue_weight (map Some (execute_order x d e).2) ≤ max_fills.
Proof.
  rewrite (queue_weight_uniform _ 1).
  - pose proof (execute_order_bound x d e). lia.
  - eapply Forall_impl; [apply execute_order_kind|]. intros [] ?; done.
Qed.

Lemma update_signal_weight p e out :
  update_signal p e = Ok out → queue_weight out ≤ S max_fills.
Proof.
  destruct e; simpl; try (intros [= <-]; simpl; lia).
  destruct (generate_naive_order p s) as [o|]; [|discriminate]. simpl.
  intros [= <-]. destruct o; simpl; unfold queue_weight; simpl; lia.
Qed.

(** Every dispatch lowers the weight of the queue by at least one. *)
Lemma dispatch_weight bt item bt' :
  dispatch bt item = Ok bt' →
  queue_weight (bt_events bt') < queue_weight (bt_events bt) + item_weight item.
Proof.
  destruct item as [e|]; cbn [dispatch]; [|intros [= <-]; cbn [item_weight]; lia].
  destruct e as [|sg|o|f].
  - pose proof (signals_weight (bt_strategy bt) (bt_data bt) MarketEvent) as Hw.
    destruct (calculate_signals (bt_strategy bt) (bt_data bt) MarketEvent) as [s' out] eqn:E.
    destruct (update_timeindex (bt_data bt) (bt_portfolio bt)); simpl; [|discriminate].
    intros [= <-]. simpl. rewrite queue_weight_app. simpl in Hw. lia.
  - destruct (update_signal (bt_portfolio bt) (SignalEv sg)) as [out|] eqn:E; simpl;
      [|discriminate].
    intros [= <-]. simpl. rewrite queue_weight_app. pose proof (update_signal_weight _ _ _ E). lia.
  - pose proof (fills_weight (bt_execution bt) (bt_data bt) (OrderEv o)) as Hw.
    destruct (execute_order (bt_execution bt) (bt_data bt) (OrderEv o)) as [x' out] eqn:E.
    intros [= <-]. simpl. rewrite queue_weight_app. simpl in Hw. lia.
  - destruct (update_fill (bt_data bt) (FillEv f) (bt_portfolio bt)); simpl; [|discriminate].
    intros [= <-]. simpl. lia.
Qed.
(** What one dispatch may change: not the data handler, not the fills
    counter, and the portfolio only through [update_timeindex] or
    [update_fill]. *)
Lemma dispatch_cases bt item bt' :
  dispatch bt item = Ok bt' →
  bt_data bt' = bt_data bt ∧ bt_fills bt' = bt_fills bt ∧
  (bt_portfolio bt' = bt_portfolio bt ∨
   update_timeindex (bt_data bt) (bt_portfolio bt) = Ok (bt_portfolio bt') ∨
   ∃ e, update_fill (bt_data bt) e (bt_portfolio bt) = Ok (bt_portfolio bt')).
Proof.
  destruct item as [e|]; cbn [dispatch]; [|intros [= <-]; auto].
  destruct e as [|sg|o|f].
  - destruct (calculate_signals (bt_strategy bt) (bt_data bt) MarketEvent) as [s' out].
    destruct (update_timeindex (bt_data bt) (bt_portfolio bt)) eqn:E; simpl; [|discriminate].
    intros [= <-]. simpl. auto.
  - destruct (update_signal (bt_portfolio bt) (SignalEv sg)); simpl; [|discriminate].
    intros [= <-]. simpl. auto.
  - destruct (execute_order (bt_execution bt) (bt_data bt) (OrderEv o)). intros [= <-]. simpl. auto.
  - destruct (update_fill (bt_data bt) (FillEv f) (bt_portfolio bt)) eqn:E; simpl;
      [|discriminate].
    intros [= <-]. simpl. eauto 6.
Qed.

(** ** Rule induction over the two loops *)

Lemma drain_preserves (P : backtest D St X → Prop) n bt bt' :
  (∀ b item rest b', bt_events b = item :: rest → P b →
     dispatch (set_events b rest) item = Ok b' → P b') →
  P bt → drain n bt = Some (Ok bt') → P bt'.
Proof.
  intros Hstep. revert bt. induction n as [|n IH]; intros bt Hbt; cbn [drain];
    [discriminate|].
  destruct (bt_events bt) as [|item rest] eqn:Eq; [by intros [= <-]|].
  destruct (dispatch (set_events bt rest) item) as [b|e] eqn:E; [|discriminate].
  apply IH. exact (Hstep bt item rest b Eq Hbt E).
Qed.

Lemma run_preserves (P : backtest D St X → Prop) n bt bt' :
  (∀ b, continue_backtest (bt_data b) = true → P b → P (heartbeat_state b)) →
  (∀ b item rest b', bt_events b = item :: rest → P b →
     dispatch (set_events b rest) item = Ok b' → P b') →
  P bt → run_backtest n bt = Some (Ok bt') → P bt'.
Proof.
  intros Hhb Hstep. revert bt. induction n as [|n IH]; intros bt Hbt; cbn [run_backtest];
    [discriminate|].
  destruct (continue_backtest (bt_data bt)) eqn:Hc; [|by intros [= <-]].
  pose proof (Hhb bt Hc Hbt) as Hb1. unfold heartbeat_state in Hb1.
  destruct (update_bars (bt_data bt)) as [d' out]. cbv beta iota.
  match goal with |- context [drain ?f ?b] => destruct (drain f b) as [[b2|e]|] eqn:E end;
    [|discriminate|discriminate].
  apply IH. eapply drain_preserves; [exact Hstep | exact Hb1 | exact E].
Qed.

(** A property of the fields a heartbeat leaves alone. *)
Lemma run_preserves_simple (P : backtest D St X → Prop) n bt bt' :
  (∀ b d q, P b → P (mkBacktest d (bt_strategy b) (bt_portfolio b) (bt_execution b) q
                                (bt_signals b) (bt_orders b) (bt_fills b))) →
  (∀ b item b', P b → dispatch b item = Ok b' → P b') →
  P bt → run_backtest n bt = Some (Ok bt') → P bt'.
Proof.
  intros Hmk Hd. apply run_preserves.
  - intros b _ Hb. apply Hmk, Hb.
  - intros b item rest b' _ Hb E. eapply Hd; [apply Hmk, Hb | exact E].
Qed.

(** ** The inner loop always finishes *)

Lemma drain_total n bt : queue_weight (bt_events bt) < n → ∃ r, drain n bt = Some r.
Proof.
  revert bt. induction n as [|n IH]; intros bt Hw; [lia|]. cbn [drain].
  destruct (bt_events bt) as [|item rest] eqn:Eq; [eauto|].
  destruct (dispatch (set_events bt rest) item) as [b|e] eqn:E; [|eauto].
  apply IH. pose proof (dispatch_weight _ _ _ E) as Hd. simpl in Hd.
  unfold queue_weight in *. simpl in Hw. lia.
Qed.

Lemma drain_empty n bt bt' : drain n bt = Some (Ok bt') → bt_events bt' = [].
Proof.
  revert bt. induction n as [|n IH]; intros bt; cbn [drain]; [discriminate|].
  destruct (bt_events bt) as [|item rest] eqn:Eq; [by intros [= <-]|].
  destruct (dispatch (set_events bt rest) item); [apply IH | discriminate].
Qed.

(** C8: the inner [while True] loop of [_run_backtest] terminates with
    the fuel [drain_fuel]: it returns a result (or the exception a
    handler raised), and on success the queue is empty, so no event put on
    the queue during the heartbeat is left unprocessed, and the data
    handler has not moved. *)
Theorem drain_terminates bt :
  ∃ r, drain (drain_fuel bt) bt = Some r ∧
    ∀ bt', r = Ok bt' → bt_events bt' = [] ∧ bt_data bt' = bt_data bt.
Proof.
  destruct (drain_total (drain_fuel bt) bt) as [r Hr]; [unfold drain_fuel; lia|].
  exists r. split; [done|]. intros bt' ->. split; [exact (drain_empty _ _ _ Hr)|].
  eapply (drain_preserves (λ b, bt_data b = bt_data bt)); [| done | exact Hr].
  intros b item rest b' _ Hb Hd. by rewrite (proj1 (dispatch_cases _ _ _ Hd)).
Qed.

(** ** The heartbeat loop always finishes *)

Lemma run_total n bt : bars_remaining (bt_data bt) < n → ∃ r, run_backtest n bt = Some r.
Proof.
  revert bt. induction n as [|n IH]; intros bt Hn; [lia|]. cbn [run_backtest].
  destruct (continue_backtest (bt_data bt)) eqn:Hc; [|eauto].
  pose proof (update_bars_progress _ Hc) as Hprog.
  destruct (update_bars (bt_data bt)) as [d' out]. cbv beta iota. simpl in Hprog.
  match goal with |- context [drain ?f ?b] =>
    destruct (drain_terminates b) as [r [Hr Hok]]; rewrite Hr end.
  destruct r as [b2|e]; [|eauto].
  destruct (Hok b2 eq_refl) as [_ Hd]. apply IH. rewrite Hd. simpl. lia.
Qed.

Lemma run_stops n bt bt' :
  run_backtest n bt = Some (Ok bt') → continue_backtest (bt_data bt') = false.
Proof.
  revert bt. induction n as [|n IH]; intros bt; cbn [run_backtest]; [discriminate|].
  destruct (continue_backtest (bt_data bt)) eqn:Hc; [|by intros [= <-]].
  destruct (update_bars (bt_data bt)) as [d' out]. cbv beta iota.
  match goal with |- context [drain ?f ?b] => destruct (drain f b) as [[b2|e]|] end;
    [apply IH | discriminate | discriminate].
Qed.

(** C7: the heartbeat loop of [_run_backtest] terminates with the fuel
    [run_fuel] (one more than the bars left): it returns a result (or the
    exception a handler raised), and on success the data handler reports
    that no data remains. *)
Theorem run_backtest_terminates bt :
  ∃ r, run_backtest (run_fuel bt) bt = Some r ∧
    ∀ bt', r = Ok bt' → continue_backtest (bt_data bt') = false.
Proof.
  destruct (run_total (run_fuel bt) bt) as [r Hr]; [unfold run_fuel; lia|].
  exists r. split; [done|]. intros bt' ->. exact (run_stops _ _ _ Hr).
Qed.

Lemma run_events_empty n bt bt' :
  bt_events bt = [] → run_backtest n bt = Some (Ok bt') → bt_events bt' = [].
Proof.
  revert bt. induction n as [|n IH]; intros bt He; cbn [run_backtest]; [discriminate|].
  destruct (continue_backtest (bt_data bt)) eqn:Hc; [|by intros [= <-]].
  destruct (update_bars (bt_data bt)) as [d' out]. cbv beta iota.
  match goal with |- context [drain ?f ?b] => destruct (drain f b) as [[b2|e]|] eqn:E end;
    [|discriminate|discriminate].
  apply IH. exact (drain_empty _ _ _ E).
Qed.

(** C9: the [fills] counter never changes during a run: [self.fills ++ 1]
    parses as [self.fills + (+1)], an expression statement, so the
    "Fills" figure [_output_performance] prints is always the initial 0
    whatever the number of FILL events. *)
Theorem run_backtest_fills_unchanged n bt bt' :
  run_backtest n bt = Some (Ok bt') → bt_fills bt' = bt_fills bt.
Proof.
  apply (run_preserves_simple (λ b, bt_fills b = bt_fills bt)); [done | | done].
  intros b item b' Hb Hd. by rewrite (proj1 (proj2 (dispatch_cases _ _ _ Hd))).
Qed.

(** C3: the portfolio's bookkeeping invariant holds in every state the
    backtest reaches: if it holds at the start, it holds after any run
    that returns, whatever the strategy, data and execution handler do. *)
Theorem run_backtest_portfolio_inv n bt bt' :
  portfolio_inv (bt_portfolio bt) →
  run_backtest n bt = Some (Ok bt') → portfolio_inv (bt_portfolio bt').
Proof.
  intros Hinv. apply (run_preserves_simple (λ b, portfolio_inv (bt_portfolio b))); [done | | done].
  intros b item b' Hb Hd. destruct (dispatch_cases _ _ _ Hd) as (_ & _ & [->|[H|[e H]]]).
  - done.
  - exact (update_timeindex_inv _ _ _ Hb H).
  - exact (update_fill_inv _ _ _ _ Hb H).
Qed.

End Termination.


(** ** Runs over the historic bar feed *)


Lemma market_count_app q1 q2 : market_count (q1 ++ q2) = market_count q1 + market_count q2.
Proof. apply sum_list_with_app. Qed.

Lemma market_count_none (l : list event) :
  Forall (λ e, is_market e = false) l → market_count (map Some l) = 0.
Proof. induction 1 as [|[] l He _ IH]; by cbn in *. Qed.

Lemma market_count_kind (k : event → bool) (l : list event) :
  (∀ e, k e = true → is_market e = false) →
  Forall (λ e, k e = true) l → market_count (map Some l) = 0.
Proof. intros Hk Hl. apply market_count_none. eapply Forall_impl; [exact Hl | exact Hk]. Qed.

Lemma update_signal_market p e out : update_signal p e = Ok out → market_count out = 0.
Proof.
  destruct e; simpl; try (intros [= <-]; done).
  destruct (generate_naive_order p s) as [o|]; [|discriminate]. simpl.
  intros [= <-]. by destruct o.
Qed.

Section Feed.
Context {St X : Type} `{!Strategy St HistoricBars, !ExecutionHandler X HistoricBars}.
Implicit Types (b : backtest HistoricBars St X).

(** Snapshots taken, ticks left and MARKET events queued: a heartbeat
    moves one tick to the queue, a MARKET dispatch moves it to the
    snapshots. *)
Definition feed_measure b : nat :=
  length (all_positions (bt_portfolio b)) + length (hb_pending (bt_data b)) +
  market_count (bt_events b).

Lemma heartbeat_feed b :
  continue_backtest (bt_data b) = true → feed_measure (heartbeat_state b) = feed_measure b.
Proof.
  unfold feed_measure, heartbeat_state. cbn [continue_backtest update_bars HistoricBars_DataHandler
    bt_data bt_portfolio bt_events hb_continue hb_update_bars].
  unfold hb_continue, hb_update_bars.
  destruct (hb_pending (bt_data b)) as [|t rest]; intros Hc; [discriminate Hc|].
  cbn [hb_pending fst snd length map]. rewrite market_count_app. cbn. lia.
Qed.

Lemma dispatch_feed b item rest b' :
  bt_events b = item :: rest → dispatch (set_events b rest) item = Ok b' →
  feed_measure b' = feed_measure b.
Proof.
  unfold feed_measure. intros Heq. rewrite Heq.
  destruct item as [e|]; cbn [dispatch]; [|intros [= <-]; done].
  destruct e as [|sg|o|f]; cbn [set_events bt_data bt_portfolio bt_strategy bt_execution bt_events].
  - pose proof (calculate_signals_kind (bt_strategy b) (bt_data b) MarketEvent) as Hk.
    destruct (calculate_signals (bt_strategy b) (bt_data b) MarketEvent) as [s' out].
    destruct (update_timeindex (bt_data b) (bt_portfolio b)) as [p'|] eqn:E; simpl; [|discriminate].
    intros [= <-]. destruct (update_timeindex_shape _ _ _ E) as (dt & dp & dh & ->).
    cbn. rewrite market_count_app, length_app, (market_count_kind is_signal); [cbn; lia| |done].
    by intros [].
  - destruct (update_signal (bt_portfolio b) (SignalEv sg)) as [out|] eqn:E; simpl; [|discriminate].
    intros [= <-]. cbn. rewrite market_count_app, (update_signal_market _ _ _ E). lia.
  - pose proof (execute_order_kind (bt_execution b) (bt_data b) (OrderEv o)) as Hk.
    destruct (execute_order (bt_execution b) (bt_data b) (OrderEv o)) as [x' out].
    intros [= <-]. cbn. rewrite market_count_app, (market_count_kind is_fill);
      [unfold market_count; cbn; lia | by intros [] | exact Hk].
  - destruct (update_fill (bt_data b) (FillEv f) (bt_portfolio b)) as [p'|] eqn:E; simpl;
      [|discriminate].
    intros [= <-]. cbn. rewrite (proj1 (update_fill_snapshots _ _ _ _ E)). unfold market_count. cbn. lia.
Qed.

(** C11: spec scenario 5.  Over a feed of [N] ticks, a run that starts
    with an empty queue and returns processes exactly [N] MARKET events:
    [update_timeindex] is called [N] times, so the position history grows
    by [N] snapshots, and the feed is exhausted. *)
Theorem run_backtest_market_events n b b' :
  bt_events b = [] → run_backtest n b = Some (Ok b') →
  length (all_positions (bt_portfolio b')) =
    length (all_positions (bt_portfolio b)) + length (hb_pending (bt_data b)) ∧
  hb_pending (bt_data b') = [].
Proof.
  intros He Hr.
  assert (feed_measure b' = feed_measure b) as Hm.
  { apply (run_preserves (λ x, feed_measure x = feed_measure b) n b b'); [| |done|done].
    - intros x Hc Hx. by rewrite heartbeat_feed.
    - intros x item rest x' Heq Hx Hd. by rewrite (dispatch_feed _ _ _ _ Heq Hd). }
  pose proof (run_events_empty _ _ _ He Hr) as He'. pose proof (run_stops _ _ _ Hr) as Hs.
  unfold feed_measure in Hm. rewrite He, He' in Hm. cbn in Hs. unfold hb_continue in Hs.
  destruct (hb_pending (bt_data b')); [|discriminate]. cbn in Hm. split; [lia | done].
Qed.

End Feed.

(** ** A concrete run: three ticks of one symbol, [FirstBarLong], [SimExec] *)


Lemma run_backtest_fills_unchanged_witness :
  ∃ b', run_backtest (run_fuel demo_bt) demo_bt = Some (Ok b') ∧
        bt_orders b' = 1 ∧ bt_fills b' = 0.
Proof.
  destruct (run_backtest (run_fuel demo_bt) demo_bt) as [[b'|e]|] eqn:E;
    [|vm_compute in E; discriminate E ..].
  refine (ex_intro _ b' (conj eq_refl (conj _ (run_backtest_fills_unchanged _ _ _ E)))).
  vm_compute in E. injection E as <-. reflexivity.
Defined.

Lemma run_backtest_portfolio_inv_witness :
  portfolio_inv (bt_portfolio demo_bt) ∧
  ∃ b', run_backtest (run_fuel demo_bt) demo_bt = Some (Ok b') ∧
        portfolio_inv (bt_portfolio b').
Proof.
  assert (portfolio_inv (bt_portfolio demo_bt)) as Hinv.
  { apply init_inv; decide_by_eval. }
  split; [exact Hinv|].
  destruct (run_backtest (run_fuel demo_bt) demo_bt) as [[b'|e]|] eqn:E;
    [|vm_compute in E; discriminate E ..].
  exact (ex_intro _ b' (conj eq_refl (run_backtest_portfolio_inv _ _ _ Hinv E))).
Defined.

Lemma run_backtest_market_events_witness :
  ∃ b', run_backtest (run_fuel demo_bt) demo_bt = Some (Ok b') ∧
        length (all_positions (bt_portfolio b')) = 4 ∧ hb_pending (bt_data b') = [].
Proof.
  destruct (run_backtest (run_fuel demo_bt) demo_bt) as [[b'|e]|] eqn:E;
    [|vm_compute in E; discriminate E ..].
  destruct (run_backtest_market_events _ demo_bt _ eq_refl E) as [H1 H2].
  exists b'. split; [reflexivity|]. split; [rewrite H1; reflexivity | exact H2].
Defined.
