(* ===== verification/Reporting.v ===== *)
(** * Reporting: the equity curve and the summary statistics

    [Portfolio.create_equity_curve_dataframe] and
    [Portfolio.output_summary_stats] ([portfolio.py]), and
    [Backtest._output_performance] and [Backtest.simulate_trading]
    ([backtest.py]).  The equity curve DataFrame is kept as the columns the
    statistics read ([curve_datetime], [curve_total], [curve_returns],
    [curve_equity]); the statistics are kept as numbers, before the
    ["%0.2f"] formatting, whose rounding is not modelled.  A NaN is [None]
    as in [Performance]. *)

From S2P Require Import Prelude Events Interfaces Collaborators Portfolio.
From S2P Require Import Performance Sharpe Backtest.
From Stdlib Require Import Reals.

Local Open Scope Q_scope.

(** ** The equity curve *)

Record equity_curve := mkCurve {
  curve_datetime : list Z;
  curve_total : list (option Q);
  curve_returns : list (option Q);
  curve_equity : list (option Q)
}.

(** pandas' [Series.cumprod()] with [skipna=True]: a NaN entry stays NaN
    and does not reset the running product. *)
Fixpoint cumprod_from (acc : Q) (xs : list (option Q)) : list (option Q) :=
  match xs with
  | [] => []
  | None :: rest => None :: cumprod_from acc rest
  | Some x :: rest => Some (acc * x) :: cumprod_from (acc * x) rest
  end.

Definition cumprod (xs : list (option Q)) : list (option Q) := cumprod_from 1 xs.

(** [curve = pd.DataFrame(self.all_holdings)] indexed by ["datetime"];
    the ['total'] column holds NaN for a snapshot without that key. *)
Definition holdings_totals (p : portfolio) : list (option Q) :=
  map (λ row, row.2 !! "total") (all_holdings p).

(** [curve['returns'] = curve['total'].pct_change()],
    [curve['equity_curve'] = (1.0 + curve['returns']).cumprod()]. *)
Definition create_equity_curve_dataframe (p : portfolio) : equity_curve :=
  let returns := pct_change (holdings_totals p) in
  mkCurve (map fst (all_holdings p)) (holdings_totals p) returns
          (cumprod (map (option_map (Qplus 1)) returns)).

(** ** The summary statistics *)

(** The four entries of [stats], as the numbers that are formatted:
    ["Total Return"] is [(total_return - 1) * 100], ["Max Drawdown"] is
    [max_dd * 100], ["Drawdown Duration"] is formatted by ["%d"]. *)
Record summary_stats := mkStats {
  stat_total_return : option Q;
  stat_sharpe : option R;
  stat_max_drawdown : option Q;
  stat_duration : nat
}.

(** [output_summary_stats]: [total_return] is the last entry of the equity
    curve ([IndexError] on an empty curve), the Sharpe ratio is taken over
    the returns with [periods=252], the drawdowns over the equity curve;
    ["%d" % dd_duration] raises [ValueError] when the maximum duration is
    NaN.  The drawdown series is returned with the statistics: it is the
    column the method adds to [self.equity_curve]. *)
Definition output_summary_stats (c : equity_curve)
    : result (summary_stats * list (option Q)) :=
  total_return ← (match last (curve_equity c) with
                  | Some v => Ok v
                  | None => Err IndexError
                  end);
  let sharpe_ratio := create_sharpe_ratio (curve_returns c) 252 in
  let '(drawdown, max_dd, dd_duration) := create_drawdowns (curve_equity c) in
  dur ← (match dd_duration with
         | Some n => Ok n
         | None => Err (ValueError "cannot convert float NaN to integer")
         end);
  Ok (mkStats (option_map (λ v, (v - 1) * 100) total_return) sharpe_ratio
              (option_map (λ m, m * 100) max_dd) dur, drawdown).

(** ** [Backtest._output_performance] and [Backtest.simulate_trading] *)

(** What [_output_performance] prints: the statistics, the equity curve and
    the three counters. *)
Record report := mkReport {
  report_stats : summary_stats;
  report_curve : equity_curve;
  report_signals : nat;
  report_orders : nat;
  report_fills : nat
}.

Definition output_performance {D St X} (bt : backtest D St X) : result report :=
  let c := create_equity_curve_dataframe (bt_portfolio bt) in
  sd ← output_summary_stats c;
  Ok (mkReport sd.1 c (bt_signals bt) (bt_orders bt) (bt_fills bt)).

(** [self._run_backtest()] then [self._output_performance()], on a
    [Backtest] object.  [Backtest.__init__] never returns one
    ([backtest_init] raises [TypeError]), so no call of the method is
    reached from the scripts. *)
Definition simulate_trading {D St X} `{!DataHandler D, !Strategy St D, !ExecutionHandler X D}
    (fuel : nat) (bt : backtest D St X) : option (result report) :=
  match run_backtest fuel bt with
  | Some (Ok bt') => Some (output_performance bt')
  | Some (Err e) => Some (Err e)
  | None => None
  end.

(** ** The equity curve is the total normalised by the starting total *)

(** The portfolio at the end of the three-tick run of [Backtest.demo_bt]. *)
Definition demo_final : portfolio :=
  match run_backtest (run_fuel demo_bt) demo_bt with
  | Some (Ok b) => bt_portfolio b
  | _ => bt_portfolio demo_bt
  end.

Lemma cumprod_pct_change (acc prev c : Q) (ts : list Q) :
  ¬ prev == 0 → acc == prev * c → Forall (λ t, ¬ t == 0) ts →
  ∃ es, cumprod_from acc (map (option_map (Qplus 1)) (pct_change_from (Some prev) (map Some ts)))
          = map Some es ∧ Forall2 (λ e t, e == t * c) es ts.
Proof.
  intros Hp Hacc Hts. revert acc prev Hp Hacc.
  induction Hts as [|t ts Ht Hts IH]; intros acc prev Hp Hacc; [by exists []|].
  cbn [map pct_change_from pct_ratio]. rewrite (Qeq_bool_false prev) by done. cbn.
  assert (Hstep : acc * (1 + (t / prev - 1)) == t * c)
    by (rewrite Hacc; field; exact Hp).
  destruct (IH (acc * (1 + (t / prev - 1))) t Ht) as (es & Hes & Hrel);
    [rewrite Hstep; ring |].
  exists (acc * (1 + (t / prev - 1)) :: es). rewrite Hes. split; [done|]. by constructor.
Qed.

Lemma equity_curve_totals p t0 ts :
  holdings_totals p = Some t0 :: map Some ts → ¬ t0 == 0 → Forall (λ t, ¬ t == 0) ts →
  ∃ es, curve_equity (create_equity_curve_dataframe p) = None :: map Some es ∧
        Forall2 (λ e t, e == t / t0) es ts.
Proof.
  intros Ht H0 Hts. unfold create_equity_curve_dataframe, pct_change, cumprod.
  cbn [curve_equity]. rewrite Ht. cbn [pct_change_from pct_ratio map option_map cumprod_from].
  destruct (cumprod_pct_change 1 t0 (/ t0) ts H0) as (es & Hes & Hrel); [by field | done |].
  exists es. rewrite Hes. split; [done | exact Hrel].
Qed.

Lemma Forall2_div_pos (t0 : Q) es ts :
  Forall2 (λ e t, e == t / t0) es ts → 0 < t0 → Forall (λ t, 0 < t) ts →
  Forall (λ e, 0 < e) es.
Proof.
  intros Hrel H0. induction Hrel as [|e t es ts He _ IH]; intros Hts; [constructor|].
  apply Forall_cons in Hts as [Ht Hts]. constructor; [|exact (IH Hts)].
  rewrite He. apply Qmult_lt_0_compat; [done | by apply Qinv_lt_0_compat].
Qed.

Lemma Forall_pos_nonzero (ts : list Q) : Forall (λ t, 0 < t) ts → Forall (λ t, ¬ t == 0) ts.
Proof. intros H. eapply Forall_impl; [exact H|]. intros t Ht Heq. cbv beta in Ht. lra. Qed.

Lemma Forall_pos_nonneg (ts : list Q) : Forall (λ t, 0 < t) ts → Forall (λ t, 0 <= t) ts.
Proof. intros H. eapply Forall_impl; [exact H|]. intros t Ht. cbv beta in Ht. by apply Qlt_le_weak. Qed.

(** ** The summary statistics of a run with positive totals *)

(** C15: for a portfolio whose holdings snapshots have positive totals
    [t0, t1, ..., tn] (n ≥ 1), [output_summary_stats] succeeds on the
    equity curve [create_equity_curve_dataframe] builds; that curve is NaN
    at the first snapshot and [t_k / t0] after it (the cumulative product
    of [1 + pct_change] telescopes); the reported total return is
    [(tn / t0 - 1) * 100]; and the reported maximum drawdown is 100 times
    the largest peak-to-trough decline of the normalised curve. *)
Theorem output_summary_stats_spec p t0 ts :
  holdings_totals p = Some t0 :: map Some ts → 0 < t0 → Forall (λ t, 0 < t) ts → ts ≠ [] →
  ∃ s dd es,
    output_summary_stats (create_equity_curve_dataframe p) = Ok (s, dd) ∧
    curve_equity (create_equity_curve_dataframe p) = None :: map Some es ∧
    Forall2 (λ e t, e == t / t0) es ts ∧
    (∃ tl tr, last ts = Some tl ∧ stat_total_return s = Some tr ∧ tr == (tl / t0 - 1) * 100) ∧
    (∃ m, stat_max_drawdown s = Some (m * 100) ∧
       (∀ a b, peak_trough es a b → a - b <= m) ∧ (∃ a b, peak_trough es a b ∧ m == a - b)).
Proof.
  intros Ht H0 Hpos Hne.
  assert (H0' : ¬ t0 == 0) by (intros E; rewrite E in H0; exact (Qlt_irrefl 0 H0)).
  destruct (equity_curve_totals p t0 ts Ht H0' (Forall_pos_nonzero _ Hpos)) as (es & Heq & Hrel).
  pose proof (Forall2_div_pos t0 es ts Hrel H0 Hpos) as Hes.
  assert (Hesne : es ≠ []) by (intros ->; inversion Hrel; subst; done).
  destruct (drawdowns_max_nonneg None es Hesne (Forall_pos_nonneg _ Hes)) as (m & Hm & Hub & Hat).
  pose proof (Forall2_last _ _ _ Hrel) as Hlast.
  destruct (last ts) as [tl|] eqn:Etl; [|by apply last_None in Etl].
  destruct (last es) as [el|] eqn:Eel; inversion Hlast as [? ? Hel|]; subst.
  destruct es as [|e1 es']; [done|].
  destruct (drawdowns_duration_defined None e1 (map Some es') (Qlt_le_weak _ _ (Forall_inv Hes)))
    as [n Hn].
  destruct (create_drawdowns (None :: map Some (e1 :: es'))) as [[dd mx] dur] eqn:Ecd.
  cbn [map] in Ecd. rewrite Ecd in Hn. cbn in Hm, Hn. subst mx dur.
  exists (mkStats (Some ((el - 1) * 100))
            (create_sharpe_ratio (curve_returns (create_equity_curve_dataframe p)) 252)
            (Some (m * 100)) n), dd, (e1 :: es').
  split_and!; [| done | done | | ].
  - unfold output_summary_stats. rewrite Heq, last_cons_ne, last_map_Some, Eel by discriminate.
    cbn [option_map]. rewrite bind_Ok. cbn [map]. rewrite Ecd, bind_Ok. reflexivity.
  - exists tl, ((el - 1) * 100). split_and!; [done | done |]. rewrite Hel. ring.
  - exists m. split_and!; [done | exact Hub | exact Hat].
Qed.

(** ** A portfolio without data *)

(** With a single holdings snapshot the drawdown loop never runs, the
    maximum duration is NaN, and ["%d" % dd_duration] raises. *)
Lemma single_snapshot_value_error p :
  length (all_holdings p) = 1%nat →
  ∃ msg, output_summary_stats (create_equity_curve_dataframe p) = Err (ValueError msg).
Proof.
  intros Hl. unfold output_summary_stats, create_equity_curve_dataframe, holdings_totals.
  destruct (all_holdings p) as [|[dt h] [|]]; try discriminate.
  cbn [map snd curve_equity pct_change pct_change_from pct_ratio option_map cumprod cumprod_from].
  destruct (h !! "total"); eexists; reflexivity.
Qed.

(** ** Witnesses *)


Lemma output_summary_stats_spec_witness :
  holdings_totals demo_final = Some 100000 :: map Some [100000; 100199; 100099] ∧
  ∃ s dd, output_summary_stats (create_equity_curve_dataframe demo_final) = Ok (s, dd) ∧
    ∃ tr, stat_total_return s = Some tr ∧ tr == 99 # 1000.
Proof.
  assert (H1 : holdings_totals demo_final = Some 100000 :: map Some [100000; 100199; 100099])
    by (vm_compute; reflexivity).
  assert (H2 : 0 < 100000) by (vm_compute; reflexivity).
  assert (H3 : Forall (λ t, 0 < t) [100000; 100199; 100099])
    by (repeat constructor).
  assert (H4 : [100000; 100199; 100099] ≠ []) by discriminate.
  split; [exact H1|].
  destruct (output_summary_stats_spec _ _ _ H1 H2 H3 H4)
    as (s & dd & es & Hout & _ & _ & (tl & tr & Htl & Htr & Heq) & _).
  exists s, dd. split; [exact Hout|]. exists tr. split; [exact Htr|].
  rewrite Heq. cbn in Htl. injection Htl as <-. vm_compute. reflexivity.
Defined.
