(* ===== verification/Options.v ===== *)
(** * Options: single-option payoff tables

    The classes of [src/Quantiative Finance/Options/]: [Options]
    ([Options_Class.py]), [Short_Call] ([Short_Call.py]) and [Call]
    ([Call_Spread.py], of which [Call_Class.py] is a verbatim copy).  Each
    builds a pandas DataFrame with one row per strike; a DataFrame is a list
    of row records, a column of floats a field of type [pyfloat]: a
    rational, or [None] for NaN (a missing value, or the inf/NaN of a
    division by zero).  The arithmetic on [pyfloat] propagates NaN, its
    comparisons are false on NaN (as numpy's), and [np.where] is an [if]. *)

From S2P Require Import Prelude.
From Stdlib Require Import Qabs Qround.

(** ** Floats with NaN *)

Abbreviation pyfloat := (option Q).

Definition flift2 (f : Q → Q → Q) (a b : pyfloat) : pyfloat :=
  match a, b with Some x, Some y => Some (f x y) | _, _ => None end.

Definition fadd := flift2 Qplus.
Definition fsub := flift2 Qminus.
Definition fmul := flift2 Qmult.

(** Division by zero gives inf or NaN in numpy: not a number here. *)
Definition fdiv (a b : pyfloat) : pyfloat :=
  match a, b with
  | Some x, Some y => if Qeq_bool y 0 then None else Some (x / y)
  | _, _ => None
  end.

Definition fabs (a : pyfloat) : pyfloat := option_map Qabs a.
Definition fneg (a : pyfloat) : pyfloat := option_map Qopp a.

Definition Qlt_bool (x y : Q) : bool := negb (Qle_bool y x).

(** Comparisons with a NaN are false. *)
Definition flt (a b : pyfloat) : bool :=
  match a, b with Some x, Some y => Qlt_bool x y | _, _ => false end.
Definition fle (a b : pyfloat) : bool :=
  match a, b with Some x, Some y => Qle_bool x y | _, _ => false end.

Declare Scope pyfloat_scope.
Delimit Scope pyfloat_scope with pf.
Infix "+." := fadd (at level 50, left associativity) : pyfloat_scope.
Infix "-." := fsub (at level 50, left associativity) : pyfloat_scope.
Infix "*." := fmul (at level 40, left associativity) : pyfloat_scope.
Infix "/." := fdiv (at level 40, left associativity) : pyfloat_scope.
Infix "<." := flt (at level 70, no associativity) : pyfloat_scope.
Infix "<=." := fle (at level 70, no associativity) : pyfloat_scope.

Local Open Scope pyfloat_scope.

(** [round(x, 2)] on a Series: numpy's [around], which rounds [x * 100]
    half to even and divides by 100. *)
Definition round_half_even (y : Q) : Z :=
  let n := Qfloor y in
  let frac := y - inject_Z n in
  if Qlt_bool frac (1 # 2) then n
  else if Qlt_bool (1 # 2) frac then (n + 1)%Z
  else if Z.even n then n else (n + 1)%Z.

Definition round2 (a : pyfloat) : pyfloat :=
  option_map (λ x, inject_Z (round_half_even (x * 100)) / 100) a.

(** ** [Options] ([Options_Class.py]) *)

Record options_row := mkOptionsRow {
  or_strike : pyfloat;
  or_call_price : pyfloat;
  or_put_price : pyfloat;
  or_ticker : string;
  or_current_price : pyfloat;
  or_call_breakeven : pyfloat;
  or_put_breakeven : pyfloat;
  or_call_price_change : pyfloat;
  or_put_price_change : pyfloat;
  or_call_percent_change : pyfloat;
  or_put_percent_change : pyfloat
}.

(** [options_df_get_breakeven_price], [options_df_get_price_change_profit]
    and [options_df_get_percent_change_profit] on one row. *)
Definition options_row_of (ticker : string) (current_price : Q) (k c p : Q) : options_row :=
  let cur := Some current_price in
  let call_breakeven := Some k +. Some c in
  let put_breakeven := Some k -. Some p in
  let call_change := fabs (call_breakeven -. cur) in
  let put_change := fneg (fabs (put_breakeven -. cur)) in
  mkOptionsRow (Some k) (Some c) (Some p) ticker cur call_breakeven put_breakeven
    call_change put_change (round2 (call_change /. cur *. Some 100))
    (round2 (put_change /. cur *. Some 100)).

(** [Options(...)] then [make_options_df()]: the three price lists become
    columns of one DataFrame, which raises [ValueError] unless they have
    the same length. *)
Definition make_options_df (ticker : string) (current_price : Q)
    (strike_prices call_prices put_prices : list Q) : result (list options_row) :=
  if bool_decide (length call_prices = length strike_prices ∧
                  length put_prices = length strike_prices)
  then Ok (zip_with (λ k '(c, p), options_row_of ticker current_price k c p)
                    strike_prices (zip call_prices put_prices))
  else Err (ValueError "Length of values does not match length of index").

(** ** [Short_Call] ([Short_Call.py]) *)

(** A row of [options_df].  The ["Ticker"] column is assigned first, to a
    DataFrame that has no index yet; the list assigned next gives the frame
    its index and pandas reindexes the existing column, so every ticker
    is NaN ([None]).  The breakeven columns exist only once
    [options_df_get_breakeven_information] has run ([None] before). *)
Record short_call_row := mkShortCallRow {
  sc_ticker : option string;
  sc_strike : pyfloat;
  sc_premium : pyfloat;
  sc_original : pyfloat;
  sc_breakeven : pyfloat;
  sc_breakeven_change : pyfloat;
  sc_breakeven_pct : pyfloat
}.

(** [Short_Call.__init__] and [make_options_df]. *)
Definition short_call_make_options_df (ticker : string) (original_price : Q)
    (strike_prices premiums : list Q) : result (list short_call_row) :=
  if bool_decide (length premiums = length strike_prices)
  then Ok (zip_with (λ k p, mkShortCallRow None (Some k) (Some p) (Some original_price)
                               None None None) strike_prices premiums)
  else Err (ValueError "Length of values does not match length of index").

Definition short_call_breakeven_row (r : short_call_row) : short_call_row :=
  let be := sc_strike r +. sc_premium r in
  let change := be -. sc_original r in
  mkShortCallRow (sc_ticker r) (sc_strike r) (sc_premium r) (sc_original r) be change
    (round2 (change /. sc_original r *. Some 100)).

(** [options_df_get_breakeven_information]. *)
Definition options_df_get_breakeven_information (df : list short_call_row) : list short_call_row :=
  map short_call_breakeven_row df.

Record roi_row := mkRoiRow {
  roi_original : pyfloat;
  roi_current : pyfloat;
  roi_percent_change : pyfloat;
  roi_total_profit_loss : pyfloat
}.

(** [get_ROI_info(current_price)]: below the strike the seller keeps the
    premium, above it gives back the intrinsic value, per 100 shares. *)
Definition get_ROI_info (df : list short_call_row) (current_price : Q) : list roi_row :=
  map (λ r,
    let cur := Some current_price in
    mkRoiRow (sc_original r) cur
      (round2 ((cur -. sc_original r) /. sc_original r *. Some 100))
      (if cur <. sc_strike r then sc_premium r *. Some 100
       else (sc_premium r -. (cur -. sc_strike r)) *. Some 100)) df.

(** ** [Call] ([Call_Spread.py]) *)

(** [get_temp_df]: the nested dictionary, expiration date to the Series of
    premiums and of strike prices, flattened into one row per (expiration,
    position); the two Series are aligned on their index, the shorter one
    padded with NaN; [pd.concat] of no frame raises [ValueError]. *)
Definition temp_rows (entry : Z * list Q * list Q) : list (Z * pyfloat * pyfloat) :=
  let '(exp, premiums, strikes) := entry in
  (λ i, (exp, strikes !! i, premiums !! i)) <$>
    seq 0 (Nat.max (length premiums) (length strikes)).

Definition get_temp_df (info : list (Z * list Q * list Q))
    : result (list (Z * pyfloat * pyfloat)) :=
  match info with
  | [] => Err (ValueError "No objects to concatenate")
  | _ => Ok (info ≫= temp_rows)
  end.

(** A row of [call_info_df], in the order [build_call_info_df] and
    [create_breakeven_information] add the columns. *)
Record call_row := mkCallRow {
  cr_strike : pyfloat;
  cr_original : Q;
  cr_start : Z;
  cr_expiration : Z;
  cr_ticker : string;
  cr_type : string;
  cr_premium : pyfloat;
  cr_intrinsic : pyfloat;
  cr_time_value : pyfloat;
  cr_interval : Z;
  cr_capital : pyfloat;
  cr_breakeven : pyfloat;
  cr_breakeven_change : pyfloat;
  cr_breakeven_pct : pyfloat
}.

(** [get_type]: at the money when the strike is within one percent of the
    original price, otherwise out of the money above it and in the money
    below it (a NaN strike fails both tests and is "ITM"). *)
Definition get_type (is_long : bool) (original : Q) (strike : pyfloat) : string :=
  let action_type := if is_long then "Long" else "Short" in
  let delta_price := fabs (Some original -. strike) in
  if delta_price /. Some original *. Some 100 <. Some 1 then action_type +:+ " ATM"
  else if Some original <. strike then action_type +:+ " OOTM"
  else action_type +:+ " ITM".

(** [build_call_info_df] on one row of [get_temp_df], followed by
    [create_breakeven_information]. *)
Definition call_row_of (ticker : string) (original : Q) (start : Z) (is_long : bool)
    (row : Z * pyfloat * pyfloat) : call_row :=
  let '(exp, strike, premium) := row in
  let intrinsic := if strike <. Some original then Some original -. strike else Some 0 in
  let capital := if is_long then premium *. Some 100 else Some 0 in
  let breakeven := strike +. premium in
  let change := breakeven -. Some original in
  mkCallRow strike original start exp ticker (get_type is_long original strike) premium
    intrinsic (premium -. intrinsic) (exp - start)%Z capital breakeven change
    (round2 (change /. Some original *. Some 100)).

(** A [Call] object: its attributes and [call_info_df]. *)
Record call := mkCall {
  call_ticker : string;
  call_original_price : Q;
  call_start_date : Z;
  call_is_long : bool;
  call_info_df : list call_row
}.

(** [Call.__init__]: the attributes, then [build_call_info_df]. *)
Definition make_call (ticker : string) (original_price : Q) (start_date : Z)
    (external_call_info_dict : list (Z * list Q * list Q)) (is_long : bool) : result call :=
  rows ← get_temp_df external_call_info_dict;
  Ok (mkCall ticker original_price start_date is_long
        (map (call_row_of ticker original_price start_date is_long) rows)).

(** A row of the DataFrame [get_return_info_df] returns. *)
Record return_row := mkReturnRow {
  rr_call : call_row;
  rr_current_price : Q;
  rr_return_per_call : pyfloat;
  rr_total_return : pyfloat
}.

(** The return of one call at the asset price [current_price]: long, the
    intrinsic value minus the premium once the strike is reached and the
    lost premium below it; short, the premium kept while the option
    expires worthless and the premium minus the intrinsic value above. *)
Definition return_per_call (is_long : bool) (strike premium : pyfloat) (current_price : Q)
    : pyfloat :=
  let cur := Some current_price in
  if is_long then
    (if strike <=. cur then cur -. strike -. premium else fneg premium)
  else
    (if cur <=. strike then premium else premium -. (cur -. strike)).

(** [get_return_info_df(current_price)]. *)
Definition get_return_info_df (c : call) (current_price : Q) : list return_row :=
  map (λ r,
    let ret := return_per_call (call_is_long c) (cr_strike r) (cr_premium r) current_price in
    mkReturnRow r current_price ret (ret *. Some 100)) (call_info_df c).

(** ** Lemmas on [pyfloat] *)


(** The long LEAP calls (strikes 250, 240, 230) and the written near-term
    call (strike 280) on BA at 267.99; dates are day numbers from the
    start date. *)
Definition demo_long_info : list (Z * list Q * list Q) := [(660%Z, [17; 30; 45], [250; 240; 230])].
Definition demo_short_info : list (Z * list Q * list Q) := [(31%Z, [10], [280])].

Definition demo_call (info : list (Z * list Q * list Q)) (is_long : bool) : call :=
  match make_call "BA" (26799 # 100) 0 info is_long with
  | Ok c => c
  | Err _ => mkCall "BA" (26799 # 100) 0 is_long []
  end.

Definition demo_long_call : call := demo_call demo_long_info true.
Definition demo_short_call : call := demo_call demo_short_info false.

Lemma Qlt_bool_iff (x y : Q) : Qlt_bool x y = true ↔ x < y.
Proof.
  unfold Qlt_bool. rewrite negb_true_iff. split.
  - intros H. apply Qnot_le_lt. intros Hle. apply Qle_bool_iff in Hle. congruence.
  - intros H. destruct (Qle_bool y x) eqn:E; [|done]. apply Qle_bool_iff in E. lra.
Qed.

Lemma Qlt_bool_false (x y : Q) : Qlt_bool x y = false ↔ y <= x.
Proof.
  unfold Qlt_bool. rewrite negb_false_iff. apply Qle_bool_iff.
Qed.

Lemma Qle_bool_false (x y : Q) : Qle_bool x y = false ↔ y < x.
Proof.
  split.
  - intros H. apply Qnot_le_lt. intros Hle. apply Qle_bool_iff in Hle. congruence.
  - intros H. destruct (Qle_bool x y) eqn:E; [|done]. apply Qle_bool_iff in E. lra.
Qed.

(** Case analysis on a comparison of two numbers, with both outcomes as
    hypotheses. *)
Ltac case_Qcmp :=
  match goal with
  | |- context [Qle_bool ?x ?y] =>
      let E := fresh "E" in
      destruct (Qle_bool x y) eqn:E;
      [apply Qle_bool_iff in E | apply Qle_bool_false in E]
  | |- context [Qlt_bool ?x ?y] =>
      let E := fresh "E" in
      destruct (Qlt_bool x y) eqn:E;
      [apply Qlt_bool_iff in E | apply Qlt_bool_false in E]
  end.

Lemma Qmax_r_eq (a b : Q) : a <= b → Qmax a b == b.
Proof. intros H. destruct (Qmax_cases a b) as [[_ ->]|[? ->]]; lra. Qed.

Lemma Qmax_l_eq (a b : Q) : b <= a → Qmax a b == a.
Proof. intros H. destruct (Qmax_cases a b) as [[? ->]|[_ ->]]; lra. Qed.

(** ** Properties of [Call] *)

Lemma return_per_call_value (is_long : bool) (K P S : Q) :
  ∃ v, return_per_call is_long (Some K) (Some P) S = Some v ∧
       v == (if is_long then Qmax (S - K) 0 - P else P - Qmax (S - K) 0).
Proof.
  destruct is_long; cbn [return_per_call fle fsub fneg flift2 option_map];
    case_Qcmp; (eexists; split; [reflexivity|]);
    [rewrite (Qmax_l_eq (S - K) 0) | rewrite (Qmax_r_eq (S - K) 0)
    |rewrite (Qmax_r_eq (S - K) 0) | rewrite (Qmax_l_eq (S - K) 0)]; (ring || lra).
Qed.

(** the return [get_return_info_df] gives for a call with a numeric
    strike [K] and premium [P] at the asset price [S] is the textbook
    payoff: [max(S - K, 0) - P] for the holder, [P - max(S - K, 0)] for the
    writer; the two always sum to zero. *)
Theorem return_per_call_payoff (is_long : bool) (K P S : Q) :
  ∃ v, return_per_call is_long (Some K) (Some P) S = Some v ∧
       v == (if is_long then Qmax (S - K) 0 - P else P - Qmax (S - K) 0) ∧
       ∃ w, return_per_call (negb is_long) (Some K) (Some P) S = Some w ∧ v + w == 0.
Proof.
  destruct (return_per_call_value is_long K P S) as (v & Hv & Hveq).
  destruct (return_per_call_value (negb is_long) K P S) as (w & Hw & Hweq).
  exists v. split_and!; [done | done |]. exists w. split; [done|].
  rewrite Hveq, Hweq. destruct is_long; cbn; ring.
Qed.

(** ** [Short_Call] computes the writer's return of [Call] *)

(** the two implementations of a short call agree: the ["Total
    Profit/Loss"] column of [Short_Call.get_ROI_info] is, row by row, 100
    times the writer's ["Return/Call"] of [Call.get_return_info_df] for the
    same strike and premium, NaN included, although the first tests
    [current < strike] and the second [strike >= current]. *)
Theorem get_ROI_info_short_call (df : list short_call_row) (S : Q) :
  Forall2 (λ roi r, option_Forall2 Qeq (roi_total_profit_loss roi)
                      (return_per_call false (sc_strike r) (sc_premium r) S *. Some 100))
          (get_ROI_info df S) df.
Proof.
  induction df as [|r df IH]; [constructor|]. constructor; [|exact IH].
  cbn [roi_total_profit_loss return_per_call]. unfold flt, fle.
  destruct (sc_strike r) as [K|], (sc_premium r) as [P|]; cbn; repeat case_Qcmp;
    constructor; lra.
Qed.

(** ** Rounding *)

Lemma inject_Z_succ (n : Z) : inject_Z (n + 1) == inject_Z n + 1.
Proof. rewrite inject_Z_plus. reflexivity. Qed.

Lemma round_half_even_bound (y : Q) :
  - (1 # 2) <= inject_Z (round_half_even y) - y <= 1 # 2.
Proof.
  unfold round_half_even.
  pose proof (Qfloor_le y) as Hle. pose proof (Qlt_floor y) as Hlt.
  rewrite inject_Z_succ in Hlt.
  cbv zeta. repeat case_Qcmp; [| |destruct (Z.even (Qfloor y))];
    rewrite ?inject_Z_succ; lra.
Qed.

(** [round(x, 2)] moves a number by at most half a cent:
    [|round2 x - x| <= 0.005]. *)
Theorem round2_bound (x : Q) :
  ∃ r, round2 (Some x) = Some r ∧ Qabs (r - x) <= 1 # 200.
Proof.
  eexists. split; [reflexivity|]. apply Qabs_Qle_condition.
  pose proof (round_half_even_bound (x * 100)) as [Hl Hu].
  split; apply (Qmult_le_r _ _ 100); try reflexivity;
    field_simplify; lra.
Qed.

(** ** [get_temp_df] pads with NaN *)

Lemma entry_aligned (exp : Z) (premiums strikes : list Q) :
  Forall (λ row : Z * pyfloat * pyfloat, is_Some row.1.2 ∧ is_Some row.2)
    ((λ i, (exp, strikes !! i, premiums !! i)) <$>
       seq 0 (Nat.max (length premiums) (length strikes))) ↔
  length premiums = length strikes.
Proof.
  rewrite Forall_fmap, Forall_seq. cbn. split.
  - intros H. destruct (Nat.lt_total (length premiums) (length strikes)) as [Hl|[Heq|Hl]];
      [| done |].
    + destruct (H (length premiums)) as [_ Hp]; [lia|].
      rewrite lookup_ge_None_2 in Hp by lia. by destruct Hp.
    + destruct (H (length strikes)) as [Hs _]; [lia|].
      rewrite lookup_ge_None_2 in Hs by lia. by destruct Hs.
  - intros Heq i Hi. split; apply lookup_lt_is_Some_2; lia.
Qed.

(** the rows [get_temp_df] builds from the nested dictionary are all
    numeric (no NaN strike or premium) exactly when, for every expiration
    date, the Series of premiums and of strike prices have the same
    length; otherwise [pd.concat] pads the shorter one with NaN. *)
Theorem get_temp_df_aligned (info : list (Z * list Q * list Q)) rows :
  get_temp_df info = Ok rows →
  (Forall (λ row : Z * pyfloat * pyfloat, is_Some row.1.2 ∧ is_Some row.2) rows ↔
   Forall (λ entry : Z * list Q * list Q, length entry.1.2 = length entry.2) info).
Proof.
  unfold get_temp_df. intros H.
  assert (rows = info ≫= temp_rows) as ->
    by (destruct info; [discriminate | congruence]).
  rewrite Forall_bind. apply Forall_iff. intros [[exp ps] ss]. apply entry_aligned.
Qed.

(** ** The strike type *)

Lemma pct_lt_one (a o : Q) : 0 < o → (a / o * 100 < 1 ↔ 100 * a < o).
Proof.
  intros Ho. assert (E : a / o * 100 * o == 100 * a) by (field; lra).
  split; intros H.
  - apply (Qmult_lt_r _ _ o) in H; [|exact Ho]. rewrite E, Qmult_1_l in H. exact H.
  - apply (Qmult_lt_r _ _ o); [exact Ho|]. rewrite E, Qmult_1_l. exact H.
Qed.

(** for a positive original price, [get_type] calls a numeric strike
    [K] at the money exactly when [100 |original - K| < original], out of
    the money when it is not and [original < K], in the money otherwise;
    a NaN strike (a padded row of [get_temp_df]) is classified in the
    money. *)
Theorem get_type_spec (is_long : bool) (orig K : Q) :
  0 < orig →
  get_type is_long orig (Some K) =
    (if is_long then "Long" else "Short") +:+
      (if Qlt_bool (100 * Qabs (orig - K)) orig then " ATM"
       else if Qlt_bool orig K then " OOTM" else " ITM") ∧
  get_type is_long orig None = (if is_long then "Long" else "Short") +:+ " ITM".
Proof.
  intros Ho. split; [|by destruct is_long].
  unfold get_type. cbv [fabs fsub fdiv fmul flt flift2 option_map].
  rewrite Qeq_bool_false by lra.
  assert (Hb : Qlt_bool (Qabs (orig - K) / orig * 100) 1 =
               Qlt_bool (100 * Qabs (orig - K)) orig).
  { destruct (Qlt_bool (100 * Qabs (orig - K)) orig) eqn:E.
    - apply Qlt_bool_iff in E. apply Qlt_bool_iff, pct_lt_one; done.
    - apply Qlt_bool_false in E. apply Qlt_bool_false.
      destruct (Qlt_le_dec (Qabs (orig - K) / orig * 100) 1) as [Hlt|Hle]; [|exact Hle].
      apply (pct_lt_one _ _ Ho) in Hlt. lra. }
  rewrite Hb. by repeat case_match.
Qed.


(** ** The rows of [call_info_df] *)

Lemma make_call_rows ticker orig start info is_long c :
  make_call ticker orig start info is_long = Ok c →
  ∃ rows, get_temp_df info = Ok rows ∧
    c = mkCall ticker orig start is_long (map (call_row_of ticker orig start is_long) rows).
Proof.
  unfold make_call. destruct (get_temp_df info) as [rows|e]; cbn; [|discriminate].
  intros [= <-]. eauto.
Qed.

Lemma return_at_breakeven (is_long : bool) (K P : Q) :
  0 <= P → ∃ v, return_per_call is_long (Some K) (Some P) (K + P) = Some v ∧ v == 0.
Proof.
  intros HP. destruct is_long; cbn [return_per_call fle fsub fneg flift2 option_map];
    case_Qcmp; (eexists; split; [reflexivity | lra]).
Qed.

(** every row of a [Call]'s [call_info_df] with a numeric strike [K]
    and premium [P] splits the premium into intrinsic value
    [max(original - K, 0)] and time value, commits [100 P] of capital when
    long and nothing when short, has breakeven price [K + P], and at that
    price (for a non-negative premium) the call returns exactly zero. *)
Theorem call_info_row_spec ticker orig start info is_long c r K P :
  make_call ticker orig start info is_long = Ok c → r ∈ call_info_df c →
  cr_strike r = Some K → cr_premium r = Some P →
  ∃ i tv, cr_intrinsic r = Some i ∧ cr_time_value r = Some tv ∧
    i == Qmax (orig - K) 0 ∧ i + tv == P ∧
    cr_capital r = (if is_long then Some (P * 100) else Some 0) ∧
    cr_breakeven r = Some (K + P) ∧
    (0 <= P → ∃ v, return_per_call is_long (Some K) (Some P) (K + P) = Some v ∧ v == 0).
Proof.
  intros Hc Hr HK HP. destruct (make_call_rows _ _ _ _ _ _ Hc) as (rows & _ & ->).
  apply list_elem_of_fmap in Hr as ([[exp s] p] & -> & _).
  cbn in HK, HP. subst s p. unfold call_row_of.
  cbn [cr_intrinsic cr_time_value cr_capital cr_breakeven flt fadd fsub fmul flift2].
  case_Qcmp; (eexists _, _; split_and!; [reflexivity | reflexivity | | | | reflexivity |]).
  - by rewrite (Qmax_l_eq (orig - K) 0) by lra.
  - ring.
  - by destruct is_long.
  - apply return_at_breakeven.
  - by rewrite (Qmax_r_eq (orig - K) 0) by lra.
  - ring.
  - by destruct is_long.
  - apply return_at_breakeven.
Qed.

(** ** Witnesses: the calls of the script's [__main__] *)

Lemma call_info_row_spec_witness :
  make_call "BA" (26799 # 100) 0 demo_long_info true = Ok demo_long_call ∧
  ∃ r, r ∈ call_info_df demo_long_call ∧ cr_strike r = Some 250 ∧ cr_premium r = Some 17 ∧
    ∃ i tv, cr_intrinsic r = Some i ∧ cr_time_value r = Some tv ∧ i + tv == 17.
Proof.
  assert (Hc : make_call "BA" (26799 # 100) 0 demo_long_info true = Ok demo_long_call)
    by reflexivity.
  split; [exact Hc|].
  exists (call_row_of "BA" (26799 # 100) 0 true (660%Z, Some 250, Some 17)).
  assert (Hr : call_row_of "BA" (26799 # 100) 0 true (660%Z, Some 250, Some 17)
               ∈ call_info_df demo_long_call) by (vm_compute; constructor).
  split_and!; [exact Hr | reflexivity | reflexivity |].
  destruct (call_info_row_spec _ _ _ _ _ _ _ 250 17 Hc Hr eq_refl eq_refl)
    as (i & tv & Hi & Htv & _ & Hsum & _).
  exists i, tv. split_and!; [exact Hi | exact Htv | exact Hsum].
Defined.

Lemma get_temp_df_aligned_witness :
  ∃ rows, get_temp_df demo_long_info = Ok rows ∧
    (Forall (λ row : Z * pyfloat * pyfloat, is_Some row.1.2 ∧ is_Some row.2) rows ↔
     Forall (λ entry : Z * list Q * list Q, length entry.1.2 = length entry.2) demo_long_info).
Proof.
  destruct (get_temp_df demo_long_info) as [rows|e] eqn:E; [|vm_compute in E; discriminate E].
  exists rows. split; [reflexivity | exact (get_temp_df_aligned _ _ E)].
Defined.

Lemma get_type_spec_witness :
  0 < 26799 # 100 ∧
  get_type true (26799 # 100) (Some 250) =
    "Long" +:+ (if Qlt_bool (100 * Qabs (26799 # 100 - 250)) (26799 # 100) then " ATM"
                else if Qlt_bool (26799 # 100) 250 then " OOTM" else " ITM") ∧
  get_type true (26799 # 100) None = "Long" +:+ " ITM".
Proof.
  assert (H : 0 < 26799 # 100) by (vm_compute; reflexivity).
  exact (conj H (get_type_spec true _ 250 H)).
Defined.
