(* ===== verification/Spreads.v ===== *)
(** * Spreads: [Call_Spread] ([Call_Spread.py])

    A [Call_Spread] pairs two [Call] objects ([Options]) and tabulates every
    spread made of one row of the first call's DataFrame and one row of the
    second's: its general information, the two legs, and its return if the
    asset moves 0%, +10% and -10%.  [Call_Spread_Class.py] is a verbatim
    copy of the class.  [DataFrame.iloc[i]] is [iloc], which raises
    [IndexError] out of range; the nested [for] loops of
    [build_call_spread_info_df] and [get_call_spread_return_info_df] are
    [for_each] over [spread_pairs], appending one entry per pair as the
    code appends to its list.  The plot of
    [display_return_vs_asset_price_change_graph] is not modelled. *)

From S2P Require Import Prelude Options.

Local Open Scope pyfloat_scope.

(** [DataFrame.iloc[i]]. *)
Definition iloc {A} (rows : list A) (i : nat) : result A :=
  match rows !! i with Some r => Ok r | None => Err IndexError end.

(** [pd.concat(objs)]: [ValueError] when there is nothing to concatenate. *)
Definition pd_concat {A} (objs : list A) : result (list A) :=
  match objs with [] => Err (ValueError "No objects to concatenate") | _ => Ok objs end.

(** [for i in range(n1): for j in range(n2):] *)
Definition spread_pairs (n1 n2 : nat) : list (nat * nat) :=
  seq 0 n1 ≫= λ i, pair i <$> seq 0 n2.

(** ** The series of one spread *)

Record general_info := mkGeneralInfo {
  gi_ticker : string;
  gi_start : Z;
  gi_original : Q;
  gi_capital : pyfloat
}.

Record leg_info := mkLegInfo {
  li_expiration : Z;
  li_interval : Z;
  li_intrinsic : pyfloat;
  li_time_value : pyfloat;
  li_premium : pyfloat;
  li_strike : pyfloat;
  li_type : string
}.

(** [get_return_info_series(i, j, new_price)], as the dictionary it turns
    into a Series. *)
Record spread_return := mkSpreadReturn {
  sr_ticker : string;
  sr_current_price : Q;
  sr_strike_1 : pyfloat;
  sr_strike_2 : pyfloat;
  sr_type_1 : string;
  sr_type_2 : string;
  sr_capital : pyfloat;
  sr_return_1 : pyfloat;
  sr_return_2 : pyfloat;
  sr_net_return_per_call : pyfloat;
  sr_total_1 : pyfloat;
  sr_total_2 : pyfloat;
  sr_net_return : pyfloat;
  sr_roi : pyfloat
}.

Record risk_info := mkRiskInfo {
  ri_new_price : Q;
  ri_total_1 : pyfloat;
  ri_total_2 : pyfloat;
  ri_net_return : pyfloat;
  ri_roi : pyfloat
}.

Record spread_info := mkSpreadInfo {
  si_general : general_info;
  si_call_1 : leg_info;
  si_call_2 : leg_info;
  si_flat : risk_info;
  si_up : risk_info;
  si_down : risk_info
}.

Record call_spread := mkCallSpread {
  cs_call_1 : call;
  cs_call_2 : call;
  cs_ticker : string;
  cs_original_price : Q;
  cs_info : list spread_info
}.

Section Spread.
(** The two calls of the spread, [self.call_1] and [self.call_2]. *)
Variables (c1 c2 : call).

Definition get_general_spread_info_series (i j : nat) : result general_info :=
  row1 ← iloc (call_info_df c1) i;
  row2 ← iloc (call_info_df c2) j;
  Ok (mkGeneralInfo (cr_ticker row2) (cr_start row2) (cr_original row2)
                    (cr_capital row1 +. cr_capital row2)).

(** The seven columns [get_call_1_info_series] and
    [get_call_2_info_series] keep. *)
Definition leg_info_of (row : call_row) : leg_info :=
  mkLegInfo (cr_expiration row) (cr_interval row) (cr_intrinsic row) (cr_time_value row)
            (cr_premium row) (cr_strike row) (cr_type row).

Definition get_call_1_info_series (i : nat) : result leg_info :=
  row1 ← iloc (call_info_df c1) i; Ok (leg_info_of row1).

Definition get_call_2_info_series (j : nat) : result leg_info :=
  row2 ← iloc (call_info_df c2) j; Ok (leg_info_of row2).

(** [ticker] is [self.ticker], the first call's ticker. *)
Definition get_return_info_series (ticker : string) (i j : nat) (new_price : Q)
    : result spread_return :=
  row1 ← iloc (get_return_info_df c1 new_price) i;
  row2 ← iloc (get_return_info_df c2 new_price) j;
  let capital := cr_capital (rr_call row1) +. cr_capital (rr_call row2) in
  let r1 := rr_return_per_call row1 in
  let r2 := rr_return_per_call row2 in
  let total_1 := r1 *. Some 100 in
  let total_2 := r2 *. Some 100 in
  let net := total_1 +. total_2 in
  Ok (mkSpreadReturn ticker new_price (cr_strike (rr_call row1)) (cr_strike (rr_call row2))
        (cr_type (rr_call row1)) (cr_type (rr_call row2)) capital r1 r2 (r1 +. r2)
        total_1 total_2 net (round2 (net /. capital *. Some 100))).

(** The new price is taken from the second call's ["Original Price"]. *)
Definition get_n_percent_change_call_spread_risk_series (ticker : string) (i j : nat)
    (n_percent : Q) : result risk_info :=
  row2 ← iloc (call_info_df c2) j;
  let new_price := (cr_original row2 * (1 + n_percent / 100))%Q in
  ri ← get_return_info_series ticker i j new_price;
  Ok (mkRiskInfo new_price (sr_total_1 ri) (sr_total_2 ri) (sr_net_return ri) (sr_roi ri)).

(** The body of [build_call_spread_info_df]'s loop: the six Series of the
    dictionary, in the order they are computed. *)
Definition spread_info_at (ticker : string) (i j : nat) : result spread_info :=
  g ← get_general_spread_info_series i j;
  l1 ← get_call_1_info_series i;
  l2 ← get_call_2_info_series j;
  flat ← get_n_percent_change_call_spread_risk_series ticker i j 0;
  up ← get_n_percent_change_call_spread_risk_series ticker i j 10;
  down ← get_n_percent_change_call_spread_risk_series ticker i j (-10);
  Ok (mkSpreadInfo g l1 l2 flat up down).

Definition build_call_spread_info_df (ticker : string) : result (list spread_info) :=
  call_spread_info_list ←
    for_each (spread_pairs (length (call_info_df c1)) (length (call_info_df c2)))
      (λ acc ij, info ← spread_info_at ticker ij.1 ij.2; Ok (acc ++ [info])) [];
  pd_concat call_spread_info_list.

Definition get_call_spread_return_info_df (ticker : string) (new_price : Q)
    : result (list spread_return) :=
  call_spreads_return_list ←
    for_each (spread_pairs (length (call_info_df c1)) (length (call_info_df c2)))
      (λ acc ij, r ← get_return_info_series ticker ij.1 ij.2 new_price; Ok (acc ++ [r])) [];
  pd_concat call_spreads_return_list.

End Spread.

(** [Call_Spread.__init__(call_1, call_2)]. *)
Definition make_call_spread (c1 c2 : call) : result call_spread :=
  info ← build_call_spread_info_df c1 c2 (call_ticker c1);
  Ok (mkCallSpread c1 c2 (call_ticker c1) (call_original_price c1) info).

Definition demo_short_row : call_row := call_row_of "BA" (26799 # 100) 0 false (31%Z, Some 280, Some 10).
Definition demo_long_row : call_row := call_row_of "BA" (26799 # 100) 0 true (660%Z, Some 250, Some 17).

(** ** The table of spreads *)

Section Pairs.
Local Open Scope nat_scope.

Lemma iloc_lt {A} (rows : list A) (i : nat) :
  i < length rows → ∃ r, rows !! i = Some r ∧ iloc rows i = Ok r.
Proof.
  intros Hi. destruct (lookup_lt_is_Some_2 rows i Hi) as [r Hr].
  exists r. unfold iloc. by rewrite Hr.
Qed.

Lemma spread_pairs_length n1 n2 : length (spread_pairs n1 n2) = n1 * n2.
Proof.
  unfold spread_pairs. induction n1 as [|n1 IH]; [done|].
  rewrite seq_S, bind_app, bind_singleton, length_app, length_fmap, length_seq, IH. lia.
Qed.

(** The loops visit the pairs in row-major order. *)
Lemma spread_pairs_lookup n1 n2 i j :
  i < n1 → j < n2 → spread_pairs n1 n2 !! (i * n2 + j) = Some (i, j).
Proof.
  unfold spread_pairs. induction n1 as [|n1 IH]; intros Hi Hj; [lia|].
  rewrite seq_S, bind_app, bind_singleton.
  pose proof (spread_pairs_length n1 n2) as Hlen. unfold spread_pairs in Hlen.
  destruct (decide (i < n1)).
  - rewrite lookup_app_l by nia. by apply IH.
  - assert (i = n1) as -> by lia. rewrite lookup_app_r by nia.
    rewrite Hlen, list_lookup_fmap.
    replace (n1 * n2 + j - n1 * n2) with j by lia.
    rewrite (proj2 (lookup_seq 0 n2 j j)) by lia. done.
Qed.

Lemma spread_pairs_elem n1 n2 ij : ij ∈ spread_pairs n1 n2 → ij.1 < n1 ∧ ij.2 < n2.
Proof.
  unfold spread_pairs. rewrite list_elem_of_bind. intros (i & Hij & Hi).
  apply list_elem_of_fmap in Hij as (j & -> & Hj).
  apply elem_of_seq in Hi, Hj. simpl. lia.
Qed.

End Pairs.

Section Table.
Variables (c1 c2 : call) (ticker : string).

Lemma get_return_info_df_lookup (c : call) S i row :
  call_info_df c !! i = Some row →
  get_return_info_df c S !! i =
    Some (mkReturnRow row S (return_per_call (call_is_long c) (cr_strike row) (cr_premium row) S)
                      (return_per_call (call_is_long c) (cr_strike row) (cr_premium row) S *. Some 100)).
Proof. intros H. unfold get_return_info_df. rewrite list_lookup_fmap, H. done. Qed.

Lemma get_return_info_df_lookup_None (c : call) S i :
  call_info_df c !! i = None → get_return_info_df c S !! i = None.
Proof. intros H. unfold get_return_info_df. rewrite list_lookup_fmap, H. done. Qed.

Lemma get_return_info_series_ok i j S :
  (i < length (call_info_df c1))%nat → (j < length (call_info_df c2))%nat →
  ∃ r, get_return_info_series c1 c2 ticker i j S = Ok r.
Proof.
  intros Hi Hj.
  destruct (iloc_lt _ _ Hi) as (row1 & Hr1 & _). destruct (iloc_lt _ _ Hj) as (row2 & Hr2 & _).
  unfold get_return_info_series, iloc.
  rewrite (get_return_info_df_lookup c1 S i row1 Hr1), bind_Ok,
    (get_return_info_df_lookup c2 S j row2 Hr2), bind_Ok.
  by eexists.
Qed.

Lemma spread_info_at_ok i j :
  (i < length (call_info_df c1))%nat → (j < length (call_info_df c2))%nat →
  ∃ info, spread_info_at c1 c2 ticker i j = Ok info.
Proof.
  intros Hi Hj.
  destruct (iloc_lt _ _ Hi) as (row1 & _ & H1). destruct (iloc_lt _ _ Hj) as (row2 & _ & H2).
  unfold spread_info_at, get_general_spread_info_series, get_call_1_info_series,
    get_call_2_info_series, get_n_percent_change_call_spread_risk_series.
  rewrite H1, H2, !bind_Ok.
  destruct (get_return_info_series_ok i j (cr_original row2 * (1 + 0 / 100))) as [r0 ->]; [done|done|].
  destruct (get_return_info_series_ok i j (cr_original row2 * (1 + 10 / 100))) as [r1 ->]; [done|done|].
  destruct (get_return_info_series_ok i j (cr_original row2 * (1 + -10 / 100))) as [r2 ->]; [done|done|].
  rewrite !bind_Ok. by eexists.
Qed.

End Table.

(** [Call_Spread(call_1, call_2)] over two calls with at least one
    row each never raises: its table [call_spread_info_df] has one entry per
    pair of rows, [n1 * n2] in all, in row-major order, the entry of rows
    [i] and [j] being the six Series [build_call_spread_info_df] computes
    for them.  When a call has no row, [pd.concat] of the empty list
    raises [ValueError]. *)
Theorem make_call_spread_table (c1 c2 : call) :
  (length (call_info_df c1) ≠ 0%nat → length (call_info_df c2) ≠ 0%nat →
   ∃ cs, make_call_spread c1 c2 = Ok cs ∧
     length (cs_info cs) = (length (call_info_df c1) * length (call_info_df c2))%nat ∧
     ∀ i j, (i < length (call_info_df c1))%nat → (j < length (call_info_df c2))%nat →
       ∃ info, cs_info cs !! (i * length (call_info_df c2) + j)%nat = Some info ∧
               spread_info_at c1 c2 (call_ticker c1) i j = Ok info) ∧
  (length (call_info_df c1) = 0%nat ∨ length (call_info_df c2) = 0%nat →
   ∃ msg, make_call_spread c1 c2 = Err (ValueError msg)).
Proof.
  split.
  - intros Hn1 Hn2.
    destruct (for_each_append (spread_pairs (length (call_info_df c1)) (length (call_info_df c2)))
                (λ ij, spread_info_at c1 c2 (call_ticker c1) ij.1 ij.2) []) as (bs & Hrun & Hrel).
    { intros ij Hij. apply spread_pairs_elem in Hij as [Hi Hj]. by apply spread_info_at_ok. }
    cbv beta in Hrun.
    assert (Hlen : length bs = (length (call_info_df c1) * length (call_info_df c2))%nat).
    { rewrite <- (Forall2_length _ _ _ Hrel). apply spread_pairs_length. }
    exists (mkCallSpread c1 c2 (call_ticker c1) (call_original_price c1) bs).
    split_and!.
    + unfold make_call_spread, build_call_spread_info_df. rewrite Hrun, !bind_Ok.
      destruct bs; [simpl in Hlen; nia | done].
    + exact Hlen.
    + intros i j Hi Hj. cbn [cs_info].
      destruct (Forall2_lookup_l _ _ _ _ _ Hrel (spread_pairs_lookup _ _ i j Hi Hj))
        as (info & Hinfo & Hat).
      by exists info.
  - intros Hn. unfold make_call_spread, build_call_spread_info_df.
    assert (spread_pairs (length (call_info_df c1)) (length (call_info_df c2)) = []) as ->.
    { apply length_zero_iff_nil. rewrite spread_pairs_length. destruct Hn as [-> | ->]; lia. }
    eexists. reflexivity.
Qed.

(** ** The return of a spread *)

Section SpreadReturn.
Variables (c1 c2 : call) (ticker : string) (i j : nat) (row1 row2 : call_row).
Hypotheses (Hrow1 : call_info_df c1 !! i = Some row1) (Hrow2 : call_info_df c2 !! j = Some row2).

Lemma get_return_info_series_eq S :
  get_return_info_series c1 c2 ticker i j S =
    Ok (let r1 := return_per_call (call_is_long c1) (cr_strike row1) (cr_premium row1) S in
        let r2 := return_per_call (call_is_long c2) (cr_strike row2) (cr_premium row2) S in
        let capital := cr_capital row1 +. cr_capital row2 in
        let net := r1 *. Some 100 +. r2 *. Some 100 in
        mkSpreadReturn ticker S (cr_strike row1) (cr_strike row2) (cr_type row1) (cr_type row2)
          capital r1 r2 (r1 +. r2) (r1 *. Some 100) (r2 *. Some 100) net
          (round2 (net /. capital *. Some 100))).
Proof.
  unfold get_return_info_series, iloc.
  by rewrite (get_return_info_df_lookup c1 S i row1 Hrow1), bind_Ok,
    (get_return_info_df_lookup c2 S j row2 Hrow2), bind_Ok.
Qed.

Lemma net_return_value K1 P1 K2 P2 S r :
  cr_strike row1 = Some K1 → cr_premium row1 = Some P1 →
  cr_strike row2 = Some K2 → cr_premium row2 = Some P2 →
  get_return_info_series c1 c2 ticker i j S = Ok r →
  ∃ v, sr_net_return r = Some v ∧
    v == 100 * ((if call_is_long c1 then Qmax (S - K1) 0 - P1 else P1 - Qmax (S - K1) 0) +
                (if call_is_long c2 then Qmax (S - K2) 0 - P2 else P2 - Qmax (S - K2) 0)).
Proof.
  intros HK1 HP1 HK2 HP2. rewrite get_return_info_series_eq, HK1, HP1, HK2, HP2.
  intros [= <-].
  destruct (return_per_call_value (call_is_long c1) K1 P1 S) as (v1 & -> & E1).
  destruct (return_per_call_value (call_is_long c2) K2 P2 S) as (v2 & -> & E2).
  eexists. split; [reflexivity|]. rewrite <- E1, <- E2. ring.
Qed.

End SpreadReturn.

Lemma spread_gain_bounds (K1 K2 S : Q) :
  K2 <= K1 → 0 <= Qmax (S - K2) 0 - Qmax (S - K1) 0 <= K1 - K2.
Proof.
  intros HK. destruct (Qmax_cases (S - K2) 0) as [[? ->]|[? ->]];
    destruct (Qmax_cases (S - K1) 0) as [[? ->]|[? ->]]; lra.
Qed.

Lemma spread_gain_mono (K1 K2 S S' : Q) :
  K2 <= K1 → S <= S' →
  Qmax (S - K2) 0 - Qmax (S - K1) 0 <= Qmax (S' - K2) 0 - Qmax (S' - K1) 0.
Proof.
  intros HK HS. destruct (Qmax_cases (S - K2) 0) as [[? ->]|[? ->]];
    destruct (Qmax_cases (S - K1) 0) as [[? ->]|[? ->]];
    destruct (Qmax_cases (S' - K2) 0) as [[? ->]|[? ->]];
    destruct (Qmax_cases (S' - K1) 0) as [[? ->]|[? ->]]; lra.
Qed.

(** a spread that writes the first call (strike [K1], premium [P1])
    and holds the second (strike [K2 <= K1], premium [P2]), as the
    poor man's covered call of the script's [__main__], has at every asset
    price [S] a net return between [100 (P1 - P2)] and
    [100 (K1 - K2 + P1 - P2)], and the net return never decreases as the
    price rises. *)
Theorem bull_spread_net_return (c1 c2 : call) ticker i j row1 row2 K1 P1 K2 P2 :
  call_is_long c1 = false → call_is_long c2 = true →
  call_info_df c1 !! i = Some row1 → call_info_df c2 !! j = Some row2 →
  cr_strike row1 = Some K1 → cr_premium row1 = Some P1 →
  cr_strike row2 = Some K2 → cr_premium row2 = Some P2 → K2 <= K1 →
  ∀ S, ∃ r v, get_return_info_series c1 c2 ticker i j S = Ok r ∧ sr_net_return r = Some v ∧
    100 * (P1 - P2) <= v <= 100 * (K1 - K2 + P1 - P2) ∧
    ∀ S' r' v', S <= S' → get_return_info_series c1 c2 ticker i j S' = Ok r' →
      sr_net_return r' = Some v' → v <= v'.
Proof.
  intros Hl1 Hl2 Hr1 Hr2 HK1 HP1 HK2 HP2 HK S.
  pose proof (get_return_info_series_eq c1 c2 ticker i j row1 row2 Hr1 Hr2 S) as Hrun.
  destruct (net_return_value c1 c2 ticker i j row1 row2 Hr1 Hr2 K1 P1 K2 P2 S _ HK1 HP1 HK2 HP2 Hrun)
    as (v & Hv & Heq).
  rewrite Hl1, Hl2 in Heq.
  eexists _, v. split_and!; [exact Hrun | exact Hv | | |].
  - pose proof (spread_gain_bounds K1 K2 S HK). rewrite Heq. lra.
  - pose proof (spread_gain_bounds K1 K2 S HK). rewrite Heq. lra.
  - intros S' r' v' HS Hrun' Hv'.
    destruct (net_return_value c1 c2 ticker i j row1 row2 Hr1 Hr2 K1 P1 K2 P2 S' _ HK1 HP1 HK2 HP2
                Hrun') as (v'' & Hv'' & Heq').
    rewrite Hv' in Hv''. injection Hv'' as <-. rewrite Hl1, Hl2 in Heq'.
    pose proof (spread_gain_mono K1 K2 S S' HK HS). rewrite Heq, Heq'. lra.
Qed.

(** ** A spread of two written calls *)

Lemma short_call_capital ticker orig start info c r :
  make_call ticker orig start info false = Ok c → r ∈ call_info_df c → cr_capital r = Some 0.
Proof.
  intros Hc Hr. destruct (make_call_rows _ _ _ _ _ _ Hc) as (rows & _ & ->).
  apply list_elem_of_fmap in Hr as ([[exp s] p] & -> & _). reflexivity.
Qed.

(** when both calls of a spread are written, no capital is committed
    ([Capital Committed] is 0 for a short call) and the ["ROI"] of every
    spread is [Net Return / 0]: inf or NaN in pandas, whatever the prices. *)
Theorem short_spread_roi_undefined t1 o1 s1 info1 t2 o2 s2 info2 c1 c2 ticker i j S r :
  make_call t1 o1 s1 info1 false = Ok c1 → make_call t2 o2 s2 info2 false = Ok c2 →
  get_return_info_series c1 c2 ticker i j S = Ok r →
  sr_capital r = Some 0 ∧ sr_roi r = None.
Proof.
  intros Hc1 Hc2.
  destruct (call_info_df c1 !! i) as [row1|] eqn:Hr1;
    [|unfold get_return_info_series, iloc; by rewrite (get_return_info_df_lookup_None c1 S i Hr1)].
  destruct (call_info_df c2 !! j) as [row2|] eqn:Hr2;
    [|unfold get_return_info_series, iloc;
      by rewrite (get_return_info_df_lookup c1 S i row1 Hr1), bind_Ok,
        (get_return_info_df_lookup_None c2 S j Hr2)].
  rewrite (get_return_info_series_eq c1 c2 ticker i j row1 row2 Hr1 Hr2 S). intros [= <-].
  cbn [sr_capital sr_roi].
  rewrite (short_call_capital _ _ _ _ _ _ Hc1 (list_elem_of_lookup_2 _ _ _ Hr1)),
    (short_call_capital _ _ _ _ _ _ Hc2 (list_elem_of_lookup_2 _ _ _ Hr2)).
  split; [reflexivity|]. unfold fdiv at 1. case_match; reflexivity.
Qed.

(** ** Witnesses: the poor man's covered call of the script's [__main__] *)


Lemma bull_spread_net_return_witness :
  call_is_long demo_short_call = false ∧ call_is_long demo_long_call = true ∧
  call_info_df demo_short_call !! 0%nat = Some demo_short_row ∧
  call_info_df demo_long_call !! 0%nat = Some demo_long_row ∧
  ∃ r v, get_return_info_series demo_short_call demo_long_call "BA" 0 0 300 = Ok r ∧
    sr_net_return r = Some v ∧ 100 * (10 - 17) <= v <= 100 * (280 - 250 + 10 - 17).
Proof.
  assert (H1 : call_is_long demo_short_call = false) by reflexivity.
  assert (H2 : call_is_long demo_long_call = true) by reflexivity.
  assert (H3 : call_info_df demo_short_call !! 0%nat = Some demo_short_row) by reflexivity.
  assert (H4 : call_info_df demo_long_call !! 0%nat = Some demo_long_row) by reflexivity.
  assert (HK : 250 <= 280) by (vm_compute; discriminate).
  split_and!; [exact H1 | exact H2 | exact H3 | exact H4 |].
  destruct (bull_spread_net_return _ _ "BA" 0 0 _ _ 280 10 250 17 H1 H2 H3 H4
              eq_refl eq_refl eq_refl eq_refl HK 300) as (r & v & Hr & Hv & Hb & _).
  exists r, v. split_and!; [exact Hr | exact Hv | exact (proj1 Hb) | exact (proj2 Hb)].
Defined.

Lemma short_spread_roi_undefined_witness :
  make_call "BA" (26799 # 100) 0 demo_short_info false = Ok demo_short_call ∧
  ∃ r, get_return_info_series demo_short_call demo_short_call "BA" 0 0 300 = Ok r ∧
       sr_capital r = Some 0 ∧ sr_roi r = None.
Proof.
  assert (Hc : make_call "BA" (26799 # 100) 0 demo_short_info false = Ok demo_short_call)
    by reflexivity.
  split; [exact Hc|].
  destruct (get_return_info_series demo_short_call demo_short_call "BA" 0 0 300) as [r|e] eqn:E;
    [|vm_compute in E; discriminate E].
  exists r. split; [reflexivity|].
  exact (short_spread_roi_undefined _ _ _ _ _ _ _ _ _ _ "BA" 0 0 300 r Hc Hc E).
Defined.

Lemma make_call_spread_table_witness :
  length (call_info_df demo_short_call) ≠ 0%nat ∧ length (call_info_df demo_long_call) ≠ 0%nat ∧
  ∃ cs, make_call_spread demo_short_call demo_long_call = Ok cs ∧ length (cs_info cs) = 3%nat.
Proof.
  assert (H1 : length (call_info_df demo_short_call) ≠ 0%nat) by (vm_compute; discriminate).
  assert (H2 : length (call_info_df demo_long_call) ≠ 0%nat) by (vm_compute; discriminate).
  split_and!; [exact H1 | exact H2 |].
  destruct (proj1 (make_call_spread_table demo_short_call demo_long_call) H1 H2)
    as (cs & Hcs & Hlen & _).
  exists cs. split; [exact Hcs|]. rewrite Hlen. reflexivity.
Defined.
