(* ===== verification/Indicators.v ===== *)
(** * Indicators: [Stock] and [Technical_Indicators]

    The two classes of [src/Quantiative Finance/Options/Technical_Indicators _Class.py].
    A [Stock] downloads its daily bars (a DataFrame indexed by date with
    the columns [Open], [High], [Low], [Close], [Adj Close], [Volume]) in a
    retry loop and adds a ["Daily Return"] column; [Technical_Indicators]
    computes the MACD, the average true range and the Bollinger bands of a
    stock.  A DataFrame is a list of rows, a column of floats a [pyfloat]
    (NaN is [None]).  The downloads are an oracle: the [k]-th call of
    [pdr.get_data_yahoo] either returns a frame or raises.
    [get_financial_data] reads five pages of financialmodelingprep.com,
    an oracle from the URL to the decoded JSON or an exception, and merges
    the first record of each into [temp_dir], a [gmap] threaded through
    [stexc]; the section read from a page is chosen by substring tests on
    the URL, which select the intended section when the ticker has no
    lower-case letter.  Module [FAStock] is the [Stock] class of
    [Fundamental Analysis/Data Extraction/Stock_Class.py], which runs the
    same code without the daily returns. *)

From S2P Require Import Prelude Options Performance Sharpe.
From Stdlib Require Import Reals Qreals Qabs Psatz.

Local Open Scope pyfloat_scope.
Local Open Scope stexc_scope.

(** ** Daily bars *)

Record bar := mkBar {
  bar_open : pyfloat;
  bar_high : pyfloat;
  bar_low : pyfloat;
  bar_close : pyfloat;
  bar_adj_close : pyfloat;
  bar_volume : pyfloat
}.

(** A price frame: the date (a day number) and the bar of each row. *)
Abbreviation price_frame := (list (Z * bar)).

(** The column [df["Adj Close"]]. *)
Definition adj_closes (df : price_frame) : list pyfloat := map (λ r, bar_adj_close r.2) df.

Definition bar_complete (b : bar) : bool :=
  bool_decide (is_Some (bar_open b) ∧ is_Some (bar_high b) ∧ is_Some (bar_low b) ∧
               is_Some (bar_close b) ∧ is_Some (bar_adj_close b) ∧ is_Some (bar_volume b)).

(** [temp.dropna(inplace=True)]: drop every row with a NaN. *)
Definition dropna (df : price_frame) : price_frame := filter (λ r, bar_complete r.2) df.

Definition por (a b : pyfloat) : pyfloat := match a with Some _ => a | None => b end.

Definition fill_from (nxt r : bar) : bar :=
  mkBar (por (bar_open r) (bar_open nxt)) (por (bar_high r) (bar_high nxt))
        (por (bar_low r) (bar_low nxt)) (por (bar_close r) (bar_close nxt))
        (por (bar_adj_close r) (bar_adj_close nxt)) (por (bar_volume r) (bar_volume nxt)).

(** [fillna(method='bfill')]: a NaN takes the next valid value of its
    column; the filled row below already carries it. *)
Fixpoint bfill (df : price_frame) : price_frame :=
  match df with
  | [] => []
  | (d, r) :: rest =>
      let rest' := bfill rest in
      (d, match rest' with (_, n) :: _ => fill_from n r | [] => r end) :: rest'
  end.

(** ** [Stock] *)

Record stock := mkStock {
  st_ticker : string;
  st_prices : price_frame;
  st_daily_return : list pyfloat
}.

(** [get_daily_returns]: [historical_price_data["Adj Close"].pct_change()]. *)
Definition get_daily_returns (df : price_frame) : list pyfloat :=
  pct_change (adj_closes df).

(** The loop of [get_historical_price_data].  [attempt] counts the
    successful downloads, [calls] the calls made so far.  A download that
    raises is caught by the bare [except], which prints and [continue]s
    without incrementing [attempt]; a successful one stores the cleaned
    frame and increments it.  [None] is running out of fuel. *)
Fixpoint retry_loop (fuel : nat) (download : nat → option price_frame)
    (attempt calls : nat) (hist : price_frame) : option (price_frame * nat) :=
  match fuel with
  | O => None
  | S fuel' =>
      if (attempt <? 3)%nat then
        match download calls with
        | Some temp => retry_loop fuel' download (S attempt) (S calls) (bfill (dropna temp))
        | None => retry_loop fuel' download attempt (S calls) hist
        end
      else Some (hist, calls)
  end.

(** [Stock.__init__] up to the download of the financial statements: the
    frame starts empty, the loop runs, then [get_daily_returns].  The
    result carries the number of downloads made. *)
Definition get_historical_price_data (fuel : nat) (download : nat → option price_frame)
    (ticker : string) : option (stock * nat) :=
  '(hist, calls) ← retry_loop fuel download 0 0 [];
  Some (mkStock ticker hist (get_daily_returns hist), calls).

(** The number of successful downloads among the calls [c .. c + n - 1]. *)
Definition successes (download : nat → option price_frame) (c n : nat) : nat :=
  length (filter (λ i, is_Some (download i)) (seq c n)).

(** ** pandas' windows *)

(** The state of pandas' [ewma] kernel ([adjust=True], [ignore_na=False]):
    the running weighted mean, the weight of the past and the number of
    observations seen. *)
Record ewm_state := mkEwm {
  ew_weighted : pyfloat;
  ew_old_wt : Q;
  ew_nobs : nat
}.

(** [alpha = 2 / (span + 1)]. *)
Definition ewm_alpha (span : nat) : Q := 2 / (inject_Z (Z.of_nat span) + 1).

(** One iteration of the kernel: the past weight decays at every row, NaN
    or not; an observation equal to the running mean leaves it unchanged
    (the kernel's guard against rounding on constant series). *)
Definition ewm_step (alpha : Q) (s : ewm_state) (cur : pyfloat) : ewm_state :=
  match ew_weighted s, cur with
  | Some w, Some x =>
      let ow := ew_old_wt s * (1 - alpha) in
      mkEwm (Some (if Qeq_bool w x then w else (ow * w + x) / (ow + 1))) (ow + 1) (S (ew_nobs s))
  | Some w, None => mkEwm (Some w) (ew_old_wt s * (1 - alpha)) (ew_nobs s)
  | None, Some x => mkEwm (Some x) (ew_old_wt s) (S (ew_nobs s))
  | None, None => s
  end.

Fixpoint ewm_from (alpha : Q) (minp : nat) (s : ewm_state) (xs : list pyfloat) : list pyfloat :=
  match xs with
  | [] => []
  | x :: rest =>
      let s' := ewm_step alpha s x in
      (if (minp <=? ew_nobs s')%nat then ew_weighted s' else None) :: ewm_from alpha minp s' rest
  end.

(** [Series.ewm(span=span, min_periods=min_periods).mean()]; the kernel
    uses [max(min_periods, 1)]. *)
Definition ewm_mean (span min_periods : nat) (xs : list pyfloat) : list pyfloat :=
  ewm_from (ewm_alpha span) (Nat.max min_periods 1) (mkEwm None 1 0) xs.

(** The rows [e - n .. e - 1] of a column (fewer at its start). *)
Definition window {A} (n e : nat) (xs : list A) : list A := drop (e - n) (take e xs).

(** [Series.rolling(n).f()]: [min_periods] is the window size, so a row
    has a value when its window holds [n] numbers.  The windows of the
    indicators have [n >= 1]. *)
Definition rolling {B} (n : nat) (f : list Q → B) (xs : list pyfloat) : list (option B) :=
  map (λ t, let w := skipna (window n (S t) xs) in
            if (n <=? length w)%nat then Some (f w) else None) (seq 0 (length xs)).

(** [Series.shift(1)]. *)
Definition shift1 (xs : list pyfloat) : list pyfloat := None :: take (pred (length xs)) xs.

(** The entry of a column at a row ([NaN] past its end). *)
Definition col_at (xs : list pyfloat) (i : nat) : pyfloat := mjoin (xs !! i).

(** ** [Technical_Indicators] *)

Record macd_row := mkMacdRow {
  macd_date : Z;
  macd_daily_return : pyfloat;
  macd_adj_close : pyfloat;
  macd_fast : pyfloat;
  macd_slow : pyfloat;
  macd_macd : pyfloat;
  macd_signal : pyfloat
}.

Definition macd_row_complete (r : macd_row) : bool :=
  bool_decide (is_Some (macd_daily_return r) ∧ is_Some (macd_adj_close r) ∧
               is_Some (macd_fast r) ∧ is_Some (macd_slow r) ∧
               is_Some (macd_macd r) ∧ is_Some (macd_signal r)).

(** [get_MACD_df(fast, slow, signal)]: two moving averages of the daily
    returns, their difference and its signal line, then [dropna]. *)
Definition get_MACD_df (fast slow signal : nat) (s : stock) : list macd_row :=
  let dr := st_daily_return s in
  let ma_fast := ewm_mean fast fast dr in
  let ma_slow := ewm_mean slow slow dr in
  let macd := zip_with fsub ma_fast ma_slow in
  let sig := ewm_mean signal signal macd in
  filter (λ r, macd_row_complete r)
    (imap (λ i r, mkMacdRow r.1 (col_at dr i) (bar_adj_close r.2) (col_at ma_fast i)
                            (col_at ma_slow i) (col_at macd i) (col_at sig i)) (st_prices s)).

(** [max(axis=1, skipna=False)] over three columns. *)
Definition fmax3 (a b c : pyfloat) : pyfloat :=
  match a, b, c with Some x, Some y, Some z => Some (Qmax x (Qmax y z)) | _, _, _ => None end.

Record atr_row := mkAtrRow {
  atr_date : Z;
  atr_atr : pyfloat;
  atr_tr : pyfloat
}.

(** The true range of a row, from its high, low and the previous close. *)
Definition true_range (h l pc : pyfloat) : pyfloat :=
  fmax3 (fabs (h -. l)) (fabs (h -. pc)) (fabs (l -. pc)).

(** The column [df["TR"]]: the previous close is [df["Adj Close"].shift(1)]. *)
Definition true_ranges (df : price_frame) : list pyfloat :=
  zip_with (λ r pc, true_range (bar_high r.2) (bar_low r.2) pc) df (shift1 (adj_closes df)).

(** [get_ATR_df(n)]: the true range and its [n]-row rolling mean; the
    frame keeps its NaN rows. *)
Definition get_ATR_df (n : nat) (s : stock) : list atr_row :=
  let df := st_prices s in
  let tr := true_ranges df in
  let atr := rolling n Qmean tr in
  imap (λ i r, mkAtrRow r.1 (col_at atr i) (col_at tr i)) df.

Record bb_row := mkBBRow {
  bb_date : Z;
  bb_high : pyfloat;
  bb_low : pyfloat;
  bb_adj_close : pyfloat;
  bb_ma : pyfloat;
  bb_up : option R;
  bb_dn : option R;
  bb_width : option R
}.

Definition bb_row_complete (r : bb_row) : bool :=
  bool_decide (is_Some (bb_high r) ∧ is_Some (bb_low r) ∧ is_Some (bb_adj_close r) ∧
               is_Some (bb_ma r) ∧ is_Some (bb_up r) ∧ is_Some (bb_dn r) ∧ is_Some (bb_width r)).

(** [rolling(m).std(ddof=0)]: the square root of the population variance. *)
Definition pop_std (w : list Q) : R := sqrt (Q2R (Qvar_pop w)).

Definition rlift2 (f : R → R → R) (a b : option R) : option R :=
  match a, b with Some x, Some y => Some (f x y) | _, _ => None end.

(** [get_BollBnd_df(n, m)]: the [n]-row moving average of the adjusted
    close, bands [n] population deviations of an [m]-row window away from
    it, their width, then [dropna]. *)
Definition get_BollBnd_df (n m : nat) (s : stock) : list bb_row :=
  let df := st_prices s in
  let ma := rolling n Qmean (adj_closes df) in
  let sd := rolling m pop_std (adj_closes df) in
  let scaled := map (option_map (Rmult (INR n))) sd in
  let up := zip_with (rlift2 Rplus) (map (option_map Q2R) ma) scaled in
  let dn := zip_with (rlift2 Rminus) (map (option_map Q2R) ma) scaled in
  let width := zip_with (rlift2 Rminus) up dn in
  filter (λ r, bb_row_complete r)
    (imap (λ i r, mkBBRow r.1 (bar_high r.2) (bar_low r.2) (bar_adj_close r.2) (col_at ma i)
                          (mjoin (up !! i)) (mjoin (dn !! i)) (mjoin (width !! i))) df).

Record technical_indicators := mkTechnicalIndicators {
  ti_stock : stock;
  ti_MACD : list macd_row;
  ti_ATR : list atr_row;
  ti_BollBnd : list bb_row
}.

(** [Technical_Indicators.__init__]. *)
Definition make_technical_indicators (s : stock) : technical_indicators :=
  mkTechnicalIndicators s (get_MACD_df 12 26 9 s) (get_ATR_df 14 s) (get_BollBnd_df 2 20 s).

(** ** Demo data

    Forty daily bars whose adjusted close cycles through 10, 11 and 12,
    and a download oracle whose second call raises. *)

Definition demo_bar (q : Q) : bar :=
  mkBar (Some q) (Some (q + 1)) (Some (q - 1)) (Some q) (Some q) (Some 1000).

Definition demo_frame : price_frame :=
  map (λ k, (Z.of_nat k, demo_bar (inject_Z (10 + Z.of_nat (k mod 3))))) (seq 0 40).

Definition demo_stock : stock := mkStock "AAPL" demo_frame (get_daily_returns demo_frame).

(** A download with a NaN row, which [dropna] removes. *)
Definition demo_download_frame : price_frame :=
  [(1%Z, demo_bar 10); (2%Z, mkBar None (Some 12) (Some 10) (Some 11) (Some 11) (Some 900));
   (3%Z, demo_bar 12)].

Definition demo_downloads (k : nat) : option price_frame :=
  if (k =? 1)%nat then None else Some demo_download_frame.

(** ** [Stock.get_financial_data]

    The five pages of financialmodelingprep.com, read after the prices in
    [Stock.__init__].  [fetch url] is [requests.get(url).json()]: the
    decoded page, or the exception [requests.get] or [page.json()]
    raises.  The whole loop sits in one bare [try]: the first exception
    prints a line and ends the loop, and [temp_dir] keeps what the pages
    before it wrote. *)

(** A value decoded by [page.json()]; [JObj kvs] is an object with its
    members in the order of the page. *)
Inductive json : Type :=
| JNull
| JBool (b : bool)
| JNum (q : Q)
| JStr (s : string)
| JArr (xs : list json)
| JObj (kvs : list (string * json)).

(** [d[key] = value] for each pair in turn: a later pair overwrites an
    earlier one.  This builds the dict of a JSON object, and is the inner
    [for key,value in ...items(): temp_dir[key] = value] loop. *)
Definition dict_insert_all (d : gmap string json) (kvs : list (string * json)) : gmap string json :=
  foldl (λ m kv, <[kv.1 := kv.2]> m) d kvs.

Definition json_dict (kvs : list (string * json)) : gmap string json := dict_insert_all ∅ kvs.

(** [j[key]] with a string key. *)
Definition json_get (j : json) (key : string) : result json :=
  match j with
  | JObj kvs => dict_get (json_dict kvs) key
  | JArr _ => Err (TypeError "list indices must be integers or slices, not str")
  | JStr _ => Err (TypeError "string indices must be integers")
  | _ => Err (TypeError "object is not subscriptable")
  end.

(** [j[0]]: a dict's keys are strings, so the int [0] is never one. *)
Definition json_index0 (j : json) : result json :=
  match j with
  | JArr (x :: _) => Ok x
  | JArr [] => Err IndexError
  | JObj _ => Err (KeyError "0")
  | JStr (String c _) => Ok (JStr (String c EmptyString))
  | JStr EmptyString => Err IndexError
  | _ => Err (TypeError "object is not subscriptable")
  end.

(** [j.items()]: only a dict has it. *)
Definition json_items (j : json) : result (gmap string json) :=
  match j with
  | JObj kvs => Ok (json_dict kvs)
  | _ => Err (AttributeError "items")
  end.

(** Equality of decoded values, decided by [json_eq_dec] at the end of
    the file. *)

Fixpoint json_eqb (a b : json) : bool :=
  match a, b with
  | JNull, JNull => true
  | JBool x, JBool y => Bool.eqb x y
  | JNum x, JNum y => Z.eqb (Qnum x) (Qnum y) && Pos.eqb (Qden x) (Qden y)
  | JStr x, JStr y => String.eqb x y
  | JArr xs, JArr ys =>
      (fix go (xs ys : list json) : bool :=
         match xs, ys with
         | [], [] => true
         | x :: xs', y :: ys' => json_eqb x y && go xs' ys'
         | _, _ => false
         end) xs ys
  | JObj xs, JObj ys =>
      (fix go (xs ys : list (string * json)) : bool :=
         match xs, ys with
         | [], [] => true
         | (k, x) :: xs', (l, y) :: ys' => String.eqb k l && json_eqb x y && go xs' ys'
         | _, _ => false
         end) xs ys
  | _, _ => false
  end.

(** Python's [sub in s] on strings. *)
Fixpoint str_contains (sub s : string) : bool :=
  String.prefix sub s || match s with EmptyString => false | String _ s' => str_contains sub s' end.

Definition fmp_link : string := "https://financialmodelingprep.com/api/v3".

Definition fmp_links (ticker : string) : list string :=
  [fmp_link +:+ "/financials/balance-sheet-statement/" +:+ ticker;
   fmp_link +:+ "/financials/income-statement/" +:+ ticker;
   fmp_link +:+ "/financials/cash-flow-statement/" +:+ ticker;
   fmp_link +:+ "/enterprise-value/" +:+ ticker;
   fmp_link +:+ "/company-key-metrics/" +:+ ticker].

(** [fin_dir[section][0].items()]: the three steps may raise. *)
Definition first_record (fin_dir : json) (section : string) : result (gmap string json) :=
  sec ← json_get fin_dir section; row ← json_index0 sec; json_items row.

(** [for key,value in fin_dir[section][0].items(): temp_dir[key] = value]:
    nothing is written when the record cannot be read. *)
Definition merge_section (fin_dir : json) (section : string) : stexc (gmap string json) unit :=
  items ⇐ st_lift (first_record fin_dir section);
  temp_dir ⇐ st_get;
  st_put (dict_insert_all temp_dir (map_to_list items)).

(** The body of [for url in links:], the [if]/[if]/[elif] on the URL's
    text included. *)
Definition financial_step (fetch : string → result json) (url : string) : stexc (gmap string json) unit :=
  fin_dir ⇐ st_lift (fetch url);
  _ ⇐ (if str_contains "metrics" url then merge_section fin_dir "metrics" else st_ret tt);
  if str_contains "enterprise" url then merge_section fin_dir "enterpriseValues"
  else if str_contains "financials" url then merge_section fin_dir "financials"
  else st_ret tt.

Definition financial_loop (fetch : string → result json) (urls : list string) : stexc (gmap string json) unit :=
  foldr (λ url m, _ ⇐ financial_step fetch url; m) (st_ret tt) urls.

(** [get_financial_data]: the lines printed and [self.financial_data],
    the frame [pd.DataFrame({ticker: temp_dir})] as its one column. *)
Definition get_financial_data (fetch : string → result json) (ticker : string)
    : list string * gmap string (gmap string json) :=
  let '(temp_dir, r) := financial_loop fetch (fmp_links ticker) ∅ in
  (if is_ok r then [] else ["Problem scraping data for  " +:+ ticker], {[ ticker := temp_dir ]}).

(** [Stock.__init__]: the prices, then the financial statements; [None]
    when the retry loop runs out of fuel. *)
Definition Stock_init (fuel : nat) (download : nat → option price_frame) (fetch : string → result json)
    (ticker : string) : option (stock * nat * (list string * gmap string (gmap string json))) :=
  '(s, calls) ← get_historical_price_data fuel download ticker;
  Some (s, calls, get_financial_data fetch ticker).

(** The sections the loop reads from the five links, in order, and the
    record each link yields: what [requests.get(url).json()[section][0]]
    holds, or the exception reading it raises. *)
Definition fmp_sections : list string :=
  ["financials"; "financials"; "financials"; "enterpriseValues"; "metrics"].

Definition fmp_records (fetch : string → result json) (ticker : string) : list (result (gmap string json)) :=
  zip_with (λ url section, fin_dir ← fetch url; first_record fin_dir section) (fmp_links ticker) fmp_sections.

(** A ticker symbol without lower-case letters (["AAPL"], ["BRK-B"]): the
    words the loop looks for in a URL cannot come from it. *)
Definition is_lower (c : Ascii.ascii) : bool :=
  (97 <=? Ascii.nat_of_ascii c)%nat && (Ascii.nat_of_ascii c <=? 122)%nat.

Fixpoint lower_free (s : string) : bool :=
  match s with EmptyString => true | String c s' => negb (is_lower c) && lower_free s' end.

Fixpoint all_lower (s : string) : bool :=
  match s with EmptyString => true | String c s' => is_lower c && all_lower s' end.

(** Pages of the API for [AAPL]: the enterprise-value page answers with an
    error message instead of ["enterpriseValues"]. *)
Definition demo_statement (k : string) (v : Q) : json :=
  JObj [("financials", JArr [JObj [("date", JStr "2019-09-28"); (k, JNum v)]])].

Definition demo_fetch (url : string) : result json :=
  if str_contains "balance-sheet" url then Ok (demo_statement "Total assets" 338516)
  else if str_contains "income" url then Ok (demo_statement "Revenue" 260174)
  else if str_contains "cash-flow" url then Ok (demo_statement "Free Cash Flow" 58896)
  else if str_contains "enterprise" url then Ok (JObj [("Error Message", JStr "Invalid API KEY.")])
  else Ok (JObj [("metrics", JArr [JObj [("date", JStr "2019-09-28"); ("PE ratio", JNum (2061 # 100))]])]).

(** The loop over the records themselves: a record is merged into
    [temp_dir], an exception ends the loop. *)
Definition record_step (r : result (gmap string json)) : stexc (gmap string json) unit :=
  λ d, match r with Ok m => (m ∪ d, Ok tt) | Err e => (d, Err e) end.

Definition record_loop (rs : list (result (gmap string json))) : stexc (gmap string json) unit :=
  foldr (λ r m, _ ⇐ record_step r; m) (st_ret tt) rs.

(** The three statements [demo_fetch] serves before the enterprise-value
    page fails. *)
Definition demo_records : list (gmap string json) :=
  [json_dict [("date", JStr "2019-09-28"); ("Total assets", JNum 338516)];
   json_dict [("date", JStr "2019-09-28"); ("Revenue", JNum 260174)];
   json_dict [("date", JStr "2019-09-28"); ("Free Cash Flow", JNum 58896)]].

(** ** [Stock] of [Fundamental Analysis/Data Extraction/Stock_Class.py]

    The same class without [get_daily_returns]: its download loop is the
    loop above, its [get_financial_data] the code above, with [link] a
    global of the module. *)

Module FAStock.

Record stock := mkStock {
  ticker : string;
  historical_price_data : price_frame;
  financial_data : gmap string (gmap string json)
}.

(** [get_historical_price_data]: the retry loop, and nothing after it. *)
Definition get_historical_price_data (fuel : nat) (download : nat → option price_frame)
    : option (price_frame * nat) :=
  retry_loop fuel download 0 0 [].

(** [Stock.__init__]: the frame, the number of downloads, and the lines
    [get_financial_data] printed. *)
Definition Stock_init (fuel : nat) (download : nat → option price_frame) (fetch : string → result json)
    (ticker : string) : option (stock * nat * list string) :=
  '(hist, calls) ← get_historical_price_data fuel download;
  let '(printed, fd) := get_financial_data fetch ticker in
  Some (mkStock ticker hist fd, calls, printed).

(** The [__main__] block: [AAPL] over the year before [today]; the
    downloads depend on the dates asked for. *)
Definition main (fuel : nat) (download : Z → Z → nat → option price_frame) (fetch : string → result json)
    (today : Z) : option (stock * nat * list string) :=
  Stock_init fuel (download (today - 365)%Z today) fetch "AAPL".

End FAStock.

(** ** Predicates on columns

    [threshold k xs]: the entry of row [j] is a number exactly when
    [k <= j].  pandas' moving windows turn such a column into another one,
    [k] growing by the warm-up of the window. *)

Definition threshold (k : nat) (xs : list pyfloat) : Prop :=
  ∀ j, (j < length xs)%nat → (is_Some (col_at xs j) ↔ (k ≤ j)%nat).

(** The kernel's weighted mean is a number once an observation is seen. *)
Definition ewm_ok (s : ewm_state) : Prop := is_Some (ew_weighted s) ↔ (1 ≤ ew_nobs s)%nat.

(** [in_range lo hi a]: [a] is NaN or a number in [[lo, hi]]. *)
Definition in_range (lo hi : Q) (a : pyfloat) : Prop := ∀ v, a = Some v → lo <= v <= hi.

(** Decision procedures for the hypotheses on concrete frames. *)
Definition closes_nonzero_b (df : price_frame) : bool :=
  forallb (λ r, match bar_adj_close r.2 with Some c => negb (Qeq_bool c 0) | None => false end) df.

Definition in_range_b (lo hi : Q) (xs : list pyfloat) : bool :=
  forallb (λ a, match a with Some v => Qle_bool lo v && Qle_bool v hi | None => true end) xs.

(** ** Lemmas on the download loop *)

Lemma successes_cons dl c n :
  successes dl c (S n) = ((if decide (is_Some (dl c)) then 1 else 0) + successes dl (S c) n)%nat.
Proof. unfold successes. cbn [seq]. rewrite filter_cons. by case_decide. Qed.

Lemma successes_none dl c n : (∀ k, dl k = None) → successes dl c n = 0%nat.
Proof.
  intros Hn. revert c. induction n as [|n IH]; intros c; [done|].
  rewrite successes_cons, IH, Hn. case_decide as Hs; [by destruct Hs|done].
Qed.

Lemma fill_from_complete n r : bar_complete r = true → fill_from n r = r.
Proof.
  destruct r as [o h l c a v]. unfold bar_complete. cbn. rewrite bool_decide_eq_true.
  intros ([? ->] & [? ->] & [? ->] & [? ->] & [? ->] & [? ->]). done.
Qed.

(** [fillna(method='bfill')] after [dropna] changes nothing. *)
Lemma bfill_dropna df : bfill (dropna df) = dropna df.
Proof.
  assert (Hc : Forall (λ r, bar_complete r.2 = true) (dropna df)).
  { apply Forall_forall. intros r Hr. apply list_elem_of_filter in Hr as [Hr _].
    by apply Is_true_eq_true. }
  induction Hc as [|[d r] rest Hr _ IH]; [done|].
  cbn [bfill]. rewrite IH. destruct rest as [|[??]]; [done|]. by rewrite fill_from_complete.
Qed.

Lemma retry_loop_S fuel dl a c h :
  retry_loop (S fuel) dl a c h =
  if (a <? 3)%nat then
    match dl c with
    | Some t => retry_loop fuel dl (S a) (S c) (bfill (dropna t))
    | None => retry_loop fuel dl a (S c) h
    end
  else Some (h, c).
Proof. done. Qed.

(** Every run of the loop that returns has made its last call a
    successful download, and exactly three of its calls succeeded. *)
Lemma retry_loop_sound fuel dl a c h h' k :
  (a ≤ 3)%nat → retry_loop fuel dl a c h = Some (h', k) →
  (c ≤ k)%nat ∧ (a + successes dl c (k - c) = 3)%nat ∧
  ((k = c ∧ h' = h) ∨ (c < k)%nat ∧ ∃ t, dl (k - 1)%nat = Some t ∧ h' = bfill (dropna t)).
Proof.
  revert a c h. induction fuel as [|fuel IH]; intros a c h Ha Hr; [done|].
  rewrite retry_loop_S in Hr. destruct (Nat.ltb_spec a 3) as [Hlt|Hge].
  - destruct (dl c) as [t|] eqn:Hd.
    + destruct (IH (S a) (S c) _ ltac:(lia) Hr) as (Hck & Hs & Hcase).
      replace (k - c)%nat with (S (k - S c)) by lia.
      rewrite successes_cons, decide_True by (rewrite Hd; by eexists).
      split; [lia|]. split; [lia|]. right. split; [lia|].
      destruct Hcase as [[-> ->] | [_ Ht]]; [|done]. exists t. by rewrite Nat.sub_1_r.
    + destruct (IH _ _ _ Ha Hr) as (Hck & Hs & Hcase).
      destruct Hcase as [[-> ->] | [Hlt' Ht]].
      { rewrite Nat.sub_diag in Hs. cbn in Hs. lia. }
      replace (k - c)%nat with (S (k - S c)) by lia.
      rewrite successes_cons, decide_False by (rewrite Hd; by intros []).
      split; [lia|]. split; [lia|]. right. split; [lia | done].
  - injection Hr as <- <-. rewrite Nat.sub_diag. cbn. split; [lia|]. split; [lia|]. by left.
Qed.

(** Enough calls to see the missing successes give the loop enough fuel. *)
Lemma retry_loop_complete n dl a c h :
  (a ≤ 3)%nat → (3 ≤ a + successes dl c n)%nat → ∃ r, retry_loop (S n) dl a c h = Some r.
Proof.
  revert a c h. induction n as [|n IH]; intros a c h Ha Hs.
  - cbn in Hs. rewrite retry_loop_S. destruct (Nat.ltb_spec a 3); [lia | by eexists].
  - rewrite successes_cons in Hs. rewrite retry_loop_S. destruct (Nat.ltb_spec a 3); [|by eexists].
    destruct (dl c) as [t|] eqn:Hd.
    + apply IH; [lia|]. rewrite decide_True in Hs by (by eexists). lia.
    + apply IH; [lia|]. rewrite decide_False in Hs by (by intros []). lia.
Qed.


Section Columns.
Local Open Scope nat_scope.

Lemma col_at_lookup (xs : list pyfloat) j x : xs !! j = Some x → col_at xs j = x.
Proof. unfold col_at. by intros ->. Qed.

Lemma flift2_is_Some f (x y : pyfloat) : is_Some (flift2 f x y) ↔ is_Some x ∧ is_Some y.
Proof.
  rewrite !is_Some_alt. destruct x, y; cbn; tauto.
Qed.

Lemma filter_length_iff {A} (P Q : A → Prop) `{∀ x, Decision (P x), ∀ x, Decision (Q x)} l :
  (∀ x, x ∈ l → (P x ↔ Q x)) → length (filter P l) = length (filter Q l).
Proof.
  induction l as [|x l IH]; intros Hl; [done|]. rewrite !filter_cons.
  pose proof (Hl x ltac:(by left)).
  assert (length (filter P l) = length (filter Q l)) by (apply IH; intros y Hy; apply Hl; by right).
  do 2 case_decide; cbn; naive_solver.
Qed.

Lemma filter_seq_ge k a m : length (filter (λ j, k ≤ j) (seq a m)) = a + m - Nat.max a k.
Proof.
  revert a. induction m as [|m IH]; intros a; [cbn; lia|].
  cbn [seq]. rewrite filter_cons, <-Nat.add_succ_comm. case_decide; cbn [length]; rewrite IH; lia.
Qed.

Lemma skipna_map_length (f : nat → pyfloat) l :
  length (skipna (map f l)) = length (filter (λ j, is_Some (f j)) l).
Proof.
  unfold skipna. induction l as [|j l IH]; [done|]. rewrite filter_cons. cbn [map].
  destruct (f j) eqn:Hf; case_decide as Hs; rewrite ?Hf in Hs; cbn [omap list_omap length id];
    rewrite ?IH; try done; by destruct Hs.
Qed.

Lemma drop_take_seq (xs : list pyfloat) a e :
  e ≤ length xs → drop a (take e xs) = map (col_at xs) (seq a (e - a)).
Proof.
  intros He. apply list_eq. intros j. rewrite lookup_drop, list_lookup_fmap.
  destruct (decide (a + j < e)) as [Hlt|Hge].
  - rewrite lookup_take_lt, lookup_seq_lt by lia.
    destruct (lookup_lt_is_Some_2 xs (a + j)) as [x Hx]; [lia|].
    rewrite Hx. cbn. by rewrite (col_at_lookup xs _ x).
  - by rewrite lookup_take_ge, lookup_seq_ge by lia.
Qed.

(** The number of numbers in the rows [a .. e - 1]. *)
Lemma nobs_threshold k xs a e :
  threshold k xs → e ≤ length xs → length (skipna (drop a (take e xs))) = e - Nat.max a k.
Proof.
  intros Hk He. rewrite drop_take_seq, skipna_map_length by done.
  rewrite (filter_length_iff _ (λ j, k ≤ j)), filter_seq_ge; [lia|].
  intros j Hj%elem_of_seq. apply Hk. lia.
Qed.

Lemma threshold_zip_with_fsub a b xs ys :
  length xs = length ys → threshold a xs → threshold b ys →
  threshold (Nat.max a b) (zip_with fsub xs ys).
Proof.
  intros Hl Ha Hb j Hj. rewrite length_zip_with in Hj.
  destruct (lookup_lt_is_Some_2 xs j) as [x Hx]; [lia|].
  destruct (lookup_lt_is_Some_2 ys j) as [y Hy]; [lia|].
  pose proof (Ha j ltac:(lia)) as Haj. pose proof (Hb j ltac:(lia)) as Hbj.
  rewrite (col_at_lookup xs j x Hx) in Haj. rewrite (col_at_lookup ys j y Hy) in Hbj.
  rewrite (col_at_lookup _ j (fsub x y)) by (rewrite lookup_zip_with, Hx, Hy; done).
  unfold fsub. rewrite flift2_is_Some, Haj, Hbj. lia.
Qed.

Lemma skipna_cons_length (x : pyfloat) l :
  length (skipna (x :: l)) = length (skipna [x]) + length (skipna l).
Proof. by destruct x. Qed.

Lemma col_at_cons_0 (x : pyfloat) l : col_at (x :: l) 0 = x.
Proof. done. Qed.

Lemma col_at_cons_S (x : pyfloat) l j : col_at (x :: l) (S j) = col_at l j.
Proof. done. Qed.


Lemma ewm_step_ok alpha s x :
  ewm_ok s → ewm_ok (ewm_step alpha s x) ∧
  ew_nobs (ewm_step alpha s x) = ew_nobs s + length (skipna [x]).
Proof.
  unfold ewm_ok. rewrite !is_Some_alt.
  destruct s as [[w|] ow c], x as [x|]; cbn; intros H; split; try lia; tauto.
Qed.

Lemma length_ewm_from alpha mp s xs : length (ewm_from alpha mp s xs) = length xs.
Proof. revert s. induction xs; intros s; cbn; auto. Qed.

Lemma ewm_from_defined alpha mp s xs i :
  1 ≤ mp → ewm_ok s → i < length xs →
  is_Some (col_at (ewm_from alpha mp s xs) i) ↔
  mp ≤ ew_nobs s + length (skipna (take (S i) xs)).
Proof.
  revert s i. induction xs as [|x xs IH]; intros s i Hmp Hs Hi; cbn in Hi; [lia|].
  destruct (ewm_step_ok alpha s x Hs) as [Hs' Hn]. rewrite firstn_cons, skipna_cons_length.
  destruct i as [|i]; cbn [ewm_from].
  - rewrite col_at_cons_0, take_0. change (length (skipna [])) with 0.
    unfold ewm_ok in Hs'.
    destruct (Nat.leb_spec mp (ew_nobs (ewm_step alpha s x))); [rewrite Hs'; lia|].
    split; [by intros [] | lia].
  - rewrite col_at_cons_S, IH by (done || lia). lia.
Qed.

Lemma length_ewm_mean span mp xs : length (ewm_mean span mp xs) = length xs.
Proof. apply length_ewm_from. Qed.

Lemma threshold_ewm_mean span mp k xs :
  threshold k xs → threshold (k + Nat.max mp 1 - 1) (ewm_mean span mp xs).
Proof.
  intros Hk j Hj. unfold ewm_mean in Hj |- * ; rewrite length_ewm_from in Hj.
  rewrite ewm_from_defined by (done || lia || (unfold ewm_ok; cbn; split; [by intros []|lia])).
  rewrite <-(drop_0 (take (S j) xs)), (nobs_threshold k) by (done || lia). cbn. lia.
Qed.

Lemma threshold_rolling {B} n (f : list Q → B) k xs :
  1 ≤ n → threshold k xs →
  ∀ t, t < length xs → (is_Some (mjoin (rolling n f xs !! t)) ↔ k + n - 1 ≤ t).
Proof.
  intros Hn Hk t Ht. unfold rolling. rewrite list_lookup_fmap, lookup_seq_lt by done. cbn.
  unfold window. rewrite (nobs_threshold k) by (done || lia).
  destruct (Nat.leb_spec n (S t - Nat.max (S t - n) k)); split; intros Hs;
    try (by eexists); try lia. by destruct Hs.
Qed.

Lemma length_rolling {B} n (f : list Q → B) xs : length (rolling n f xs) = length xs.
Proof. unfold rolling. by rewrite length_map, length_seq. Qed.

(** The rows of [filter P (imap f l)] kept are those from index [k] on. *)
Lemma length_filter_imap {A B} (P : B → Prop) `{∀ b, Decision (P b)} (f : nat → A → B) l k :
  (∀ i x, l !! i = Some x → (P (f i x) ↔ k ≤ i)) → length (filter P (imap f l)) = length l - k.
Proof.
  revert f k. induction l as [|x l IH]; intros f k Hf; [done|].
  rewrite imap_cons, filter_cons. pose proof (Hf 0 x eq_refl) as H0.
  assert (length (filter P (imap (f ∘ S) l)) = length l - (k - 1)) as Hl
    by (apply IH; intros i y Hy; cbn; rewrite (Hf (S i) y Hy); lia).
  case_decide as HP; cbn [length]; rewrite Hl; rewrite H0 in HP; lia.
Qed.

End Columns.

(** ** The warm-up of the indicators *)

Section Warmup.
Local Open Scope nat_scope.

Lemma pct_change_from_defined p df :
  ¬ (p == 0)%Q → Forall (λ r, ∃ c, bar_adj_close r.2 = Some c ∧ ¬ (c == 0)%Q) df →
  Forall is_Some (pct_change_from (Some p) (adj_closes df)).
Proof.
  intros Hp Hdf. revert p Hp. induction Hdf as [|r df (c & Hc & Hc0) _ IH]; intros p Hp; [done|].
  cbn [adj_closes map pct_change_from]. rewrite Hc. cbn [pct_ratio].
  rewrite (Qeq_bool_false p 0) by done. constructor; [by eexists | by apply IH].
Qed.

(** On closes that are numbers and not zero, the daily returns are NaN on
    the first row only. *)
Lemma threshold_daily_returns df :
  Forall (λ r, ∃ c, bar_adj_close r.2 = Some c ∧ ¬ (c == 0)%Q) df →
  threshold 1 (get_daily_returns df) ∧ length (get_daily_returns df) = length df.
Proof.
  unfold get_daily_returns, pct_change. intros Hdf.
  split; [|by rewrite length_pct_change_from; unfold adj_closes; rewrite length_map].
  inversion Hdf as [|r df' (c & Hc & Hc0) Hdf']; subst; [intros j Hj; cbn in Hj; lia|].
  cbn [adj_closes map pct_change_from]. rewrite Hc. fold (adj_closes df'). cbn [pct_ratio].
  pose proof (pct_change_from_defined c df' Hc0 Hdf') as Hs.
  intros [|j] Hj; [cbn; split; [by intros [] | lia]|].
  rewrite col_at_cons_S. cbn in Hj. rewrite length_pct_change_from in Hj; unfold adj_closes in Hj; rewrite length_map in Hj.
  destruct (lookup_lt_is_Some_2 (pct_change_from (Some c) (adj_closes df')) j) as [y Hy];
    [rewrite length_pct_change_from; unfold adj_closes; rewrite length_map; lia |].
  rewrite (col_at_lookup _ j y Hy). split; [lia|]. intros _.
  exact (Forall_lookup_1 _ _ _ _ Hs Hy).
Qed.

Lemma Is_true_bool_decide (P : Prop) `{Decision P} : Is_true (bool_decide P) ↔ P.
Proof. by rewrite Is_true_true, bool_decide_eq_true. Qed.


(** The columns of [get_MACD_df] before [dropna], on closes that are
    numbers and not zero. *)
Lemma macd_columns fast slow signal s :
  st_daily_return s = get_daily_returns (st_prices s) →
  Forall (λ r, ∃ c, bar_adj_close r.2 = Some c ∧ ¬ (c == 0)%Q) (st_prices s) →
  let dr := st_daily_return s in
  let ma_fast := ewm_mean fast fast dr in
  let ma_slow := ewm_mean slow slow dr in
  let macd := zip_with fsub ma_fast ma_slow in
  let sig := ewm_mean signal signal macd in
  let M := Nat.max (Nat.max fast 1) (Nat.max slow 1) in
  ∀ i, i < length (st_prices s) →
  (is_Some (col_at dr i) ↔ 1 ≤ i) ∧ (is_Some (col_at ma_fast i) ↔ Nat.max fast 1 ≤ i) ∧
  (is_Some (col_at ma_slow i) ↔ Nat.max slow 1 ≤ i) ∧ (is_Some (col_at macd i) ↔ M ≤ i) ∧
  (is_Some (col_at sig i) ↔ M + Nat.max signal 1 - 1 ≤ i).
Proof.
  intros Hdr Hdf dr ma_fast ma_slow macd sig M i Hi. subst dr ma_fast ma_slow macd sig M.
  destruct (threshold_daily_returns _ Hdf) as [Ht Hl]. rewrite <-Hdr in Ht, Hl.
  pose proof (threshold_ewm_mean fast fast _ _ Ht) as Hf.
  pose proof (threshold_ewm_mean slow slow _ _ Ht) as Hs.
  assert (length (ewm_mean fast fast (st_daily_return s)) =
          length (ewm_mean slow slow (st_daily_return s))) as Hlfs by (by rewrite !length_ewm_mean).
  pose proof (threshold_zip_with_fsub (1 + Nat.max fast 1 - 1) (1 + Nat.max slow 1 - 1)
                (ewm_mean fast fast (st_daily_return s)) (ewm_mean slow slow (st_daily_return s))
                Hlfs Hf Hs) as Hm.
  pose proof (threshold_ewm_mean signal signal _ _ Hm) as Hg.
  split; [apply Ht; lia|]. split; [rewrite (Hf i) by (rewrite length_ewm_mean; lia); lia|].
  split; [rewrite (Hs i) by (rewrite length_ewm_mean; lia); lia|].
  split; [rewrite (Hm i) by (rewrite length_zip_with, !length_ewm_mean; lia); lia|].
  rewrite (Hg i) by (rewrite length_ewm_mean, length_zip_with, !length_ewm_mean; lia). lia.
Qed.

(** Every row of the MACD frame carries a return, a close, both moving
    averages, the MACD and its signal line, once the warm-up has passed. *)
Lemma macd_row_kept fast slow signal s i r :
  st_daily_return s = get_daily_returns (st_prices s) →
  Forall (λ r, ∃ c, bar_adj_close r.2 = Some c ∧ ¬ (c == 0)%Q) (st_prices s) →
  st_prices s !! i = Some r →
  let dr := st_daily_return s in
  let ma_fast := ewm_mean fast fast dr in
  let ma_slow := ewm_mean slow slow dr in
  let macd := zip_with fsub ma_fast ma_slow in
  let sig := ewm_mean signal signal macd in
  Is_true (macd_row_complete (mkMacdRow r.1 (col_at dr i) (bar_adj_close r.2) (col_at ma_fast i)
                                 (col_at ma_slow i) (col_at macd i) (col_at sig i))) ↔
  Nat.max (Nat.max fast 1) (Nat.max slow 1) + Nat.max signal 1 - 1 ≤ i.
Proof.
  intros Hdr Hdf Hr. cbv zeta.
  pose proof (macd_columns fast slow signal s Hdr Hdf) as Hc. cbv zeta in Hc.
  destruct (Hc i (lookup_lt_Some _ _ _ Hr)) as (H1 & H2 & H3 & H4 & H5).
  destruct (proj1 (Forall_lookup _ _) Hdf i r Hr) as (c & Hcl & _).
  unfold macd_row_complete. rewrite Is_true_bool_decide. cbn [macd_daily_return macd_adj_close
    macd_fast macd_slow macd_macd macd_signal].
  rewrite H1, H2, H3, H4, H5, Hcl. split; [lia|]. intros Hi. repeat split; try lia. by eexists.
Qed.

End Warmup.

(** ** Bounds of the moving averages *)


Section Bounds.
Variables lo hi : Q.

Lemma in_range_None : in_range lo hi None.
Proof. by intros v. Qed.

Lemma in_range_col_at xs i : Forall (in_range lo hi) xs → in_range lo hi (col_at xs i).
Proof.
  intros Hxs v Hv. unfold col_at in Hv. destruct (xs !! i) as [a|] eqn:Ha; [|done].
  exact (Forall_lookup_1 _ _ _ _ Hxs Ha v Hv).
Qed.

(** A weighted mean of two numbers of [[lo, hi]] stays in it. *)
Lemma convex_step_bounds (ow w x : Q) :
  0 <= ow → lo <= w <= hi → lo <= x <= hi → lo <= (ow * w + x) / (ow + 1) <= hi.
Proof.
  intros Hw [Hlw Hwh] [Hlx Hxh].
  assert (ow * lo <= ow * w) by (rewrite !(Qmult_comm ow); by apply Qmult_le_compat_r).
  assert (ow * w <= ow * hi) by (rewrite !(Qmult_comm ow); by apply Qmult_le_compat_r).
  split; [apply Qle_shift_div_l | apply Qle_shift_div_r]; lra.
Qed.

Lemma ewm_step_bounds alpha s x :
  0 <= 1 - alpha → 0 <= ew_old_wt s → in_range lo hi (ew_weighted s) → in_range lo hi x →
  0 <= ew_old_wt (ewm_step alpha s x) ∧ in_range lo hi (ew_weighted (ewm_step alpha s x)).
Proof.
  intros Ha Hw Hs Hx. assert (0 <= ew_old_wt s * (1 - alpha)) by (apply Qmult_le_0_compat; lra).
  destruct s as [[w|] ow c], x as [x|]; cbn in *; split; try lra; try done.
  intros v [= <-]. destruct (Qeq_bool w x); [by apply Hs|].
  apply convex_step_bounds; [done | by apply Hs | by apply Hx].
Qed.

Lemma ewm_from_bounds alpha mp s xs :
  0 <= 1 - alpha → 0 <= ew_old_wt s → in_range lo hi (ew_weighted s) →
  Forall (in_range lo hi) xs → Forall (in_range lo hi) (ewm_from alpha mp s xs).
Proof.
  intros Ha. revert s. induction xs as [|x xs IH]; intros s Hw Hs Hxs; [done|].
  apply Forall_cons in Hxs as [Hx Hxs]. destruct (ewm_step_bounds alpha s x) as [Hw' Hs']; try done.
  cbn [ewm_from]. constructor; [|by apply IH].
  destruct (_ <=? _)%nat; [done | apply in_range_None].
Qed.

Lemma ewm_alpha_le_1 span : (1 ≤ span)%nat → 0 <= 1 - ewm_alpha span.
Proof.
  intros Hs. unfold ewm_alpha.
  assert (1 <= inject_Z (Z.of_nat span)) by (change 1 with (inject_Z 1); rewrite <-Zle_Qle; lia).
  assert (2 / (inject_Z (Z.of_nat span) + 1) <= 1); [|lra].
  apply Qle_shift_div_r; lra.
Qed.

Lemma ewm_mean_bounds span mp xs :
  (1 ≤ span)%nat → Forall (in_range lo hi) xs → Forall (in_range lo hi) (ewm_mean span mp xs).
Proof.
  intros Hs Hxs. apply ewm_from_bounds; [by apply ewm_alpha_le_1 | cbn; lra | apply in_range_None | done].
Qed.

End Bounds.

Lemma in_range_fsub lo hi a b :
  in_range lo hi a → in_range lo hi b → in_range (lo - hi) (hi - lo) (a -. b).
Proof.
  intros Ha Hb v Hv. destruct a as [x|], b as [y|]; try done. injection Hv as <-.
  destruct (Ha x eq_refl), (Hb y eq_refl). split; lra.
Qed.

(** ** Rows of the indicator frames *)

Lemma elem_of_filter_imap {A B} (P : B → Prop) `{∀ b, Decision (P b)} (f : nat → A → B) l r :
  r ∈ filter P (imap f l) → ∃ i x, l !! i = Some x ∧ r = f i x ∧ P r.
Proof.
  intros [HP Hr]%list_elem_of_filter. apply elem_of_lookup_imap in Hr as (i & x & -> & Hx).
  by exists i, x.
Qed.

Lemma rolling_lookup {B} n (f : list Q → B) xs t :
  (t < length xs)%nat →
  rolling n f xs !! t =
  Some (let w := skipna (window n (S t) xs) in if (n <=? length w)%nat then Some (f w) else None).
Proof. intros Ht. unfold rolling. by rewrite list_lookup_fmap, lookup_seq_lt. Qed.

Lemma Forall_skipna_window (P : Q → Prop) n e (xs : list pyfloat) :
  Forall (λ a, ∀ v, a = Some v → P v) xs → Forall P (skipna (window n e xs)).
Proof.
  intros Hxs. apply Forall_forall. intros v Hv. unfold skipna in Hv.
  apply list_elem_of_omap in Hv as (a & Ha & Hav). unfold window in Ha.
  assert (Forall (λ a, ∀ v, a = Some v → P v) (drop (e - n) (take e xs))) as Hw
    by (apply Forall_drop, Forall_take, Hxs).
  exact (proj1 (Forall_forall _ _) Hw a Ha v Hav).
Qed.

(** ** The true range *)

Lemma true_range_spec h l pc v :
  true_range (Some h) (Some l) pc = Some v → Qabs (h - l) <= v ∧ 0 <= v.
Proof.
  destruct pc as [c|]; [|done]. cbv [true_range fmax3 fabs fsub flift2 option_map].
  intros Hv. apply (inj Some) in Hv. subst v.
  pose proof (Qabs_nonneg (h - l)).
  destruct (Qmax_cases (Qabs (h - c)) (Qabs (l - c))) as [[? ->]|[? ->]].
  - destruct (Qmax_cases (Qabs (h - l)) (Qabs (l - c))) as [[? ->]|[? ->]]; lra.
  - destruct (Qmax_cases (Qabs (h - l)) (Qabs (h - c))) as [[? ->]|[? ->]]; lra.
Qed.

Lemma length_true_ranges df : length (true_ranges df) = length df.
Proof.
  unfold true_ranges, shift1, adj_closes. rewrite length_zip_with. cbn [length].
  rewrite length_take, length_map. destruct df; cbn; lia.
Qed.

Lemma shift1_lookup_S (xs : list pyfloat) j :
  (j < pred (length xs))%nat → shift1 xs !! S j = xs !! j.
Proof. intros Hj. exact (lookup_take_lt xs _ j Hj). Qed.

Lemma true_ranges_lookup df i d b :
  df !! i = Some (d, b) →
  col_at (true_ranges df) i =
  true_range (bar_high b) (bar_low b) (match i with O => None | S j => col_at (adj_closes df) j end).
Proof.
  intros Hdf. pose proof (lookup_lt_Some _ _ _ Hdf) as Hi.
  unfold col_at at 1, true_ranges. rewrite lookup_zip_with, Hdf. cbn [mbind option_bind].
  destruct i as [|j]; [done|].
  rewrite shift1_lookup_S by (unfold adj_closes; rewrite length_map; lia).
  unfold col_at. destruct (lookup_lt_is_Some_2 (adj_closes df) j) as [c Hc];
    [unfold adj_closes; rewrite length_map; lia|]. by rewrite Hc.
Qed.

Lemma bar_complete_some b :
  bar_complete b = true →
  ∃ h l c, bar_high b = Some h ∧ bar_low b = Some l ∧ bar_adj_close b = Some c.
Proof.
  unfold bar_complete. rewrite bool_decide_eq_true.
  intros (_ & [h ->] & [l ->] & _ & [c ->] & _). by exists h, l, c.
Qed.

Lemma true_ranges_complete df i d b :
  Forall (λ r, bar_complete r.2 = true) df → df !! i = Some (d, b) →
  (is_Some (col_at (true_ranges df) i) ↔ (1 ≤ i)%nat) ∧
  ∀ v, col_at (true_ranges df) i = Some v →
       0 <= v ∧ ∀ h l, bar_high b = Some h → bar_low b = Some l → Qabs (h - l) <= v.
Proof.
  intros Hc Hdf. rewrite (true_ranges_lookup df i d b Hdf).
  destruct (bar_complete_some b (Forall_lookup_1 _ _ _ _ Hc Hdf)) as (h & l & c & -> & -> & _).
  destruct i as [|j].
  - split; [split; [by intros [] | lia] | done].
  - destruct (lookup_lt_is_Some_2 df j) as [[d' b'] Hb']; [apply lookup_lt_Some in Hdf; lia|].
    destruct (bar_complete_some b' (Forall_lookup_1 _ _ _ _ Hc Hb')) as (h' & l' & c' & _ & _ & Hc').
    assert (col_at (adj_closes df) j = Some c') as ->
      by (unfold col_at, adj_closes; by rewrite list_lookup_fmap, Hb').
    split; [split; [lia | intros _; by eexists] |].
    intros v Hv. destruct (true_range_spec h l (Some c') v Hv). split; [done|]. by intros ?? [= <-] [= <-].
Qed.

(** ** The Bollinger bands *)

Section Bands.
Variables (n m : nat) (s : stock).

Let cl := adj_closes (st_prices s).
Let wn i := skipna (window n (S i) cl).
Let wm i := skipna (window m (S i) cl).

(** The bands of row [i] before [dropna]. *)
Lemma bollbnd_row_lookup i :
  (i < length (st_prices s))%nat →
  let ma := if (n <=? length (wn i))%nat then Some (Qmean (wn i)) else None in
  let sd := if (m <=? length (wm i))%nat then Some (pop_std (wm i)) else None in
  let up := rlift2 Rplus (option_map Q2R ma) (option_map (Rmult (INR n)) sd) in
  let dn := rlift2 Rminus (option_map Q2R ma) (option_map (Rmult (INR n)) sd) in
  ∀ d b, st_prices s !! i = Some (d, b) →
  imap (λ i r, mkBBRow r.1 (bar_high r.2) (bar_low r.2) (bar_adj_close r.2)
                 (col_at (rolling n Qmean cl) i)
                 (mjoin (zip_with (rlift2 Rplus) (map (option_map Q2R) (rolling n Qmean cl))
                           (map (option_map (Rmult (INR n))) (rolling m pop_std cl)) !! i))
                 (mjoin (zip_with (rlift2 Rminus) (map (option_map Q2R) (rolling n Qmean cl))
                           (map (option_map (Rmult (INR n))) (rolling m pop_std cl)) !! i))
                 (mjoin (zip_with (rlift2 Rminus)
                   (zip_with (rlift2 Rplus) (map (option_map Q2R) (rolling n Qmean cl))
                      (map (option_map (Rmult (INR n))) (rolling m pop_std cl)))
                   (zip_with (rlift2 Rminus) (map (option_map Q2R) (rolling n Qmean cl))
                      (map (option_map (Rmult (INR n))) (rolling m pop_std cl))) !! i)))
       (st_prices s) !! i
  = Some (mkBBRow d (bar_high b) (bar_low b) (bar_adj_close b) ma up dn (rlift2 Rminus up dn)).
Proof.
  intros Hi ma sd up dn d b Hb.
  assert (i < length cl)%nat by (unfold cl, adj_closes; by rewrite length_map).
  rewrite list_lookup_imap, Hb. cbn [fmap option_fmap option_map fst snd].
  rewrite !lookup_zip_with, !list_lookup_fmap, !rolling_lookup by done.
  unfold col_at. rewrite rolling_lookup by done. done.
Qed.

Lemma bollbnd_row i d b :
  st_prices s !! i = Some (d, b) →
  let ma := if (n <=? length (wn i))%nat then Some (Qmean (wn i)) else None in
  let sd := if (m <=? length (wm i))%nat then Some (pop_std (wm i)) else None in
  let up := rlift2 Rplus (option_map Q2R ma) (option_map (Rmult (INR n)) sd) in
  let dn := rlift2 Rminus (option_map Q2R ma) (option_map (Rmult (INR n)) sd) in
  imap (λ i r, mkBBRow r.1 (bar_high r.2) (bar_low r.2) (bar_adj_close r.2)
                 (col_at (rolling n Qmean cl) i)
                 (mjoin (zip_with (rlift2 Rplus) (map (option_map Q2R) (rolling n Qmean cl))
                           (map (option_map (Rmult (INR n))) (rolling m pop_std cl)) !! i))
                 (mjoin (zip_with (rlift2 Rminus) (map (option_map Q2R) (rolling n Qmean cl))
                           (map (option_map (Rmult (INR n))) (rolling m pop_std cl)) !! i))
                 (mjoin (zip_with (rlift2 Rminus)
                   (zip_with (rlift2 Rplus) (map (option_map Q2R) (rolling n Qmean cl))
                      (map (option_map (Rmult (INR n))) (rolling m pop_std cl)))
                   (zip_with (rlift2 Rminus) (map (option_map Q2R) (rolling n Qmean cl))
                      (map (option_map (Rmult (INR n))) (rolling m pop_std cl))) !! i)))
       (st_prices s) !! i
  = Some (mkBBRow d (bar_high b) (bar_low b) (bar_adj_close b) ma up dn (rlift2 Rminus up dn)).
Proof. intros Hb. exact (bollbnd_row_lookup i (lookup_lt_Some _ _ _ Hb) d b Hb). Qed.

(** A row the frame keeps: its average is the [n]-row mean, its bands
    [n] deviations of the [m]-row window away from it. *)
Lemma bollbnd_rows r :
  r ∈ get_BollBnd_df n m s →
  ∃ i, (i < length (st_prices s))%nat ∧ (n ≤ length (wn i))%nat ∧ (m ≤ length (wm i))%nat ∧
    bb_ma r = Some (Qmean (wn i)) ∧
    bb_up r = Some (Q2R (Qmean (wn i)) + INR n * pop_std (wm i))%R ∧
    bb_dn r = Some (Q2R (Qmean (wn i)) - INR n * pop_std (wm i))%R ∧
    bb_width r = Some (2 * INR n * pop_std (wm i))%R.
Proof.
  unfold get_BollBnd_df. intros [Hc Hr]%list_elem_of_filter.
  apply list_elem_of_lookup_1 in Hr as [i Hr].
  assert (Hi : (i < length (st_prices s))%nat) by (apply lookup_lt_Some in Hr; by rewrite length_imap in Hr).
  destruct (lookup_lt_is_Some_2 _ _ Hi) as [[d b] Hb].
  pose proof (bollbnd_row i d b Hb) as Hrow. cbv zeta in Hrow.
  match type of Hrow with _ = Some ?row =>
    assert (Some r = Some row) as Hrr by (rewrite <-Hr; exact Hrow) end.
  apply (inj Some) in Hrr. subst r.
  unfold bb_row_complete in Hc. rewrite Is_true_bool_decide in Hc. cbn in Hc.
  exists i. split; [done|].
  destruct (Nat.leb_spec n (length (wn i))), (Nat.leb_spec m (length (wm i)));
    cbn in Hc; try (destruct Hc as (_ & _ & _ & _ & [? Hu] & _); discriminate Hu).
  cbn. split; [done|]. split; [done|]. do 3 (split; [done|]). f_equal. ring.
Qed.

Lemma threshold_closes :
  Forall (λ r, bar_complete r.2 = true) (st_prices s) → threshold 0 cl.
Proof.
  intros Hc j Hj. unfold cl, adj_closes in Hj; unfold cl, adj_closes. rewrite length_map in Hj.
  destruct (lookup_lt_is_Some_2 _ _ Hj) as [[d b] Hb].
  destruct (bar_complete_some b (Forall_lookup_1 _ _ _ _ Hc Hb)) as (h & l & c & _ & _ & Hcl).
  unfold col_at. rewrite list_lookup_fmap, Hb. cbn. rewrite Hcl. split; [lia | by eexists].
Qed.

Lemma length_window_complete k i :
  Forall (λ r, bar_complete r.2 = true) (st_prices s) → (i < length (st_prices s))%nat →
  length (skipna (window k (S i) cl)) = Nat.min k (S i).
Proof.
  intros Hc Hi. unfold window. rewrite (nobs_threshold 0); [lia | by apply threshold_closes |].
  unfold cl, adj_closes. rewrite length_map. lia.
Qed.

(** On a frame without NaN the first [max n m - 1] rows are dropped. *)
Lemma bollbnd_length :
  (1 ≤ n)%nat → (1 ≤ m)%nat → Forall (λ r, bar_complete r.2 = true) (st_prices s) →
  length (get_BollBnd_df n m s) = (length (st_prices s) - (Nat.max n m - 1))%nat.
Proof.
  intros Hn Hm Hc. unfold get_BollBnd_df. apply length_filter_imap. intros i [d b] Hb.
  pose proof (lookup_lt_Some _ _ _ Hb) as Hi.
  pose proof (bollbnd_row i d b Hb) as Hrow. cbv zeta in Hrow.
  rewrite list_lookup_imap, Hb in Hrow. apply (inj Some) in Hrow.
  match type of Hrow with _ = ?row =>
    enough (Is_true (bb_row_complete row) ↔ (Nat.max n m - 1 ≤ i)%nat) as Hg by
      (rewrite <-Hrow in Hg; exact Hg) end.
  destruct (bar_complete_some b (Forall_lookup_1 _ _ _ _ Hc Hb)) as (h & l & c & Hh & Hl & Hcl).
  unfold bb_row_complete. rewrite Is_true_bool_decide. cbn [bb_high bb_low bb_adj_close bb_ma bb_up bb_dn bb_width].
  unfold wn, wm. rewrite Hh, Hl, Hcl, !length_window_complete by done.
  destruct (Nat.leb_spec n (Nat.min n (S i))), (Nat.leb_spec m (Nat.min m (S i))); cbn;
    (split; [intros (_ & _ & _ & Hma & Hup & _); try by destruct Hma; try by destruct Hup; lia|]);
    intros Hle; try lia; repeat split; by eexists.
Qed.

End Bands.

(** ** Concrete frames satisfy the hypotheses *)


Lemma closes_nonzero_check df :
  closes_nonzero_b df = true → Forall (λ r, ∃ c, bar_adj_close r.2 = Some c ∧ ¬ (c == 0)) df.
Proof.
  unfold closes_nonzero_b. rewrite forallb_forall, Forall_forall. intros H r Hr.
  specialize (H r (proj1 (list_elem_of_In _ _) Hr)). destruct (bar_adj_close r.2) as [c|]; [|done].
  exists c. split; [done|]. intros Hc. apply Qeq_bool_iff in Hc. by rewrite Hc in H.
Qed.


Lemma in_range_check lo hi xs : in_range_b lo hi xs = true → Forall (in_range lo hi) xs.
Proof.
  unfold in_range_b. rewrite forallb_forall, Forall_forall. intros H a Ha v ->.
  specialize (H _ (proj1 (list_elem_of_In _ _) Ha)). apply andb_prop in H as [H1 H2].
  split; by apply Qle_bool_iff.
Qed.

(** ** Properties of [Stock] *)

(** C10 (termination) [Stock.get_historical_price_data] returns, with
    enough fuel, exactly when three of the downloads succeed: a failed
    download does not count as an attempt. *)
Theorem get_historical_price_data_returns dl ticker :
  (∃ fuel r, get_historical_price_data fuel dl ticker = Some r) ↔ ∃ n, (3 ≤ successes dl 0 n)%nat.
Proof.
  split.
  - intros (fuel & r & Hg). unfold get_historical_price_data in Hg.
    destruct (retry_loop fuel dl 0 0 []) as [[h k]|] eqn:Hr; [|done].
    destruct (retry_loop_sound fuel dl 0 0 [] h k ltac:(lia) Hr) as (_ & Hs & _).
    exists k. rewrite Nat.sub_0_r in Hs. lia.
  - intros [n Hn]. destruct (retry_loop_complete n dl 0 0 [] ltac:(lia) ltac:(lia)) as [[h k] Hr].
    exists (S n), (mkStock ticker h (get_daily_returns h), k).
    unfold get_historical_price_data. by rewrite Hr.
Qed.

(** When every download raises, the loop never ends, whatever the fuel. *)
Lemma get_historical_price_data_all_fail dl ticker fuel :
  (∀ k, dl k = None) → get_historical_price_data fuel dl ticker = None.
Proof.
  intros Hn. unfold get_historical_price_data.
  destruct (retry_loop fuel dl 0 0 []) as [[h k]|] eqn:Hr; [|done].
  destruct (retry_loop_sound fuel dl 0 0 [] h k ltac:(lia) Hr) as (_ & Hs & _).
  rewrite successes_none in Hs by done. lia.
Qed.

(** (functional) When [Stock.get_historical_price_data] returns after
    [k] downloads, three of them succeeded, the last one did, and the
    stock keeps that frame with its NaN rows dropped ([fillna] has nothing
    left to fill) and the daily returns of its adjusted close. *)
Theorem get_historical_price_data_spec fuel dl ticker st k :
  get_historical_price_data fuel dl ticker = Some (st, k) →
  successes dl 0 k = 3%nat ∧ (1 ≤ k)%nat ∧
  ∃ t, dl (k - 1)%nat = Some t ∧ st_ticker st = ticker ∧ st_prices st = dropna t ∧
       st_daily_return st = get_daily_returns (dropna t).
Proof.
  unfold get_historical_price_data. intros Hg.
  destruct (retry_loop fuel dl 0 0 []) as [[h k']|] eqn:Hr; [|done]. injection Hg as <- <-.
  destruct (retry_loop_sound fuel dl 0 0 [] h k' ltac:(lia) Hr) as (_ & Hs & Hcase).
  rewrite Nat.sub_0_r in Hs.
  destruct Hcase as [[-> _] | [Hk (t & Ht & ->)]]; [cbn in Hs; lia|].
  split; [lia|]. split; [lia|]. exists t. rewrite bfill_dropna. done.
Qed.

Lemma get_historical_price_data_all_fail_witness :
  get_historical_price_data 100 (λ _, None) "AAPL" = None.
Proof. apply get_historical_price_data_all_fail. done. Defined.

Lemma get_historical_price_data_spec_witness :
  successes demo_downloads 0 4 = 3%nat ∧ (1 ≤ 4)%nat ∧
  ∃ t, demo_downloads 3 = Some t ∧ st_ticker (mkStock "AAPL" (dropna demo_download_frame)
         (get_daily_returns (dropna demo_download_frame))) = "AAPL" ∧
       dropna demo_download_frame = dropna t ∧
       get_daily_returns (dropna demo_download_frame) = get_daily_returns (dropna t).
Proof.
  apply (get_historical_price_data_spec 10 demo_downloads "AAPL"
           (mkStock "AAPL" (dropna demo_download_frame) (get_daily_returns (dropna demo_download_frame))) 4).
  vm_compute. reflexivity.
Defined.

(** ** Properties of [Technical_Indicators] *)

Lemma get_MACD_df_length fast slow signal s :
  st_daily_return s = get_daily_returns (st_prices s) →
  Forall (λ r, ∃ c, bar_adj_close r.2 = Some c ∧ ¬ (c == 0)) (st_prices s) →
  length (get_MACD_df fast slow signal s) =
  (length (st_prices s) - (Nat.max (Nat.max fast 1) (Nat.max slow 1) + Nat.max signal 1 - 1))%nat.
Proof.
  intros Hdr Hdf. unfold get_MACD_df. apply length_filter_imap.
  intros i r Hr. exact (macd_row_kept fast slow signal s i r Hdr Hdf Hr).
Qed.

(** (functional) The MACD frame of [Technical_Indicators.__init__]
    ([get_MACD_df(12, 26, 9)]) drops the first 34 rows of a stock whose
    closes are numbers and not zero: the first return is NaN, the slow
    average needs 26 returns and the signal line 9 MACD values. *)
Theorem technical_indicators_MACD_length s :
  st_daily_return s = get_daily_returns (st_prices s) →
  Forall (λ r, ∃ c, bar_adj_close r.2 = Some c ∧ ¬ (c == 0)) (st_prices s) →
  length (ti_MACD (make_technical_indicators s)) = (length (st_prices s) - 34)%nat.
Proof. intros Hdr Hdf. exact (get_MACD_df_length 12 26 9 s Hdr Hdf). Qed.

(** (bounds) When the daily returns lie in [[lo, hi]], so do the two
    moving averages of every row of [get_MACD_df], and the MACD and its
    signal line lie in [[lo - hi, hi - lo]]. *)
Theorem get_MACD_df_bounds fast slow signal s lo hi :
  (1 ≤ fast)%nat → (1 ≤ slow)%nat → (1 ≤ signal)%nat →
  Forall (in_range lo hi) (st_daily_return s) →
  Forall (λ r, in_range lo hi (macd_fast r) ∧ in_range lo hi (macd_slow r) ∧
               in_range (lo - hi) (hi - lo) (macd_macd r) ∧
               in_range (lo - hi) (hi - lo) (macd_signal r)) (get_MACD_df fast slow signal s).
Proof.
  intros Hf Hs Hg Hdr. unfold get_MACD_df.
  pose proof (ewm_mean_bounds lo hi fast fast _ Hf Hdr) as Bf.
  pose proof (ewm_mean_bounds lo hi slow slow _ Hs Hdr) as Bs.
  assert (Bm : Forall (in_range (lo - hi) (hi - lo))
                 (zip_with fsub (ewm_mean fast fast (st_daily_return s))
                    (ewm_mean slow slow (st_daily_return s)))).
  { apply Forall_lookup_2. intros i a Ha. apply lookup_zip_with_Some in Ha as (x & y & -> & Hx & Hy).
    apply in_range_fsub; [exact (Forall_lookup_1 _ _ _ _ Bf Hx) | exact (Forall_lookup_1 _ _ _ _ Bs Hy)]. }
  pose proof (ewm_mean_bounds (lo - hi) (hi - lo) signal signal _ Hg Bm) as Bg.
  apply Forall_forall. intros r (i & x & _ & -> & _)%elem_of_filter_imap. cbn.
  split; [by apply in_range_col_at|]. split; [by apply in_range_col_at|].
  split; by apply in_range_col_at.
Qed.

Lemma demo_frame_closes :
  Forall (λ r, ∃ c, bar_adj_close r.2 = Some c ∧ ¬ (c == 0)) demo_frame.
Proof. apply closes_nonzero_check. vm_compute. reflexivity. Qed.

Lemma technical_indicators_MACD_length_witness :
  length (ti_MACD (make_technical_indicators demo_stock)) = 6%nat.
Proof. rewrite (technical_indicators_MACD_length demo_stock eq_refl demo_frame_closes). reflexivity. Defined.

Lemma get_MACD_df_bounds_witness :
  Forall (λ r, in_range (-1/5) (1/10) (macd_fast r) ∧ in_range (-1/5) (1/10) (macd_slow r) ∧
               in_range (-1/5 - 1/10) (1/10 - -1/5) (macd_macd r) ∧
               in_range (-1/5 - 1/10) (1/10 - -1/5) (macd_signal r))
         (get_MACD_df 12 26 9 demo_stock).
Proof.
  apply get_MACD_df_bounds; [lia | lia | lia |]. apply in_range_check. vm_compute. reflexivity.
Defined.

Lemma Qmean_nonneg xs : Forall (λ v, 0 <= v) xs → 0 <= Qmean xs.
Proof.
  intros H. unfold Qmean, Qdiv. apply Qmult_le_0_compat; [by apply Qsum_nonneg|].
  apply Qinv_le_0_compat, Qlen_nonneg.
Qed.

(** (functional) On a frame without NaN, [get_ATR_df(n)] keeps one row
    per bar; the true range is NaN on the first row only, it is at least
    the bar's [High - Low] and not negative; the average true range is a
    number from row [n] on, and not negative. *)
Theorem get_ATR_df_spec n s :
  (1 ≤ n)%nat → Forall (λ r, bar_complete r.2 = true) (st_prices s) →
  length (get_ATR_df n s) = length (st_prices s) ∧
  ∀ i d b, st_prices s !! i = Some (d, b) →
  ∃ r, get_ATR_df n s !! i = Some r ∧ atr_date r = d ∧
    (is_Some (atr_tr r) ↔ (1 ≤ i)%nat) ∧ (is_Some (atr_atr r) ↔ (n ≤ i)%nat) ∧
    (∀ v, atr_tr r = Some v → 0 <= v ∧ ∀ h l, bar_high b = Some h → bar_low b = Some l → Qabs (h - l) <= v) ∧
    (∀ a, atr_atr r = Some a → 0 <= a).
Proof.
  intros Hn Hc. unfold get_ATR_df. split; [by rewrite length_imap|].
  intros i d b Hb. pose proof (lookup_lt_Some _ _ _ Hb) as Hi.
  assert (Htr : threshold 1 (true_ranges (st_prices s))).
  { intros j Hj. rewrite length_true_ranges in Hj.
    destruct (lookup_lt_is_Some_2 _ _ Hj) as [[d' b'] Hb'].
    exact (proj1 (true_ranges_complete _ j d' b' Hc Hb')). }
  assert (Hnn : Forall (λ a, ∀ v, a = Some v → 0 <= v) (true_ranges (st_prices s))).
  { apply Forall_lookup_2. intros j a Ha v Hv.
    destruct (lookup_lt_is_Some_2 (st_prices s) j) as [[d' b'] Hb'];
      [rewrite <-length_true_ranges; by eapply lookup_lt_Some|].
    refine (proj1 (proj2 (true_ranges_complete _ j d' b' Hc Hb') v _)).
    by rewrite (col_at_lookup _ j a Ha). }
  eexists. rewrite list_lookup_imap, Hb. split; [done|]. cbn [atr_date atr_tr atr_atr fst snd].
  destruct (true_ranges_complete _ i d b Hc Hb) as [Ht Hv].
  split; [done|]. split; [done|]. split.
  { unfold col_at. rewrite (threshold_rolling n Qmean 1) by (rewrite ?length_true_ranges; done). lia. }
  split; [done|]. intros a Ha. unfold col_at in Ha.
  rewrite rolling_lookup in Ha by (by rewrite length_true_ranges). cbn in Ha.
  destruct (_ <=? _)%nat; [|done]. injection Ha as <-.
  by apply Qmean_nonneg, Forall_skipna_window.
Qed.

(** C23 (functional) [Technical_Indicators.__init__] calls
    [get_BollBnd_df(2, 20)]: on a frame without NaN the first 19 rows are
    dropped, the middle line of every row kept is the mean of the last
    two closes, and the bands lie two population deviations of the last
    twenty closes away from it; the band is therefore not centred on the
    mean of the window whose deviation sets its width. *)
Theorem technical_indicators_BollBnd s :
  Forall (λ r, bar_complete r.2 = true) (st_prices s) →
  length (ti_BollBnd (make_technical_indicators s)) = (length (st_prices s) - 19)%nat ∧
  ∀ r, r ∈ ti_BollBnd (make_technical_indicators s) →
  ∃ i, let cl := adj_closes (st_prices s) in
    (2 ≤ length (skipna (window 2 (S i) cl)))%nat ∧ (20 ≤ length (skipna (window 20 (S i) cl)))%nat ∧
    bb_ma r = Some (Qmean (skipna (window 2 (S i) cl))) ∧
    bb_up r = Some (Q2R (Qmean (skipna (window 2 (S i) cl))) + 2 * pop_std (skipna (window 20 (S i) cl)))%R ∧
    bb_dn r = Some (Q2R (Qmean (skipna (window 2 (S i) cl))) - 2 * pop_std (skipna (window 20 (S i) cl)))%R ∧
    bb_width r = Some (4 * pop_std (skipna (window 20 (S i) cl)))%R.
Proof.
  intros Hc. cbn [make_technical_indicators ti_BollBnd].
  split; [rewrite bollbnd_length by (done || lia); lia|].
  intros r Hr. destruct (bollbnd_rows 2 20 s r Hr) as (i & _ & H2 & H20 & Hma & Hup & Hdn & Hw).
  exists i. cbv zeta. replace (INR 2) with 2%R in Hup, Hdn, Hw by (cbn; ring).
  rewrite Hw. do 5 (split; [done|]). f_equal; ring.
Qed.

Lemma demo_frame_complete : Forall (λ r, bar_complete r.2 = true) demo_frame.
Proof. decide_by_eval. Qed.

Lemma get_ATR_df_spec_witness :
  length (get_ATR_df 14 demo_stock) = 40%nat ∧
  ∃ r, get_ATR_df 14 demo_stock !! 14%nat = Some r ∧ is_Some (atr_atr r).
Proof.
  destruct (get_ATR_df_spec 14 demo_stock ltac:(lia) demo_frame_complete) as [Hl Hrows].
  split; [exact Hl|].
  destruct (Hrows 14%nat 14%Z (demo_bar (inject_Z (10 + Z.of_nat (14 mod 3))))) as (r & Hr & _ & _ & Ha & _);
    [reflexivity|].
  exists r. split; [exact Hr | apply Ha; lia].
Defined.

Lemma technical_indicators_BollBnd_witness :
  length (ti_BollBnd (make_technical_indicators demo_stock)) = 21%nat.
Proof. rewrite (proj1 (technical_indicators_BollBnd demo_stock demo_frame_complete)). reflexivity. Defined.

(** ** [get_financial_data]

    The URL tests select the section the code expects when the ticker has
    no lower-case letter; each link then adds its record to [temp_dir],
    later pages overwriting earlier ones, until the first that raises. *)

Section FinancialData.

Lemma string_app_cons c (a b : string) : String c a +:+ b = String c (a +:+ b).
Proof. reflexivity. Qed.

Lemma string_app_assoc (a b c : string) : a +:+ b +:+ c = (a +:+ b) +:+ c.
Proof. induction a as [|x a IH]; [done|]. by rewrite !string_app_cons, IH. Qed.

Lemma is_lower_not_lower c d : is_lower c = true → is_lower d = false → c ≠ d.
Proof. intros Hc Hd ->. congruence. Qed.

Lemma prefix_app_lower sub x b :
  all_lower sub = true → lower_free b = true → String.prefix sub (x +:+ b) = String.prefix sub x.
Proof.
  revert sub. induction x as [|d x IH]; intros sub Hs Hb.
  - change ("" +:+ b) with b. destruct sub as [|c sub], b as [|d b]; try done.
    apply andb_prop in Hs as [Hc _]. apply andb_prop in Hb as [Hd _]. apply negb_true_iff in Hd. cbn.
    destruct (Ascii.ascii_dec c d) as [e|]; [by destruct (is_lower_not_lower _ _ Hc Hd e)|done].
  - rewrite string_app_cons. destruct sub as [|c sub]; [done|].
    apply andb_prop in Hs as [_ Hs]. cbn.
    destruct (Ascii.ascii_dec c d); [by apply IH|done].
Qed.

Lemma str_contains_lower_free sub b :
  sub ≠ EmptyString → all_lower sub = true → lower_free b = true → str_contains sub b = false.
Proof.
  intros Hne Hs. induction b as [|d b IH]; cbn.
  - by destruct sub.
  - intros [Hd Hb]%andb_prop. rewrite IH by done. apply negb_true_iff in Hd.
    destruct sub as [|c sub]; [done|]. apply andb_prop in Hs as [Hc _]. cbn.
    destruct (Ascii.ascii_dec c d) as [e|]; [by destruct (is_lower_not_lower _ _ Hc Hd e)|done].
Qed.

Lemma str_contains_app_lower sub a b :
  sub ≠ EmptyString → all_lower sub = true → lower_free b = true →
  str_contains sub (a +:+ b) = str_contains sub a.
Proof.
  intros Hne Hs Hb. induction a as [|c a IH].
  - change ("" +:+ b) with b. rewrite (str_contains_lower_free sub b) by done. cbn. by destruct sub.
  - rewrite string_app_cons.
    change (String.prefix sub (String c (a +:+ b)) || str_contains sub (a +:+ b) =
            String.prefix sub (String c a) || str_contains sub a).
    by rewrite <-string_app_cons, prefix_app_lower, IH.
Qed.

Lemma str_contains_link sub p ticker :
  sub ≠ EmptyString → all_lower sub = true → lower_free ticker = true →
  str_contains sub (fmp_link +:+ p +:+ ticker) = str_contains sub (fmp_link +:+ p).
Proof. intros. by rewrite string_app_assoc, str_contains_app_lower. Qed.

Lemma dict_insert_all_lookup d kvs k :
  NoDup kvs.*1 → dict_insert_all d kvs !! k = ((list_to_map kvs : gmap string json) ∪ d) !! k.
Proof.
  revert d. induction kvs as [|[k' v] kvs IH]; intros d Hnd; cbn.
  - by rewrite map_empty_union.
  - apply NoDup_cons in Hnd as [Hk Hnd]. unfold dict_insert_all in IH. rewrite IH by done.
    rewrite !lookup_union, !lookup_insert. destruct (decide (k' = k)) as [<-|]; [|done].
    rewrite not_elem_of_list_to_map_1 by done. by destruct (d !! k').
Qed.

Lemma dict_insert_all_map_to_list d (m : gmap string json) :
  dict_insert_all d (map_to_list m) = m ∪ d.
Proof.
  apply map_eq. intros k. rewrite dict_insert_all_lookup by apply NoDup_fst_map_to_list.
  by rewrite list_to_map_to_list.
Qed.

Lemma merge_section_run fin_dir section d :
  merge_section fin_dir section d = record_step (first_record fin_dir section) d.
Proof.
  unfold merge_section, st_bind, st_lift, st_get, st_put, record_step.
  destruct (first_record fin_dir section); [|done]. by rewrite dict_insert_all_map_to_list.
Qed.

(** Replace each [str_contains] test on a closed URL by its value. *)
Ltac eval_url_tests :=
  repeat match goal with
  | |- context [str_contains ?sub ?u] =>
      let b := eval vm_compute in (str_contains sub u) in
      lazymatch b with true => idtac | false => idtac end;
      change (str_contains sub u) with b
  end.

Lemma financial_step_links fetch ticker :
  lower_free ticker = true →
  Forall2 (λ url section, ∀ d, financial_step fetch url d =
             record_step (fin_dir ← fetch url; first_record fin_dir section) d)
    (fmp_links ticker) fmp_sections.
Proof.
  intros Ht. unfold fmp_links, fmp_sections.
  repeat (constructor; [intros d; unfold financial_step;
    rewrite ?(str_contains_link _ _ ticker) by (done || reflexivity); eval_url_tests; cbv iota;
    unfold st_bind at 1, st_lift; destruct (fetch _) as [page|e]; try done; cbn -[merge_section];
    unfold st_bind, st_ret; rewrite merge_section_run; unfold record_step; by destruct first_record|]).
  constructor.
Qed.

Lemma financial_loop_records fetch urls sections d :
  Forall2 (λ url section, ∀ d, financial_step fetch url d =
             record_step (fin_dir ← fetch url; first_record fin_dir section) d) urls sections →
  financial_loop fetch urls d =
    record_loop (zip_with (λ url section, fin_dir ← fetch url; first_record fin_dir section) urls sections) d.
Proof.
  intros H. revert d. unfold financial_loop, record_loop.
  induction H as [|url section urls sections Hs _ IH]; intros d; [done|]. cbn [foldr zip_with].
  unfold st_bind at 1 3. rewrite Hs. unfold record_step at 1 2. by destruct (_ ≫= _).
Qed.

Lemma record_loop_ok ms d : record_loop (map Ok ms) d = (foldl (λ d m, m ∪ d) d ms, Ok tt).
Proof. revert d. induction ms as [|m ms IH]; intros d; [done|]. apply IH. Qed.

Lemma record_loop_err ms e rest d :
  record_loop (map Ok ms ++ Err e :: rest) d = (foldl (λ d m, m ∪ d) d ms, Err e).
Proof. revert d. induction ms as [|m ms IH]; intros d; [done|]. apply IH. Qed.

Lemma length_fmp_records fetch ticker : length (fmp_records fetch ticker) = 5%nat.
Proof. reflexivity. Qed.

End FinancialData.

(** C24 (functional, error) [Stock.get_financial_data] on a ticker
    without lower-case letters: if the five links yield the records [ms]
    and then either nothing more or an exception, [financial_data] holds
    the one column [ticker] whose entries are the union of [ms], a later
    page overwriting an earlier one on a shared key; the pages after the
    first exception are never read, what the pages before it wrote is
    kept, and exactly one line is printed when an exception occurred. *)
Theorem get_financial_data_spec fetch ticker ms rest :
  lower_free ticker = true →
  fmp_records fetch ticker = map Ok ms ++ rest →
  rest = [] ∨ (∃ e rest', rest = Err e :: rest') →
  get_financial_data fetch ticker =
    (if (length ms =? 5)%nat then [] else ["Problem scraping data for  " +:+ ticker],
     {[ ticker := foldl (λ d m, m ∪ d) ∅ ms ]}).
Proof.
  intros Ht Hr Hrest. unfold get_financial_data.
  rewrite (financial_loop_records _ _ fmp_sections) by (by apply financial_step_links).
  change (zip_with _ (fmp_links ticker) fmp_sections) with (fmp_records fetch ticker).
  pose proof (length_fmp_records fetch ticker) as Hl. rewrite Hr, length_app, length_map in Hl.
  rewrite Hr. destruct Hrest as [->|(e & rest' & ->)].
  - rewrite app_nil_r, record_loop_ok. cbn in Hl. replace (length ms) with 5%nat by lia. done.
  - rewrite record_loop_err. cbn in Hl. by replace (length ms =? 5)%nat with false by (symmetry; apply Nat.eqb_neq; lia).
Qed.

Lemma get_financial_data_spec_witness :
  get_financial_data demo_fetch "AAPL" =
    (["Problem scraping data for  AAPL"], {[ "AAPL" := foldl (λ d m, m ∪ d) ∅ demo_records ]}).
Proof.
  apply (get_financial_data_spec demo_fetch "AAPL" demo_records
           [Err (KeyError "enterpriseValues");
            Ok (json_dict [("date", JStr "2019-09-28"); ("PE ratio", JNum (2061 # 100))])]).
  - reflexivity.
  - vm_compute. reflexivity.
  - right. eexists _, _. reflexivity.
Defined.

(** The two [Stock] classes agree: the one of [Stock_Class.py] holds the
    frame and the financial data of the one of [Technical_Indicators
    _Class.py], which adds the daily returns of that frame. *)
Lemma FAStock_init_agrees fuel dl fetch ticker :
  FAStock.Stock_init fuel dl fetch ticker =
    (λ '(s, calls, (printed, fd)), (FAStock.mkStock ticker (st_prices s) fd, calls, printed))
      <$> Stock_init fuel dl fetch ticker.
Proof.
  unfold FAStock.Stock_init, FAStock.get_historical_price_data, Stock_init, get_historical_price_data.
  destruct (retry_loop fuel dl 0 0 []) as [[hist calls]|]; [|done]. cbn.
  by destruct (get_financial_data fetch ticker).
Qed.

(** ** Decidable equality of decoded JSON values *)

Lemma json_eqb_refl a : json_eqb a a = true.
Proof.
  revert a. fix IH 1. intros [|b|q|s|xs|kvs]; cbn.
  - done.
  - apply Bool.eqb_reflx.
  - by rewrite Z.eqb_refl, Pos.eqb_refl.
  - apply String.eqb_refl.
  - revert xs. fix go 1. intros [|x xs]; [done|]. cbn. rewrite IH. apply go.
  - revert kvs. fix go 1. intros [|[k x] kvs]; [done|]. cbn. rewrite String.eqb_refl, IH. apply go.
Qed.

Lemma json_eqb_eq a b : json_eqb a b = true → a = b.
Proof.
  revert a b. fix IH 1. intros [|x|x|x|xs|xs] [|y|y|y|ys|ys]; cbn; try done.
  - by intros ->%Bool.eqb_prop.
  - destruct x as [n d], y as [m e]. cbn. by intros [->%Z.eqb_eq ->%Pos.eqb_eq]%andb_prop.
  - by intros ->%String.eqb_eq.
  - intros H. f_equal. revert xs ys H. fix go 1. intros [|x xs] [|y ys]; cbn; try done.
    intros [Hx Hxs]%andb_prop. f_equal; [by apply IH | by apply go].
  - intros H. f_equal. revert xs ys H. fix go 1. intros [|[k x] xs] [|[l y] ys]; cbn; try done.
    intros [[Hk Hx]%andb_prop Hxs]%andb_prop. apply String.eqb_eq in Hk as ->.
    f_equal; [f_equal; by apply IH | by apply go].
Qed.

#[export] Instance json_eq_dec : EqDecision json.
Proof.
  intros a b. destruct (json_eqb a b) eqn:E.
  - left. by apply json_eqb_eq.
  - right. intros ->. by rewrite json_eqb_refl in E.
Defined.
