(* ===== verification/Forecaster.v ===== *)
(** * Forecaster: the lagged series and the classifiers of [Price_Forecaster_ML.py]

    [create_lagged_series] builds, from the AlphaVantage frame of
    [AlphaVantage] (downloaded a year before [start_date]), the frame the
    classifiers are trained on: the volume, today's percentage return
    (small moves clipped to 0.0001), the returns of the [lags] previous
    days and the direction of today's move.  The [__main__] block splits
    the series of [SPY] at 2017-01-01 into a training and a test set,
    then for each classifier fits it, predicts the test set and prints
    the hit rate ([score]) and [confusion_matrix(pred, y_test)].  The
    learning algorithms are library code: a [classifier] is a name and a
    function from the training data to a predictor (or an exception);
    scikit-learn's input validation (no sample, or NaN) is modelled.  The
    theorems: the rows and their dates, the direction never 0, the split
    is a partition in time, and every printed hit rate is the diagonal
    share of the matrix printed with it. *)

From S2P Require Import Prelude AlphaVantage Options Performance Indicators.
From stdpp Require Import sorting.
From Stdlib Require Import Qabs.

Local Open Scope pyfloat_scope.

(** ** The lagged series *)

(** [Series.shift(k)]. *)
Definition shift (k : nat) (xs : list pyfloat) : list pyfloat := take (length xs) (replicate k None ++ xs).

(** [s.pct_change() * 100]. *)
Definition pct100 (xs : list pyfloat) : list pyfloat := map (λ a, a *. Some 100%Q) (pct_change xs).

(** [tsret.loc[tsret['Today'].abs() < 0.0001, ['Today']] = 0.0001]: a
    NaN compares false and stays. *)
Definition clip_small (a : pyfloat) : pyfloat :=
  if fabs a <. Some (1 # 10000) then Some (1 # 10000) else a.

(** [np.sign]. *)
Definition fsign (a : pyfloat) : pyfloat :=
  option_map (λ x, if Qlt_bool 0 x then 1 else if Qlt_bool x 0 then -1 else 0)%Q a.

Record lag_row := mkLagRow {
  lr_date : Z;
  lr_volume : Z;
  lr_today : pyfloat;
  lr_lags : list pyfloat;
  lr_direction : pyfloat
}.

Definition closes_of (ts : list price_row) : list pyfloat := map (λ r, Some (pr_adj_close r)) ts.

(** [create_lagged_series(symbol, start_date, end_date, lags)]: the data
    start a year ([365] days) before [start_date]; the rows before
    [start_date] are dropped at the end.  After a failed download [ts] is
    the list [[]]: [ts.index] is the bound method [list.index], and
    [pd.to_datetime] raises [TypeError] on it. *)
Definition create_lagged_series (response : option (gmap Z av_bar)) (start_date end_date : Z)
    (lags : nat) : result (list lag_row) :=
  match get_daily_historic_data_alphavantage response (start_date - 365) end_date with
  | AvEmptyList => Err (TypeError "<class 'builtin_function_or_method'> is not convertible to datetime")
  | AvFrame ts =>
      let today := map clip_small (pct100 (closes_of ts)) in
      let lag_cols := map (λ i, pct100 (shift (S i) (closes_of ts))) (seq 0 lags) in
      let direction := map fsign today in
      Ok (filter (λ r, (start_date <=? lr_date r)%Z)
            (imap (λ t r, mkLagRow (pr_date r) (pr_volume r) (col_at today t)
                            (map (λ col, col_at col t) lag_cols) (col_at direction t)) ts))
  end.

(** ** The [__main__] block: the classifiers

    A scikit-learn classifier is its learning algorithm: [fit(X, y)]
    returns the predictor of the fitted model, or raises.  The six
    algorithms of the script (logistic regression, LDA, QDA, two SVMs, a
    random forest) are library code: they are arguments of the model. *)
Record classifier := mkClassifier {
  clf_name : string;
  clf_fit : list (list Q) → list Q → result (list Q → Q)
}.

(** The input validation of scikit-learn ([check_array]): no sample, or
    a NaN, raises [ValueError]. *)
Definition check_samples {A} (xs : list (option A)) : result (list A) :=
  match xs with
  | [] => Err (ValueError "Found array with 0 sample(s)")
  | _ => match mapM (λ x, x) xs with
         | Some ys => Ok ys
         | None => Err (ValueError "Input contains NaN")
         end
  end.

(** [m.fit(X_train, y_train)]. *)
Definition fit (m : classifier) (X : list (option (list Q))) (y : list pyfloat) : result (list Q → Q) :=
  Xv ← check_samples X; yv ← check_samples y; clf_fit m Xv yv.

(** [m.predict(X_test)]. *)
Definition predict (predictor : list Q → Q) (X : list (option (list Q))) : result (list Q) :=
  Xv ← check_samples X; Ok (map predictor Xv).

(** The number of positions where two label arrays agree. *)
Definition n_agree (a b : list Q) : nat := length (filter (λ p, Qeq_bool p.1 p.2 = true) (zip a b)).

(** [accuracy_score(y_true, y_pred)], what [m.score(X_test, y_test)]
    returns: the hit rate. *)
Definition accuracy_score (y_true y_pred : list Q) : Q :=
  inject_Z (Z.of_nat (n_agree y_true y_pred)) / inject_Z (Z.of_nat (length y_true)).

(** The sorted distinct labels, [np.unique]: one insertion step. *)
Fixpoint insert_label (x : Q) (ls : list Q) : list Q :=
  match ls with
  | [] => [x]
  | l :: rest => if Qeq_bool x l then ls else if Qle_bool x l then x :: ls else l :: insert_label x rest
  end.

Definition unique_labels (xs : list Q) : list Q := foldr insert_label [] xs.

(** The number of positions [k] with [a[k] = i] and [b[k] = j]. *)
Definition count_pairs (a b : list Q) (i j : Q) : nat :=
  length (filter (λ p, (Qeq_bool p.1 i && Qeq_bool p.2 j) = true) (zip a b)).

(** [confusion_matrix(a, b)]: the rows are indexed by the labels of the
    first argument, the columns by those of the second, both in the
    sorted order of the labels of [a] and [b]. *)
Definition confusion_matrix (a b : list Q) : list (list nat) :=
  let ls := unique_labels (a ++ b) in
  map (λ i, map (λ j, count_pairs a b i j) ls) ls.

(** The diagonal of a matrix: the entries where the label of the row is
    the label of the column. *)
Definition diag (M : list (list nat)) : list nat := imap (λ k row, default 0%nat (row !! k)) M.

(** What the script prints. *)
Inductive ml_output :=
| MlText (s : string)
| MlScore (name : string) (hit_rate : Q)
| MlMatrix (m : list (list nat)).

Definition ml_print (o : ml_output) : stexc (list ml_output) unit := λ out, (out ++ [o], Ok tt).

(** [X = snpret[['Lag1', 'Lag2']]]: a row is NaN when one of its two
    values is. *)
Definition features (r : lag_row) : option (list Q) := mapM (λ x, x) (take 2 (lr_lags r)).

Section MLMain.
Local Open Scope stexc_scope.

(** The loop [for m in models:]. *)
Fixpoint run_models (X_train X_test : list (option (list Q))) (y_train y_test : list pyfloat)
    (models : list classifier) : stexc (list ml_output) unit :=
  match models with
  | [] => st_ret tt
  | m :: rest =>
      predictor ⇐ st_lift (fit m X_train y_train);
      pred ⇐ st_lift (predict predictor X_test);
      yt ⇐ st_lift (check_samples y_test);
      _ ⇐ ml_print (MlScore (clf_name m) (accuracy_score yt pred));
      _ ⇐ ml_print (MlMatrix (confusion_matrix pred yt));
      run_models X_train X_test y_train y_test rest
  end.

(** The [__main__] block on AlphaVantage's answer for [SPY]: rows dated
    before 2017-01-01 train, the others test. *)
Definition ml_main (response : option (gmap Z av_bar)) (models : list classifier) : stexc (list ml_output) unit :=
  let start_date := days_from_civil 2016 1 10 in
  let end_date := days_from_civil 2017 12 31 in
  snpret ⇐ st_lift (create_lagged_series response start_date end_date 5);
  let start_test := days_from_civil 2017 1 1 in
  let train := filter (λ r, (lr_date r < start_test)%Z) snpret in
  let test := filter (λ r, (start_test ≤ lr_date r)%Z) snpret in
  _ ⇐ ml_print (MlText "Hit Rates / Confusion Matrices:
");
  run_models (map features train) (map features test) (map lr_direction train) (map lr_direction test) models.

End MLMain.

(** ** Demo data

    Four days of bars, closing at 11, 10, 9.999995 and 10: the fall of
    0.00005 percent on day 4 is clipped to +0.0001 and labelled up, while
    [Lag1] of day 5 keeps it negative. *)

Definition demo_ts : list price_row :=
  match get_daily_historic_data_alphavantage (Some demo_av_data) (3 - 365) 10 with
  | AvFrame ts => ts
  | AvEmptyList => []
  end.

Definition demo_lagged : list lag_row :=
  match create_lagged_series (Some demo_av_data) 3 10 2 with Ok rs => rs | Err _ => [] end.

(** Five [SPY] bars around 2017-01-01 and a classifier that always
    predicts a rise. *)
Definition demo_ml_data : gmap Z av_bar :=
  list_to_map [(days_from_civil 2016 12 28, mkAvBar 1 1 1 1 100 100);
               (days_from_civil 2016 12 29, mkAvBar 1 1 1 1 100 101);
               (days_from_civil 2016 12 30, mkAvBar 1 1 1 1 100 99);
               (days_from_civil 2017 1 3, mkAvBar 1 1 1 1 100 102);
               (days_from_civil 2017 1 4, mkAvBar 1 1 1 1 100 103)].

Definition demo_ml_rows : list lag_row :=
  match create_lagged_series (Some demo_ml_data) (days_from_civil 2016 1 10) (days_from_civil 2017 12 31) 5 with
  | Ok rs => rs
  | Err _ => []
  end.

Definition always_up : classifier := mkClassifier "UP" (λ _ _, Ok (λ _, 1)).

(** ** Shifted columns *)

Section Shift.
Local Open Scope nat_scope.

Lemma pct_change_from_replicate_None k xs :
  pct_change_from None (replicate k None ++ xs) = replicate k None ++ pct_change_from None xs.
Proof. induction k as [|k IH]; [done|]. cbn. by rewrite IH. Qed.

Lemma pct_change_from_take p n xs : pct_change_from p (take n xs) = take n (pct_change_from p xs).
Proof. revert p n. induction xs as [|x xs IH]; intros p [|n]; cbn; rewrite ?IH; auto. Qed.

Lemma map_take {A B} (f : A → B) n l : map f (take n l) = take n (map f l).
Proof. revert n. induction l; intros [|n]; cbn; f_equal; auto. Qed.

Lemma map_replicate {A B} (f : A → B) k x : map f (replicate k x) = replicate k (f x).
Proof. induction k; cbn; f_equal; auto. Qed.

(** The returns of a shifted column are the shifted returns. *)
Lemma pct100_shift k xs : pct100 (shift k xs) = shift k (pct100 xs).
Proof.
  unfold pct100, shift, pct_change.
  rewrite pct_change_from_take, pct_change_from_replicate_None, map_take, map_app, map_replicate.
  by rewrite length_map, length_pct_change_from.
Qed.

Lemma col_at_shift k ys t :
  t < length ys → col_at (shift k ys) t = if decide (k ≤ t) then col_at ys (t - k) else None.
Proof.
  intros Ht. unfold col_at, shift. rewrite lookup_take_lt by done.
  case_decide.
  - rewrite lookup_app_r, length_replicate by (rewrite length_replicate; lia). done.
  - rewrite lookup_app_l, lookup_replicate_2 by (rewrite ?length_replicate; lia). done.
Qed.

Lemma col_at_map (f : pyfloat → pyfloat) xs t :
  t < length xs → col_at (map f xs) t = f (col_at xs t).
Proof.
  intros Ht. destruct (lookup_lt_is_Some_2 xs t Ht) as [x Hx].
  rewrite (col_at_lookup xs t x Hx). apply col_at_lookup. by rewrite list_lookup_fmap, Hx.
Qed.

Lemma length_pct100 xs : length (pct100 xs) = length xs.
Proof. unfold pct100, pct_change. by rewrite length_map, length_pct_change_from. Qed.

End Shift.

(** ** The rows of the lagged series *)

(** Every row kept is the row of a day [t] of the download from
    [start_date] on: today's return clipped, the returns of the [lags]
    previous days as they are, and the sign of today's clipped return. *)
Lemma lagged_rows data s e lags ts rs :
  get_daily_historic_data_alphavantage (Some data) (s - 365) e = AvFrame ts →
  create_lagged_series (Some data) s e lags = Ok rs →
  ∀ r, r ∈ rs → ∃ t p, ts !! t = Some p ∧ (s ≤ pr_date p)%Z ∧
    let ret := col_at (pct100 (closes_of ts)) in
    r = mkLagRow (pr_date p) (pr_volume p) (clip_small (ret t))
          (map (λ i, if decide (S i ≤ t)%nat then ret (t - S i)%nat else None) (seq 0 lags))
          (fsign (clip_small (ret t))).
Proof.
  intros Hts. unfold create_lagged_series. rewrite Hts. intros [= <-] r Hr.
  apply elem_of_filter_imap in Hr as (t & p & Hp & -> & Hs).
  pose proof (lookup_lt_Some _ _ _ Hp) as Ht.
  assert (Hl : (t < length (pct100 (closes_of ts)))%nat)
    by (rewrite length_pct100; unfold closes_of; by rewrite length_map).
  exists t, p. split; [done|]. split; [cbn in Hs; by apply Is_true_true, Z.leb_le in Hs|].
  cbv zeta. rewrite !col_at_map by (rewrite ?length_map; done). f_equal.
  rewrite map_map. apply map_ext. intros i.
  rewrite pct100_shift, col_at_shift by exact Hl. done.
Qed.

Lemma fsign_clip_small a :
  (fsign (clip_small a) = None ∨ fsign (clip_small a) = Some 1%Q ∨ fsign (clip_small a) = Some (-1)%Q) ∧
  ∀ v, a = Some v → (-1 # 10000 < v)%Q → (v < 0)%Q →
       clip_small a = Some (1 # 10000) ∧ fsign (clip_small a) = Some 1%Q.
Proof.
  destruct a as [v|]; [|split; [by left | done]]. unfold clip_small, fsign, fabs, flt. cbn [option_map].
  split.
  - case_Qcmp; [by right; left|]. cbn [option_map].
    case_Qcmp; [by right; left|]. case_Qcmp; [by right; right|].
    assert (Qabs v <= 0) by (apply Qabs_Qle_condition; lra). lra.
  - intros v' Hv Hlo Hhi. injection Hv as <-.
    assert (Qabs v < 1 # 10000) as Hs by (apply Qabs_Qlt_condition; lra).
    rewrite (proj2 (Qlt_bool_iff _ _) Hs). by split.
Qed.

(** ** The dates of the lagged series *)

Section Dates.
Variable data : gmap Z av_bar.

Lemma lagged_dates s (f : nat → price_row → lag_row) ts :
  (∀ t p, lr_date (f t p) = pr_date p) →
  map lr_date (filter (λ r, (s <=? lr_date r)%Z) (imap f ts)) =
  filter (λ d, (s <=? d)%Z) (map pr_date ts).
Proof.
  revert f. induction ts as [|p ts IH]; intros f Hf; [done|].
  assert (IH' : map lr_date (filter (λ r, (s <=? lr_date r)%Z) (imap (f ∘ S) ts)) =
                filter (λ d, (s <=? d)%Z) (map pr_date ts)) by (apply IH; intros; apply Hf).
  rewrite imap_cons, filter_cons. cbn [map]. rewrite filter_cons, Hf.
  case_decide; cbn [map]; rewrite ?Hf, ?IH'; done.
Qed.

End Dates.

(** ** Properties of [create_lagged_series] *)

(** C19 (functional) Every row of [create_lagged_series] is the row of a
    downloaded day from [start_date] on, with its volume, today's return
    (clipped away from zero) and, in [Lag1 .. Lag<lags>], the returns of
    the previous days as computed before the clipping: the column [Lag1]
    is [Today] shifted by one row only where [Today] was not clipped. *)
Theorem create_lagged_series_lags data s e lags ts rs :
  get_daily_historic_data_alphavantage (Some data) (s - 365) e = AvFrame ts →
  create_lagged_series (Some data) s e lags = Ok rs →
  ∀ r, r ∈ rs → ∃ t p, ts !! t = Some p ∧ lr_date r = pr_date p ∧ (s ≤ pr_date p)%Z ∧
    lr_volume r = pr_volume p ∧
    lr_today r = clip_small (col_at (pct100 (closes_of ts)) t) ∧
    lr_lags r = map (λ i, if decide (S i ≤ t)%nat then col_at (pct100 (closes_of ts)) (t - S i)%nat
                          else None) (seq 0 lags).
Proof.
  intros Hts Hrs r Hr. destruct (lagged_rows data s e lags ts rs Hts Hrs r Hr) as (t & p & Hp & Hs & ->).
  exists t, p. by repeat split.
Qed.

(** C20 (functional) The [Direction] of a row is never 0: it is the sign of
    the clipped return, and a fall of less than 0.0001 percent is clipped
    to [+0.0001] and labelled an up day. *)
Theorem create_lagged_series_direction data s e lags ts rs :
  get_daily_historic_data_alphavantage (Some data) (s - 365) e = AvFrame ts →
  create_lagged_series (Some data) s e lags = Ok rs →
  ∀ r, r ∈ rs →
    lr_direction r = fsign (lr_today r) ∧
    (lr_direction r = None ∨ lr_direction r = Some 1%Q ∨ lr_direction r = Some (-1)%Q) ∧
    ∃ t p, ts !! t = Some p ∧ lr_date r = pr_date p ∧
      ∀ v, col_at (pct100 (closes_of ts)) t = Some v → (-1 # 10000 < v)%Q → (v < 0)%Q →
           lr_today r = Some (1 # 10000) ∧ lr_direction r = Some 1%Q.
Proof.
  intros Hts Hrs r Hr. destruct (lagged_rows data s e lags ts rs Hts Hrs r Hr) as (t & p & Hp & _ & ->).
  cbn [lr_direction lr_today lr_date]. destruct (fsign_clip_small (col_at (pct100 (closes_of ts)) t)) as [H1 H2].
  split; [done|]. split; [done|]. exists t, p. split; [done|]. split; [done|]. exact H2.
Qed.

Lemma lagged_sorted_keys (data : gmap Z av_bar) s e :
  StronglySorted Z.lt (filter (λ d, (s <=? d)%Z) (filter (λ d, in_dates (s - 365) e d)
                                                   (merge_sort Z.le (map_to_list data).*1))).
Proof. by apply StronglySorted_filter, StronglySorted_filter, sorted_keys_strict. Qed.

Lemma create_lagged_series_sorted response s e lags rs :
  create_lagged_series response s e lags = Ok rs → StronglySorted Z.lt (map lr_date rs).
Proof.
  destruct response as [data|]; [|done].
  destruct (get_daily_historic_data_alphavantage (Some data) (s - 365) e) as [|ts] eqn:Hts;
    unfold create_lagged_series; rewrite Hts; [done|]. intros [= <-].
  rewrite lagged_dates, (download_dates data _ _ _ Hts) by done. apply lagged_sorted_keys.
Qed.

(** (roundtrip) With a download, [create_lagged_series] returns one row
    per day of the answer between [start_date] and [end_date], in strictly
    increasing order of date, and no other. *)
Theorem create_lagged_series_dates data s e lags :
  ∃ rs, create_lagged_series (Some data) s e lags = Ok rs ∧
    StronglySorted Z.lt (map lr_date rs) ∧
    ∀ d, d ∈ map lr_date rs ↔ (s ≤ d ≤ e)%Z ∧ is_Some (data !! d).
Proof.
  destruct (get_daily_historic_data_alphavantage (Some data) (s - 365) e) as [|ts] eqn:Hts; [done|].
  pose proof (download_dates data _ _ _ Hts) as Hd.
  unfold create_lagged_series. rewrite Hts. eexists. split; [done|].
  rewrite lagged_dates, Hd by done. split.
  - by apply lagged_sorted_keys.
  - intros d. rewrite !list_elem_of_filter, sorted_keys_elem.
    unfold in_dates. rewrite Is_true_true, Is_true_true, negb_true_iff, bool_decide_eq_false, Z.leb_le.
    split; [intros (H1 & H2 & H3); split; [lia | done] | intros (H1 & H2); split; [lia | split; [lia | done]]].
Qed.

Lemma create_lagged_series_lags_witness :
  ∃ r, demo_lagged !! 1%nat = Some r ∧
  ∃ t p, demo_ts !! t = Some p ∧ lr_date r = pr_date p ∧ (3 ≤ pr_date p)%Z ∧
    lr_volume r = pr_volume p ∧
    lr_today r = clip_small (col_at (pct100 (closes_of demo_ts)) t) ∧
    lr_lags r = map (λ i, if decide (S i ≤ t)%nat then col_at (pct100 (closes_of demo_ts)) (t - S i)%nat
                          else None) (seq 0 2).
Proof.
  destruct (demo_lagged !! 1%nat) as [r|] eqn:Hr; [|vm_compute in Hr; discriminate Hr].
  exists r. split; [done|].
  apply (create_lagged_series_lags demo_av_data 3 10 2 demo_ts demo_lagged);
    [vm_compute; reflexivity | vm_compute; reflexivity | by apply list_elem_of_lookup_2 with 1%nat].
Defined.

Lemma create_lagged_series_direction_witness :
  ∃ r, demo_lagged !! 1%nat = Some r ∧
    lr_direction r = fsign (lr_today r) ∧
    (lr_direction r = None ∨ lr_direction r = Some 1%Q ∨ lr_direction r = Some (-1)%Q) ∧
    ∃ t p, demo_ts !! t = Some p ∧ lr_date r = pr_date p ∧
      ∀ v, col_at (pct100 (closes_of demo_ts)) t = Some v → (-1 # 10000 < v)%Q → (v < 0)%Q →
           lr_today r = Some (1 # 10000) ∧ lr_direction r = Some 1%Q.
Proof.
  destruct (demo_lagged !! 1%nat) as [r|] eqn:Hr; [|vm_compute in Hr; discriminate Hr].
  exists r. split; [done|].
  apply (create_lagged_series_direction demo_av_data 3 10 2 demo_ts demo_lagged);
    [vm_compute; reflexivity | vm_compute; reflexivity | by apply list_elem_of_lookup_2 with 1%nat].
Defined.

(** ** The labels of the confusion matrix *)

Section Labels.

Lemma insert_label_elem x ls y : y ∈ insert_label x ls → y = x ∨ y ∈ ls.
Proof.
  induction ls as [|l ls IH]; cbn; [set_solver|].
  destruct (Qeq_bool x l); [set_solver|]. destruct (Qle_bool x l); [set_solver|].
  intros [->|Hy]%elem_of_cons; [set_solver|]. destruct (IH Hy); set_solver.
Qed.

Lemma insert_label_keeps x ls y : y ∈ ls → y ∈ insert_label x ls.
Proof.
  induction ls as [|l ls IH]; cbn; [set_solver|].
  destruct (Qeq_bool x l); [done|]. destruct (Qle_bool x l); [set_solver|].
  intros [->|Hy]%elem_of_cons; [set_solver|]. apply elem_of_cons. right. by apply IH.
Qed.

Lemma insert_label_covers x ls : ∃ l, l ∈ insert_label x ls ∧ x == l.
Proof.
  induction ls as [|l ls IH]; cbn; [exists x; split; [set_solver | reflexivity]|].
  destruct (Qeq_bool x l) eqn:E.
  - exists l. split; [set_solver|]. by apply Qeq_bool_iff.
  - destruct (Qle_bool x l); [exists x; split; [set_solver | reflexivity]|].
    destruct IH as (l' & Hl' & Hx). exists l'. split; [set_solver | done].
Qed.

Lemma insert_label_sorted x ls : StronglySorted Qlt ls → StronglySorted Qlt (insert_label x ls).
Proof.
  induction 1 as [|l ls Hs IH Hl]; cbn; [repeat constructor|].
  destruct (Qeq_bool x l) eqn:E; [by constructor|].
  destruct (Qle_bool x l) eqn:L.
  - apply Qle_bool_iff in L. assert (x < l).
    { apply Qle_lteq in L as [|Hq]; [done|]. apply Qeq_bool_iff in Hq. congruence. }
    constructor; [by constructor|]. constructor; [done|].
    eapply Forall_impl; [exact Hl|]. intros y Hy. cbn in Hy. by apply Qlt_trans with l.
  - assert (l < x) by (apply Qnot_le_lt; intros Hq%Qle_bool_iff; congruence).
    constructor; [done|]. apply Forall_forall. intros y [->|Hy]%insert_label_elem; [done|].
    exact (proj1 (Forall_forall _ _) Hl y Hy).
Qed.

Lemma unique_labels_sorted xs : StronglySorted Qlt (unique_labels xs).
Proof. induction xs; cbn; [constructor | by apply insert_label_sorted]. Qed.

Lemma unique_labels_covers xs x : x ∈ xs → ∃ l, l ∈ unique_labels xs ∧ x == l.
Proof.
  induction xs as [|y xs IH]; cbn; [set_solver|]. intros [->|Hx]%elem_of_cons; [apply insert_label_covers|].
  destruct (IH Hx) as (l & Hl & Hxl). exists l. split; [by apply insert_label_keeps | done].
Qed.

Lemma sum_list_zero (l : list nat) : (∀ n, n ∈ l → n = 0%nat) → sum_list l = 0%nat.
Proof. induction l as [|x l IH]; intros H; cbn; [done|]. rewrite (H x), IH by set_solver. done. Qed.

(** In strictly sorted labels, a value equals exactly one of them. *)
Lemma sum_indicator_one (ls : list Q) p :
  StronglySorted Qlt ls → (∃ l, l ∈ ls ∧ p == l) →
  sum_list (map (λ l, if Qeq_bool p l then 1%nat else 0%nat) ls) = 1%nat.
Proof.
  induction 1 as [|l ls Hs IH Hl]; intros (l' & Hl' & Hp); [set_solver|]. cbn.
  destruct (Qeq_bool p l) eqn:E.
  - apply Qeq_bool_iff in E. rewrite sum_list_zero; [done|].
    intros n (m & -> & Hm)%list_elem_of_fmap.
    pose proof (proj1 (Forall_forall _ _) Hl m Hm) as Hlm. cbn in Hlm.
    destruct (Qeq_bool p m) eqn:F; [|done]. apply Qeq_bool_iff in F. rewrite <-E, F in Hlm.
    by apply Qlt_irrefl in Hlm.
  - apply elem_of_cons in Hl' as [->|Hl']; [apply Qeq_bool_iff in Hp; congruence|]. apply IH. eauto.
Qed.

Lemma sum_list_map_plus {A} (f g : A → nat) (l : list A) :
  sum_list (map (λ x, f x + g x)%nat l) = (sum_list (map f l) + sum_list (map g l))%nat.
Proof. induction l as [|x l IH]; cbn; lia. Qed.

(** The diagonal counts add up to the agreements. *)
Lemma sum_diag_counts (ls : list Q) (zs : list (Q * Q)) :
  StronglySorted Qlt ls → Forall (λ z, ∃ l, l ∈ ls ∧ z.1 == l) zs →
  sum_list (map (λ l, length (filter (λ p, (Qeq_bool p.1 l && Qeq_bool p.2 l) = true) zs)) ls) =
  length (filter (λ p, Qeq_bool p.1 p.2 = true) zs).
Proof.
  intros Hs. induction 1 as [|z zs Hz _ IH].
  - cbn. by apply sum_list_zero; intros n (l & -> & _)%list_elem_of_fmap.
  - rewrite filter_cons. erewrite map_ext; [rewrite sum_list_map_plus, IH|].
    2:{ intros l. rewrite filter_cons.
        instantiate (1 := λ l, if Qeq_bool z.1 l && Qeq_bool z.2 l then 1%nat else 0%nat).
        cbn beta. case_decide as Hd; [rewrite Hd; cbn; lia|]. apply not_true_is_false in Hd. by rewrite Hd. }
    destruct (Qeq_bool z.1 z.2) eqn:E; case_decide as Hd; try congruence; cbn.
    + apply Qeq_bool_iff in E. erewrite map_ext; [rewrite sum_indicator_one by done; lia|].
      intros l. cbn beta. destruct (Qeq_bool z.1 l) eqn:F; cbn; [|done].
      apply Qeq_bool_iff in F. by rewrite (proj2 (Qeq_bool_iff z.2 l)) by (by rewrite <-E).
    + rewrite sum_list_zero; [lia|]. intros n (l & -> & _)%list_elem_of_fmap.
      destruct (Qeq_bool z.1 l) eqn:F, (Qeq_bool z.2 l) eqn:G; cbn; try done.
      apply Qeq_bool_iff in F, G. assert (Hzz : z.1 == z.2) by (rewrite F, G; reflexivity).
      apply Qeq_bool_iff in Hzz. congruence.
Qed.

Lemma diag_square (f : Q → Q → nat) (ls : list Q) :
  diag (map (λ i, map (λ j, f i j) ls) ls) = map (λ l, f l l) ls.
Proof.
  apply list_eq. intros k. unfold diag. rewrite list_lookup_imap, !list_lookup_fmap.
  destruct (ls !! k) as [l|] eqn:E; cbn; [|done]. by rewrite list_lookup_fmap, E.
Qed.

End Labels.

(** ** Hit rates and confusion matrices *)

Lemma Qeq_bool_sym a b : Qeq_bool a b = Qeq_bool b a.
Proof.
  destruct (Qeq_bool a b) eqn:E, (Qeq_bool b a) eqn:F; try done.
  - apply Qeq_bool_iff in E. symmetry in E. apply Qeq_bool_iff in E. congruence.
  - apply Qeq_bool_iff in F. symmetry in F. apply Qeq_bool_iff in F. congruence.
Qed.

Lemma n_agree_comm a b : n_agree a b = n_agree b a.
Proof.
  unfold n_agree. revert b. induction a as [|x a IH]; intros [|y b]; [done..|].
  change (zip (x :: a) (y :: b)) with ((x, y) :: zip a b).
  change (zip (y :: b) (x :: a)) with ((y, x) :: zip b a).
  rewrite !filter_cons. cbn [fst snd]. rewrite Qeq_bool_sym. case_decide; cbn [length]; by rewrite IH.
Qed.

(** The hit rate is the share of the diagonal of the confusion matrix,
    whichever argument order the matrix was built with. *)
Lemma accuracy_score_diag (y pred : list Q) :
  accuracy_score y pred ==
  inject_Z (Z.of_nat (sum_list (diag (confusion_matrix pred y)))) / inject_Z (Z.of_nat (length y)).
Proof.
  unfold accuracy_score, confusion_matrix. rewrite diag_square. unfold count_pairs.
  rewrite sum_diag_counts, n_agree_comm; [reflexivity | apply unique_labels_sorted |].
  apply Forall_forall. intros [p q] Hz%elem_of_zip_l. apply unique_labels_covers. set_solver.
Qed.

Lemma check_samples_length {A} (xs : list (option A)) ys : check_samples xs = Ok ys → length ys = length xs.
Proof.
  unfold check_samples. destruct xs; [discriminate|].
  destruct (mapM _ _) as [zs|] eqn:E; [|discriminate]. intros [= <-].
  symmetry. by eapply Forall2_length, mapM_Some_1.
Qed.

Lemma st_lift_bind_Err {S A B} (e : py_error) (k : A → stexc S B) s : st_bind (st_lift (Err e)) k s = (s, Err e).
Proof. reflexivity. Qed.

Lemma st_lift_bind_Ok {S A B} (a : A) (k : A → stexc S B) s : st_bind (st_lift (Ok a)) k s = k a s.
Proof. reflexivity. Qed.

Lemma ml_print_run o out : ml_print o out = (out ++ [o], Ok tt).
Proof. reflexivity. Qed.

(** C21: The loop over the classifiers of [Price_Forecaster_ML.py]
    prints, model after model, a name and a hit rate followed by a
    confusion matrix, and every printed hit rate is the diagonal of the
    matrix printed after it divided by the number of test rows; when no
    model raises, one pair is printed for each model, in order. *)
Theorem run_models_hit_rates X_train X_test y_train y_test models out :
  ∃ printed,
    (run_models X_train X_test y_train y_test models out).1 =
      out ++ concat (map (λ p, [MlScore p.1.1 p.1.2; MlMatrix p.2]) printed) ∧
    Forall (λ p, p.1.2 == inject_Z (Z.of_nat (sum_list (diag p.2))) / inject_Z (Z.of_nat (length y_test)))
      printed ∧
    ((run_models X_train X_test y_train y_test models out).2 = Ok tt → map (λ p, p.1.1) printed = map clf_name models).
Proof.
  revert out. induction models as [|m models IH]; intros out.
  - exists []. rewrite app_nil_r. by split_and!.
  - cbn [run_models]. destruct (fit m X_train y_train) as [predictor|e];
      [rewrite st_lift_bind_Ok | exists []; rewrite st_lift_bind_Err, app_nil_r; by split_and!].
    destruct (predict predictor X_test) as [pred|e];
      [rewrite st_lift_bind_Ok | exists []; rewrite st_lift_bind_Err, app_nil_r; by split_and!].
    destruct (check_samples y_test) as [yt|e] eqn:Hyt;
      [rewrite st_lift_bind_Ok | exists []; rewrite st_lift_bind_Err, app_nil_r; by split_and!].
    rewrite (st_bind_run_Ok _ _ _ _ _ (ml_print_run _ _)), (st_bind_run_Ok _ _ _ _ _ (ml_print_run _ _)).
    destruct (IH ((out ++ [MlScore (clf_name m) (accuracy_score yt pred)]) ++
                  [MlMatrix (confusion_matrix pred yt)])) as (printed & Hout & Hhit & Hnames).
    exists (((clf_name m, accuracy_score yt pred), confusion_matrix pred yt) :: printed).
    split_and!.
    + rewrite Hout. cbn. by rewrite <-!app_assoc.
    + constructor; [|done]. cbn. rewrite <-(check_samples_length _ _ Hyt). apply accuracy_score_diag.
    + intros Hok. cbn. f_equal. by apply Hnames.
Qed.

(** Rows sorted by date split at [t] into the rows before [t] followed by
    the others. *)
Lemma split_by_date_sorted (rows : list lag_row) t :
  StronglySorted Z.lt (map lr_date rows) →
  filter (λ r, (lr_date r < t)%Z) rows ++ filter (λ r, (t ≤ lr_date r)%Z) rows = rows.
Proof.
  induction rows as [|r rows IH]; intros Hs; [done|]. cbn in Hs. apply StronglySorted_inv in Hs as [Hs Hr].
  rewrite !filter_cons. destruct (decide (lr_date r < t)%Z) as [Hlt|Hge].
  - rewrite decide_False by lia. cbn. by rewrite IH.
  - rewrite decide_True by lia. rewrite filter_none; [cbn; f_equal; apply filter_all|].
    + intros x Hx. pose proof (proj1 (Forall_forall _ _) Hr (lr_date x) ltac:(set_solver)). lia.
    + intros x Hx. pose proof (proj1 (Forall_forall _ _) Hr (lr_date x) ltac:(set_solver)). lia.
Qed.

(** The [__main__] block of [Price_Forecaster_ML.py]: after the
    lagged series of [SPY] is built (an error of [create_lagged_series]
    propagates), the rows dated before 2017-01-01 train and the others
    test: the two sets are disjoint in time and together are the whole
    series in order; the script then prints its title and runs the loop
    over the classifiers. *)
Theorem ml_main_split response models out rows :
  create_lagged_series response (days_from_civil 2016 1 10) (days_from_civil 2017 12 31) 5 = Ok rows →
  let start_test := days_from_civil 2017 1 1 in
  let train := filter (λ r, (lr_date r < start_test)%Z) rows in
  let test := filter (λ r, (start_test ≤ lr_date r)%Z) rows in
  train ++ test = rows ∧
  Forall (λ r, (lr_date r < start_test)%Z) train ∧ Forall (λ r, (start_test ≤ lr_date r)%Z) test ∧
  ml_main response models out =
    run_models (map features train) (map features test) (map lr_direction train) (map lr_direction test)
      models (out ++ [MlText "Hit Rates / Confusion Matrices:
"]).
Proof.
  intros Hrows start_test train test. split_and!.
  - apply split_by_date_sorted. exact (create_lagged_series_sorted _ _ _ _ _ Hrows).
  - apply Forall_forall. intros r [? _]%list_elem_of_filter. done.
  - apply Forall_forall. intros r [? _]%list_elem_of_filter. done.
  - unfold ml_main. rewrite Hrows. reflexivity.
Qed.

Lemma ml_main_split_witness :
  let start_test := days_from_civil 2017 1 1 in
  let train := filter (λ r, (lr_date r < start_test)%Z) demo_ml_rows in
  let test := filter (λ r, (start_test ≤ lr_date r)%Z) demo_ml_rows in
  train ++ test = demo_ml_rows ∧
  Forall (λ r, (lr_date r < start_test)%Z) train ∧ Forall (λ r, (start_test ≤ lr_date r)%Z) test ∧
  ml_main (Some demo_ml_data) [always_up] [] =
    run_models (map features train) (map features test) (map lr_direction train) (map lr_direction test)
      [always_up] ([] ++ [MlText "Hit Rates / Confusion Matrices:
"]).
Proof. exact (ml_main_split (Some demo_ml_data) [always_up] [] demo_ml_rows ltac:(vm_compute; reflexivity)). Defined.

(** The matrix the script prints: [confusion_matrix(pred, y_test)] puts
    the predictions on the rows, and the labels in increasing order, so
    the first row is the predicted falls ([-1]).  Three test days, rises
    predicted on the first two, the second day a fall. *)
Example confusion_matrix_layout :
  confusion_matrix [1; 1; -1] [1; -1; -1] = [[1; 0]; [1; 1]]%nat ∧
  confusion_matrix [1; -1; -1] [1; 1; -1] = [[1; 1]; [0; 1]]%nat.
Proof. split; reflexivity. Qed.
