(* ===== verification/Futures.v ===== *)
(** * Futures: the roll-over weights of [Cont_Futures.py]

    [futures_rollover_weights(start_date, expiry_dates, contracts,
    rollover_days)] builds a DataFrame indexed by the business days from
    [start_date] to the last expiry, one column per contract, whose row
    says how much of each contract to hold: all of a contract until the
    business day before its expiry, with a linear roll into the next
    contract over the last [rollover_days + 1] business days.  Dates are
    day numbers, day 0 a Monday; a frame is its index, its columns and its
    rows, a row the map from column labels to the cell ([None] for NaN).
    [expiry_dates] is a Series, the list of its (label, date) pairs.

    The [__main__] block takes the settle prices of the near and far WTI
    contracts (Quandl downloads: inputs), aligns them on the far
    contract's dates, multiplies them by the weights and sums each row
    into the continuous price, which it prints for the last 60 dates.
    The theorems: the weights of a row are in [[0, 1]] and sum to 1 when
    roll windows do not overlap, the frame's shape, the [KeyError] of a
    roll window starting before the data, and the zeros of the
    continuous series on the dates only one frame has. *)

From stdpp Require Import sorting.
From S2P Require Import Prelude AlphaVantage Options.

(** ** Business days *)

Definition is_bday (d : Z) : bool := bool_decide (d mod 7 < 5)%Z.

(** [pd.date_range(a, b, freq='B')]. *)
Definition date_range (a b : Z) : list Z := filter (λ d, is_bday d) (seqZ a (b - a + 1)).

(** [d - pd.offsets.BDay()]: the last business day before [d] (a weekend
    date rolls back to the Friday). *)
Definition prev_bday (d : Z) : Z :=
  if is_bday (d - 1) then d - 1 else if is_bday (d - 2) then d - 2 else d - 3.

(** [pd.date_range(end=e, periods=n, freq='B')] for a business day [e]. *)
Fixpoint bdays_back (e : Z) (n : nat) : list Z :=
  match n with
  | O => []
  | S n => bdays_back (prev_bday e) n ++ [e]
  end.

(** [np.linspace(0, 1, r + 1)]. *)
Definition linspace01 (r : nat) : list Q :=
  match r with
  | O => [0]
  | _ => map (λ k, inject_Z (Z.of_nat k) / inject_Z (Z.of_nat r)) (seq 0 (S r))
  end.

(** The first date of the roll window of a contract expiring on [e]. *)
Definition roll_first (e : Z) (r : nat) : Z := Nat.iter r prev_bday (prev_bday e).

(** ** The weights frame *)

Record roll_frame := mkRollFrame {
  rf_index : list Z;
  rf_columns : list string;
  rf_rows : list (Z * gmap string pyfloat)
}.

Definition zero_row (contracts : list string) : gmap string pyfloat :=
  list_to_map (map (λ c, (c, Some 0)) contracts).

(** [pd.DataFrame(np.zeros((len(dates), len(contracts))), index=dates,
    columns=contracts)]. *)
Definition zeros_frame (dates : list Z) (contracts : list string) : roll_frame :=
  mkRollFrame dates contracts (map (λ d, (d, zero_row contracts)) dates).

(** Setting a column that does not exist adds it, NaN on every row. *)
Definition ensure_column (col : string) (f : roll_frame) : roll_frame :=
  if bool_decide (col ∈ rf_columns f) then f
  else mkRollFrame (rf_index f) (rf_columns f ++ [col])
         (map (λ row, (row.1, <[col := None]> row.2)) (rf_rows f)).

Definition in_slice (lo : Z) (hi : option Z) (d : Z) : bool :=
  bool_decide (lo ≤ d)%Z && match hi with Some h => bool_decide (d ≤ h)%Z | None => true end.

(** [roll_weights.loc[lo:hi, col] = v]: a label slice of a sorted index
    selects the dates between its bounds, both included. *)
Definition loc_set_slice (lo : Z) (hi : option Z) (col : string) (v : Q) (f : roll_frame) : roll_frame :=
  let f := ensure_column col f in
  mkRollFrame (rf_index f) (rf_columns f)
    (map (λ row, if in_slice lo hi row.1 then (row.1, <[col := Some v]> row.2) else row) (rf_rows f)).

Fixpoint assoc_date (d : Z) (l : list (Z * Q)) : option Q :=
  match l with
  | [] => None
  | (x, v) :: l => if bool_decide (x = d) then Some v else assoc_date d l
  end.

(** [roll_weights.loc[labels, col] = vals]: a label missing from the index
    raises [KeyError], values of another length [ValueError]. *)
Definition loc_set_labels (labels : list Z) (col : string) (vals : list Q) (f : roll_frame)
    : result roll_frame :=
  if negb (bool_decide (Forall (λ l, l ∈ rf_index f) labels)) then Err (KeyError "not in index")
  else if negb (bool_decide (length labels = length vals)) then
    Err (ValueError "shape mismatch")
  else
    let f := ensure_column col f in
    let pairs := zip labels vals in
    Ok (mkRollFrame (rf_index f) (rf_columns f)
          (map (λ row, match assoc_date row.1 pairs with
                       | Some v => (row.1, <[col := Some v]> row.2)
                       | None => row
                       end) (rf_rows f))).

(** The loop over [enumerate(expiry_dates.iteritems())]: every contract
    but the last is held from [prev_date] to the business day before its
    expiry, then rolled into the next one over the last [r + 1] business
    days; the last is held from [prev_date] on. *)
Fixpoint roll_loop (r : nat) (exps : list (string * Z)) (prev_date : Z) (f : roll_frame)
    : result roll_frame :=
  match exps with
  | [] => Ok f
  | [(item, ex_date)] => Ok (loc_set_slice prev_date None item 1 f)
  | (item, ex_date) :: ((next, _) :: _) as rest =>
      let e' := prev_bday ex_date in
      let f1 := loc_set_slice prev_date (Some e') item 1 f in
      let roll_rng := bdays_back e' (S r) in
      let decay := linspace01 r in
      f2 ← loc_set_labels roll_rng item (map (λ w, 1 - w) decay) f1;
      f3 ← loc_set_labels roll_rng next decay f2;
      roll_loop r rest ex_date f3
  end.

(** [futures_rollover_weights]: [expiry_dates[-1]] and
    [roll_weights.index[0]] raise [IndexError] on an empty Series or an
    empty range of dates. *)
Definition futures_rollover_weights (start_date : Z) (exps : list (string * Z))
    (contracts : list string) (rollover_days : nat) : result roll_frame :=
  match last exps with
  | None => Err IndexError
  | Some (_, last_expiry) =>
      let dates := date_range start_date last_expiry in
      match dates with
      | [] => Err IndexError
      | d0 :: _ => roll_loop rollover_days exps d0 (zeros_frame dates contracts)
      end
  end.

(** ** Predicates on the frame *)

(** The weight of a contract in a row, 0 for a missing or NaN cell. *)
Definition wt (m : gmap string pyfloat) (c : string) : Q :=
  match m !! c with Some (Some v) => v | _ => 0 end.

Definition zero_cells (cs : list string) (m : gmap string pyfloat) : Prop :=
  Forall (λ c, m !! c = Some (Some 0)) cs.

(** A row of a valid roll-over: every contract has a weight in [[0, 1]]
    and the weights sum to 1. *)
Definition row_ok (cs : list string) (m : gmap string pyfloat) : Prop :=
  Forall (λ c, ∃ v, m !! c = Some (Some v) ∧ 0 <= v <= 1) cs ∧ Qsum (map (wt m) cs) == 1.

(** Each roll window starts on or after the previous expiry (the start
    date for the first contract). *)
Fixpoint gaps_ok (r : nat) (prev : Z) (exps : list (string * Z)) : Prop :=
  match exps with
  | [(_, e)] => (prev ≤ e)%Z
  | (_, e) :: ((_ :: _) as rest) => (prev ≤ roll_first e r)%Z ∧ gaps_ok r e rest
  | [] => True
  end.

(** What holds of the frame before the contract whose holding period
    starts at [prev]: the rows before [prev] are final, the others are
    still zero, and every business day from [start] to [el] is a row. *)
Definition loop_inv (cs : list string) (start el prev : Z) (f : roll_frame) : Prop :=
  rf_columns f = cs ∧ (∀ d, (start ≤ d ≤ el)%Z → is_bday d = true → d ∈ rf_index f) ∧
  Forall (λ row, is_bday row.1 = true ∧ ((row.1 < prev)%Z → row_ok cs row.2) ∧
                 ((prev ≤ row.1)%Z → zero_cells cs row.2)) (rf_rows f).

(** A well-formed frame: distinct column labels, one row per label of
    the index, in order, and every row has exactly the columns of the
    frame as keys. *)
Definition frame_wf (f : roll_frame) : Prop :=
  NoDup (rf_columns f) ∧ map fst (rf_rows f) = rf_index f ∧
  Forall (λ row, dom row.2 = (list_to_set (rf_columns f) : gset string)) (rf_rows f).

(** Two contracts, day 0 a Monday: CL1 expires on day 19 (a Saturday,
    so its last business day is day 18), CL2 on day 40. *)
Definition demo_expiries : list (string * Z) := [("CL1", 19%Z); ("CL2", 40%Z)].

(** ** The [__main__] block: the continuous future of WTI crude *)

(** The day numbers of this file for [datetime.datetime(y, m, d)]: they
    count from Monday 1970-01-05. *)
Definition futures_day (y m d : Z) : Z := days_from_civil y m d - 4.

(** A Series: its dates and values. *)
Abbreviation series := (list (Z * pyfloat)).

(** A row of a frame at a date, [None] when the date is not in its
    index. *)
Fixpoint row_at {V} (d : Z) (rows : list (Z * V)) : option V :=
  match rows with
  | [] => None
  | (d', v) :: rest => if bool_decide (d = d') then Some v else row_at d rest
  end.

(** [pd.DataFrame({'CL1': cme_near['Settle'], 'CL2': cme_far['Settle']},
    index=cme_far.index)]: the near contract's prices are aligned on the
    far contract's dates, NaN where it has none. *)
Definition cme_frame (near far : series) : list (Z * gmap string pyfloat) :=
  map (λ p, (p.1, <["CL1" := mjoin (row_at p.1 near)]> (<["CL2" := p.2]> ∅))) far.

(** The order of [Series.sort_values()] on (label, date) pairs. *)
Definition expiry_le (a b : string * Z) : Prop := (a.2 ≤ b.2)%Z.

#[export] Instance expiry_le_dec : RelDecision expiry_le := λ a b, decide (a.2 ≤ b.2)%Z.

(** [pd.Series({'CL1': ..., 'CL2': ...}).sort_values()]. *)
Definition cme_expiries : list (string * Z) :=
  merge_sort expiry_le [("CL1", futures_day 2020 3 21); ("CL2", futures_day 2020 4 11)].

(** A cell of [cme * weights]: the frames are aligned on the union of
    their dates; the cell is NaN when either frame lacks the date or the
    value. *)
Definition cell_product (a b : option (gmap string pyfloat)) (c : string) : pyfloat :=
  match a, b with
  | Some ra, Some rb => x ← mjoin (ra !! c); y ← mjoin (rb !! c); Some (x * y)
  | _, _ => None
  end.

(** [DataFrame.sum(axis=1)]: NaN cells are skipped, a row of NaN sums to
    0. *)
Definition sum_skipna (xs : list pyfloat) : pyfloat := Some (Qsum (omap (λ x, x) xs)).

(** [Series.dropna()]. *)
Definition dropna_series (s : series) : list (Z * Q) := omap (λ p, (λ v, (p.1, v)) <$> p.2) s.

(** [cme_cts = (cme * weights).sum(axis=1).dropna()], the weights of
    [futures_rollover_weights(cme_near.index[0], expiry_dates,
    cme.columns)] (5 roll days); [cme_near.index[0]] raises [IndexError]
    on an empty download. *)
Definition continuous_future (near far : series) : result (list (Z * Q)) :=
  start ← (match near with [] => Err IndexError | (d, _) :: _ => Ok d end);
  weights ← futures_rollover_weights start cme_expiries ["CL1"; "CL2"] 5;
  let cme := cme_frame near far in
  let dates := merge_sort Z.le (remove_dups (far.*1 ++ rf_index weights)) in
  Ok (dropna_series
        (map (λ d, (d, sum_skipna (map (cell_product (row_at d cme) (row_at d (rf_rows weights)))
                                         ["CL1"; "CL2"]))) dates)).

(** [print(cme_cts.tail(60))]. *)
Definition futures_main (near far : series) : result (list (Z * Q)) :=
  cts ← continuous_future near far; Ok (drop (length cts - 60) cts).

(** Settle prices of March 2020 for both contracts, and a price of the
    far contract after the last expiry. *)
Definition demo_near : series := [(futures_day 2020 3 2, Some 45); (futures_day 2020 3 3, Some 46)].

Definition demo_far : series :=
  [(futures_day 2020 3 2, Some 47); (futures_day 2020 3 3, Some 48); (futures_day 2020 4 13, Some 20)].

(** ** Business days *)

(** Replaces every [x mod 7] by a variable bounded by 0 and 6, with the
    division equation, so that [lia] can compare weekdays. *)
Ltac mod7 :=
  repeat match goal with
  | |- context [(?x mod 7)%Z] =>
      let r := fresh "r" in
      pose proof (Z.div_mod x 7 ltac:(lia)); pose proof (Z.mod_pos_bound x 7 ltac:(lia));
      set (r := (x mod 7)%Z) in * ; clearbody r
  | H : context [(?x mod 7)%Z] |- _ =>
      let r := fresh "r" in
      pose proof (Z.div_mod x 7 ltac:(lia)); pose proof (Z.mod_pos_bound x 7 ltac:(lia));
      set (r := (x mod 7)%Z) in * ; clearbody r
  end.

Lemma prev_bday_spec d :
  is_bday (prev_bday d) = true ∧ (prev_bday d < d)%Z ∧
  ∀ x, (prev_bday d < x < d)%Z → is_bday x = false.
Proof.
  assert (Hb : ∀ x, is_bday x = true ↔ (x mod 7 < 5)%Z) by (intros; apply bool_decide_eq_true).
  assert (Hn : ∀ x, is_bday x = false ↔ ¬ (x mod 7 < 5)%Z) by (intros; apply bool_decide_eq_false).
  unfold prev_bday.
  destruct (is_bday (d - 1)) eqn:H1; [|destruct (is_bday (d - 2)) eqn:H2];
    rewrite ?Hb, ?Hn in H1; rewrite ?Hb, ?Hn in H2 || idtac;
    (split; [rewrite ?Hb; mod7; lia|]); (split; [lia|]);
    intros x Hx; rewrite Hn; mod7; lia.
Qed.

Lemma bdays_back_bounds e n x :
  x ∈ bdays_back e n → (Nat.iter (pred n) prev_bday e ≤ x ≤ e)%Z ∧ (is_bday e = true → is_bday x = true).
Proof.
  revert e. induction n as [|n IH]; intros e Hx; [by apply not_elem_of_nil in Hx|].
  cbn [bdays_back] in Hx. apply elem_of_app in Hx as [Hx | ->%list_elem_of_singleton].
  - destruct n as [|m]; [by apply not_elem_of_nil in Hx|].
    destruct (IH _ Hx) as [Hb Hd]. destruct (prev_bday_spec e) as (He & Hlt & _).
    split; [|intros _; by apply Hd]. cbn [pred] in Hb; cbn [pred]. rewrite Nat.iter_succ_r. lia.
  - split; [|done]. destruct n as [|m]; [cbn; lia|]. cbn [pred].
    induction m as [|m IHm] in e |- *; [cbn; pose proof (prev_bday_spec e); lia|].
    rewrite Nat.iter_succ_r. pose proof (IHm (prev_bday e)). pose proof (prev_bday_spec e). lia.
Qed.

Lemma length_bdays_back e n : length (bdays_back e n) = n.
Proof. revert e. induction n; intros e; cbn; rewrite ?length_app, ?IHn; cbn; lia. Qed.

Lemma elem_of_date_range a b d : d ∈ date_range a b ↔ (a ≤ d ≤ b)%Z ∧ is_bday d = true.
Proof.
  unfold date_range. rewrite list_elem_of_filter, elem_of_seqZ, Is_true_true.
  split; intros [H1 H2]; (split; [lia || done | lia || done]).
Qed.

Lemma date_range_head a b d0 rest :
  date_range a b = d0 :: rest → ∀ x, x ∈ date_range a b → (d0 ≤ x)%Z.
Proof.
  unfold date_range. destruct (Z_le_gt_dec (b - a + 1) 0) as [Hn|Hn].
  { rewrite seqZ_nil by lia. done. }
  replace (b - a + 1)%Z with (Z.of_nat (Z.to_nat (b - a + 1))) by lia.
  generalize (Z.to_nat (b - a + 1)) as k. clear Hn. intros k. revert a.
  induction k as [|k IH]; intros a Hf x Hx; [done|].
  rewrite seqZ_cons in Hf, Hx by lia. rewrite filter_cons in Hf, Hx.
  replace (Z.pred (Z.of_nat (S k))) with (Z.of_nat k) in Hf, Hx by lia.
  assert (Hge : ∀ y, y ∈ filter (λ d, is_bday d) (seqZ (Z.succ a) (Z.of_nat k)) → (a < y)%Z).
  { intros y [_ Hy]%list_elem_of_filter. apply elem_of_seqZ in Hy. lia. }
  case_decide.
  - injection Hf as <- _. apply elem_of_cons in Hx as [->|Hx]; [lia|]. pose proof (Hge x Hx). lia.
  - exact (IH (Z.succ a) Hf x Hx).
Qed.

Lemma iter_prev_bday_le n e : (Nat.iter n prev_bday e ≤ e)%Z.
Proof.
  induction n as [|n IH]; [cbn; lia|]. rewrite Nat.iter_succ. pose proof (prev_bday_spec (Nat.iter n prev_bday e)). lia.
Qed.

Lemma roll_first_lt e r : (roll_first e r < e)%Z.
Proof.
  unfold roll_first. pose proof (iter_prev_bday_le r (prev_bday e)). pose proof (prev_bday_spec e). lia.
Qed.

(** The expiries of a list that satisfies [gaps_ok] are at most the last. *)
Lemma gaps_ok_bounds r prev exps c el :
  gaps_ok r prev exps → last exps = Some (c, el) → Forall (λ x, (prev ≤ x.2 ≤ el)%Z) exps.
Proof.
  revert prev. induction exps as [|[c1 e1] rest IH]; intros prev Hg Hl; [done|].
  destruct rest as [|x rest].
  - cbn in Hl. injection Hl as -> ->. cbn in Hg. constructor; [cbn; lia | done].
  - destruct Hg as [Hp Hg]. rewrite last_cons_ne in Hl by done.
    pose proof (IH e1 Hg Hl) as Hr. pose proof (roll_first_lt e1 r).
    constructor; [|eapply Forall_impl; [exact Hr | intros y Hy; cbn in *; lia]].
    inversion Hr as [|? ? Hx _]; subst. cbn in * ; lia.
Qed.

(** ** Updates of the frame *)

Lemma ensure_column_id col f : col ∈ rf_columns f → ensure_column col f = f.
Proof. intros H. unfold ensure_column. by rewrite bool_decide_eq_true_2. Qed.

Lemma loc_set_slice_eq lo hi col v f :
  col ∈ rf_columns f →
  loc_set_slice lo hi col v f =
  mkRollFrame (rf_index f) (rf_columns f)
    (map (λ row, if in_slice lo hi row.1 then (row.1, <[col := Some v]> row.2) else row) (rf_rows f)).
Proof. intros H. unfold loc_set_slice. by rewrite ensure_column_id. Qed.

Lemma loc_set_labels_eq labels col vals f :
  col ∈ rf_columns f → Forall (λ l, l ∈ rf_index f) labels → length labels = length vals →
  loc_set_labels labels col vals f =
  Ok (mkRollFrame (rf_index f) (rf_columns f)
        (map (λ row, match assoc_date row.1 (zip labels vals) with
                     | Some v => (row.1, <[col := Some v]> row.2)
                     | None => row
                     end) (rf_rows f))).
Proof.
  intros Hc Hl Hn. unfold loc_set_labels.
  rewrite bool_decide_eq_true_2, bool_decide_eq_true_2 by done. cbn. by rewrite ensure_column_id.
Qed.

Lemma assoc_date_map d ls (g : Q → Q) ws :
  assoc_date d (zip ls (map g ws)) = option_map g (assoc_date d (zip ls ws)).
Proof.
  revert ws. induction ls as [|x ls IH]; intros [|w ws]; cbn; try done.
  case_bool_decide; [done | apply IH].
Qed.

Lemma assoc_date_Some d ls ws w : assoc_date d (zip ls ws) = Some w → d ∈ ls ∧ w ∈ ws.
Proof.
  revert ws. induction ls as [|x ls IH]; intros [|w' ws] H; cbn in H; try done.
  case_bool_decide as Hx.
  - injection H as <-. subst. split; left.
  - destruct (IH ws H). split; by right.
Qed.

Lemma linspace01_bounds r w : w ∈ linspace01 r → 0 <= w <= 1.
Proof.
  destruct r as [|r]; [intros ->%list_elem_of_singleton; lra|].
  intros (k & -> & Hk%elem_of_seq)%list_elem_of_fmap.
  assert (0 < inject_Z (Z.of_nat (S r))) by (change 0 with (inject_Z 0); rewrite <-Zlt_Qlt; lia).
  assert (0 <= inject_Z (Z.of_nat k)) by (change 0 with (inject_Z 0); rewrite <-Zle_Qle; lia).
  assert (inject_Z (Z.of_nat k) <= inject_Z (Z.of_nat (S r))) by (rewrite <-Zle_Qle; lia).
  split; [apply Qle_shift_div_l | apply Qle_shift_div_r]; lra.
Qed.

Lemma length_linspace01 r : length (linspace01 r) = S r.
Proof. destruct r; cbn; [done|]. by rewrite length_map, length_seq. Qed.

(** ** Sums of weights *)

Lemma wt_insert m c c' v : wt (<[c := Some v]> m) c' = if decide (c = c') then v else wt m c'.
Proof.
  unfold wt. case_decide; [subst; by rewrite lookup_insert_eq|]. by rewrite lookup_insert_ne.
Qed.

Lemma Qsum_wt_insert cs m c v :
  NoDup cs → c ∈ cs → Qsum (map (wt (<[c := Some v]> m)) cs) == Qsum (map (wt m) cs) - wt m c + v.
Proof.
  induction 1 as [|c' cs Hn Hnd IH]; [by intros ?%not_elem_of_nil|]. intros Hc.
  cbn [map]. rewrite !Qsum_cons, wt_insert. case_decide as He.
  - subst c'. assert (Qsum (map (wt (<[c:=Some v]> m)) cs) = Qsum (map (wt m) cs)) as ->; [|ring].
    f_equal. apply map_ext_in. intros c' Hc'%list_elem_of_In. rewrite wt_insert.
    case_decide; [subst; contradiction | done].
  - apply elem_of_cons in Hc as [->|Hc]; [done|]. rewrite IH by done. ring.
Qed.

Lemma wt_zero cs m c : zero_cells cs m → c ∈ cs → wt m c = 0.
Proof. intros Hz Hc. unfold wt. by rewrite (proj1 (Forall_forall _ _) Hz c Hc). Qed.

Lemma Qsum_wt_zero cs m : zero_cells cs m → Qsum (map (wt m) cs) == 0.
Proof.
  intros Hz. induction Hz as [|c cs Hc _ IH]; [done|]. cbn [map]. rewrite Qsum_cons, IH.
  unfold wt. rewrite Hc. ring.
Qed.

Lemma cells_insert (cs : list string) (m : gmap string pyfloat) (c : string) (v : Q) :
  Forall (λ c, ∃ v, m !! c = Some (Some v) ∧ 0 <= v <= 1) cs → 0 <= v <= 1 →
  Forall (λ c', ∃ v', <[c := Some v]> m !! c' = Some (Some v') ∧ 0 <= v' <= 1) cs.
Proof.
  intros Hm Hv. eapply Forall_impl; [exact Hm|]. intros c' (v' & Hv' & Hb).
  destruct (decide (c = c')) as [->|Hne]; [rewrite lookup_insert_eq; by exists v|].
  rewrite lookup_insert_ne by done. by exists v'.
Qed.

Lemma zero_cells_bounds (cs : list string) (m : gmap string pyfloat) :
  zero_cells cs m → Forall (λ c, ∃ v, m !! c = Some (Some v) ∧ 0 <= v <= 1) cs.
Proof. intros Hz. eapply Forall_impl; [exact Hz|]. intros c Hc. exists 0. split; [done | lra]. Qed.

(** A row that holds all of one contract. *)
Lemma row_ok_one cs m item :
  NoDup cs → item ∈ cs → zero_cells cs m → row_ok cs (<[item := Some 1]> m).
Proof.
  intros Hnd Hi Hz. split.
  - apply cells_insert; [by apply zero_cells_bounds | lra].
  - rewrite Qsum_wt_insert, Qsum_wt_zero, (wt_zero cs m item) by done. ring.
Qed.

(** A row of a roll window: [1 - w] of a contract and [w] of the next. *)
Lemma row_ok_roll cs m item next w :
  NoDup cs → item ∈ cs → next ∈ cs → item ≠ next → zero_cells cs m → 0 <= w <= 1 →
  row_ok cs (<[next := Some w]> (<[item := Some (1 - w)]> (<[item := Some 1]> m))).
Proof.
  intros Hnd Hi Hn Hne Hz Hw. split.
  - apply cells_insert; [|done]. apply cells_insert; [|lra].
    apply cells_insert; [by apply zero_cells_bounds | lra].
  - rewrite !Qsum_wt_insert, Qsum_wt_zero by done. rewrite !wt_insert.
    destruct (decide (item = next)); [contradiction|]. destruct (decide (item = item)); [|contradiction].
    rewrite (wt_zero cs m next), (wt_zero cs m item) by done. ring.
Qed.

Lemma in_slice_Some lo hi d : in_slice lo (Some hi) d = true ↔ (lo ≤ d ≤ hi)%Z.
Proof. unfold in_slice. rewrite andb_true_iff, !bool_decide_eq_true. lia. Qed.

Lemma in_slice_None lo d : in_slice lo None d = true ↔ (lo ≤ d)%Z.
Proof. unfold in_slice. rewrite andb_true_r. apply bool_decide_eq_true. Qed.

(** One row through the three assignments of a contract that is rolled
    into [next]: a final row before [prev] is left alone, a zero row up to
    the business day before the expiry holds the contract (and its share
    of the roll), a later one stays zero. *)
Lemma roll_row_step cs p ex item next r d m :
  NoDup cs → item ∈ cs → next ∈ cs → item ≠ next → (p ≤ roll_first ex r)%Z →
  is_bday d = true → ((d < p)%Z → row_ok cs m) → ((p ≤ d)%Z → zero_cells cs m) →
  let R := bdays_back (prev_bday ex) (S r) in
  let row1 := if in_slice p (Some (prev_bday ex)) d then (d, <[item := Some 1]> m) else (d, m) in
  let row2 := match assoc_date row1.1 (zip R (map (λ w, 1 - w) (linspace01 r))) with
              | Some v => (row1.1, <[item := Some v]> row1.2) | None => row1 end in
  let row3 := match assoc_date row2.1 (zip R (linspace01 r)) with
              | Some v => (row2.1, <[next := Some v]> row2.2) | None => row2 end in
  is_bday row3.1 = true ∧ ((row3.1 < ex)%Z → row_ok cs row3.2) ∧ ((ex ≤ row3.1)%Z → zero_cells cs row3.2).
Proof.
  intros Hnd Hi Hn Hne Hp Hbd Hok Hz R. cbv zeta.
  destruct (prev_bday_spec ex) as (_ & Hlt & Hgap). pose proof (roll_first_lt ex r).
  assert (HR : ∀ x, x ∈ R → (roll_first ex r ≤ x ≤ prev_bday ex)%Z)
    by (intros x Hx; apply (bdays_back_bounds _ _ _ Hx)).
  destruct (in_slice p (Some (prev_bday ex)) d) eqn:Hs; cbn [fst snd];
    rewrite assoc_date_map; destruct (assoc_date d (zip R (linspace01 r))) as [w|] eqn:Ha;
    cbn [option_map fst snd]; rewrite ?Ha; cbn [fst snd].
  - apply in_slice_Some in Hs. destruct (assoc_date_Some _ _ _ _ Ha) as [HdR Hw].
    apply linspace01_bounds in Hw. split; [done|].
    split; [intros _; apply row_ok_roll; auto; apply Hz; lia | intros; lia].
  - apply in_slice_Some in Hs. split; [done|].
    split; [intros _; apply row_ok_one; auto; apply Hz; lia | intros; lia].
  - destruct (assoc_date_Some _ _ _ _ Ha) as [HdR%HR _].
    assert (in_slice p (Some (prev_bday ex)) d = true) as Hs' by (apply in_slice_Some; lia). congruence.
  - assert (¬ (p ≤ d ≤ prev_bday ex)%Z) as Hs' by (rewrite <-in_slice_Some; congruence).
    split; [done|]. split.
    + intros Hd. destruct (Z.lt_ge_cases d p) as [Hdp|Hdp]; [by apply Hok|].
      assert (Hb : is_bday d = false) by (apply Hgap; lia). congruence.
    + intros Hd. apply Hz. lia.
Qed.

Lemma roll_map_fst (f : Z * gmap string pyfloat → Z * gmap string pyfloat) rows :
  (∀ row, (f row).1 = row.1) → map fst (map f rows) = map fst rows.
Proof. intros Hf. rewrite map_map. apply map_ext. exact Hf. Qed.

Lemma roll_loop_cons r item ex next ex2 rest prev f :
  roll_loop r ((item, ex) :: (next, ex2) :: rest) prev f =
  (f2 ← loc_set_labels (bdays_back (prev_bday ex) (S r)) item (map (λ w, 1 - w) (linspace01 r))
          (loc_set_slice prev (Some (prev_bday ex)) item 1 f);
   f3 ← loc_set_labels (bdays_back (prev_bday ex) (S r)) next (linspace01 r) f2;
   roll_loop r ((next, ex2) :: rest) ex f3).
Proof. reflexivity. Qed.

(** The loop keeps the index and the dates of the rows, and ends with
    every row a valid roll-over. *)
Lemma roll_loop_ok r cs start el exps prev f :
  NoDup cs → NoDup (map fst exps) → Forall (λ x, x.1 ∈ cs) exps → exps ≠ [] →
  (start ≤ prev)%Z → gaps_ok r prev exps → Forall (λ x, (x.2 ≤ el)%Z) exps →
  loop_inv cs start el prev f →
  ∃ f', roll_loop r exps prev f = Ok f' ∧ rf_index f' = rf_index f ∧
        map fst (rf_rows f') = map fst (rf_rows f) ∧ Forall (λ row, row_ok cs row.2) (rf_rows f').
Proof.
  revert prev f. induction exps as [|[item ex] rest IH]; intros prev f Hnd Hnd' Hin Hne Hs Hg Hel Hinv;
    [done|].
  destruct Hinv as (Hcol & Hidx & Hrows). apply Forall_cons in Hin as [Hi Hin]. cbn in Hi.
  destruct rest as [|[next ex2] rest].
  - cbn [roll_loop]. rewrite loc_set_slice_eq by (by rewrite Hcol). eexists. split; [done|].
    split; [done|]. split; [apply roll_map_fst; intros [d m]; cbn; by destruct in_slice|].
    apply Forall_fmap. eapply Forall_impl; [exact Hrows|]. intros [d m] (_ & Hok & Hz). cbn.
    destruct (in_slice prev None d) eqn:Hsl; cbn.
    + apply in_slice_None in Hsl. apply row_ok_one; auto.
    + apply Hok. destruct (Z.lt_ge_cases d prev) as [?|Hle]; [done|].
      apply in_slice_None in Hle. congruence.
  - destruct Hg as [Hp Hg]. pose proof (Forall_inv Hin) as Hn. cbn in Hn.
    cbn [map] in Hnd'. apply NoDup_cons in Hnd' as [Hni Hnd'].
    assert (item ≠ next) by (intros ->; apply Hni; left).
    apply Forall_cons in Hel as [Hex Hel]. cbn in Hex. pose proof (Forall_inv Hel) as Hex2. cbn in Hex2.
    pose proof (roll_first_lt ex r).
    set (R := bdays_back (prev_bday ex) (S r)).
    assert (HR : Forall (λ l, l ∈ rf_index f) R).
    { apply Forall_forall. intros x Hx. destruct (bdays_back_bounds _ _ _ Hx) as [Hb Hbd].
      apply Hidx; [cbn [pred] in Hb; fold (roll_first ex r) in Hb; pose proof (prev_bday_spec ex); lia|].
      apply Hbd, prev_bday_spec. }
    assert (length R = length (map (λ w, 1 - w) (linspace01 r)) ∧ length R = length (linspace01 r))
      as [Hl1 Hl2] by (unfold R; rewrite length_map, length_bdays_back, length_linspace01; done).
    rewrite roll_loop_cons. fold R. rewrite loc_set_slice_eq by (by rewrite Hcol).
    rewrite loc_set_labels_eq by (cbn; by rewrite ?Hcol). rewrite bind_Ok.
    rewrite loc_set_labels_eq by (cbn; by rewrite ?Hcol). rewrite bind_Ok.
    match goal with |- context [roll_loop r _ ex ?g] => set (f3 := g) end.
    edestruct (IH ex f3) as (f' & Hf' & Hidx' & Hfst & Hok'); [done | done | done | done | lia | done | done | |].
    + unfold f3. split; [done|]. split; [done|]. cbn [rf_rows]. rewrite !map_map. apply Forall_fmap.
      eapply Forall_impl; [exact Hrows|]. intros [d m] (Hbd & Hok & Hz). cbn [compose]. unfold R.
      exact (roll_row_step cs prev ex item next r d m Hnd Hi Hn H Hp Hbd Hok Hz).
    + exists f'. split; [exact Hf'|]. rewrite Hidx'. split; [done|]. split; [|done].
      rewrite Hfst. unfold f3. cbn [rf_rows]. rewrite !roll_map_fst; [done | | |];
        intros [d m]; cbn; repeat case_match; done.
Qed.

(** ** The whole function *)

Lemma roll_first_bday e r : is_bday (roll_first e r) = true.
Proof.
  unfold roll_first. destruct r as [|r]; [apply prev_bday_spec|]. rewrite Nat.iter_succ. apply prev_bday_spec.
Qed.

Lemma bdays_back_first e n : n ≠ O → Nat.iter (pred n) prev_bday e ∈ bdays_back e n.
Proof.
  revert e. induction n as [|[|m] IH]; intros e Hn; [done | left|].
  cbn [bdays_back]. apply elem_of_app. left. cbn [pred]. rewrite Nat.iter_succ_r. by apply IH.
Qed.

(** The first roll window (or the last expiry) is on or after the first
    date of the range, so the gaps hold from that date as well. *)
Lemma gaps_ok_head r start exps c el d0 rest :
  gaps_ok r start exps → last exps = Some (c, el) → date_range start el = d0 :: rest →
  gaps_ok r d0 exps.
Proof.
  intros Hg Hl Hd. assert (Hd0 : d0 ∈ date_range start el) by (rewrite Hd; left).
  apply elem_of_date_range in Hd0 as [Hd0 _].
  destruct exps as [|[c1 e1] [|[c2 e2] exps]]; [done | cbn in Hl; injection Hl as -> ->; cbn in *; lia|].
  destruct Hg as [Hs Hg]. split; [|done].
  apply (date_range_head _ _ _ _ Hd), elem_of_date_range. split; [|apply roll_first_bday].
  pose proof (roll_first_lt e1 r).
  assert (Hb := gaps_ok_bounds _ _ _ _ _ Hg Hl). apply Forall_inv in Hb. cbn in Hb. lia.
Qed.

Lemma zero_row_cells cs : NoDup cs → zero_cells cs (zero_row cs).
Proof.
  intros Hnd. apply Forall_forall. intros c Hc. apply elem_of_list_to_map_1.
  - by rewrite <-list_fmap_compose, list_fmap_id.
  - apply list_elem_of_fmap. by exists c.
Qed.

Lemma zeros_frame_inv cs start el d0 rest :
  NoDup cs → date_range start el = d0 :: rest →
  loop_inv cs start el d0 (zeros_frame (date_range start el) cs).
Proof.
  intros Hnd Hd. split; [done|]. split; [intros d Hr Hb; by apply elem_of_date_range|].
  apply Forall_fmap, Forall_forall. intros d Hdr. cbn [compose fst snd].
  pose proof (date_range_head _ _ _ _ Hd d Hdr).
  split; [by apply elem_of_date_range in Hdr as [_ ?]|]. split; [intros; lia|].
  intros _. by apply zero_row_cells.
Qed.

(** C12: [futures_rollover_weights]: when the contracts are distinct columns
    of the frame, each roll window starts on or after the previous expiry
    (on or after the start date for the first contract) and the range of
    business days is not empty, the function returns a frame with one row
    per business day from the start date to the last expiry, in which
    every contract has a weight between 0 and 1 and the weights of each
    row sum to 1. *)
Theorem futures_rollover_weights_sum start exps cs r c el :
  last exps = Some (c, el) → NoDup cs → NoDup (map fst exps) → Forall (λ x, x.1 ∈ cs) exps →
  gaps_ok r start exps → date_range start el ≠ [] →
  ∃ f, futures_rollover_weights start exps cs r = Ok f ∧
       rf_index f = date_range start el ∧ map fst (rf_rows f) = date_range start el ∧
       Forall (λ row, row_ok cs row.2) (rf_rows f).
Proof.
  intros Hl Hnd Hnd' Hin Hg Hne. unfold futures_rollover_weights. rewrite Hl.
  destruct (date_range start el) as [|d0 rest] eqn:Hd; [done|].
  assert (Hs : (start ≤ d0)%Z)
    by (assert (d0 ∈ date_range start el) as Hd0%elem_of_date_range by (rewrite Hd; left); lia).
  assert (Hex : exps ≠ []) by (intros ->; done).
  pose proof (gaps_ok_head _ _ _ _ _ _ _ Hg Hl Hd) as Hg0.
  assert (Hel : Forall (λ x, (x.2 ≤ el)%Z) exps)
    by (eapply Forall_impl; [exact (gaps_ok_bounds _ _ _ _ _ Hg0 Hl) | intros x Hx; cbn in Hx; lia]).
  rewrite <-Hd. edestruct (roll_loop_ok r cs start el exps d0) as (f' & Hf' & Hi & Hf & Hok);
    [done..| apply zeros_frame_inv with (rest := rest); done |].
  exists f'. rewrite Hi, Hf. split; [done|]. split; [done|]. split; [|done].
  cbn [zeros_frame rf_rows]. rewrite map_map. erewrite map_ext; [apply map_id | done].
Qed.

Lemma ensure_column_index col f : rf_index (ensure_column col f) = rf_index f.
Proof. unfold ensure_column. by case_bool_decide. Qed.

Lemma loc_set_slice_index lo hi col v f : rf_index (loc_set_slice lo hi col v f) = rf_index f.
Proof. apply ensure_column_index. Qed.

Lemma loc_set_labels_KeyError labels col vals f :
  ¬ Forall (λ l, l ∈ rf_index f) labels → loc_set_labels labels col vals f = Err (KeyError "not in index").
Proof. intros H. unfold loc_set_labels. by rewrite bool_decide_eq_false_2. Qed.

(** When the roll window of a contract starts before the expiry of the
    previous one, the two windows overlap and a row holds more than one
    contract in total: here day 8 holds half of A and all of B. *)
Lemma futures_rollover_weights_overlap :
  match futures_rollover_weights 0 [("A", 10%Z); ("B", 11%Z); ("C", 40%Z)] ["A"; "B"; "C"] 2 with
  | Ok f => match rf_rows f !! 6%nat with
            | Some row => row.1 = 8%Z ∧ Qeq_bool (Qsum (map (wt row.2) ["A"; "B"; "C"])) (3 # 2) = true
            | None => False
            end
  | Err _ => False
  end.
Proof. vm_compute. split; reflexivity. Qed.

(** C26: [futures_rollover_weights]: when the roll window of the first
    contract starts before the start date, its dates are not in the index
    and the assignment [roll_weights.loc[roll_rng, item]] raises
    [KeyError]. *)
Theorem futures_rollover_weights_KeyError start c1 e1 c2 e2 rest cs r c el :
  last ((c1, e1) :: (c2, e2) :: rest) = Some (c, el) → date_range start el ≠ [] →
  (roll_first e1 r < start)%Z →
  futures_rollover_weights start ((c1, e1) :: (c2, e2) :: rest) cs r = Err (KeyError "not in index").
Proof.
  intros Hl Hne Hr. unfold futures_rollover_weights. rewrite Hl.
  destruct (date_range start el) as [|d0 ds] eqn:Hd; [done|]. rewrite roll_loop_cons.
  rewrite loc_set_labels_KeyError; [done|]. rewrite loc_set_slice_index. cbn [rf_index zeros_frame].
  intros HF. rewrite Forall_forall in HF.
  assert (Hin : roll_first e1 r ∈ d0 :: ds) by (apply HF, (bdays_back_first _ (S r)); done).
  rewrite <-Hd in Hin. apply elem_of_date_range in Hin. lia.
Qed.

Lemma futures_rollover_weights_sum_witness :
  ∃ f, futures_rollover_weights 0 demo_expiries ["CL1"; "CL2"] 5 = Ok f ∧
       rf_index f = date_range 0 40 ∧ map fst (rf_rows f) = date_range 0 40 ∧
       Forall (λ row, row_ok ["CL1"; "CL2"] row.2) (rf_rows f).
Proof.
  apply (futures_rollover_weights_sum 0 demo_expiries ["CL1"; "CL2"] 5 "CL2" 40%Z).
  - reflexivity.
  - apply (bool_decide_unpack _). vm_compute. reflexivity.
  - apply (bool_decide_unpack _). vm_compute. reflexivity.
  - apply (bool_decide_unpack _). vm_compute. reflexivity.
  - split; vm_compute; discriminate.
  - vm_compute. discriminate.
Defined.

Lemma futures_rollover_weights_KeyError_witness :
  futures_rollover_weights 12 demo_expiries ["CL1"; "CL2"] 5 = Err (KeyError "not in index").
Proof.
  apply (futures_rollover_weights_KeyError 12 "CL1" 19 "CL2" 40 [] _ 5 "CL2" 40%Z).
  - reflexivity.
  - vm_compute. discriminate.
  - vm_compute. reflexivity.
Defined.

(** ** The shape of the frame *)

Lemma columns_ensure_column col f :
  (list_to_set (rf_columns (ensure_column col f)) : gset string) = {[col]} ∪ list_to_set (rf_columns f).
Proof.
  unfold ensure_column. case_bool_decide as H; cbn [rf_columns].
  - apply set_eq. intros x. rewrite elem_of_union, elem_of_singleton, !elem_of_list_to_set. naive_solver.
  - rewrite list_to_set_app_L. cbn. set_solver.
Qed.

Lemma ensure_column_wf col f : frame_wf f → frame_wf (ensure_column col f).
Proof.
  intros (Hn & Hi & Hr). pose proof (columns_ensure_column col f) as Hc.
  unfold ensure_column in * ; case_bool_decide as Hin; [done|]. cbn [rf_rows rf_index rf_columns] in Hc |- * .
  split; [apply NoDup_app; split; [done|]; split; [set_solver | apply NoDup_singleton]|].
  split; cbn [rf_rows rf_index rf_columns]; [rewrite map_map, <-Hi; by apply map_ext|].
  rewrite Hc. apply Forall_fmap. eapply Forall_impl; [exact Hr|].
  intros row Hd. cbn. rewrite dom_insert_L, Hd. done.
Qed.

Lemma ensure_column_in col f : col ∈ rf_columns (ensure_column col f).
Proof.
  apply (elem_of_list_to_set (C := gset string)). rewrite columns_ensure_column. set_solver.
Qed.

(** Setting cells of a column the frame has keeps it well formed. *)
Lemma map_cells_wf f col (h : Z * gmap string pyfloat → Z * gmap string pyfloat) :
  frame_wf f → col ∈ rf_columns f →
  (∀ row, h row = row ∨ ∃ v, h row = (row.1, <[col := v]> row.2)) →
  frame_wf (mkRollFrame (rf_index f) (rf_columns f) (map h (rf_rows f))).
Proof.
  intros (Hn & Hi & Hr) Hc Hh. split; [done|]. split; cbn [rf_rows rf_index rf_columns].
  - rewrite map_map, <-Hi. apply map_ext. intros row. by destruct (Hh row) as [-> | [v ->]].
  - apply Forall_fmap. eapply Forall_impl; [exact Hr|]. intros row Hd. cbn.
    destruct (Hh row) as [-> | [v ->]]; [done|]. cbn. rewrite dom_insert_L, Hd.
    apply (elem_of_list_to_set (C := gset string)) in Hc. set_solver.
Qed.

Lemma loc_set_slice_wf lo hi col v f : frame_wf f → frame_wf (loc_set_slice lo hi col v f).
Proof.
  intros Hf. apply (map_cells_wf _ col); [by apply ensure_column_wf | apply ensure_column_in |].
  intros row. destruct in_slice; [right; by eexists | by left].
Qed.

Lemma loc_set_labels_wf labels col vals f f' :
  frame_wf f → loc_set_labels labels col vals f = Ok f' → frame_wf f'.
Proof.
  intros Hf. unfold loc_set_labels. do 2 (case_match; [done|]). intros [= <-].
  apply (map_cells_wf _ col); [by apply ensure_column_wf | apply ensure_column_in |].
  intros row. case_match; [right; by eexists | by left].
Qed.

Lemma loc_set_labels_shape labels col vals f f' :
  loc_set_labels labels col vals f = Ok f' →
  rf_index f' = rf_index f ∧
  (list_to_set (rf_columns f') : gset string) = {[col]} ∪ list_to_set (rf_columns f).
Proof.
  unfold loc_set_labels. do 2 (case_match; [done|]). intros [= <-].
  split; [apply ensure_column_index | apply columns_ensure_column].
Qed.

Lemma loc_set_slice_columns lo hi col v f :
  (list_to_set (rf_columns (loc_set_slice lo hi col v f)) : gset string) =
  {[col]} ∪ list_to_set (rf_columns f).
Proof. apply columns_ensure_column. Qed.

(** The loop keeps the frame well formed and its index, and adds the
    label of every contract it visits to the columns. *)
Lemma roll_loop_shape r exps prev f f' :
  frame_wf f → roll_loop r exps prev f = Ok f' →
  frame_wf f' ∧ rf_index f' = rf_index f ∧
  (list_to_set (rf_columns f') : gset string) = list_to_set (rf_columns f) ∪ list_to_set (map fst exps).
Proof.
  revert prev f. induction exps as [|[item ex] rest IH]; intros prev f Hf Hl.
  - injection Hl as <-. split; [done|]. split; [done|]. cbn. set_solver.
  - destruct rest as [|[next ex2] rest].
    + injection Hl as <-. split; [by apply loc_set_slice_wf|]. split; [apply loc_set_slice_index|].
      rewrite loc_set_slice_columns. cbn. set_solver.
    + rewrite roll_loop_cons in Hl.
      apply bind_eq_Ok in Hl as (f2 & H2 & Hl). apply bind_eq_Ok in Hl as (f3 & H3 & Hl).
      destruct (loc_set_labels_shape _ _ _ _ _ H2) as [Hi2 Hc2].
      destruct (loc_set_labels_shape _ _ _ _ _ H3) as [Hi3 Hc3].
      destruct (IH _ _ (loc_set_labels_wf _ _ _ _ _ (loc_set_labels_wf _ _ _ _ _ (loc_set_slice_wf _ _ _ _ _ Hf) H2) H3) Hl)
        as (Hw & Hi & Hc).
      split; [done|]. rewrite Hi, Hi3, Hi2, loc_set_slice_index. split; [done|].
      rewrite Hc, Hc3, Hc2, loc_set_slice_columns. cbn [map list_to_set fst]. set_solver.
Qed.

Lemma zeros_frame_wf dates cs : NoDup cs → frame_wf (zeros_frame dates cs).
Proof.
  intros Hnd. split; [done|]. split; cbn [rf_rows rf_index rf_columns zeros_frame].
  - rewrite map_map. cbn. apply map_id.
  - apply Forall_fmap, Forall_forall. intros d _. cbn. unfold zero_row.
    rewrite dom_list_to_map_L, <-list_fmap_compose, list_fmap_id. done.
Qed.

(** C18: [futures_rollover_weights]: the frame the function returns is a
    well-formed table: its index is the business days from the start date
    to the last expiry, it has one row per date in that order, its column
    labels are distinct and are the contracts together with the labels of
    [expiry_dates] (a label missing from [contracts] is added as a column
    by the assignment), and every row has exactly these columns. *)
Theorem futures_rollover_weights_shape start exps cs r c el f :
  last exps = Some (c, el) → NoDup cs → futures_rollover_weights start exps cs r = Ok f →
  frame_wf f ∧ rf_index f = date_range start el ∧
  (list_to_set (rf_columns f) : gset string) = list_to_set cs ∪ list_to_set (map fst exps).
Proof.
  intros Hl Hnd. unfold futures_rollover_weights. rewrite Hl.
  destruct (date_range start el) as [|d0 ds] eqn:Hd; [done|]. intros Hf.
  destruct (roll_loop_shape _ _ _ _ _ (zeros_frame_wf (d0 :: ds) cs Hnd) Hf) as (Hw & Hi & Hc).
  split; [done|]. by rewrite Hi, Hc.
Qed.

Lemma futures_rollover_weights_shape_witness :
  ∃ f, futures_rollover_weights 0 demo_expiries ["CL1"] 5 = Ok f ∧
       frame_wf f ∧ rf_index f = date_range 0 40 ∧
       (list_to_set (rf_columns f) : gset string) = list_to_set ["CL1"] ∪ list_to_set ["CL1"; "CL2"].
Proof.
  destruct (futures_rollover_weights 0 demo_expiries ["CL1"] 5) as [f|e] eqn:H;
    [| vm_compute in H; discriminate].
  exists f. split; [reflexivity|].
  apply (futures_rollover_weights_shape 0 demo_expiries ["CL1"] 5 "CL2" 40%Z f); [reflexivity | | exact H].
  apply (bool_decide_unpack _). vm_compute. reflexivity.
Defined.

(** ** The continuous future *)

Lemma row_at_None {V} d (rows : list (Z * V)) : d ∉ rows.*1 → row_at d rows = None.
Proof.
  induction rows as [|[d' v] rows IH]; intros Hd; [done|]. cbn.
  rewrite bool_decide_false by set_solver. apply IH. set_solver.
Qed.

Lemma cme_frame_dates near far : (cme_frame near far).*1 = far.*1.
Proof. unfold cme_frame. rewrite <-list_fmap_compose. by apply list_fmap_ext. Qed.

Lemma dropna_sum (f : Z → list pyfloat) ds :
  dropna_series (map (λ d, (d, sum_skipna (f d))) ds) = map (λ d, (d, Qsum (omap (λ x, x) (f d)))) ds.
Proof. induction ds as [|d ds IH]; [done|]. unfold dropna_series in IH; unfold dropna_series. cbn. by rewrite IH. Qed.

(** C27: [cme_cts] of [Cont_Futures.py] has a price on every date of the
    union of the two frames' indexes: [dropna()] drops nothing, because
    [sum(axis=1)] skips NaN and sums a row of NaN to 0.  On a date that
    only one frame has (a settle price after the last expiry, or a
    business day of the weights without a settle price) the continuous
    price is 0 instead of missing. *)
Theorem continuous_future_zero near far cts :
  continuous_future near far = Ok cts →
  ∃ weights, futures_rollover_weights (hd 0%Z near.*1) cme_expiries ["CL1"; "CL2"] 5 = Ok weights ∧
    cts.*1 = merge_sort Z.le (remove_dups (far.*1 ++ rf_index weights)) ∧
    ∀ d v, (d, v) ∈ cts → d ∉ far.*1 ∨ d ∉ (rf_rows weights).*1 → v = 0.
Proof.
  unfold continuous_future. destruct near as [|[d0 x0] near']; [discriminate|]. cbn [mbind result_bind].
  destruct (futures_rollover_weights d0 cme_expiries ["CL1"; "CL2"] 5) as [w|e] eqn:Hw; [|discriminate].
  intros [= <-]. exists w. cbv zeta. rewrite dropna_sum. split_and!; [done | |].
  - rewrite <-list_fmap_compose. apply list_fmap_id.
  - intros d v Hin. apply list_elem_of_In, in_map_iff in Hin as (d' & [= -> <-] & _).
    intros [Hd|Hd].
    + rewrite (row_at_None d (cme_frame _ far)) by (by rewrite cme_frame_dates). reflexivity.
    + rewrite (row_at_None d (rf_rows w)) by done. by destruct (row_at d (cme_frame _ far)).
Qed.

Lemma continuous_future_zero_witness :
  let cts := match continuous_future demo_near demo_far with Ok c => c | Err _ => [] end in
  continuous_future demo_near demo_far = Ok cts ∧
  ∃ weights, futures_rollover_weights (hd 0%Z demo_near.*1) cme_expiries ["CL1"; "CL2"] 5 = Ok weights ∧
    cts.*1 = merge_sort Z.le (remove_dups (demo_far.*1 ++ rf_index weights)) ∧
    ∀ d v, (d, v) ∈ cts → d ∉ demo_far.*1 ∨ d ∉ (rf_rows weights).*1 → v = 0.
Proof.
  intros cts. assert (H : continuous_future demo_near demo_far = Ok cts) by (vm_compute; reflexivity).
  split; [exact H | exact (continuous_future_zero _ _ _ H)].
Defined.

(** The last price the script prints for the demo is 0: 2020-04-13 is
    after the last expiry. *)
Example futures_main_demo :
  option_map (λ cts, last cts) (match futures_main demo_near demo_far with Ok c => Some c | Err _ => None end) =
  Some (Some (futures_day 2020 4 13, 0)).
Proof. vm_compute. reflexivity. Qed.
