(* ===== verification/VaR.v ===== *)
(** * VaR: the variance-covariance Value-at-Risk of [var.py]

    [var_cov_var(P, c, mu, sigma)] takes the [(1 - c)]-quantile [alpha]
    of the normal distribution of daily returns ([norm.ppf(1-c, mu,
    sigma)]) and returns [P - P*(alpha+1)]; the [__main__] block downloads
    Citigroup's daily bars, takes the [pct_change] of the adjusted close,
    its mean ([np.mean]) and standard deviation ([np.std]) and prints the
    VaR of a 1,000,000 USD portfolio at 99%.

    scipy's standard normal quantile [ndtri] is a library routine: the
    Section takes it as a [Variable], and its distribution function
    [ncdf] with the one law the refinement theorem uses (each inverts the
    other on [(0, 1)]).  [norm.ppf(q, loc, scale)] is [loc + scale *
    ndtri(q)] for [0 < q < 1] and [scale > 0]; scipy answers NaN for a
    scale that is not positive and [±inf] at [q = 0] or [q = 1], which are
    [None] here.  [np.mean] and [np.std] of a pandas Series skip NaN and
    use [ddof=0] (as in [Sharpe.v]); an empty Series gives NaN. *)

From S2P Require Import Prelude AlphaVantage Performance Sharpe Options Indicators Forecaster.
From Stdlib Require Import Reals Qreals Psatz.

(** [np.mean(series)] and [np.std(series)] of [var.py] on a Series of
    returns ([Hurst] has its own [np_std] on arrays of reals). *)
Module VarScript.

Definition np_mean (xs : list (option Q)) : option R :=
  match skipna xs with [] => None | ys => Some (Q2R (Qmean ys)) end.

Definition np_std (xs : list (option Q)) : option R :=
  match skipna xs with [] => None | ys => Some (sqrt (Q2R (Qvar_pop ys))) end.

End VarScript.
Import VarScript.

Section VaR.

(** [scipy.special.ndtri]: the quantile of the standard normal. *)
Variable ndtri : R → R.

(** [norm.ppf(q, loc, scale)]. *)
Definition norm_ppf (q loc scale : R) : option R :=
  if Rlt_dec 0 scale then
    if Rlt_dec 0 q then if Rlt_dec q 1 then Some (loc + scale * ndtri q)%R else None else None
  else None.

(** [var_cov_var(P, c, mu, sigma)]. *)
Definition var_cov_var (P c mu sigma : R) : option R :=
  alpha ← norm_ppf (1 - c) mu sigma;
  Some (P - P * (alpha + 1))%R.

(** [get_daily_historic_data(ticker, start_date, end_date)] of [var.py]
    is, line for line, the download of [Price_Forecaster_ML.py]. *)
Definition get_daily_historic_data (response : option (gmap Z av_bar)) (start_date end_date : Z)
    : av_result :=
  get_daily_historic_data_alphavantage response start_date end_date.

(** The [__main__] block: a failed download returns [[]], and
    [citi["Adj Close"]] on a list raises [TypeError]. *)
Definition var_main (response : option (gmap Z av_bar)) (start_date end_date : Z)
    : result (option R) :=
  match get_daily_historic_data response start_date end_date with
  | AvEmptyList => Err (TypeError "list indices must be integers or slices, not str")
  | AvFrame citi =>
      let rets := pct_change (closes_of citi) in
      Ok (mu ← np_mean rets; sigma ← np_std rets; var_cov_var 1000000 (99 / 100) mu sigma)
  end.

End VaR.

(** ** The quantile and the VaR *)

Section Laws.

Variable ndtri : R → R.

Lemma norm_ppf_Some q loc scale :
  (0 < scale)%R → (0 < q < 1)%R → norm_ppf ndtri q loc scale = Some (loc + scale * ndtri q)%R.
Proof.
  intros Hs [Hq0 Hq1]. unfold norm_ppf.
  destruct (Rlt_dec 0 scale); [|lra]. destruct (Rlt_dec 0 q); [|lra]. by destruct (Rlt_dec q 1); [|lra].
Qed.

Lemma norm_ppf_scale_None q loc scale : ¬ (0 < scale)%R → norm_ppf ndtri q loc scale = None.
Proof. intros Hs. unfold norm_ppf. by destruct (Rlt_dec 0 scale). Qed.

Lemma var_cov_var_Some P c mu sigma :
  (0 < sigma)%R → (0 < c < 1)%R →
  var_cov_var ndtri P c mu sigma = Some (- P * (mu + sigma * ndtri (1 - c)))%R.
Proof.
  intros Hs Hc. unfold var_cov_var. rewrite norm_ppf_Some by lra. cbn. f_equal. ring.
Qed.

(** C17: [var_cov_var] refines the contract of the comment at the top of
    [var.py] ("a c probability of losing no more than the VaR"): for a
    portfolio worth [P > 0], a confidence level [0 < c < 1] and a positive
    deviation, the VaR [V] is defined and, if the daily return follows
    the normal law of mean [mu] and deviation [sigma] (distribution
    function [x ↦ ncdf ((x - mu) / sigma)]), the probability that the
    return is at least [-V/P], i.e. that the loss is at most [V], is [c]. *)
Theorem var_cov_var_confidence (ncdf : R → R) P c mu sigma :
  (∀ q, (0 < q < 1)%R → ncdf (ndtri q) = q) →
  (0 < P)%R → (0 < c < 1)%R → (0 < sigma)%R →
  ∃ V, var_cov_var ndtri P c mu sigma = Some V ∧ (1 - ncdf ((- V / P - mu) / sigma))%R = c.
Proof.
  intros Hinv HP Hc Hs. eexists. split; [by apply var_cov_var_Some|].
  replace ((- (- P * (mu + sigma * ndtri (1 - c))) / P - mu) / sigma)%R with (ndtri (1 - c)) by (field; lra).
  rewrite Hinv by lra. ring.
Qed.

(** C35: [var_cov_var] grows with the confidence level: when the quantile
    is strictly increasing, a higher confidence gives a strictly larger
    VaR for the same portfolio and return distribution. *)
Theorem var_cov_var_monotone P c1 c2 mu sigma V1 V2 :
  (∀ p q, (0 < p)%R → (p < q)%R → (q < 1)%R → (ndtri p < ndtri q)%R) →
  (0 < P)%R → (0 < sigma)%R → (0 < c1)%R → (c1 < c2)%R → (c2 < 1)%R →
  var_cov_var ndtri P c1 mu sigma = Some V1 → var_cov_var ndtri P c2 mu sigma = Some V2 →
  (V1 < V2)%R.
Proof.
  intros Hm HP Hs H1 H12 H2. rewrite !var_cov_var_Some by lra. intros [= <-] [= <-].
  pose proof (Hm (1 - c2) (1 - c1) ltac:(lra) ltac:(lra) ltac:(lra))%R.
  assert (0 < P * sigma * (ndtri (1 - c1) - ndtri (1 - c2)))%R by (repeat apply Rmult_lt_0_compat; lra).
  nra.
Qed.

(** C16: The [__main__] block of [var.py]: a failed download raises
    [TypeError] at [citi["Adj Close"]]; otherwise, with [xs] the returns
    of the adjusted close that are numbers, the VaR is NaN when [xs] is
    empty or constant (scipy rejects a zero scale), and otherwise
    [-10^6 * (mean xs + std xs * ndtri(0.01))] with the population
    deviation. *)
Theorem var_main_spec data s e ts :
  get_daily_historic_data (Some data) s e = AvFrame ts →
  var_main ndtri None s e = Err (TypeError "list indices must be integers or slices, not str") ∧
  var_main ndtri (Some data) s e =
    Ok (let xs := skipna (pct_change (closes_of ts)) in
        match xs with
        | [] => None
        | _ => if Qeq_bool (Qvar_pop xs) 0 then None
               else Some (- 1000000 * (Q2R (Qmean xs) + sqrt (Q2R (Qvar_pop xs)) * ndtri (1 / 100)))%R
        end).
Proof.
  intros Hd. split; [reflexivity|]. unfold var_main. rewrite Hd. f_equal. cbv zeta.
  unfold np_mean, np_std. destruct (skipna (pct_change (closes_of ts))) as [|x xs] eqn:Hx; [done|].
  rewrite <-Hx. cbn [mbind option_bind]. destruct (Qeq_bool (Qvar_pop _) 0) eqn:Hq.
  - apply Qeq_bool_iff, Qeq_eqR in Hq. rewrite Hq, Q2R_zero, sqrt_0.
    unfold var_cov_var. rewrite norm_ppf_scale_None by lra. done.
  - rewrite var_cov_var_Some by (lra || (apply sqrt_var_pos; [apply Qvar_pop_nonneg | done])).
    do 2 f_equal. replace (1 - 99 / 100)%R with (1 / 100)%R by field. ring.
Qed.

End Laws.

Lemma var_cov_var_confidence_witness :
  ∃ V, var_cov_var (λ q, q - 1 / 2)%R 1000000 (99 / 100) 0 1 = Some V ∧
       (1 - (((- V / 1000000 - 0) / 1) + 1 / 2))%R = (99 / 100)%R.
Proof.
  apply (var_cov_var_confidence (λ q, q - 1 / 2)%R (λ x, x + 1 / 2)%R 1000000 (99 / 100) 0 1);
    [intros; ring | lra | lra | lra].
Defined.

Lemma var_cov_var_monotone_witness :
  ∃ V1 V2, var_cov_var (λ q, q) 1 (1 / 2) 0 1 = Some V1 ∧
           var_cov_var (λ q, q) 1 (3 / 4) 0 1 = Some V2 ∧ (V1 < V2)%R.
Proof.
  do 2 eexists. split; [apply var_cov_var_Some; lra|]. split; [apply var_cov_var_Some; lra|].
  apply (var_cov_var_monotone (λ q, q) 1 (1 / 2) (3 / 4) 0 1); try lra;
    [intros; lra | apply var_cov_var_Some; lra | apply var_cov_var_Some; lra].
Defined.

Lemma var_main_spec_witness :
  get_daily_historic_data (Some demo_av_data) (3 - 365) 10 = AvFrame demo_ts ∧
  var_main (λ _, 0%R) None (3 - 365) 10 = Err (TypeError "list indices must be integers or slices, not str") ∧
  var_main (λ _, 0%R) (Some demo_av_data) (3 - 365) 10 =
    Ok (let xs := skipna (pct_change (closes_of demo_ts)) in
        match xs with
        | [] => None
        | _ => if Qeq_bool (Qvar_pop xs) 0 then None
               else Some (- 1000000 * (Q2R (Qmean xs) + sqrt (Q2R (Qvar_pop xs)) * 0))%R
        end).
Proof.
  assert (H : get_daily_historic_data (Some demo_av_data) (3 - 365) 10 = AvFrame demo_ts)
    by (vm_compute; reflexivity).
  split; [exact H|]. exact (var_main_spec (λ _, 0%R) demo_av_data (3 - 365) 10 demo_ts H).
Defined.
