(* ===== verification/IB.v ===== *)
(** * IB: the Interactive Brokers execution handler of [ib_execution.py]

    [IBExecution] sends the ORDER events it receives to Trader Workstation
    (TWS) with consecutive order ids, and is meant to turn TWS's
    asynchronous replies into FILL events on the shared queue: an
    "openOrder" reply records the order in [fill_dict], an "orderStatus"
    reply with status "Filled" creates the FILL event once.

    The state is the object's attributes ([events], [order_routing],
    [currency], [fill_dict], [order_id]) together with the log of the
    [placeOrder] calls made on the TWS connection (the connection itself
    is I/O).  The methods run in [pyst], the state and exception monad
    [stexc] of [Prelude] over the attributes: an exception leaves the attributes as the method had
    changed them when it raised.  The module is Python 3
    ([#!/usr/bin/env python3]): [dict.has_key] does not exist.  Line 99
    ends in a colon and does not parse; it is modelled as the call it
    writes, [self.create_fill_dict_entry(msg)].

    No session of the handler ever runs: the module does not parse, and
    even read with the call repaired, [__init__] raises [AttributeError]
    in [register_handlers] (line 167, [ib_init]).  The methods are
    modelled one by one, with lemmas on what each does to the
    attributes; no property of a session is claimed. *)

From S2P Require Import Prelude Events.
From stdpp Require Import pretty.

Module IBExecution.

(** ** Data *)

(** IbPy's [Contract] and [Order], with the fields the module sets. *)
Record ib_contract := mkContract {
  m_symbol : string;
  m_secType : string;
  m_exchange : string;
  m_primaryExch : string;
  m_currency : string
}.

Record ib_order := mkOrder {
  m_orderType : string;
  m_totalQuantity : Z;
  m_action : string
}.

(** An entry of [fill_dict]: the dict literal of [create_fill_dict_entry],
    keys "symbol", "exchange", "direction" and "filled". *)
Record fill_entry := mkFillEntry {
  fe_symbol : string;
  fe_exchange : string;
  fe_direction : string;
  fe_filled : bool
}.

Record ib_state := mkIB {
  ib_events : list queue_item;
  ib_order_routing : string;
  ib_currency : string;
  ib_fill_dict : gmap Z fill_entry;
  ib_order_id : Z;
  ib_placed : list (Z * ib_contract * ib_order)
}.

(** The server messages the handler looks at, by [typeName]. *)
Inductive ib_msg :=
| OpenOrder (orderId : Z) (contract : ib_contract) (order : ib_order)
| OrderStatus (orderId : Z) (status : string) (filled : Z) (avgFillPrice : Q)
| OtherMsg (typeName : string).

(** ** The state and exception monad *)

Abbreviation pyst := (stexc ib_state).
Local Open Scope stexc_scope.

(** ** Methods *)

Definition create_initial_order_id : Z := 1.

(** [__init__], lines 50-56: the attributes; [create_tws_connection]
    only connects. *)
Definition ib_attrs (events : list queue_item) (order_routing currency : string) : ib_state :=
  mkIB events order_routing currency ∅ create_initial_order_id [].

(** [register_handlers]: [self._error_handler] does not exist (the method
    is [error_handler]). *)
Definition register_handlers : pyst unit :=
  st_raise (AttributeError "'IBExecution' object has no attribute '_error_handler'").

Definition ib_init (events : list queue_item) (order_routing currency : string) : ib_state * result unit :=
  register_handlers (ib_attrs events order_routing currency).

Definition create_contract (symbol sec_type exch prim_exch curr : string) : ib_contract :=
  mkContract symbol sec_type exch prim_exch curr.

Definition create_order (order_type : string) (quantity : Z) (action : string) : ib_order :=
  mkOrder order_type quantity action.

(** [self.fill_dict.has_key(k)] in Python 3. *)
Definition dict_has_key (k : Z) : pyst bool :=
  st_raise (AttributeError "'dict' object has no attribute 'has_key'").

(** [self.fill_dict[k]]. *)
Definition fill_dict_get (k : Z) : pyst fill_entry :=
  λ s, match ib_fill_dict s !! k with
       | Some fe => (s, Ok fe)
       | None => (s, Err (KeyError (pretty k)))
       end.

Definition create_fill_dict_entry (orderId : Z) (contract : ib_contract) (order : ib_order) : pyst unit :=
  s ⇐ st_get;
  st_put (mkIB (ib_events s) (ib_order_routing s) (ib_currency s)
              (<[orderId := mkFillEntry (m_symbol contract) (m_exchange contract) (m_action order) false]>
                 (ib_fill_dict s))
              (ib_order_id s) (ib_placed s)).

(** [create_fill]: line 289 reads the key "Symbol", which no entry has,
    and raises [KeyError]; the lines after it are never reached. *)
Definition create_fill (orderId : Z) : pyst unit :=
  _ ⇐ fill_dict_get orderId;
  st_raise (KeyError "Symbol").

(** [_reply_handler]; line 106 prints the undefined name [masg]. *)
Definition reply_handler (msg : ib_msg) : pyst unit :=
  _ ⇐ match msg with
      | OpenOrder oid contract order =>
          s ⇐ st_get;
          if bool_decide (oid = ib_order_id s) then
            b ⇐ dict_has_key oid;
            if b then st_ret tt else create_fill_dict_entry oid contract order
          else st_ret tt
      | _ => st_ret tt
      end;
  _ ⇐ match msg with
      | OrderStatus oid status _ _ =>
          if bool_decide (status = "Filled") then
            fd ⇐ fill_dict_get oid;
            if fe_filled fd then st_ret tt else create_fill oid
          else st_ret tt
      | _ => st_ret tt
      end;
  st_raise (NameError "masg").

(** [execute_order]: an ORDER event is sent with the current order id,
    which is then incremented; other events are ignored. *)
Definition execute_order (e : event) : pyst unit :=
  match e with
  | OrderEv o =>
      s ⇐ st_get;
      let ib_contract := create_contract (order_symbol o) "STK" (ib_order_routing s)
                           (ib_order_routing s) (ib_currency s) in
      let ib_order := create_order (order_type o) (order_quantity o) (order_direction o) in
      st_put (mkIB (ib_events s) (ib_order_routing s) (ib_currency s) (ib_fill_dict s)
                  (ib_order_id s + 1) (ib_placed s ++ [(ib_order_id s, ib_contract, ib_order)]))
  | _ => st_ret tt
  end.

(** A BUY order for 100 GOOG sent from the attributes [__init__] sets. *)
Definition demo_order : OrderEvent := mkOrderEvent "GOOG" "MKT" 100 "BUY".

Definition demo_s1 : ib_state := (execute_order (OrderEv demo_order) (ib_attrs [] "SMART" "USD")).1.

(** ** The reply handler *)

(** Unfolds the monad and the handler's helpers, and splits on every
    test the handler makes. *)
Ltac pyst_simpl :=
  unfold reply_handler, create_fill, create_fill_dict_entry, fill_dict_get, dict_has_key,
    st_bind, st_get, st_put, st_ret, st_raise;
  repeat (case_match; cbn; simplify_eq).

(** Whatever the state and the message, [_reply_handler] leaves the
    attributes as they were: [create_fill_dict_entry] is only reached
    after [has_key], which raises, and [create_fill] raises before it
    writes. *)
Lemma reply_handler_state msg s : (reply_handler msg s).1 = s.
Proof.
  destruct msg as [oid c o | oid st f px | t]; pyst_simpl; done.
Qed.

Lemma reply_handler_error msg s : ∃ e, (reply_handler msg s).2 = Err e.
Proof.
  destruct msg as [oid c o | oid st f px | t]; pyst_simpl; eauto.
Qed.

(** ** Executing orders *)

Lemma execute_order_eq e s :
  execute_order e s =
  match e with
  | OrderEv o =>
      (mkIB (ib_events s) (ib_order_routing s) (ib_currency s) (ib_fill_dict s) (ib_order_id s + 1)
         (ib_placed s ++ [(ib_order_id s,
                           mkContract (order_symbol o) "STK" (ib_order_routing s) (ib_order_routing s) (ib_currency s),
                           mkOrder (order_type o) (order_quantity o) (order_direction o))]), Ok tt)
  | _ => (s, Ok tt)
  end.
Proof. by destruct e. Qed.

End IBExecution.
