(* ===== verification/Hurst.v ===== *)
(** * Hurst: the Hurst exponent of [Hurst.py]

    [hurst(time_series)] takes, for every lag from 2 to 99, the numpy
    standard deviation ([ddof=0]) of the lagged differences
    [time_series[lag:] - time_series[:-lag]], its square root [tau], and
    returns twice the slope of the least-squares line through the points
    [(log lag, log tau)] ([np.polyfit(..., 1)[0] * 2.0]).

    Values are reals [R].  An empty array has a NaN deviation and a zero
    deviation a [-inf] logarithm: [np_log] is [None] on both, and
    [np.polyfit] then raises [LinAlgError] (the SVD of [lstsq] does not
    converge on a non-finite input).  The slope is the closed form of the
    degree-1 least-squares fit.  The download function of the file is the
    AlphaVantage download of [Price_Forecaster_ML.py] (modelled in
    [AlphaVantage]).  The [__main__] block feeds [hurst] with the
    logarithm of three series built from [randn] draws (the draws are
    inputs) and with the adjusted closes of Amazon; [np.log] of a
    non-positive entry is NaN, so the arrays may hold NaN: [hurst_nan]
    runs [hurst] on such arrays, NaN propagating through [subtract],
    [std], [sqrt] and [log] as numpy propagates it. *)

From S2P Require Import Prelude AlphaVantage.
From Stdlib Require Import Reals Qreals Psatz.

Local Open Scope R_scope.

(** ** Definitions *)

Definition Rsum (l : list R) : R := fold_right Rplus 0 l.

Definition Rmean (l : list R) : R := Rsum l / INR (length l).

(** [np.std(a)] with [ddof=0]; NaN on an empty array. *)
Definition np_std (xs : list R) : option R :=
  match xs with
  | [] => None
  | _ => Some (sqrt (Rsum (map (λ x, (x - Rmean xs) ^ 2) xs) / INR (length xs)))
  end.

(** [subtract(time_series[lag:], time_series[:-lag])]. *)
Definition lag_diff (ts : list R) (lag : nat) : list R :=
  zip_with Rminus (drop lag ts) (take (length ts - lag) ts).

(** [sqrt(std(subtract(time_series[lag:], time_series[:-lag])))]. *)
Definition tau_of (ts : list R) (lag : nat) : option R :=
  sqrt <$> np_std (lag_diff ts lag).

(** [range(2, 100)]. *)
Definition lags : list nat := seq 2 98.

(** [np.log] on a deviation: NaN stays NaN, [log 0] is [-inf]. *)
Definition np_log (x : option R) : option R :=
  match x with
  | Some v => if Rlt_dec 0 v then Some (ln v) else None
  | None => None
  end.

(** [np.polyfit(xs, ys, 1)[0]]: the least-squares slope. *)
Definition polyfit_slope (xs ys : list R) : R :=
  Rsum (zip_with (λ x y, (x - Rmean xs) * (y - Rmean ys)) xs ys) / Rsum (map (λ x, (x - Rmean xs) ^ 2) xs).

Definition hurst (time_series : list R) : result R :=
  let tau := map (tau_of time_series) lags in
  match mapM np_log tau with
  | None => Err (LinAlgError "SVD did not converge in Linear Least Squares")
  | Some log_tau => Ok (polyfit_slope (map (λ l, ln (INR l)) lags) log_tau * 2)
  end.

(** ** Arrays with NaN *)

(** [subtract(time_series[lag:], time_series[:-lag])] with NaN entries. *)
Definition lag_diff_nan (ts : list (option R)) (lag : nat) : list (option R) :=
  zip_with (λ a b, x ← a; y ← b; Some (x - y)) (drop lag ts) (take (length ts - lag) ts).

(** [np.std] is NaN as soon as one entry is. *)
Definition np_std_nan (xs : list (option R)) : option R := mapM (λ x, x) xs ≫= np_std.

Definition tau_of_nan (ts : list (option R)) (lag : nat) : option R :=
  sqrt <$> np_std_nan (lag_diff_nan ts lag).

Definition hurst_nan (time_series : list (option R)) : result R :=
  let tau := map (tau_of_nan time_series) lags in
  match mapM np_log tau with
  | None => Err (LinAlgError "SVD did not converge in Linear Least Squares")
  | Some log_tau => Ok (polyfit_slope (map (λ l, ln (INR l)) lags) log_tau * 2)
  end.

(** ** The script [Hurst.py] *)

Module HurstScript.

(** [get_daily_historic_data_alphavantage] of [Hurst.py] is, line for
    line, the download of [Price_Forecaster_ML.py]. *)
Definition get_daily_historic_data_alphavantage (response : option (gmap Z av_bar)) (start_date end_date : Z)
    : av_result :=
  AlphaVantage.get_daily_historic_data_alphavantage response start_date end_date.

(** [np.cumsum]. *)
Fixpoint cumsum_from (acc : R) (xs : list R) : list R :=
  match xs with [] => [] | x :: rest => (acc + x) :: cumsum_from (acc + x) rest end.

Definition cumsum (xs : list R) : list R := cumsum_from 0 xs.

(** [np.log] on an array: NaN ([-inf] at 0) where an entry is not
    positive. *)
Definition np_log_array (xs : list R) : list (option R) :=
  map (λ x, if Rlt_dec 0 x then Some (ln x) else None) xs.

(** [array(amzn['Adj Close'].tolist())]; [amzn['Adj Close']] raises
    [TypeError] on the [[]] of a failed download. *)
Definition adj_close_array (frame : av_result) : result (list R) :=
  match frame with
  | AvEmptyList => Err (TypeError "list indices must be integers or slices, not str")
  | AvFrame ts => Ok (map (λ r, Q2R (pr_adj_close r)) ts)
  end.

(** The printed exponents are the script's state. *)
Definition print_hurst (h : R) : stexc (list R) unit := λ out, (out ++ [h], Ok tt).

Local Open Scope stexc_scope.

(** The [__main__] block on the three [randn(100000)] draws and
    AlphaVantage's answer for [AMZN]. *)
Definition main (draws_gbm draws_mr draws_tr : list R) (amzn_response : option (gmap Z av_bar))
    : stexc (list R) unit :=
  let gbm := np_log_array (map (λ x, x + 1000) (cumsum draws_gbm)) in
  let mr := np_log_array (map (λ x, x + 1000) draws_mr) in
  let tr := np_log_array (map (λ x, x + 1000) (cumsum (map (λ x, x + 1) draws_tr))) in
  let amzn := get_daily_historic_data_alphavantage amzn_response (days_from_civil 2000 1 1)
                (days_from_civil 2015 1 1) in
  h1 ⇐ st_lift (hurst_nan gbm); _ ⇐ print_hurst h1;
  h2 ⇐ st_lift (hurst_nan mr); _ ⇐ print_hurst h2;
  h3 ⇐ st_lift (hurst_nan tr); _ ⇐ print_hurst h3;
  closes ⇐ st_lift (adj_close_array amzn);
  h4 ⇐ st_lift (hurst closes); print_hurst h4.

End HurstScript.

(** ** Sums and means *)

Lemma Rsum_nil : Rsum [] = 0.
Proof. reflexivity. Qed.

Lemma Rsum_cons x l : Rsum (x :: l) = x + Rsum l.
Proof. reflexivity. Qed.

Lemma Rsum_map_mult k l : Rsum (map (Rmult k) l) = k * Rsum l.
Proof. induction l as [|x l IH]; cbn [map]; rewrite ?Rsum_nil, ?Rsum_cons, ?IH; ring. Qed.

Lemma Rsum_nonneg l : Forall (λ x, 0 <= x) l → 0 <= Rsum l.
Proof. induction 1; rewrite ?Rsum_nil, ?Rsum_cons; lra. Qed.

Lemma Rsum_map_ext (f g : R → R) l : (∀ x, f x = g x) → Rsum (map f l) = Rsum (map g l).
Proof. intros H. f_equal. by apply map_ext. Qed.

Lemma Rmean_scale k l : Rmean (map (Rmult k) l) = k * Rmean l.
Proof. unfold Rmean. rewrite Rsum_map_mult, length_map. unfold Rdiv. ring. Qed.

Lemma Rsum_sq_nonneg m l : 0 <= Rsum (map (λ x, (x - m) ^ 2) l).
Proof. apply Rsum_nonneg, Forall_forall. intros y (x & -> & _)%list_elem_of_fmap. apply pow2_ge_0. Qed.

(** ** Scaling the series *)

Lemma drop_map_R (f : R → R) n l : drop n (map f l) = map f (drop n l).
Proof. revert l. induction n as [|n IH]; intros [|x l]; cbn; auto. Qed.

Lemma take_map_R (f : R → R) n l : take n (map f l) = map f (take n l).
Proof. revert l. induction n as [|n IH]; intros [|x l]; cbn; auto. by rewrite IH. Qed.

Lemma zip_with_minus_affine a b l1 l2 :
  zip_with Rminus (map (λ x, a * x + b) l1) (map (λ x, a * x + b) l2) = map (Rmult a) (zip_with Rminus l1 l2).
Proof. revert l2. induction l1 as [|x l1 IH]; intros [|y l2]; cbn; auto. rewrite IH. f_equal. ring. Qed.

Lemma lag_diff_affine a b ts lag :
  lag_diff (map (λ x, a * x + b) ts) lag = map (Rmult a) (lag_diff ts lag).
Proof. unfold lag_diff. by rewrite length_map, drop_map_R, take_map_R, zip_with_minus_affine. Qed.

Lemma np_std_eq xs :
  xs ≠ [] → np_std xs = Some (sqrt (Rsum (map (λ x, (x - Rmean xs) ^ 2) xs) / INR (length xs))).
Proof. by destruct xs. Qed.

Lemma np_std_scale a xs : 0 < a → np_std (map (Rmult a) xs) = Rmult a <$> np_std xs.
Proof.
  intros Ha. destruct (decide (xs = [])) as [->|Hne]; [done|].
  rewrite !np_std_eq by (done || by destruct xs). cbn [fmap option_fmap option_map]. f_equal.
  rewrite Rmean_scale, length_map, map_map.
  rewrite (Rsum_map_ext _ (λ y, (a * a) * ((y - Rmean xs) ^ 2))) by (intros; ring).
  rewrite <-map_map, Rsum_map_mult.
  assert (0 < INR (length xs)) by (apply lt_0_INR; destruct xs; [done | cbn; lia]).
  pose proof (Rsum_sq_nonneg (Rmean xs) xs).
  set (S := Rsum (map (λ x, (x - Rmean xs) ^ 2) xs)) in * .
  replace (a * a * S / INR (length xs)) with (a ^ 2 * (S / INR (length xs))) by (field; lra).
  rewrite sqrt_mult_alt, sqrt_pow2 by (nra || lra). done.
Qed.

Lemma tau_of_affine a b ts lag :
  0 < a → tau_of (map (λ x, a * x + b) ts) lag = Rmult (sqrt a) <$> tau_of ts lag.
Proof.
  intros Ha. unfold tau_of. rewrite lag_diff_affine, np_std_scale by done.
  destruct (np_std (lag_diff ts lag)) as [s|] eqn:Hs; [|done]. cbn. f_equal.
  assert (0 <= s).
  { destruct (lag_diff ts lag); cbn in Hs; [done|]. injection Hs as <-. apply sqrt_pos. }
  apply sqrt_mult_alt. lra.
Qed.

Lemma np_log_scale k t : 0 < k → np_log (Rmult k <$> t) = Rplus (ln k) <$> np_log t.
Proof.
  intros Hk. destruct t as [v|]; cbn; [|done].
  destruct (Rlt_dec 0 (k * v)) as [Hkv|Hkv], (Rlt_dec 0 v) as [Hv|Hv]; cbn.
  - by rewrite ln_mult.
  - exfalso. apply Hv. apply (Rmult_lt_reg_l k); lra.
  - exfalso. apply Hkv. nra.
  - done.
Qed.

Lemma mapM_map {A B C} (f : B → option C) (h : A → B) (l : list A) :
  mapM f (map h l) = mapM (λ x, f (h x)) l.
Proof. induction l as [|x l IH]; cbn; [done|]. by rewrite IH. Qed.

Lemma mapM_length {A B} (f : A → option B) l ys : mapM f l = Some ys → length ys = length l.
Proof. intros H. apply mapM_Some_1 in H. symmetry. by eapply Forall2_length. Qed.

Lemma mapM_fmap_option {A} (f h : A → option R) (g : R → R) (l : list A) :
  (∀ x, f x = g <$> h x) → mapM f l = map g <$> mapM h l.
Proof.
  intros Hf. induction l as [|x l IH]; [done|]. cbn. rewrite Hf, IH.
  destruct (h x), (mapM h l); done.
Qed.

(** ** Shifting the fitted values *)

Lemma Rsum_map_plus c l : Rsum (map (Rplus c) l) = INR (length l) * c + Rsum l.
Proof.
  induction l as [|x l IH]; cbn [map length]; rewrite ?Rsum_nil, ?Rsum_cons; [cbn; ring|].
  rewrite IH, S_INR. ring.
Qed.

Lemma Rmean_shift c l : l ≠ [] → Rmean (map (Rplus c) l) = c + Rmean l.
Proof.
  intros Hl. unfold Rmean. rewrite Rsum_map_plus, length_map.
  assert (0 < INR (length l)) by (apply lt_0_INR; destruct l; [done | cbn; lia]). field. lra.
Qed.

Lemma polyfit_slope_shift c xs ys : ys ≠ [] → polyfit_slope xs (map (Rplus c) ys) = polyfit_slope xs ys.
Proof.
  intros Hys. unfold polyfit_slope. rewrite Rmean_shift by done. f_equal. f_equal.
  generalize (Rmean xs) (Rmean ys). intros mx my. clear Hys. revert ys.
  induction xs as [|x xs IH]; intros [|y ys]; cbn [zip_with map]; auto.
  f_equal; [ring | apply IH].
Qed.

(** ** Fitting an exact line *)

Lemma mapM_Some_map {A} (f : A → option R) (g : A → R) (l : list A) :
  (∀ x, x ∈ l → f x = Some (g x)) → mapM f l = Some (map g l).
Proof.
  induction l as [|x l IH]; intros Hf; [done|]. cbn.
  rewrite (Hf x ltac:(left)), IH by (intros y Hy; apply Hf; by right). done.
Qed.

Lemma Rsum_zip_map (g : R → R → R) (f : R → R) xs :
  Rsum (zip_with g xs (map f xs)) = Rsum (map (λ x, g x (f x)) xs).
Proof. induction xs as [|x xs IH]; cbn [zip_with map]; [done|]. by rewrite !Rsum_cons, IH. Qed.

Lemma Rsum_sq_zero m xs : Rsum (map (λ x, (x - m) ^ 2) xs) = 0 → Forall (λ x, x = m) xs.
Proof.
  induction xs as [|x xs IH]; cbn [map]; rewrite ?Rsum_cons; intros H; [done|].
  pose proof (pow2_ge_0 (x - m)). pose proof (Rsum_sq_nonneg m xs).
  constructor; [nra | apply IH; nra].
Qed.

(** The least-squares slope of points on a line is the line's slope. *)
Lemma polyfit_slope_line xs c k :
  Rsum (map (λ x, (x - Rmean xs) ^ 2) xs) ≠ 0 → polyfit_slope xs (map (λ x, c + k * x) xs) = k.
Proof.
  intros Hs. assert (Hne : xs ≠ []) by (intros ->; by apply Hs).
  unfold polyfit_slope.
  replace (map (λ x, c + k * x) xs) with (map (Rplus c) (map (Rmult k) xs)) by (by rewrite map_map).
  rewrite Rmean_shift, Rmean_scale by (by destruct xs). rewrite map_map, Rsum_zip_map.
  rewrite (Rsum_map_ext _ (λ x, k * (x - Rmean xs) ^ 2)) by (intros; ring).
  rewrite <-(map_map (λ x, (x - Rmean xs) ^ 2) (Rmult k)), Rsum_map_mult. field. done.
Qed.

(** The logarithms of the lags are not all equal. *)
Lemma lags_spread : Rsum (map (λ x, (x - Rmean (map (λ l, ln (INR l)) lags)) ^ 2) (map (λ l, ln (INR l)) lags)) ≠ 0.
Proof.
  intros H%Rsum_sq_zero. cbn [lags seq map] in H.
  apply Forall_cons in H as [H2 H]. apply Forall_cons in H as [H3 _].
  assert (ln (INR 2) < ln (INR 3)) by (apply ln_increasing; cbn; lra). lra.
Qed.

(** ** The exponent *)

(** C34: [hurst] does not depend on the unit or the origin of the
    prices: rescaling a series by a positive factor and shifting it gives
    the same exponent, or the same [LinAlgError]. *)
Theorem hurst_affine a b ts : 0 < a → hurst (map (λ x, a * x + b) ts) = hurst ts.
Proof.
  intros Ha. unfold hurst. rewrite !mapM_map.
  rewrite (mapM_fmap_option _ (λ lag, np_log (tau_of ts lag)) (Rplus (ln (sqrt a))))
    by (intros lag; rewrite tau_of_affine by done; apply np_log_scale, sqrt_lt_R0, Ha).
  destruct (mapM (λ lag, np_log (tau_of ts lag)) lags) as [ys|] eqn:Hys; [|done]. cbn.
  rewrite polyfit_slope_shift; [done|]. apply mapM_length in Hys. by destruct ys.
Qed.

(** [hurst] needs at least 100 points: on a shorter series the
    differences at lag 99 are empty, their deviation is NaN and
    [np.polyfit] raises [LinAlgError]. *)
Theorem hurst_short_series ts :
  (length ts < 100)%nat → hurst ts = Err (LinAlgError "SVD did not converge in Linear Least Squares").
Proof.
  intros Hl. unfold hurst. rewrite mapM_None_2; [done|].
  apply Exists_exists. exists (tau_of ts 99). split.
  - apply list_elem_of_fmap. exists 99%nat. split; [done|]. apply elem_of_seq. lia.
  - unfold tau_of, lag_diff. rewrite drop_ge by lia. done.
Qed.

(** When the deviation of the lagged differences scales exactly as a
    power [lag ^ H] of the lag, [hurst] returns [H]: the exponent the
    comment at the top of [Hurst.py] describes. *)
Theorem hurst_power_law C H ts :
  0 < C → (∀ lag, lag ∈ lags → tau_of ts lag = Some (C * Rpower (INR lag) (H / 2))) → hurst ts = Ok H.
Proof.
  intros HC Ht. unfold hurst. rewrite mapM_map.
  rewrite (mapM_Some_map _ (λ lag, ln C + H / 2 * ln (INR lag))).
  - cbv beta iota. f_equal.
    replace (map (λ lag, ln C + H / 2 * ln (INR lag)) lags)
      with (map (λ x, ln C + H / 2 * x) (map (λ l, ln (INR l)) lags)) by (by rewrite map_map).
    rewrite polyfit_slope_line by apply lags_spread. field.
  - intros lag Hl. rewrite Ht by done. cbn. unfold Rpower.
    pose proof (exp_pos (H / 2 * ln (INR lag))).
    destruct (Rlt_dec 0 (C * exp (H / 2 * ln (INR lag)))) as [_|Hn]; [|exfalso; nra].
    by rewrite ln_mult, ln_exp by lra.
Qed.

Lemma hurst_affine_witness :
  hurst (map (λ x, 2 * x + 1) (map INR (seq 0 120))) = hurst (map INR (seq 0 120)).
Proof. apply (hurst_affine 2 1 (map INR (seq 0 120))). lra. Defined.

Lemma hurst_short_series_witness :
  hurst [1; 2; 3] = Err (LinAlgError "SVD did not converge in Linear Least Squares").
Proof. apply (hurst_short_series [1; 2; 3]). cbn. lia. Defined.

(** ** NaN in [hurst] *)

Lemma zip_with_some (f : R → R → R) (a b : list R) :
  zip_with (λ u v, x ← u; y ← v; Some (f x y)) (map Some a) (map Some b) = map Some (zip_with f a b).
Proof. revert b. induction a as [|x a IH]; intros [|y b]; cbn; [done..|]. by rewrite IH. Qed.

Lemma lag_diff_nan_some xs lag : lag_diff_nan (map Some xs) lag = map Some (lag_diff xs lag).
Proof. unfold lag_diff_nan, lag_diff. by rewrite length_map, skipn_map, firstn_map, zip_with_some. Qed.

Lemma mapM_id_some {A} (xs : list A) : mapM (λ x, x) (map Some xs) = Some xs.
Proof. induction xs as [|x xs IH]; cbn; [done|]. by rewrite IH. Qed.

Lemma np_std_nan_none xs : None ∈ xs → np_std_nan xs = None.
Proof.
  intros Hx. unfold np_std_nan. rewrite mapM_None_2; [done|]. apply Exists_exists. by exists None.
Qed.

(** A NaN of the series reaches the differences at lag 2. *)
Lemma lag_diff_nan_lag2 ts : None ∈ ts → (4 ≤ length ts)%nat → None ∈ lag_diff_nan ts 2.
Proof.
  intros (k & Hk)%list_elem_of_lookup Hn. pose proof (lookup_lt_Some _ _ _ Hk) as Hkn.
  apply list_elem_of_lookup. unfold lag_diff_nan.
  destruct (decide (2 ≤ k)%nat) as [H2|H2].
  - exists (k - 2)%nat. rewrite lookup_zip_with, lookup_drop.
    replace (2 + (k - 2))%nat with k by lia. rewrite Hk. cbn.
    destruct (lookup_lt_is_Some_2 (take (length ts - 2) ts) (k - 2)) as [y Hy];
      [rewrite length_take; lia|]. by rewrite Hy.
  - exists k. rewrite lookup_zip_with, lookup_take_lt, Hk by lia.
    destruct (lookup_lt_is_Some_2 (drop 2 ts) k) as [y Hy]; [rewrite length_drop; lia|].
    rewrite Hy. cbn. by destruct y.
Qed.

(** [hurst] on the arrays of [Hurst.py]'s [__main__] block, which
    may hold NaN: on an array without NaN it is [hurst]; one NaN anywhere
    (the logarithm of a non-positive value) reaches the lagged
    differences of some lag, its deviation and logarithm are NaN and
    [np.polyfit] raises [LinAlgError]. *)
Theorem hurst_nan_spec xs ts :
  hurst_nan (map Some xs) = hurst xs ∧
  (None ∈ ts → hurst_nan ts = Err (LinAlgError "SVD did not converge in Linear Least Squares")).
Proof.
  split.
  - unfold hurst_nan, hurst. replace (map (tau_of_nan (map Some xs)) lags) with (map (tau_of xs) lags); [done|].
    apply map_ext. intros lag. unfold tau_of_nan, tau_of, np_std_nan. by rewrite lag_diff_nan_some, mapM_id_some.
  - intros Hn. unfold hurst_nan. rewrite mapM_None_2; [done|]. apply Exists_exists.
    destruct (decide (length ts < 100)%nat) as [Hs|Hl].
    + exists (tau_of_nan ts 99). split; [apply list_elem_of_fmap; exists 99%nat; split; [done|]; apply elem_of_seq; lia|].
      unfold tau_of_nan, lag_diff_nan. by rewrite drop_ge by lia.
    + exists (tau_of_nan ts 2). split; [apply list_elem_of_fmap; exists 2%nat; split; [done|]; apply elem_of_seq; lia|].
      unfold tau_of_nan. rewrite np_std_nan_none; [done|]. apply lag_diff_nan_lag2; [done | lia].
Qed.

Lemma hurst_main_run d1 d2 d3 response out h1 h2 h3 :
  hurst_nan (HurstScript.np_log_array (map (λ x, x + 1000) (HurstScript.cumsum d1))) = Ok h1 →
  hurst_nan (HurstScript.np_log_array (map (λ x, x + 1000) d2)) = Ok h2 →
  hurst_nan (HurstScript.np_log_array (map (λ x, x + 1000) (HurstScript.cumsum (map (λ x, x + 1) d3)))) = Ok h3 →
  HurstScript.main d1 d2 d3 response out =
    st_bind (st_lift (HurstScript.adj_close_array
               (HurstScript.get_daily_historic_data_alphavantage response (days_from_civil 2000 1 1)
                  (days_from_civil 2015 1 1))))
      (λ closes, st_bind (st_lift (hurst closes)) HurstScript.print_hurst) (out ++ [h1; h2; h3]).
Proof.
  intros H1 H2 H3. unfold HurstScript.main. rewrite H1, H2, H3. cbn -[hurst].
  assert (E : ((out ++ [h1]) ++ [h2]) ++ [h3] = out ++ [h1; h2; h3]) by (by rewrite <-!List.app_assoc).
  rewrite E. reflexivity.
Qed.

(** The [__main__] block of [Hurst.py]: once the three random series
    have their exponents, a failed [AMZN] download raises [TypeError]
    after the three are printed; otherwise the exponent of Amazon's
    adjusted closes is printed fourth. *)
Theorem hurst_main_spec d1 d2 d3 data out h1 h2 h3 :
  hurst_nan (HurstScript.np_log_array (map (λ x, x + 1000) (HurstScript.cumsum d1))) = Ok h1 →
  hurst_nan (HurstScript.np_log_array (map (λ x, x + 1000) d2)) = Ok h2 →
  hurst_nan (HurstScript.np_log_array (map (λ x, x + 1000) (HurstScript.cumsum (map (λ x, x + 1) d3)))) = Ok h3 →
  HurstScript.main d1 d2 d3 None out = (out ++ [h1; h2; h3], Err (TypeError "list indices must be integers or slices, not str")) ∧
  ∃ ts, get_daily_historic_data_alphavantage (Some data) (days_from_civil 2000 1 1) (days_from_civil 2015 1 1) = AvFrame ts ∧
    HurstScript.main d1 d2 d3 (Some data) out =
      match hurst (map (λ r, Q2R (pr_adj_close r)) ts) with
      | Ok h4 => (out ++ [h1; h2; h3; h4], Ok tt)
      | Err e => (out ++ [h1; h2; h3], Err e)
      end.
Proof.
  intros H1 H2 H3. split; [by rewrite (hurst_main_run _ _ _ _ _ h1 h2 h3 H1 H2 H3)|].
  eexists. split; [reflexivity|]. rewrite (hurst_main_run _ _ _ _ _ h1 h2 h3 H1 H2 H3). cbn -[hurst].
  destruct (hurst _); cbn; [|done]. unfold HurstScript.print_hurst. by rewrite <-List.app_assoc.
Qed.
