(* ===== verification/ADF.v ===== *)
(** * ADF: the augmented Dickey-Fuller script [adf.py]

    The script downloads Amazon's daily bars from 2000-01-01 to
    2015-01-01 with the AlphaVantage download (the one of
    [Price_Forecaster_ML.py], line for line) and pretty-prints
    [statsmodels.tsa.stattools.adfuller] of the adjusted closes with a
    maximal lag of 1.  [adfuller] is library code: the Section takes it
    as a variable, with whatever result it returns.  The download answer
    is an input (network I/O). *)

From S2P Require Import Prelude AlphaVantage.
From stdpp Require Import sorting.

Module AdfScript.

Section ADF.

Context {adf_result : Type}.

(** [ts.adfuller(x, maxlag)]. *)
Variable adfuller : list Q → nat → adf_result.

(** [get_daily_historic_data_alphavantage] of [adf.py]. *)
Definition get_daily_historic_data_alphavantage (response : option (gmap Z av_bar)) (start_date end_date : Z)
    : av_result :=
  AlphaVantage.get_daily_historic_data_alphavantage response start_date end_date.

(** [amzn["Adj Close"].tolist()]; a [TypeError] on the [[]] of a
    failed download. *)
Definition adj_close_list (frame : av_result) : result (list Q) :=
  match frame with
  | AvEmptyList => Err (TypeError "list indices must be integers or slices, not str")
  | AvFrame ts => Ok (map pr_adj_close ts)
  end.

(** The [__main__] block: the value pretty-printed. *)
Definition main (response : option (gmap Z av_bar)) : result adf_result :=
  let amzn := get_daily_historic_data_alphavantage response (days_from_civil 2000 1 1)
                (days_from_civil 2015 1 1) in
  xs ← adj_close_list amzn; Ok (adfuller xs 1).

(** The test sees the adjusted closes of the days of the answer between
    the two dates, in increasing order of the days; a failed download
    raises [TypeError] instead. *)
Theorem adf_main_spec data :
  main None = Err (TypeError "list indices must be integers or slices, not str") ∧
  ∃ ds, main (Some data) = Ok (adfuller (omap (λ d, av_adjusted_close <$> data !! d) ds) 1) ∧
    StronglySorted Z.lt ds ∧
    ∀ d, d ∈ ds ↔ (days_from_civil 2000 1 1 ≤ d ≤ days_from_civil 2015 1 1)%Z ∧ is_Some (data !! d).
Proof.
  split; [reflexivity|].
  set (ds := filter (λ d, in_dates (days_from_civil 2000 1 1) (days_from_civil 2015 1 1) d)
               (merge_sort Z.le (map_to_list data).*1)).
  exists ds. split_and!.
  - unfold main, get_daily_historic_data_alphavantage, AlphaVantage.get_daily_historic_data_alphavantage.
    cbn [adj_close_list mbind result_bind]. do 2 f_equal. fold ds. clear.
    induction ds as [|d ds IH]; [done|]. cbn. destruct (data !! d); cbn; by rewrite IH.
  - apply StronglySorted_filter, sorted_keys_strict.
  - intros d. unfold ds. rewrite list_elem_of_filter, sorted_keys_elem. unfold in_dates.
    rewrite Is_true_true, negb_true_iff, bool_decide_eq_false. split; intros [H1 H2]; split; try done; lia.
Qed.

End ADF.

End AdfScript.
