(* ===== verification/SecMaster.v ===== *)
(** * SecMaster: the securities master database scripts

    Five scripts of [Automated Trading/] fill and inspect a MySQL database
    [securities_master]:
    - [MySQL_Connection.py]: connection and table tests on a table
      [books];
    - [Insert_Symbols.py]: parses the Wikipedia list of S&P 500 companies
      into rows of the table [symbol], inserts them, truncates tables;
    - [Price_Retrieval.py]: reads the symbols back, downloads six months of
      daily bars per symbol and inserts them into [daily_price];
    - [Retrieving_data.py]: reads the adjusted closes of [ATVI] back,
      ordered by date.

    The MySQL server is the state [server]: whether it accepts connections,
    its tables, and the lines the scripts print.  A table keeps its rows
    in insertion order with the [AUTO_INCREMENT] id each received, the
    next id, and the position of its primary key when it has one ([books]
    is keyed by [title]).  [cursor.executemany] of an [INSERT] is one
    multi-row statement: it inserts all rows or raises; [conn.commit()]
    follows it at once, so rows are modelled as committed when inserted.
    [TRUNCATE TABLE] empties a table and resets its [AUTO_INCREMENT].  The
    schema is created outside [src/]: the tables are part of the initial
    state.  A [mysql.connector.Error] is [DBError].

    Every function runs in the state and exception monad [stexc] of
    [Prelude]; Python's [try: ... except Error as e: print(e) finally: ...]
    is [except_print] inside [st_finally].  In the [finally] clauses the
    names [cursor], [conn] or [connection] are bound only if the
    connection succeeded.

    The theorems: every script keeps the tables well formed
    ([server_wf]: distinct positive ids below the next [AUTO_INCREMENT],
    a unique primary key), proved once per operation and composed with
    the [st_pres] rules of [Prelude]; on a server that refuses the
    connection each [try]/[finally] ends in [NameError]; truncating,
    inserting and selecting the symbols is a round trip; the download
    window is the 175 days before today; the retrieval loop and the
    [books] scenario are computed exactly.  The Wikipedia page and the
    AlphaVantage answer are inputs (network I/O). *)

From S2P Require Import Prelude AlphaVantage.
From stdpp Require Import pretty sorting.

Local Open Scope stexc_scope.

(** ** The database *)

Inductive sql_value :=
| SqlInt (z : Z)
| SqlStr (s : string)
| SqlNum (q : Q)
| SqlDate (d : Z)
| SqlNull.

#[export] Instance Q_leibniz_eq_dec : EqDecision Q.
Proof. intros [a b] [c d]. unfold Decision. decide equality; [apply Pos.eq_dec | apply Z.eq_dec]. Defined.

#[export] Instance sql_value_eq_dec : EqDecision sql_value.
Proof. solve_decision. Defined.

Record table := mkTable {
  tbl_key : option nat;
  tbl_rows : list (Z * list sql_value);
  tbl_next_id : Z
}.

Record server := mkServer {
  srv_up : bool;
  srv_version : string;
  srv_tables : gmap string table;
  srv_out : list string
}.

Abbreviation db := (stexc server).

Definition set_tables (ts : gmap string table) (s : server) : server :=
  mkServer (srv_up s) (srv_version s) ts (srv_out s).

(** The server after a script printed [msg]. *)
Definition emit (msg : string) (s : server) : server :=
  mkServer (srv_up s) (srv_version s) (srv_tables s) (srv_out s ++ [msg]).

(** [print(msg)]. *)
Definition print (msg : string) : db unit := λ s, (emit msg s, Ok tt).

Definition connect_error : string := "2003 (HY000): Can't connect to MySQL server on '127.0.0.1:3306'".

(** [mysql.connector.connect(user=..., password=..., host=..., database=...)]. *)
Definition connect : db unit :=
  s ⇐ st_get;
  if srv_up s then st_ret tt
  else st_raise (DBError connect_error).

(** [except Error as error: print(error)], for the [Error] of the
    connector only. *)
Definition except_print (prefix : string) (m : db unit) : db unit :=
  λ s, match m s with
       | (s', Err (DBError msg)) => print (prefix +:+ msg) s'
       | r => r
       end.

Definition no_table (name : string) : py_error :=
  DBError ("1146 (42S02): Table 'securities_master." +:+ name +:+ "' doesn't exist").

Definition key_of (k : option nat) (row : list sql_value) : option sql_value :=
  match k with Some i => row !! i | None => None end.

(** The rows a table would hold after an insert, numbered from its next
    id. *)
Definition append_rows (t : table) (rows : list (list sql_value)) : table :=
  mkTable (tbl_key t) (tbl_rows t ++ zip (seqZ (tbl_next_id t) (Z.of_nat (length rows))) rows)
    (tbl_next_id t + Z.of_nat (length rows)).

(** [cursor.executemany("INSERT INTO name(cols) VALUES(%s, ...)", rows)]:
    every row must fill the [arity] placeholders, and a primary key must
    stay unique. *)
Definition executemany (name : string) (arity : nat) (rows : list (list sql_value)) : db unit :=
  s ⇐ st_get;
  match srv_tables s !! name with
  | None => st_raise (no_table name)
  | Some t =>
      if negb (forallb (λ r, bool_decide (length r = arity)) rows) then
        st_raise (DBError "Not enough parameters for the SQL statement")
      else
        let t' := append_rows t rows in
        match tbl_key t with
        | Some _ =>
            if bool_decide (NoDup (map (key_of (tbl_key t) ∘ snd) (tbl_rows t'))) then
              st_put (set_tables (<[name := t']> (srv_tables s)) s)
            else st_raise (DBError "1062 (23000): Duplicate entry for key 'PRIMARY'")
        | None => st_put (set_tables (<[name := t']> (srv_tables s)) s)
        end
  end.

(** [cursor.execute("TRUNCATE TABLE name")]. *)
Definition truncate (name : string) : db unit :=
  s ⇐ st_get;
  match srv_tables s !! name with
  | None => st_raise (no_table name)
  | Some t => st_put (set_tables (<[name := mkTable (tbl_key t) [] 1]> (srv_tables s)) s)
  end.

(** [cursor.execute("SELECT id, ticker FROM symbol")] and [fetchall()]:
    the ticker is the first inserted column. *)
Definition select_id_ticker : db (list (Z * sql_value)) :=
  s ⇐ st_get;
  match srv_tables s !! "symbol" with
  | None => st_raise (no_table "symbol")
  | Some t => st_ret (map (λ r, (r.1, default SqlNull (r.2 !! 0%nat))) (tbl_rows t))
  end.

(** The [finally] clause that closes [cursor] and [conn]: the names are
    unbound when [connect] raised. *)
Definition close_cursor (connected : bool) : db unit :=
  if connected then st_ret tt else st_raise (NameError "cursor").

(** The [finally] clause [if (connection.is_connected()): cursor.close();
    connection.close(); print("MySQL connection is closed")]. *)
Definition close_if_connected (connected : bool) : db unit :=
  if connected then print "MySQL connection is closed" else st_raise (NameError "connection").

(** [str(v)] of a fetched value, for the messages. *)
Definition sql_str (v : sql_value) : string :=
  match v with
  | SqlInt z => pretty z
  | SqlStr s => s
  | SqlNum _ => "<float>"
  | SqlDate _ => "<datetime>"
  | SqlNull => "None"
  end.

(** [CREATE TABLE name (...)], with the position of its primary key. *)
Definition create_table (name : string) (key : option nat) : db unit :=
  s ⇐ st_get;
  match srv_tables s !! name with
  | Some _ => st_raise (DBError ("1050 (42S01): Table '" +:+ name +:+ "' already exists"))
  | None => st_put (set_tables (<[name := mkTable key [] 1]> (srv_tables s)) s)
  end.

(** ** Well-formed tables

    The ids of a table are distinct, positive and below its next
    [AUTO_INCREMENT] value, and a primary key is unique. *)
Definition table_wf (t : table) : Prop :=
  NoDup (map fst (tbl_rows t)) ∧ Forall (λ r, 1 ≤ r.1 < tbl_next_id t)%Z (tbl_rows t) ∧
  (1 ≤ tbl_next_id t)%Z ∧
  (is_Some (tbl_key t) → NoDup (map (key_of (tbl_key t) ∘ snd) (tbl_rows t))).

Definition server_wf (s : server) : Prop := map_Forall (λ _, table_wf) (srv_tables s).

(** ** [Insert_Symbols.py] *)

Module InsertSymbols.

(** A [td] cell of the page: its text and the texts of its links. *)
Record cell := mkCell { cell_text : string; cell_links : list string }.

(** [l[i]]. *)
Definition py_index {A} (l : list A) (i : nat) : result A :=
  match l !! i with Some x => Ok x | None => Err IndexError end.

(** The tuple of one [tr] row of the table. *)
Definition symbol_row (now : Z) (tds : list cell) : result (list sql_value) :=
  td0 ← py_index tds 0; ticker ← py_index (cell_links td0) 0;
  td1 ← py_index tds 1; name ← py_index (cell_links td1) 0;
  td3 ← py_index tds 3;
  Ok [SqlStr ticker; SqlStr "stock"; SqlStr name; SqlStr (cell_text td3); SqlStr "USD";
      SqlDate now; SqlDate now].

(** [obtain_parse_wiki_snp500()] on the page whose tables are [tables]
    (each the [td] cells of its [tr] rows), at time [now]. *)
Definition obtain_parse_wiki_snp500 (now : Z) (tables : list (list (list cell)))
    : result (list (list sql_value)) :=
  t ← py_index tables 0;
  mapM (symbol_row now) (drop 1 t).

Definition insert_snp500_symbols (symbols : list (list sql_value)) : db unit :=
  s ⇐ st_get;
  st_finally (except_print "" (_ ⇐ connect; executemany "symbol" 7 symbols))
    (close_cursor (srv_up s)).

Definition truncate_table (table_name : string) : db unit :=
  s ⇐ st_get;
  st_finally
    (except_print "Failed to truncate table in MySQL: "
       (_ ⇐ connect; _ ⇐ truncate table_name; print (table_name +:+ " Table truncated successfully")))
    (close_if_connected (srv_up s)).

(** The check of the [__main__] block: the indices [i] whose tuple has
    another length than the next one. *)
Definition length_breaks (symbols : list (list sql_value)) : list nat :=
  filter (λ i, length (default [] (symbols !! i)) ≠ length (default [] (symbols !! S i)))
    (seq 0 (length symbols - 1)).

Definition main (now : Z) (tables : list (list (list cell))) : db unit :=
  symbols ⇐ st_lift (obtain_parse_wiki_snp500 now tables);
  _ ⇐ print (pretty (length symbols));
  foldr (λ i m, _ ⇐ print (pretty i); m) (st_ret tt) (length_breaks symbols).

End InsertSymbols.

(** ** [Price_Retrieval.py] *)

Module PriceRetrieval.

Definition TICKER_COUNT : nat := 505.

(** [obtain_list_of_db_tickers()]: no [try], a connection error
    propagates. *)
Definition obtain_list_of_db_tickers : db (list (Z * sql_value)) :=
  _ ⇐ connect; select_id_ticker.

(** The answer of AlphaVantage for a ticker: the exception's message, or
    the bars by date. *)
Definition av_response : Type := (string + gmap Z av_bar)%type.

(** [start_date + dt.timedelta(i) for i in range(delta)], with
    [start_date = today - 25 weeks] and [delta = (today - start_date).days]. *)
Definition window (today : Z) : list Z :=
  let start_date := (today - 7 * 25)%Z in
  let delta := (today - start_date)%Z in
  seqZ start_date delta.

(** The [else] branch: the tuples of the days of the window that
    [data] has. *)
Definition prices_of (data : gmap Z av_bar) (today : Z) : list price_row :=
  let date_strings := filter (λ d, is_Some (data !! d)) (window today) in
  omap (λ d, row_of d <$> data !! d) date_strings.

Definition get_daily_historic_data_alphavantage (ticker : string) (response : av_response) (today : Z)
    : db (list price_row) :=
  match response with
  | inl e =>
      _ ⇐ print ("Could not download AlphaVantage data for " +:+ ticker +:+ " ticker (" +:+ e +:+ ")...skipping.");
      st_ret []
  | inr data => st_ret (prices_of data today)
  end.

(** The tuples of [daily_data_to_insert]. *)
Definition daily_row (data_vendor_id : Z) (symbol_id : sql_value) (now : Z) (d : price_row) : list sql_value :=
  [SqlInt data_vendor_id; symbol_id; SqlDate (pr_date d); SqlDate now; SqlDate now;
   SqlNum (pr_open d); SqlNum (pr_high d); SqlNum (pr_low d); SqlNum (pr_close d);
   SqlInt (pr_volume d); SqlNum (pr_adj_close d)].

Definition insert_daily_data_into_db (data_vendor_id : Z) (symbol_id : sql_value) (daily_data : list price_row)
    (now : Z) : db unit :=
  let daily_data_to_insert := map (daily_row data_vendor_id symbol_id now) daily_data in
  s ⇐ st_get;
  st_finally (except_print "" (_ ⇐ connect; executemany "daily_price" 11 daily_data_to_insert))
    (close_cursor (srv_up s)).

(** The loop of the [__main__] block from index [i]; it returns the
    indices of the tickers without data. *)
Fixpoint retrieval_loop (download : string → av_response) (today now : Z) (lentickers i : nat)
    (tickers : list (Z * sql_value)) (skipped : list nat) : db (list nat) :=
  match tickers with
  | [] => st_ret skipped
  | t :: rest =>
      _ ⇐ print ("Adding data for " +:+ sql_str t.2 +:+ ": " +:+ pretty (S i) +:+ " out of " +:+ pretty lentickers);
      av_data ⇐ get_daily_historic_data_alphavantage (sql_str t.2) (download (sql_str t.2)) today;
      _ ⇐ insert_daily_data_into_db 1 (SqlInt t.1) av_data now;
      retrieval_loop download today now lentickers (S i) rest
        (if bool_decide (length av_data = 0%nat) then skipped ++ [i] else skipped)
  end.

Definition main (download : string → av_response) (today now : Z) : db (list nat) :=
  tickers ⇐ obtain_list_of_db_tickers;
  let tickers := take TICKER_COUNT tickers in
  skipped ⇐ retrieval_loop download today now (length tickers) 0 tickers [];
  _ ⇐ print "Successfully added AlphaVantage pricing data to DB.";
  st_ret skipped.

End PriceRetrieval.

(** ** [MySQL_Connection.py] *)

Module MySQLConnection.

Definition test_mysql_connection : db unit :=
  except_print "Error while connecting to MySQL "
    (_ ⇐ connect;
     s ⇐ st_get;
     _ ⇐ print ("Connected to MySQL Server version  " +:+ srv_version s);
     _ ⇐ print "Your connected to database:  ('securities_master',)";
     print "MySQL connection is closed").

Definition test_table_creation : db unit :=
  s ⇐ st_get;
  st_finally
    (except_print "Failed to create table in MySQL: "
       (_ ⇐ connect; _ ⇐ create_table "books" (Some 0%nat); print "Books Table created successfully "))
    (close_if_connected (srv_up s)).

Definition test_truncate_table (table_name : string) : db unit :=
  s ⇐ st_get;
  st_finally
    (except_print "Failed to truncate table in MySQL: "
       (_ ⇐ connect; _ ⇐ truncate table_name; print (table_name +:+ " Table truncated successfully")))
    (close_if_connected (srv_up s)).

Definition test_insert_book (books : list (string * string)) : db unit :=
  s ⇐ st_get;
  st_finally
    (except_print "" (_ ⇐ connect; executemany "books" 2 (map (λ b, [SqlStr b.1; SqlStr b.2]) books)))
    (close_cursor (srv_up s)).

Definition get_sample_books : list (string * string) :=
  [("Harry Potter And The Order Of The Phoenix", "9780439358071");
   ("Gone with the Wind", "9780446675536");
   ("Pride and Prejudice (Modern Library Classics)", "9780679783268")].

Definition main : db unit :=
  _ ⇐ test_mysql_connection;
  _ ⇐ print "=============================";
  _ ⇐ print "=============================";
  test_truncate_table "daily_price".

End MySQLConnection.

(** ** [Retrieving_data.py] *)

Module RetrievingData.

(** Column [i] of a row as inserted ([NULL] past its end): [symbol] has
    [ticker] first; [daily_price] has [symbol_id] at 1, [price_date] at 2
    and [adj_close_price] at 10. *)
Definition col (r : list sql_value) (i : nat) : sql_value := default SqlNull (r !! i).

(** [ORDER BY dp.price_date ASC]: [NULL] first.  MySQL leaves the order
    of rows with the same date open; the model keeps the join's. *)
Definition date_key (v : sql_value) : option Z := match v with SqlDate d => Some d | _ => None end.

Definition price_le (a b : sql_value * sql_value) : Prop :=
  match date_key a.1, date_key b.1 with
  | None, _ => True
  | Some _, None => False
  | Some x, Some y => (x ≤ y)%Z
  end.

#[export] Instance price_le_dec : RelDecision price_le.
Proof. intros [a a'] [b b']. unfold price_le. cbn. destruct (date_key a), (date_key b); apply _. Defined.

(** [FROM symbol AS sym INNER JOIN daily_price AS dp ON dp.symbol_id =
    sym.id WHERE sym.ticker = 'ATVI']: [(dp.price_date,
    dp.adj_close_price)] for each price row and matching symbol row. *)
Definition atvi_rows (sym dp : table) : list (sql_value * sql_value) :=
  concat (map (λ p, map (λ _, (col p.2 2, col p.2 10))
                       (filter (λ r, SqlInt r.1 = col p.2 1 ∧ col r.2 0 = SqlStr "ATVI") (tbl_rows sym)))
              (tbl_rows dp)).

(** [pd.read_sql_query(sql_query, con=con, index_col='price_date')]. *)
Definition sql_query : db (list (sql_value * sql_value)) :=
  s ⇐ st_get;
  match srv_tables s !! "symbol", srv_tables s !! "daily_price" with
  | None, _ => st_raise (no_table "symbol")
  | _, None => st_raise (no_table "daily_price")
  | Some sym, Some dp => st_ret (merge_sort price_le (atvi_rows sym dp))
  end.

(** [atvi.tail()]: the last five rows. *)
Definition tail5 {A} (l : list A) : list A := drop (length l - 5) l.

(** The [__main__] block: the connection (no [try]: a refused one
    raises), the query, and the rows [print(atvi.tail())] shows (the
    formatting of the frame is not modelled). *)
Definition main : db (list (sql_value * sql_value)) :=
  _ ⇐ connect;
  atvi ⇐ sql_query;
  st_ret (tail5 atvi).

End RetrievingData.

(** ** Demo data

    A server with empty [symbol] and [daily_price] tables, a page with a
    header row and two companies, and a download that answers for [MMM]
    only, with the four bars of [AlphaVantage.demo_av_data] (days 2 to 5). *)

Definition demo_server (up : bool) : server :=
  mkServer up "8.0.19" (<["symbol" := mkTable None [] 1]> (<["daily_price" := mkTable None [] 1]> ∅)) [].

Definition demo_page : list (list (list InsertSymbols.cell)) :=
  [[[];
    [InsertSymbols.mkCell "MMM" ["MMM"]; InsertSymbols.mkCell "3M" ["3M"];
     InsertSymbols.mkCell "NYSE" []; InsertSymbols.mkCell "Industrials" []];
    [InsertSymbols.mkCell "ABT" ["ABT"]; InsertSymbols.mkCell "Abbott Laboratories" ["Abbott Laboratories"];
     InsertSymbols.mkCell "NYSE" []; InsertSymbols.mkCell "Health Care" []]]].

Definition demo_download (ticker : string) : PriceRetrieval.av_response :=
  if bool_decide (ticker = "MMM") then inr demo_av_data else inl "Invalid API call".

Definition demo_symbols : list (list sql_value) :=
  match InsertSymbols.obtain_parse_wiki_snp500 0 demo_page with Ok syms => syms | Err _ => [] end.

(** The server once the demo symbols are inserted. *)
Definition demo_loaded : server := (InsertSymbols.insert_snp500_symbols demo_symbols (demo_server true)).1.

(** A server whose only symbol is [ATVI], with id 1. *)
Definition demo_atvi_server : server :=
  (InsertSymbols.insert_snp500_symbols
     [[SqlStr "ATVI"; SqlStr "stock"; SqlStr "Activision Blizzard"; SqlStr "Communication Services";
       SqlStr "USD"; SqlDate 0; SqlDate 0]] (demo_server true)).1.

(** The tuples [get_daily_historic_data_alphavantage] returns for a
    vendor's answer. *)
Definition retrieved (today : Z) (r : PriceRetrieval.av_response) : list price_row :=
  match r with inl _ => [] | inr data => PriceRetrieval.prices_of data today end.

(** ** The primitives *)

Lemma connect_up s : srv_up s = true → connect s = (s, Ok tt).
Proof. intros H. unfold connect, st_bind, st_get. cbv beta iota. by rewrite H. Qed.

Lemma connect_down s : srv_up s = false → connect s = (s, Err (DBError connect_error)).
Proof. intros H. unfold connect, st_bind, st_get. cbv beta iota. by rewrite H. Qed.

Lemma forallb_arity arity (rows : list (list sql_value)) :
  Forall (λ r, length r = arity) rows → forallb (λ r, bool_decide (length r = arity)) rows = true.
Proof.
  intros Hrows. apply forallb_forall. intros r Hr%list_elem_of_In. apply bool_decide_eq_true.
  exact (proj1 (Forall_forall _ _) Hrows r Hr).
Qed.

Lemma executemany_keyless s name arity rows t :
  srv_tables s !! name = Some t → tbl_key t = None → Forall (λ r, length r = arity) rows →
  executemany name arity rows s = (set_tables (<[name := append_rows t rows]> (srv_tables s)) s, Ok tt).
Proof.
  intros Ht Hk Hrows. unfold executemany. rewrite st_get_bind, Ht, forallb_arity by done. by rewrite Hk.
Qed.

Lemma executemany_keyed s name arity rows t k :
  srv_tables s !! name = Some t → tbl_key t = Some k → Forall (λ r, length r = arity) rows →
  executemany name arity rows s =
    if bool_decide (NoDup (map (key_of (Some k) ∘ snd) (tbl_rows (append_rows t rows))))
    then (set_tables (<[name := append_rows t rows]> (srv_tables s)) s, Ok tt)
    else (s, Err (DBError "1062 (23000): Duplicate entry for key 'PRIMARY'")).
Proof.
  intros Ht Hk Hrows. unfold executemany. rewrite st_get_bind, Ht, forallb_arity by done. cbv beta iota.
  rewrite Hk. by case_bool_decide.
Qed.

Lemma create_table_fresh s name key :
  srv_tables s !! name = None →
  create_table name key s = (set_tables (<[name := mkTable key [] 1]> (srv_tables s)) s, Ok tt).
Proof. intros H. unfold create_table. by rewrite st_get_bind, H. Qed.

Lemma create_table_exists s name key t :
  srv_tables s !! name = Some t →
  create_table name key s = (s, Err (DBError ("1050 (42S01): Table '" +:+ name +:+ "' already exists"))).
Proof. intros H. unfold create_table. by rewrite st_get_bind, H. Qed.

(** ** The invariant *)

Lemma table_wf_empty k : table_wf (mkTable k [] 1).
Proof. split_and!; cbn; try constructor; lia. Qed.

Lemma append_rows_ids t rows :
  (tbl_rows (append_rows t rows)).*1 = (tbl_rows t).*1 ++ seqZ (tbl_next_id t) (Z.of_nat (length rows)).
Proof. cbn. rewrite fmap_app, fst_zip; [done|]. rewrite length_seqZ. lia. Qed.

Lemma append_rows_wf t rows :
  table_wf t →
  (is_Some (tbl_key t) → NoDup (map (key_of (tbl_key t) ∘ snd) (tbl_rows (append_rows t rows)))) →
  table_wf (append_rows t rows).
Proof.
  intros (Hnd & Hb & Hn & _) Hk. pose proof (append_rows_ids t rows) as Hids.
  assert (Hb' : Forall (λ x, 1 ≤ x < tbl_next_id t)%Z ((tbl_rows t).*1)) by (apply Forall_fmap; exact Hb).
  split_and!; [| | cbn; lia | exact Hk].
  - change (NoDup ((tbl_rows (append_rows t rows)).*1)). rewrite Hids.
    apply NoDup_app. split_and!; [exact Hnd | | apply NoDup_seqZ].
    intros x Hx%(proj1 (Forall_forall _ _) Hb'). rewrite elem_of_seqZ. lia.
  - apply (Forall_fmap fst (λ x, 1 ≤ x < tbl_next_id (append_rows t rows))%Z). rewrite Hids.
    apply Forall_app. split.
    + eapply Forall_impl; [exact Hb'|]. cbn. intros x Hx. lia.
    + apply Forall_forall. intros x Hx%elem_of_seqZ. cbn. lia.
Qed.

Lemma print_preserves msg : st_preserves server_wf (print msg).
Proof. intros s Hs. exact Hs. Qed.

Lemma connect_preserves : st_preserves server_wf connect.
Proof. intros s Hs. unfold connect, st_bind, st_get. cbv beta iota. by destruct (srv_up s). Qed.

Lemma except_print_preserves p m : st_preserves server_wf m → st_preserves server_wf (except_print p m).
Proof.
  intros Hm s Hs. specialize (Hm s Hs). unfold except_print.
  destruct (m s) as [s' [|[]]]; exact Hm.
Qed.

Lemma set_tables_insert_wf s name t :
  server_wf s → table_wf t → server_wf (set_tables (<[name := t]> (srv_tables s)) s).
Proof. intros Hs Ht. by apply map_Forall_insert_2. Qed.

Lemma executemany_preserves name arity rows : st_preserves server_wf (executemany name arity rows).
Proof.
  intros s Hs. unfold executemany, st_bind, st_get. cbv beta iota.
  destruct (srv_tables s !! name) as [t|] eqn:Ht; [|done]. destruct (negb _); [done|].
  destruct (tbl_key t) as [k|] eqn:Hk; [case_bool_decide as Hnd; [|done]|];
    apply set_tables_insert_wf; try done; apply append_rows_wf; try exact (Hs _ _ Ht).
  - by rewrite Hk.
  - rewrite Hk. by intros [].
Qed.

Lemma truncate_preserves name : st_preserves server_wf (truncate name).
Proof.
  intros s Hs. unfold truncate, st_bind, st_get. cbv beta iota.
  destruct (srv_tables s !! name); [|done]. apply set_tables_insert_wf; [done | apply table_wf_empty].
Qed.

Lemma create_table_preserves name key : st_preserves server_wf (create_table name key).
Proof.
  intros s Hs. unfold create_table, st_bind, st_get. cbv beta iota.
  destruct (srv_tables s !! name); [done|]. apply set_tables_insert_wf; [done | apply table_wf_empty].
Qed.

Lemma select_id_ticker_preserves : st_preserves server_wf select_id_ticker.
Proof. intros s Hs. unfold select_id_ticker, st_bind, st_get. cbv beta iota. by destruct (_ !! _). Qed.

Lemma close_cursor_preserves b : st_preserves server_wf (close_cursor b).
Proof. destruct b; unfold close_cursor; auto with st_pres. Qed.

Lemma close_if_connected_preserves b : st_preserves server_wf (close_if_connected b).
Proof. destruct b; unfold close_if_connected; [apply print_preserves | auto with st_pres]. Qed.

#[export] Hint Resolve print_preserves connect_preserves except_print_preserves executemany_preserves
  truncate_preserves create_table_preserves select_id_ticker_preserves close_cursor_preserves
  close_if_connected_preserves : st_pres.

Lemma download_preserves ticker r today :
  st_preserves server_wf (PriceRetrieval.get_daily_historic_data_alphavantage ticker r today).
Proof. destruct r; cbn [PriceRetrieval.get_daily_historic_data_alphavantage]; eauto with st_pres. Qed.

Lemma insert_daily_preserves v sid daily now :
  st_preserves server_wf (PriceRetrieval.insert_daily_data_into_db v sid daily now).
Proof. unfold PriceRetrieval.insert_daily_data_into_db. eauto 10 with st_pres. Qed.

#[export] Hint Resolve download_preserves insert_daily_preserves : st_pres.

Lemma retrieval_loop_preserves dl today now n i tickers skipped :
  st_preserves server_wf (PriceRetrieval.retrieval_loop dl today now n i tickers skipped).
Proof.
  revert i skipped. induction tickers as [|t tickers IH]; intros i skipped; cbn [PriceRetrieval.retrieval_loop];
    eauto 10 with st_pres.
Qed.

#[export] Hint Resolve retrieval_loop_preserves : st_pres.

Lemma foldr_print_preserves (l : list nat) :
  st_preserves server_wf (foldr (λ i m, _ ⇐ print (pretty i); m) (st_ret tt) l).
Proof. induction l; cbn [foldr]; eauto with st_pres. Qed.

#[export] Hint Resolve foldr_print_preserves : st_pres.

(** Every script of the securities master keeps the database
    well formed: the ids of each table stay distinct, positive and below
    its next [AUTO_INCREMENT], and the primary key of [books] stays
    unique, whatever the scripts print, return or raise. *)
Theorem scripts_preserve_wf :
  (∀ now tables, st_preserves server_wf (InsertSymbols.main now tables)) ∧
  (∀ syms, st_preserves server_wf (InsertSymbols.insert_snp500_symbols syms)) ∧
  (∀ name, st_preserves server_wf (InsertSymbols.truncate_table name)) ∧
  (∀ dl today now, st_preserves server_wf (PriceRetrieval.main dl today now)) ∧
  st_preserves server_wf MySQLConnection.main ∧
  st_preserves server_wf MySQLConnection.test_table_creation ∧
  (∀ books, st_preserves server_wf (MySQLConnection.test_insert_book books)).
Proof.
  unfold InsertSymbols.main, InsertSymbols.insert_snp500_symbols, InsertSymbols.truncate_table,
    PriceRetrieval.main, PriceRetrieval.obtain_list_of_db_tickers, MySQLConnection.main,
    MySQLConnection.test_mysql_connection, MySQLConnection.test_truncate_table,
    MySQLConnection.test_table_creation, MySQLConnection.test_insert_book.
  split_and!; intros; eauto 15 with st_pres.
Qed.

(** ** When the server is down *)

(** C28: When the MySQL server refuses the connection, every
    function with a [finally] clause prints the connector's error and then
    raises [NameError] (an [UnboundLocalError]) from the [finally] clause,
    where [cursor], [conn] or [connection] were never bound; the tables are
    unchanged.  [obtain_list_of_db_tickers] has no [try] and raises the
    connector's error itself, and the [__main__] block of
    [MySQL_Connection.py] prints the two errors and the separators before
    it stops on the [NameError]. *)
Theorem down_server_errors s syms table_name vendor sid daily now books :
  srv_up s = false →
  InsertSymbols.insert_snp500_symbols syms s = (emit connect_error s, Err (NameError "cursor")) ∧
  InsertSymbols.truncate_table table_name s =
    (emit ("Failed to truncate table in MySQL: " +:+ connect_error) s, Err (NameError "connection")) ∧
  PriceRetrieval.insert_daily_data_into_db vendor sid daily now s =
    (emit connect_error s, Err (NameError "cursor")) ∧
  PriceRetrieval.obtain_list_of_db_tickers s = (s, Err (DBError connect_error)) ∧
  MySQLConnection.test_table_creation s =
    (emit ("Failed to create table in MySQL: " +:+ connect_error) s, Err (NameError "connection")) ∧
  MySQLConnection.test_insert_book books s = (emit connect_error s, Err (NameError "cursor")) ∧
  MySQLConnection.main s =
    (emit ("Failed to truncate table in MySQL: " +:+ connect_error)
       (emit "=============================" (emit "============================="
         (emit ("Error while connecting to MySQL " +:+ connect_error) s))),
     Err (NameError "connection")).
Proof. destruct s as [up v ts out]. cbn. intros ->. split_and!; reflexivity. Qed.

(** ** The download window *)

Lemma window_eq today : PriceRetrieval.window today = seqZ (today - 175) 175.
Proof. unfold PriceRetrieval.window. f_equal; lia. Qed.

Lemma seqZ_strictly_sorted m k : StronglySorted Z.lt (seqZ m (Z.of_nat k)).
Proof.
  revert m. induction k as [|k IH]; intros m; [rewrite seqZ_nil by lia; constructor|].
  rewrite Nat2Z.inj_succ, seqZ_cons, Z.pred_succ by lia. constructor; [apply IH|].
  apply Forall_forall. intros x Hx%elem_of_seqZ. lia.
Qed.

Lemma prices_of_dates data today :
  map pr_date (PriceRetrieval.prices_of data today) =
  filter (λ d, is_Some (data !! d)) (seqZ (today - 175) 175).
Proof.
  unfold PriceRetrieval.prices_of. rewrite window_eq. apply omap_rows_dates, Forall_forall.
  by intros d [? _]%list_elem_of_filter.
Qed.

Lemma prices_of_bars data today :
  Forall (λ r, ∃ b, data !! pr_date r = Some b ∧ r = row_of (pr_date r) b) (PriceRetrieval.prices_of data today).
Proof.
  apply Forall_forall. intros r (d & _ & Hd)%list_elem_of_omap.
  destruct (data !! d) as [b|] eqn:Hb; [|discriminate]. injection Hd as <-. by exists b.
Qed.

(** C31: [get_daily_historic_data_alphavantage] prints the
    download error and returns [[]] when the vendor fails; otherwise it
    returns, in strictly increasing order, one tuple per day of the 175
    days before [today] that the vendor has, each built from that day's
    bar: the days lie in [[today - 175, today - 1]], so the bar of [today]
    itself is never kept. *)
Theorem download_window ticker e data today s :
  PriceRetrieval.get_daily_historic_data_alphavantage ticker (inl e) today s =
    (emit ("Could not download AlphaVantage data for " +:+ ticker +:+ " ticker (" +:+ e +:+ ")...skipping.") s,
     Ok []) ∧
  PriceRetrieval.get_daily_historic_data_alphavantage ticker (inr data) today s =
    (s, Ok (PriceRetrieval.prices_of data today)) ∧
  map pr_date (PriceRetrieval.prices_of data today) =
    filter (λ d, is_Some (data !! d)) (seqZ (today - 175) 175) ∧
  StronglySorted Z.lt (map pr_date (PriceRetrieval.prices_of data today)) ∧
  Forall (λ d, today - 175 ≤ d < today)%Z (map pr_date (PriceRetrieval.prices_of data today)) ∧
  Forall (λ r, ∃ b, data !! pr_date r = Some b ∧ r = row_of (pr_date r) b) (PriceRetrieval.prices_of data today).
Proof.
  rewrite prices_of_dates. split_and!; [done | done | done | | | apply prices_of_bars].
  - apply StronglySorted_filter. exact (seqZ_strictly_sorted _ 175).
  - apply Forall_forall. intros d [_ Hd%elem_of_seqZ]%list_elem_of_filter. lia.
Qed.

(** ** The symbols, from the page to the database and back *)

Lemma symbol_row_length now tds r : InsertSymbols.symbol_row now tds = Ok r → length r = 7%nat.
Proof.
  unfold InsertSymbols.symbol_row, InsertSymbols.py_index.
  repeat (case_match; simpl; try discriminate). by intros [= <-].
Qed.

Lemma parse_arity now tables syms :
  InsertSymbols.obtain_parse_wiki_snp500 now tables = Ok syms → Forall (λ r, length r = 7%nat) syms.
Proof.
  unfold InsertSymbols.obtain_parse_wiki_snp500, InsertSymbols.py_index.
  destruct (tables !! 0%nat); simpl; [|discriminate]. apply mapM_Ok_Forall, symbol_row_length.
Qed.

Lemma except_print_ok prefix (m : db unit) s s' : m s = (s', Ok tt) → except_print prefix m s = (s', Ok tt).
Proof. intros Hm. unfold except_print. by rewrite Hm. Qed.

Lemma except_print_db prefix (m : db unit) s s' msg :
  m s = (s', Err (DBError msg)) → except_print prefix m s = (emit (prefix +:+ msg) s', Ok tt).
Proof. intros Hm. unfold except_print. by rewrite Hm. Qed.

Lemma try_connect_up s prefix (m : db unit) s' :
  srv_up s = true → m s = (s', Ok tt) → except_print prefix (_ ⇐ connect; m) s = (s', Ok tt).
Proof. intros Hup Hm. apply except_print_ok. by rewrite (st_bind_run_Ok _ _ _ _ _ (connect_up s Hup)), Hm. Qed.

(** The [try]/[finally] of the scripts on a running server: the
    [finally] clause finds the connection. *)
Lemma script_up prefix (m : db unit) (fin : bool → db unit) s :
  srv_up s = true →
  (s0 ⇐ st_get; st_finally (except_print prefix (_ ⇐ connect; m)) (fin (srv_up s0))) s =
  st_finally (except_print prefix m) (fin true) s.
Proof.
  intros Hup. rewrite st_get_bind. cbv beta. rewrite Hup. unfold st_finally, except_print.
  by rewrite (st_bind_run_Ok _ _ _ _ _ (connect_up s Hup)).
Qed.

Lemma truncate_up s name t :
  srv_tables s !! name = Some t →
  truncate name s = (set_tables (<[name := mkTable (tbl_key t) [] 1]> (srv_tables s)) s, Ok tt).
Proof. intros Ht. unfold truncate. rewrite st_get_bind. by rewrite Ht. Qed.

Lemma truncate_table_up s name t :
  srv_up s = true → srv_tables s !! name = Some t →
  InsertSymbols.truncate_table name s =
    (emit "MySQL connection is closed" (emit (name +:+ " Table truncated successfully")
       (set_tables (<[name := mkTable (tbl_key t) [] 1]> (srv_tables s)) s)), Ok tt).
Proof.
  intros Hup Ht. unfold InsertSymbols.truncate_table. rewrite st_get_bind.
  erewrite st_finally_run; [by rewrite Hup|].
  apply try_connect_up; [done|]. by rewrite (st_bind_run_Ok _ _ _ _ _ (truncate_up s name t Ht)).
Qed.

Lemma insert_symbols_up s t syms :
  srv_up s = true → srv_tables s !! "symbol" = Some t → tbl_key t = None → Forall (λ r, length r = 7%nat) syms →
  InsertSymbols.insert_snp500_symbols syms s =
    (set_tables (<["symbol" := append_rows t syms]> (srv_tables s)) s, Ok tt).
Proof.
  intros Hup Ht Hk Hrows. unfold InsertSymbols.insert_snp500_symbols. rewrite st_get_bind.
  erewrite st_finally_run; [| apply try_connect_up; [done | by apply executemany_keyless]].
  by rewrite Hup.
Qed.

Lemma obtain_tickers_up s t :
  srv_up s = true → srv_tables s !! "symbol" = Some t →
  PriceRetrieval.obtain_list_of_db_tickers s = (s, Ok (map (λ r, (r.1, default SqlNull (r.2 !! 0%nat))) (tbl_rows t))).
Proof.
  intros Hup Ht. unfold PriceRetrieval.obtain_list_of_db_tickers.
  rewrite (st_bind_run_Ok _ _ _ _ _ (connect_up s Hup)). unfold select_id_ticker. rewrite st_get_bind. by rewrite Ht.
Qed.

Lemma map_zip_snd {A B C} (f : B → C) (ks : list A) (l : list B) :
  map (λ r, (r.1, f r.2)) (zip ks l) = zip ks (map f l).
Proof. revert l. induction ks as [|k ks IH]; intros [|x l]; cbn; [done..|]. by rewrite IH. Qed.

(** C30: [truncate_table('symbol')], then
    [insert_snp500_symbols] of the symbols parsed from the page, then
    [obtain_list_of_db_tickers] return normally and read back every
    parsed symbol, in the order of the page, with the ids [1, 2, ...]
    that the emptied table hands out, next to the ticker, the first column
    of its tuple. *)
Theorem symbols_roundtrip s t now tables syms :
  srv_up s = true → srv_tables s !! "symbol" = Some t → tbl_key t = None →
  InsertSymbols.obtain_parse_wiki_snp500 now tables = Ok syms →
  let s1 := (InsertSymbols.truncate_table "symbol" s).1 in
  let s2 := (InsertSymbols.insert_snp500_symbols syms s1).1 in
  (InsertSymbols.truncate_table "symbol" s).2 = Ok tt ∧
  (InsertSymbols.insert_snp500_symbols syms s1).2 = Ok tt ∧
  PriceRetrieval.obtain_list_of_db_tickers s2 =
    (s2, Ok (zip (seqZ 1 (Z.of_nat (length syms))) (map (λ r, default SqlNull (r !! 0%nat)) syms))).
Proof.
  intros Hup Ht Hk Hp%parse_arity. cbv zeta.
  rewrite (truncate_table_up s "symbol" t Hup Ht), Hk. cbn [fst snd].
  rewrite (insert_symbols_up _ (mkTable None [] 1) syms); [|done | apply lookup_insert_eq | done | done].
  split_and!; [done | done |]. rewrite (obtain_tickers_up _ (append_rows (mkTable None [] 1) syms));
    [| done | apply lookup_insert_eq]. cbn [fst append_rows tbl_rows tbl_next_id app].
  do 2 f_equal. apply (map_zip_snd (λ v, default SqlNull (v !! 0%nat))).
Qed.

(** ** The retrieval loop of [Price_Retrieval.py] *)

Lemma print_run msg s : print msg s = (emit msg s, Ok tt).
Proof. reflexivity. Qed.

Lemma download_run ticker r today s :
  ∃ s', PriceRetrieval.get_daily_historic_data_alphavantage ticker r today s = (s', Ok (retrieved today r)) ∧
        srv_up s' = srv_up s ∧ srv_tables s' = srv_tables s.
Proof. destruct r; eexists; split_and!; reflexivity. Qed.

Lemma append_rows_app t a b : append_rows (append_rows t a) b = append_rows t (a ++ b).
Proof.
  unfold append_rows. cbn. rewrite length_app, Nat2Z.inj_add, seqZ_app by lia.
  rewrite zip_with_app by (rewrite length_seqZ; lia). rewrite app_assoc. f_equal. lia.
Qed.

Lemma insert_daily_up s p v sid daily now :
  srv_up s = true → srv_tables s !! "daily_price" = Some p → tbl_key p = None →
  PriceRetrieval.insert_daily_data_into_db v sid daily now s =
    (set_tables (<["daily_price" := append_rows p (map (PriceRetrieval.daily_row v sid now) daily)]>
       (srv_tables s)) s, Ok tt).
Proof.
  intros Hup Hp Hk. unfold PriceRetrieval.insert_daily_data_into_db. rewrite st_get_bind.
  erewrite st_finally_run; [by rewrite Hup|]. apply try_connect_up; [done|].
  apply executemany_keyless; [done | done |]. apply Forall_map, Forall_forall. by intros.
Qed.

Lemma retrieval_loop_run dl today now n tks : ∀ i skipped s p,
  srv_up s = true → srv_tables s !! "daily_price" = Some p → tbl_key p = None →
  ∃ s', PriceRetrieval.retrieval_loop dl today now n i tks skipped s =
        (s', Ok (skipped ++ (filter (λ jt, length (retrieved today (dl (sql_str jt.2.2))) = 0%nat)
                              (zip (seq i (length tks)) tks)).*1)) ∧
        srv_up s' = true ∧
        srv_tables s' !! "daily_price" =
          Some (append_rows p (concat (map (λ tk, map (PriceRetrieval.daily_row 1 (SqlInt tk.1) now)
                                                    (retrieved today (dl (sql_str tk.2)))) tks))).
Proof.
  induction tks as [|tk tks IH]; intros i skipped s p Hup Hp Hk.
  - exists s. rewrite app_nil_r. split_and!; [done | done |]. rewrite Hp. f_equal.
    destruct p as [k rows next]. unfold append_rows. cbn. by rewrite app_nil_r, Z.add_0_r.
  - cbn [PriceRetrieval.retrieval_loop]. rewrite (st_bind_run_Ok _ _ _ _ _ (print_run _ _)).
    match goal with |- context [st_bind (PriceRetrieval.get_daily_historic_data_alphavantage _ _ _) _ ?s0] =>
      destruct (download_run (sql_str tk.2) (dl (sql_str tk.2)) today s0) as (s1 & Hd & Hup1 & Ht1) end.
    rewrite (st_bind_run_Ok _ _ _ _ _ Hd).
    rewrite (st_bind_run_Ok _ _ _ _ _ (insert_daily_up s1 p _ _ _ _ ltac:(rewrite Hup1; exact Hup) ltac:(rewrite Ht1; exact Hp) Hk)).
    match goal with |- ∃ _, PriceRetrieval.retrieval_loop _ _ _ _ _ _ ?sk ?s2 = _ ∧ _ =>
      edestruct (IH (S i) sk s2) as (s' & Hrun & Hup' & Hp'); [| apply lookup_insert_eq | exact Hk |] end;
      [cbn; rewrite Hup1; exact Hup|].
    exists s'. rewrite Hrun. split_and!; [| done |].
    + cbn [length seq zip]. rewrite filter_cons. cbn [fst snd]. case_decide as Hz.
      * rewrite bool_decide_eq_true_2 by done. cbn. by rewrite <-app_assoc.
      * by rewrite bool_decide_eq_false_2.
    + rewrite Hp'. cbn [concat map]. by rewrite append_rows_app.
Qed.

(** C29: The [__main__] block of [Price_Retrieval.py] on a
    running server: it reads the first [TICKER_COUNT] symbols, appends to
    [daily_price], ticker after ticker, the 11-column tuples of the bars
    the vendor returned for it (vendor 1, the symbol's id, the day, the
    insertion time twice, the prices and the volume), prints its closing
    line and returns the indices of the tickers for which nothing was
    inserted. *)
Theorem retrieval_main_spec dl today now s t p :
  srv_up s = true → srv_tables s !! "symbol" = Some t → srv_tables s !! "daily_price" = Some p →
  tbl_key p = None →
  let tickers := take PriceRetrieval.TICKER_COUNT (map (λ r, (r.1, default SqlNull (r.2 !! 0%nat))) (tbl_rows t)) in
  ∃ s', PriceRetrieval.main dl today now s =
        (s', Ok ((filter (λ jt, length (retrieved today (dl (sql_str jt.2.2))) = 0%nat)
                   (zip (seq 0 (length tickers)) tickers)).*1)) ∧
        srv_tables s' !! "daily_price" =
          Some (append_rows p (concat (map (λ tk, map (PriceRetrieval.daily_row 1 (SqlInt tk.1) now)
                                                    (retrieved today (dl (sql_str tk.2)))) tickers))) ∧
        last (srv_out s') = Some "Successfully added AlphaVantage pricing data to DB.".
Proof.
  intros Hup Ht Hp Hk tickers. unfold PriceRetrieval.main.
  rewrite (st_bind_run_Ok _ _ _ _ _ (obtain_tickers_up s t Hup Ht)).
  destruct (retrieval_loop_run dl today now (length tickers) tickers 0 [] s p Hup Hp Hk) as (s' & Hrun & _ & Hp').
  rewrite (st_bind_run_Ok _ _ _ _ _ Hrun), (st_bind_run_Ok _ _ _ _ _ (print_run _ _)).
  eexists. split_and!; [reflexivity | exact Hp' | apply last_snoc].
Qed.

Lemma length_breaks_uniform k syms :
  Forall (λ r, length r = k) syms → InsertSymbols.length_breaks syms = [].
Proof.
  intros Hk. apply filter_none. intros i Hi%elem_of_seq.
  destruct (lookup_lt_is_Some_2 syms i) as [r Hr]; [lia|].
  destruct (lookup_lt_is_Some_2 syms (S i)) as [r' Hr']; [lia|].
  rewrite Hr, Hr'. cbn. rewrite (Forall_lookup_1 _ _ _ _ Hk Hr), (Forall_lookup_1 _ _ _ _ Hk Hr'). by intros [].
Qed.

(** The [__main__] block of [Insert_Symbols.py]: on a page
    whose first table parses, every tuple has the seven columns of the
    [symbol] insert, so the check for rows of unequal length prints
    nothing and the script prints only the number of symbols; on a page
    without a table, [soup.select('table')[0]] raises [IndexError]. *)
Theorem insert_symbols_main_spec now tables s syms :
  InsertSymbols.obtain_parse_wiki_snp500 now tables = Ok syms →
  Forall (λ r, length r = 7%nat) syms ∧
  InsertSymbols.main now tables s = (emit (pretty (length syms)) s, Ok tt) ∧
  InsertSymbols.main now [] s = (s, Err IndexError).
Proof.
  intros Hp. pose proof (parse_arity _ _ _ Hp) as Hk. split_and!; [exact Hk| |reflexivity].
  unfold InsertSymbols.main. rewrite (st_bind_run_Ok _ _ _ s syms); [|unfold st_lift; by rewrite Hp].
  rewrite (st_bind_run_Ok _ _ _ _ _ (print_run _ _)). by rewrite (length_breaks_uniform 7).
Qed.

(** ** The [books] table of [MySQL_Connection.py] *)

(** C32: On a running server without a [books] table,
    [test_table_creation] creates it empty; [test_insert_book] of the
    sample books inserts the three of them; a second [test_insert_book]
    of the same books is refused as a whole for a duplicate [title] and
    only prints the error; and a second [test_table_creation] prints that
    the table exists.  Every call closes the connection and returns
    normally. *)
Theorem books_scenario s :
  srv_up s = true → srv_tables s !! "books" = None →
  let rows := map (λ b, [SqlStr b.1; SqlStr b.2]) MySQLConnection.get_sample_books in
  let s1 := emit "MySQL connection is closed" (emit "Books Table created successfully "
              (set_tables (<["books" := mkTable (Some 0%nat) [] 1]> (srv_tables s)) s)) in
  let s2 := set_tables (<["books" := mkTable (Some 0%nat) (zip [1; 2; 3]%Z rows) 4]> (srv_tables s1)) s1 in
  MySQLConnection.test_table_creation s = (s1, Ok tt) ∧
  MySQLConnection.test_insert_book MySQLConnection.get_sample_books s1 = (s2, Ok tt) ∧
  MySQLConnection.test_insert_book MySQLConnection.get_sample_books s2 =
    (emit "1062 (23000): Duplicate entry for key 'PRIMARY'" s2, Ok tt) ∧
  MySQLConnection.test_table_creation s2 =
    (emit "MySQL connection is closed"
       (emit "Failed to create table in MySQL: 1050 (42S01): Table 'books' already exists" s2), Ok tt).
Proof.
  intros Hup Hb rows s1 s2.
  unfold MySQLConnection.test_table_creation, MySQLConnection.test_insert_book.
  split_and!; rewrite script_up by done.
  - erewrite st_finally_run; [reflexivity|]. apply except_print_ok.
    by rewrite (st_bind_run_Ok _ _ _ _ _ (create_table_fresh s "books" _ Hb)).
  - erewrite st_finally_run; [reflexivity|]. apply except_print_ok.
    rewrite (executemany_keyed _ _ _ _ (mkTable (Some 0%nat) [] 1) 0); [| apply lookup_insert_eq | done |].
    + by rewrite bool_decide_eq_true_2 by decide_by_eval.
    + apply Forall_map, Forall_forall. by intros.
  - erewrite st_finally_run; [reflexivity|].
    apply (except_print_db EmptyString _ _ _ "1062 (23000): Duplicate entry for key 'PRIMARY'").
    rewrite (executemany_keyed _ _ _ _ (mkTable (Some 0%nat) (zip [1; 2; 3]%Z rows) 4) 0);
      [| apply lookup_insert_eq | done |].
    + by rewrite bool_decide_eq_false_2 by decide_by_eval.
    + apply Forall_map, Forall_forall. by intros.
  - erewrite st_finally_run; [reflexivity|].
    apply (except_print_db "Failed to create table in MySQL: " _ _ _ "1050 (42S01): Table 'books' already exists").
    by rewrite (st_bind_run_Err _ _ _ _ _ (create_table_exists s2 "books" _ _ (lookup_insert_eq _ _ _))).
Qed.

(** ** Witnesses *)

Lemma down_server_errors_witness :
  InsertSymbols.insert_snp500_symbols demo_symbols (demo_server false) =
    (emit connect_error (demo_server false), Err (NameError "cursor")) ∧
  MySQLConnection.main (demo_server false) =
    (emit ("Failed to truncate table in MySQL: " +:+ connect_error)
       (emit "=============================" (emit "============================="
         (emit ("Error while connecting to MySQL " +:+ connect_error) (demo_server false)))),
     Err (NameError "connection")).
Proof.
  destruct (down_server_errors (demo_server false) demo_symbols "symbol" 1 (SqlInt 1) [] 0 MySQLConnection.get_sample_books
              ltac:(reflexivity)) as (H1 & _ & _ & _ & _ & _ & H7).
  split; [exact H1 | exact H7].
Defined.

Lemma symbols_roundtrip_witness :
  InsertSymbols.obtain_parse_wiki_snp500 0 demo_page = Ok demo_symbols ∧
  let s1 := (InsertSymbols.truncate_table "symbol" (demo_server true)).1 in
  let s2 := (InsertSymbols.insert_snp500_symbols demo_symbols s1).1 in
  (InsertSymbols.truncate_table "symbol" (demo_server true)).2 = Ok tt ∧
  (InsertSymbols.insert_snp500_symbols demo_symbols s1).2 = Ok tt ∧
  PriceRetrieval.obtain_list_of_db_tickers s2 = (s2, Ok [(1%Z, SqlStr "MMM"); (2%Z, SqlStr "ABT")]).
Proof.
  assert (Hp : InsertSymbols.obtain_parse_wiki_snp500 0 demo_page = Ok demo_symbols) by (vm_compute; reflexivity).
  split; [exact Hp|].
  exact (symbols_roundtrip (demo_server true) (mkTable None [] 1) 0 demo_page demo_symbols
           ltac:(reflexivity) ltac:(vm_compute; reflexivity) ltac:(reflexivity) Hp).
Defined.

Lemma retrieval_main_spec_witness :
  ∃ s', PriceRetrieval.main demo_download 6 7 demo_loaded = (s', Ok [1%nat]) ∧
        srv_tables s' !! "daily_price" =
          Some (append_rows (mkTable None [] 1)
                  (map (PriceRetrieval.daily_row 1 (SqlInt 1) 7) (PriceRetrieval.prices_of demo_av_data 6))) ∧
        last (srv_out s') = Some "Successfully added AlphaVantage pricing data to DB.".
Proof.
  destruct (retrieval_main_spec demo_download 6 7 demo_loaded (append_rows (mkTable None [] 1) demo_symbols)
              (mkTable None [] 1) ltac:(vm_compute; reflexivity) ltac:(vm_compute; reflexivity)
              ltac:(vm_compute; reflexivity) ltac:(reflexivity)) as (s' & Hrun & Hp & Hl).
  exists s'. split_and!; [rewrite Hrun; vm_compute; reflexivity | rewrite Hp; vm_compute; reflexivity | exact Hl].
Defined.

Lemma books_scenario_witness :
  let s := demo_server true in
  let rows := map (λ b, [SqlStr b.1; SqlStr b.2]) MySQLConnection.get_sample_books in
  let s1 := emit "MySQL connection is closed" (emit "Books Table created successfully "
              (set_tables (<["books" := mkTable (Some 0%nat) [] 1]> (srv_tables s)) s)) in
  let s2 := set_tables (<["books" := mkTable (Some 0%nat) (zip [1; 2; 3]%Z rows) 4]> (srv_tables s1)) s1 in
  MySQLConnection.test_table_creation s = (s1, Ok tt) ∧
  MySQLConnection.test_insert_book MySQLConnection.get_sample_books s1 = (s2, Ok tt) ∧
  MySQLConnection.test_insert_book MySQLConnection.get_sample_books s2 =
    (emit "1062 (23000): Duplicate entry for key 'PRIMARY'" s2, Ok tt) ∧
  MySQLConnection.test_table_creation s2 =
    (emit "MySQL connection is closed"
       (emit "Failed to create table in MySQL: 1050 (42S01): Table 'books' already exists" s2), Ok tt).
Proof. exact (books_scenario (demo_server true) ltac:(reflexivity) ltac:(vm_compute; reflexivity)). Defined.

Lemma insert_symbols_main_spec_witness :
  Forall (λ r, length r = 7%nat) demo_symbols ∧
  InsertSymbols.main 0 demo_page (demo_server true) = (emit "2" (demo_server true), Ok tt) ∧
  InsertSymbols.main 0 [] (demo_server true) = (demo_server true, Err IndexError).
Proof. exact (insert_symbols_main_spec 0 demo_page (demo_server true) demo_symbols ltac:(vm_compute; reflexivity)). Defined.

(** ** [Retrieving_data.py] reads back what [Price_Retrieval.py] inserted *)

Section Retrieving.
Import RetrievingData.

#[local] Instance price_le_trans : Transitive price_le.
Proof. intros [a ?] [b ?] [c ?]. unfold price_le. cbn. destruct (date_key a), (date_key b), (date_key c); cbn; lia || done. Qed.

#[local] Instance price_le_total : Total price_le.
Proof. intros [a ?] [b ?]. unfold price_le. cbn. destruct (date_key a), (date_key b); cbn; auto with lia. Qed.

(** Strictly increasing dates. *)
Definition price_lt (a b : sql_value * sql_value) : Prop :=
  ∃ x y, date_key a.1 = Some x ∧ date_key b.1 = Some y ∧ (x < y)%Z.

Lemma StronglySorted_weaken {A} (R R' : A → A → Prop) l :
  (∀ a b, R a b → R' a b) → StronglySorted R l → StronglySorted R' l.
Proof.
  intros HR. induction 1 as [|x l _ IH Hx]; constructor; [done|]. eapply Forall_impl; [exact Hx|]. auto.
Qed.

Lemma price_lt_le a b : price_lt a b → price_le a b.
Proof. intros (x & y & Ha & Hb & ?). unfold price_le. rewrite Ha, Hb. lia. Qed.

Lemma price_lt_antisym a b : price_lt a b → price_le b a → False.
Proof. intros (x & y & Ha & Hb & ?). unfold price_le. rewrite Ha, Hb. lia. Qed.

(** A list sorted by strictly increasing dates is its own [ORDER BY]. *)
Lemma merge_sort_price_sorted l : StronglySorted price_lt l → merge_sort price_le l = l.
Proof.
  intros Hl. apply (Sorted_unique_strong price_le).
  - intros x1 x2 Hx1 Hx2 H12 H21. rewrite (merge_sort_Permutation price_le l) in Hx1.
    clear -Hl Hx1 Hx2 H12 H21. induction Hl as [|x l _ IH Hx]; [by apply elem_of_nil in Hx1|].
    rewrite Forall_forall in Hx. apply elem_of_cons in Hx1 as [->|Hx1], Hx2 as [->|Hx2]; try done.
    + destruct (price_lt_antisym _ _ (Hx x2 Hx2) H21).
    + destruct (price_lt_antisym _ _ (Hx x1 Hx1) H12).
    + by apply IH.
  - apply Sorted_merge_sort, _.
  - apply StronglySorted_Sorted. eapply StronglySorted_weaken; [apply price_lt_le|exact Hl].
  - apply merge_sort_Permutation.
Qed.

Lemma filter_key_unique (rows : list (Z * list sql_value)) i (P : Z * list sql_value → Prop)
    `{∀ r, Decision (P r)} :
  NoDup rows.*1 → (∀ r, r ∈ rows → P r ↔ r.1 = i) →
  length (filter P rows) = if decide (i ∈ rows.*1) then 1%nat else 0%nat.
Proof.
  induction rows as [|[k v] rows IH]; intros Hnd HP; [done|].
  rewrite fmap_cons, NoDup_cons in Hnd. destruct Hnd as [Hk Hnd].
  assert (∀ r, r ∈ rows → P r ↔ r.1 = i) as HP' by (intros r Hr; apply HP; by right).
  rewrite filter_cons, fmap_cons. destruct (decide (k = i)) as [->|Hne].
  - rewrite decide_True by (apply HP; [left|]; done). cbn. rewrite IH by done.
    rewrite decide_False by done. by rewrite decide_True by (by left).
  - rewrite decide_False by (rewrite HP; [done|left]). rewrite IH by done.
    apply decide_ext. rewrite elem_of_cons. naive_solver.
Qed.

Lemma map_const_filter_one {A B} (P : A → Prop) `{∀ x, Decision (P x)} (l : list A) (x : B) :
  length (filter P l) = 1%nat → map (λ _, x) (filter P l) = [x].
Proof. destruct (filter P l) as [|y [|]]; cbn; [lia|done|lia]. Qed.

Lemma map_snd_zip {A B C} (g : B → C) (ks : list A) (l : list B) :
  (length l ≤ length ks)%nat → map (λ r, g r.2) (zip ks l) = map g l.
Proof.
  revert l. induction ks as [|k ks IH]; intros [|x l] Hl; cbn in *; try done; [lia|]. rewrite IH; [done|lia].
Qed.

(** The join after the insert: one row per bar, in the order of the
    bars, when [ATVI] is the symbol [i] and no older price row is [i]'s. *)
Lemma atvi_rows_insert sym dp i data now :
  NoDup (tbl_rows sym).*1 → (∀ r, r ∈ tbl_rows sym → col r.2 0 = SqlStr "ATVI" ↔ r.1 = i) →
  i ∈ (tbl_rows sym).*1 → Forall (λ p, col p.2 1 ≠ SqlInt i) (tbl_rows dp) →
  atvi_rows sym (append_rows dp (map (PriceRetrieval.daily_row 1 (SqlInt i) now) data)) =
    map (λ d, (SqlDate (pr_date d), SqlNum (pr_adj_close d))) data.
Proof.
  intros Hnd Hatvi Hi Hold. unfold atvi_rows, append_rows. cbn [tbl_rows]. rewrite map_app, concat_app.
  assert (concat (map (λ p, map (λ _, (col p.2 2, col p.2 10))
            (filter (λ r, SqlInt r.1 = col p.2 1 ∧ col r.2 0 = SqlStr "ATVI") (tbl_rows sym))) (tbl_rows dp)) = [])
    as ->.
  { induction Hold as [|p rows Hp _ IH]; [done|]. cbn [map concat]. rewrite IH, app_nil_r.
    rewrite filter_none; [done|]. intros r Hr [Hid Ht]. apply Hp. rewrite <-Hid. f_equal. by apply Hatvi. }
  cbn [app].
  assert (length data ≤ length (seqZ (tbl_next_id dp)
            (Z.of_nat (length (map (PriceRetrieval.daily_row 1 (SqlInt i) now) data)))))%nat as Hl
    by (rewrite length_seqZ, length_map; lia).
  revert Hl. generalize (seqZ (tbl_next_id dp) (Z.of_nat (length (map (PriceRetrieval.daily_row 1 (SqlInt i) now) data)))).
  clear Hold. induction data as [|d data IH]; intros [|k ks] Hl; cbn [length] in Hl; try (done || lia).
  cbn. rewrite map_const_filter_one.
  - rewrite IH by lia. done.
  - rewrite (filter_key_unique _ i); [by rewrite decide_True|done|]. intros r Hr. rewrite Hatvi by done.
    split; [intros [[=] _]; lia|intros Hri; split; [by rewrite Hri|done]].
Qed.




Lemma StronglySorted_price_rows (data : list price_row) :
  StronglySorted Z.lt (map pr_date data) →
  StronglySorted price_lt (map (λ d, (SqlDate (pr_date d), SqlNum (pr_adj_close d))) data).
Proof.
  induction data as [|d data IH]; cbn; intros Hs; [constructor|]. apply StronglySorted_inv in Hs as [Hs Hd].
  constructor; [by apply IH|]. rewrite Forall_map in Hd |- *. eapply Forall_impl; [exact Hd|].
  intros d' ?. exists (pr_date d), (pr_date d'). done.
Qed.

End Retrieving.

(** C33 (roundtrip) [Retrieving_data.py] reads back what
    [Price_Retrieval.py] inserted: on a running server whose symbol
    [ATVI] has id [i] and whose [daily_price] holds no row of [i],
    inserting the bars [data] (increasing dates) for [i] and then running
    [Retrieving_data.py] shows the last five of the pairs (date, adjusted
    close) of [data], in the order of the dates. *)
Theorem retrieving_data_roundtrip s sym dp i data now :
  srv_up s = true → srv_tables s !! "symbol" = Some sym → srv_tables s !! "daily_price" = Some dp →
  tbl_key dp = None → table_wf sym →
  Forall (λ r, RetrievingData.col r.2 0 = SqlStr "ATVI" ↔ r.1 = i) (tbl_rows sym) → i ∈ (tbl_rows sym).*1 →
  Forall (λ p, RetrievingData.col p.2 1 ≠ SqlInt i) (tbl_rows dp) →
  StronglySorted Z.lt (map pr_date data) →
  ∃ s', (_ ⇐ PriceRetrieval.insert_daily_data_into_db 1 (SqlInt i) data now; RetrievingData.main) s =
        (s', Ok (RetrievingData.tail5 (map (λ d, (SqlDate (pr_date d), SqlNum (pr_adj_close d))) data))).
Proof.
  intros Hup Hsym Hdp Hk [Hnd _] Hatvi Hi Hold Hsorted.
  rewrite (st_bind_run_Ok _ _ _ _ _ (insert_daily_up s dp 1 (SqlInt i) data now Hup Hdp Hk)).
  cbv beta. unfold RetrievingData.main. erewrite st_bind_run_Ok; [|apply connect_up; exact Hup].
  cbv beta. erewrite st_bind_run_Ok;
    [|unfold RetrievingData.sql_query; rewrite st_get_bind; cbn [srv_tables set_tables];
      rewrite lookup_insert_ne, Hsym, lookup_insert_eq by done; reflexivity].
  rewrite atvi_rows_insert; [|done| |done|done].
  - rewrite merge_sort_price_sorted by (by apply StronglySorted_price_rows). eexists. reflexivity.
  - rewrite Forall_forall in Hatvi. intros r Hr. by apply Hatvi.
Qed.

Lemma retrieving_data_roundtrip_witness :
  ∃ s', (_ ⇐ PriceRetrieval.insert_daily_data_into_db 1 (SqlInt 1) (PriceRetrieval.prices_of demo_av_data 6) 7;
         RetrievingData.main) demo_atvi_server =
        (s', Ok (RetrievingData.tail5 (map (λ d, (SqlDate (pr_date d), SqlNum (pr_adj_close d)))
                                          (PriceRetrieval.prices_of demo_av_data 6)))).
Proof.
  apply (retrieving_data_roundtrip demo_atvi_server (mkTable None [(1%Z, [SqlStr "ATVI"; SqlStr "stock";
           SqlStr "Activision Blizzard"; SqlStr "Communication Services"; SqlStr "USD"; SqlDate 0; SqlDate 0])] 2)
         (mkTable None [] 1)); try reflexivity; try decide_by_eval.
Defined.
