(* ===== verification/DataExtraction.v ===== *)
(** * DataExtraction: the download scripts of [Technical Analysis/Data Extraction]

    [Pandas_Datareader.py] and [YahooFinancials.py] run the same loop: at
    most three rounds over the tickers not yet in [drop], each download in
    a bare [try] that prints a line on failure and leaves the ticker for
    the next round; a successful one becomes the column
    [close_prices[ticker]].  That assignment is pandas' [__setitem__]: the
    first non-empty series gives the empty frame its index, every later
    one is reindexed on it (dates it lacks become NaN, dates the frame
    lacks are dropped), and reindexing a series with a repeated date
    raises [ValueError] unless its index is already the frame's.
    [Pandas_Datareader.py] then fills backwards and computes the
    statistics of the frame; [YahooFinancials.py] reads the answer of
    [yahoofinancials] as decoded JSON and removes repeated dates first.

    The frame is generic over the type of its index (Section [Frames]);
    the downloads are oracles of the round and the ticker. *)

From stdpp Require Import sorting pretty.
From S2P Require Import Prelude Options Performance Sharpe Indicators.
From Stdlib Require Import Reals Qreals.

Local Open Scope pyfloat_scope.

(** ** DataFrames with columns of floats *)

Section Frames.
Context {K : Type} `{EqDecision K}.

(** A DataFrame: its index and its columns, in the order they were
    created. *)
Record frame := mkFrame { fr_index : list K; fr_cols : list (string * list pyfloat) }.

Definition empty_frame : frame := mkFrame [] [].

(** A Series: its index and values. *)
Abbreviation series := (list (K * pyfloat)).

(** [s[k]] after a reindex: the value at the first (only) [k], NaN when
    [k] is not in the index. *)
Fixpoint series_at (s : series) (k : K) : pyfloat :=
  match s with
  | [] => None
  | (k', v) :: rest => if decide (k' = k) then v else series_at rest k
  end.

(** [DataFrame._ensure_valid_index]: a frame without rows takes the index
    of the first non-empty series assigned to it; its columns become NaN
    on it. *)
Definition ensure_valid_index (df : frame) (s : series) : frame :=
  match fr_index df, s with
  | [], _ :: _ => mkFrame s.*1 (map (λ c, (c.1, replicate (length s) None)) (fr_cols df))
  | _, _ => df
  end.

(** [_reindex_for_setitem]: a series on the frame's own index is taken as
    is; otherwise it is reindexed, which raises on a repeated label. *)
Definition reindex_for_setitem (s : series) (idx : list K) : result (list pyfloat) :=
  if decide (s.*1 = idx) then Ok s.*2
  else if decide (NoDup s.*1) then Ok (map (series_at s) idx)
  else Err (ValueError "cannot reindex on an axis with duplicate labels").

(** Setting column [name]: an existing column is replaced in place, a new
    one is added last. *)
Fixpoint set_col (cols : list (string * list pyfloat)) (name : string) (v : list pyfloat)
    : list (string * list pyfloat) :=
  match cols with
  | [] => [(name, v)]
  | (n, w) :: rest => if decide (n = name) then (name, v) :: rest else (n, w) :: set_col rest name v
  end.

(** [df[name] = s]. *)
Definition assign_column (df : frame) (name : string) (s : series) : result frame :=
  let df1 := ensure_valid_index df s in
  v ← reindex_for_setitem s (fr_index df1);
  Ok (mkFrame (fr_index df1) (set_col (fr_cols df1) name v)).

(** Every column has one entry per row. *)
Definition frame_wf (df : frame) : Prop := Forall (λ c, length c.2 = length (fr_index df)) (fr_cols df).

(** [df] holds series [ok] allows: each column is the series of its name
    reindexed on the frame's index, and the index is empty or the index
    of a non-empty series.  While the index is empty, the series were
    empty. *)
Definition aligned (ok : string → series → Prop) (df : frame) : Prop :=
  (∀ c, c ∈ fr_cols df → ∃ s, ok c.1 s ∧ c.2 = map (series_at s) (fr_index df) ∧
                              (fr_index df = [] → s = [])) ∧
  (fr_index df = [] ∨ ∃ t s, ok t s ∧ s ≠ [] ∧ fr_index df = s.*1).

(** ** The download loop

    The variables of the scripts: [tickers], [drop], [close_prices],
    [attempt] and the lines printed. *)

Record ex_state := mkEx {
  ex_tickers : list string;
  ex_drop : list string;
  ex_close : frame;
  ex_attempt : nat;
  ex_out : list string
}.

(** The body of [for i in range(len(tickers))]: the download [get attempt
    ticker] and the assignment, in one bare [try]. *)
Definition ticker_step (get : nat → string → result series) (st : ex_state) (ticker : string) : ex_state :=
  match s ← get (ex_attempt st) ticker; assign_column (ex_close st) ticker s with
  | Ok df => mkEx (ex_tickers st) (ex_drop st ++ [ticker]) df (ex_attempt st) (ex_out st)
  | Err _ => mkEx (ex_tickers st) (ex_drop st) (ex_close st) (ex_attempt st)
               (ex_out st ++ ["Attempt " +:+ pretty (ex_attempt st) +:+ " " +:+ ticker +:+ " failed to collect data"])
  end.

(** One iteration of the [while] loop. *)
Definition ex_round (get : nat → string → result series) (st : ex_state) : ex_state :=
  let tickers := filter (λ j, j ∉ ex_drop st) (ex_tickers st) in
  let st1 := foldl (ticker_step get) (mkEx tickers (ex_drop st) (ex_close st) (ex_attempt st) (ex_out st)) tickers in
  mkEx (ex_tickers st1) (ex_drop st1) (ex_close st1) (S (ex_attempt st1)) (ex_out st1).

(** [while (len(tickers) != 0 and attempt < 3)]; [None] is running out of
    fuel, which four iterations never do. *)
Fixpoint ex_loop (fuel : nat) (get : nat → string → result series) (st : ex_state) : option ex_state :=
  match fuel with
  | O => None
  | S fuel' =>
      if bool_decide (length (ex_tickers st) ≠ 0%nat) && (ex_attempt st <? 3)%nat
      then ex_loop fuel' get (ex_round get st)
      else Some st
  end.

(** The loop from the scripts' initial values. *)
Definition download_all (get : nat → string → result series) (tickers : list string) : option ex_state :=
  ex_loop 4 get (mkEx tickers [] empty_frame 0 []).

(** A series [get] gives for [ticker] in one of the three rounds. *)
Definition fetched (get : nat → string → result series) (ticker : string) (s : series) : Prop :=
  ∃ a, (a < 3)%nat ∧ get a ticker = Ok s.

(** The invariant of the loop started on [tickers0]: [close_prices] is
    aligned with fetched series and has one column per ticker of [drop],
    in order; [drop] holds the tickers of [tickers0] fetched in a round
    before [attempt]; [tickers] keeps every ticker not yet dropped. *)
Definition ex_inv (get : nat → string → result series) (tickers0 : list string) (st : ex_state) : Prop :=
  aligned (fetched get) (ex_close st) ∧ (fr_cols (ex_close st)).*1 = ex_drop st ∧
  NoDup (ex_tickers st) ∧ ex_tickers st ⊆ tickers0 ∧
  (∀ t, t ∈ tickers0 → t ∉ ex_drop st → t ∈ ex_tickers st) ∧
  (∀ t, t ∈ ex_drop st ↔ t ∈ tickers0 ∧ ∃ a, (a < ex_attempt st)%nat ∧ is_ok (get a t) = true) ∧
  (ex_attempt st ≤ 3)%nat.

End Frames.

Arguments frame : clear implicits.
Arguments ex_state : clear implicits.

(** ** [Pandas_Datareader.py] *)

Module PandasDatareader.

Definition tickers : list string := ["SQ"; "SHOP"; "NVCR"; "ACAD"].

(** [temp.dropna(inplace=True)] and [temp["Adj Close"]]. *)
Definition adj_close_series (temp : price_frame) : list (Z * pyfloat) :=
  map (λ r, (r.1, bar_adj_close r.2)) (dropna temp).

(** The download of a round: [pdr.get_data_yahoo] is [download attempt
    ticker], a frame or the exception it raises. *)
Definition get (download : nat → string → result price_frame) (attempt : nat) (ticker : string)
    : result (list (Z * pyfloat)) :=
  temp ← download attempt ticker; Ok (adj_close_series temp).

(** [fillna(method='bfill')] on a column: a NaN takes the next number
    below it. *)
Fixpoint col_bfill (xs : list pyfloat) : list pyfloat :=
  match xs with
  | [] => []
  | x :: rest => let rest' := col_bfill rest in por x (mjoin (head rest')) :: rest'
  end.

Definition col_apply (f : list pyfloat → list pyfloat) (df : frame Z) : frame Z :=
  mkFrame (fr_index df) (map (λ c, (c.1, f c.2)) (fr_cols df)).

Definition col_reduce {B} (f : list pyfloat → B) (df : frame Z) : list (string * B) :=
  map (λ c, (c.1, f c.2)) (fr_cols df).

(** [Series.mean()], skipping NaN. *)
Definition col_mean (xs : list pyfloat) : pyfloat :=
  match skipna xs with [] => None | w => Some (Qmean w) end.

Definition qle (x y : Q) : Prop := Qle_bool x y = true.
#[local] Instance qle_dec : RelDecision qle := λ x y, decide (Qle_bool x y = true).

(** [Series.median()]: the middle number, or the mean of the two middle
    ones. *)
Definition col_median (xs : list pyfloat) : pyfloat :=
  let w := merge_sort qle (skipna xs) in
  let n := length w in
  if (n =? 0)%nat then None
  else if Nat.odd n then w !! (n / 2)%nat
  else a ← w !! (n / 2 - 1)%nat; b ← w !! (n / 2)%nat; Some ((a + b) / 2).

(** [Series.var()] ([ddof=1]): NaN below two numbers. *)
Definition col_var (xs : list pyfloat) : pyfloat :=
  let w := skipna xs in if (2 <=? length w)%nat then Some (Qvar_sample w) else None.

(** [Series.std()]. *)
Definition col_std (xs : list pyfloat) : option R := option_map (λ v, sqrt (Q2R v)) (col_var xs).

(** [Series.shift(k)]. *)
Definition shift (k : nat) (xs : list pyfloat) : list pyfloat :=
  replicate (Nat.min k (length xs)) None ++ take (length xs - k) xs.

(** [close_prices/close_prices.shift(5)-1] on a column. *)
Definition five_day (xs : list pyfloat) : list pyfloat :=
  zip_with (λ x y, fsub (fdiv x y) (Some 1)) xs (shift 5 xs).

(** [(close_prices-close_prices.mean())/close_prices.std()] on a column;
    a zero deviation gives inf or NaN. *)
Definition standardize (xs : list pyfloat) : list (option R) :=
  map (λ x, match x, col_mean xs, col_var xs with
            | Some v, Some m, Some s => if Qeq_bool s 0 then None else Some (Q2R (v - m) / sqrt (Q2R s))%R
            | _, _, _ => None
            end) xs.

Record stats := mkStats {
  mean : list (string * pyfloat);
  median : list (string * pyfloat);
  standard_deviation : list (string * option R);
  daily_return : frame Z;
  five_day_return : frame Z;
  mean_daily_return : list (string * pyfloat);
  standard_deviation_daily_return : list (string * option R);
  rolling_mean : frame Z;
  rolling_standard_deviation : frame Z;
  exponential_moving_average : frame Z;
  cp_standardized : list (string * list (option R))
}.

(** Lines 44-63. *)
Definition make_stats (close_prices : frame Z) : stats :=
  let daily_return := col_apply pct_change close_prices in
  mkStats (col_reduce col_mean close_prices) (col_reduce col_median close_prices)
    (col_reduce col_std close_prices) daily_return (col_apply five_day close_prices)
    (col_reduce col_mean daily_return) (col_reduce col_std daily_return)
    (col_apply (rolling 20 Qmean) daily_return) (col_apply (rolling 20 Qmean) daily_return)
    (col_apply (ewm_mean 20 20) daily_return) (col_reduce standardize close_prices).

(** The script: the loop, the backward fill, the statistics, and the
    plots.  [DataFrame.plot] raises on a frame without columns; otherwise
    line 68 raises, since [reset_index] is a method and has no attribute
    [drop]. *)
Definition main (download : nat → string → result price_frame)
    : option (list string * frame Z * stats * result unit) :=
  st ← download_all (get download) tickers;
  let close_prices := col_apply col_bfill (ex_close st) in
  let s := make_stats close_prices in
  Some (ex_out st, close_prices, s,
        if bool_decide (fr_cols close_prices = []) then Err (TypeError "no numeric data to plot")
        else Err (AttributeError "'function' object has no attribute 'drop'")).

End PandasDatareader.

(** ** [YahooFinancials.py] *)

Module YahooFinancials.

Definition tickers : list string := ["AMZN"; "AAPL"; "IBM"; "FB"].

(** The columns selected on line 35. *)
Definition selected : list string := ["formatted_date"; "open"; "adjclose"; "high"; "high"; "volume"].

(** [pd.DataFrame(ohlv)]: a list of dicts gives one row per dict, the
    columns being the keys of all rows.  A dict of equal-length lists
    gives one column per key.  Other values raise. *)
Definition price_rows (ohlv : json) : result (list (gmap string json)) :=
  match ohlv with
  | JArr xs => mapM (λ x, match x with
                         | JObj kvs => Ok (json_dict kvs)
                         | _ => Err (TypeError "rows of the DataFrame are not dicts")
                         end) xs
  | JObj kvs =>
      cols ← mapM (λ kv, match kv.2 with
                         | JArr vs => Ok (kv.1, vs)
                         | _ => Err (ValueError "If using all scalar values, you must pass an index")
                         end) kvs;
      match cols with
      | [] => Ok []
      | (_, vs) :: _ =>
          if forallb (λ c, (length c.2 =? length vs)%nat) cols
          then Ok (map (λ i, dict_insert_all ∅ (omap (λ c, (λ v, (c.1, v)) <$> c.2 !! i) cols))
                       (seq 0 (length vs)))
          else Err (ValueError "All arrays must be of the same length")
      end
  | JNull => Ok []
  | _ => Err (ValueError "DataFrame constructor not properly called!")
  end.

(** [temp[[...]]]: every selected column is the key of some row. *)
Definition select_columns (rows : list (gmap string json)) : result unit :=
  match filter (λ c, ¬ Exists (λ r : gmap string json, is_Some (r !! c)) rows) selected with
  | [] => Ok tt
  | c :: _ => Err (KeyError c)
  end.

(** An entry of the [adjclose] column: NaN unless a number. *)
Definition num_of (v : option json) : pyfloat :=
  match v with Some (JNum q) => Some q | _ => None end.

(** An entry of the [formatted_date] column: missing and [null] are both
    NaN. *)
Definition date_of (r : gmap string json) : option json :=
  match r !! "formatted_date" with Some JNull => None | v => v end.

(** [temp[~temp.index.duplicated(keep='first')]]. *)
Fixpoint dedup_first (seen : list (option json)) (s : list (option json * pyfloat)) : list (option json * pyfloat) :=
  match s with
  | [] => []
  | (k, v) :: rest =>
      if bool_decide (k ∈ seen) then dedup_first seen rest
      else (k, v) :: dedup_first (k :: seen) rest
  end.

(** Lines 31-39 up to the assignment: [json_obj[ticker]['prices']], the
    frame indexed by [formatted_date] (NaN where a row has none), the
    first row of each date, its [adjclose]. *)
Definition get (yahoo : nat → string → result json) (attempt : nat) (ticker : string)
    : result (list (option json * pyfloat)) :=
  json_obj ← yahoo attempt ticker;
  t ← json_get json_obj ticker;
  ohlv ← json_get t "prices";
  rows ← price_rows ohlv;
  _ ← select_columns rows;
  Ok (dedup_first [] (map (λ r, (date_of r, num_of (r !! "adjclose"))) rows)).

(** The script: the loop; [close_prices] and the lines printed. *)
Definition main (yahoo : nat → string → result json) : option (list string * frame (option json)) :=
  st ← download_all (get yahoo) tickers;
  Some (ex_out st, ex_close st).

End YahooFinancials.

(** ** Demo downloads

    [SQ] has a NaN row and one more date than [SHOP]; [NVCR] fails twice
    then answers; [ACAD] always fails.  For [YahooFinancials.py],
    [AMZN]'s answer repeats a date and [FB] has no ["prices"]. *)

Definition demo_bar (q : Q) : bar := mkBar (Some q) (Some q) (Some q) (Some q) (Some q) (Some 100).

Definition demo_download (attempt : nat) (ticker : string) : result price_frame :=
  if String.eqb ticker "SQ" then
    Ok [(1%Z, demo_bar 10); (2%Z, mkBar None (Some 11) (Some 11) (Some 11) (Some 11) (Some 100));
        (3%Z, demo_bar 12); (4%Z, demo_bar 15)]
  else if String.eqb ticker "SHOP" then Ok [(1%Z, demo_bar 300); (3%Z, demo_bar 330); (5%Z, demo_bar 360)]
  else if String.eqb ticker "NVCR" then
    if (attempt <? 2)%nat then Err (ValueError "No data fetched for symbol NVCR") else Ok [(4%Z, demo_bar 60)]
  else Err (ValueError "No data fetched").

Definition demo_price (d : string) (q : Q) : json :=
  JObj [("formatted_date", JStr d); ("open", JNum q); ("adjclose", JNum q); ("high", JNum q); ("volume", JNum 100)].

Definition demo_yahoo (attempt : nat) (ticker : string) : result json :=
  if String.eqb ticker "FB" then Ok (JObj [("FB", JNull)])
  else Ok (JObj [(ticker, JObj [("prices", JArr [demo_price "2020-03-26" 10; demo_price "2020-03-27" 11;
                                                  demo_price "2020-03-27" 12])])]).

(** ** Column assignment *)

Section Assign.
Context {K : Type} `{EqDecision K}.
Implicit Types (s : list (K * pyfloat)) (df : frame K).

Lemma series_at_fst s : NoDup s.*1 → map (series_at s) s.*1 = s.*2.
Proof.
  induction s as [|[k v] s IH]; cbn; [done|]. intros [Hk Hnd]%NoDup_cons.
  rewrite decide_True by done. f_equal. rewrite <-IH by done.
  apply map_ext_in. intros k' Hk'%list_elem_of_In. rewrite decide_False; [done|]. by intros ->.
Qed.

Lemma series_at_nil k : series_at ([] : list (K * pyfloat)) k = None.
Proof. done. Qed.

Lemma map_series_at_nil (l : list K) : map (series_at []) l = replicate (length l) None.
Proof. induction l as [|k l IH]; [done|]. cbn [map length replicate]. by rewrite IH. Qed.

Lemma reindex_NoDup s idx : NoDup s.*1 → reindex_for_setitem s idx = Ok (map (series_at s) idx).
Proof.
  intros Hnd. unfold reindex_for_setitem. case_decide as Heq.
  - subst idx. by rewrite series_at_fst.
  - by rewrite decide_True.
Qed.

Lemma set_col_elem cols name v c : c ∈ set_col cols name v → c ∈ cols ∨ c = (name, v).
Proof.
  induction cols as [|[n w] cols IH]; cbn; [set_solver|].
  case_decide; rewrite !elem_of_cons; [naive_solver|]. intros [->|?%IH]; naive_solver.
Qed.

Lemma set_col_new cols name v : name ∉ cols.*1 → set_col cols name v = cols ++ [(name, v)].
Proof.
  induction cols as [|[n w] cols IH]; cbn; [done|]. rewrite not_elem_of_cons. intros [Hn Hc].
  rewrite decide_False by congruence. by rewrite IH.
Qed.

Lemma ensure_valid_index_cases df s :
  (fr_index df = [] ∧ s ≠ [] ∧
   ensure_valid_index df s = mkFrame s.*1 (map (λ c, (c.1, replicate (length s) None)) (fr_cols df))) ∨
  ((fr_index df = [] → s = []) ∧ ensure_valid_index df s = df).
Proof.
  unfold ensure_valid_index. destruct df as [[|k idx] cols], s as [|x s]; cbn; [right|left|right|right]; naive_solver.
Qed.

Lemma names_ensure_valid_index df s : (fr_cols (ensure_valid_index df s)).*1 = (fr_cols df).*1.
Proof.
  destruct (ensure_valid_index_cases df s) as [(_ & _ & ->)|[_ ->]]; [|done].
  cbn. rewrite <-list_fmap_compose. by apply list_fmap_ext.
Qed.

(** Assigning a series without repeated labels succeeds, and the frame
    stays aligned with the series it was given. *)
Lemma assign_column_aligned (ok : string → list (K * pyfloat) → Prop) df name s :
  aligned ok df → ok name s → NoDup s.*1 →
  ∃ df', assign_column df name s = Ok df' ∧ aligned ok df' ∧
         (name ∉ (fr_cols df).*1 → (fr_cols df').*1 = (fr_cols df).*1 ++ [name]).
Proof.
  intros [Hcols Hidx] Hok Hnd. unfold assign_column. rewrite reindex_NoDup by done. cbn.
  eexists. split; [done|]. split; [split|].
  - intros c [Hc| ->]%set_col_elem; cbn.
    + destruct (ensure_valid_index_cases df s) as [(Hi & Hs & E)|[Hi E]]; rewrite E in Hc; rewrite E; cbn in Hc; cbn.
      * apply list_elem_of_fmap in Hc as [c0 [-> Hc0]]. destruct (Hcols c0 Hc0) as (s0 & Hok0 & _ & Hs0).
        rewrite Hs0 in Hok0 by done. exists []. cbn. split; [done|]. split; [|done].
        by rewrite map_series_at_nil, length_fmap.
      * auto.
    + exists s. split; [done|]. split; [done|].
      destruct (ensure_valid_index_cases df s) as [(Hi & Hs & ->)|[Hi ->]]; cbn; [|done].
      by intros ->%fmap_nil_inv.
  - destruct (ensure_valid_index_cases df s) as [(Hi & Hs & ->)|[Hi ->]]; cbn; [right; eauto|done].
  - intros Hn. cbn [fr_cols]. rewrite set_col_new; [by rewrite fmap_app, names_ensure_valid_index|].
    by rewrite names_ensure_valid_index.
Qed.
End Assign.

(** ** The download loop *)

Section Loop.
Context {K : Type} `{EqDecision K}.
Variable get : nat → string → result (list (K * pyfloat)).
(** Every series fetched has distinct labels, as a download indexed by
    date has. *)
Hypothesis get_NoDup : ∀ a t s, get a t = Ok s → NoDup s.*1.

Lemma ticker_step_Ok st t s df :
  get (ex_attempt st) t = Ok s → assign_column (ex_close st) t s = Ok df →
  ticker_step get st t = mkEx (ex_tickers st) (ex_drop st ++ [t]) df (ex_attempt st) (ex_out st).
Proof. intros G A. unfold ticker_step. by rewrite G; cbn; rewrite A. Qed.

Lemma ticker_step_Err st t e :
  get (ex_attempt st) t = Err e →
  ticker_step get st t = mkEx (ex_tickers st) (ex_drop st) (ex_close st) (ex_attempt st)
    (ex_out st ++ ["Attempt " +:+ pretty (ex_attempt st) +:+ " " +:+ t +:+ " failed to collect data"]).
Proof. intros G. unfold ticker_step. by rewrite G. Qed.

Lemma round_fold ts st st' :
  foldl (ticker_step get) st ts = st' →
  (ex_attempt st < 3)%nat → aligned (fetched get) (ex_close st) → (fr_cols (ex_close st)).*1 = ex_drop st →
  NoDup ts → (∀ t, t ∈ ts → t ∉ ex_drop st) →
  ex_tickers st' = ex_tickers st ∧ ex_attempt st' = ex_attempt st ∧ aligned (fetched get) (ex_close st') ∧
  (fr_cols (ex_close st')).*1 = ex_drop st' ∧
  ex_drop st' = ex_drop st ++ filter (λ t, is_ok (get (ex_attempt st) t) = true) ts.
Proof.
  revert st. induction ts as [|t ts IH]; intros st Hst Hr Hal Hn Hnd Hts; cbn [foldl] in Hst.
  - subst st'. by rewrite app_nil_r.
  - apply NoDup_cons in Hnd as [Ht Hnd].
    assert (t ∉ ex_drop st) as Htd by (apply Hts; left).
    destruct (get (ex_attempt st) t) as [s|e] eqn:G.
    + destruct (assign_column_aligned (fetched get) (ex_close st) t s Hal) as (df' & A & Hal' & Hn');
        [by exists (ex_attempt st)|by eapply get_NoDup|].
      rewrite (ticker_step_Ok _ _ _ _ G A) in Hst.
      destruct (IH _ Hst) as (-> & -> & Hal2 & Hn2 & Hd2); cbn; try done.
      * rewrite Hn' by congruence. by rewrite Hn.
      * intros t' Ht'. rewrite elem_of_app, list_elem_of_singleton. intros [Hd| ->]; [apply (Hts t'); [by right|done]|done].
      * split; [done|]. split; [done|]. split; [exact Hal2|]. split; [by rewrite Hn2, Hd2|].
        rewrite Hd2, decide_True by (by rewrite G). cbn [ex_drop ex_attempt]. by rewrite <-List.app_assoc.
    + rewrite (ticker_step_Err _ _ _ G) in Hst.
      destruct (IH _ Hst) as (-> & -> & Hal2 & Hn2 & Hd2); cbn; try done.
      * intros t' Ht'. apply Hts. by right.
      * split; [done|]. split; [done|]. split; [exact Hal2|]. split; [by rewrite Hn2, Hd2|].
        by rewrite Hd2, decide_False by (by rewrite G).
Qed.

Section Inv.
Variable tickers0 : list string.

Lemma ex_round_inv st :
  ex_inv get tickers0 st → (ex_attempt st < 3)%nat → ex_inv get tickers0 (ex_round get st).
Proof.
  intros (Hal & Hn & Hnd & Hsub & Hkeep & Hdrop & _) Hr. unfold ex_round.
  set (ts := filter (λ j, j ∉ ex_drop st) (ex_tickers st)).
  set (st1 := foldl (ticker_step get) (mkEx ts (ex_drop st) (ex_close st) (ex_attempt st) (ex_out st)) ts).
  destruct (round_fold ts (mkEx ts (ex_drop st) (ex_close st) (ex_attempt st) (ex_out st)) st1 eq_refl)
    as (Ht & Ha & Hal' & Hn' & Hd'); cbn [ex_attempt ex_close ex_drop]; try done.
  { by apply NoDup_filter. }
  { intros t Ht. apply list_elem_of_filter in Ht. tauto. }
  cbn [ex_tickers ex_drop ex_attempt] in Ht, Ha, Hd'.
  unfold ex_inv. cbn [ex_tickers ex_drop ex_close ex_attempt]. rewrite Ht, Ha.
  split; [done|]. split; [done|]. split; [by apply NoDup_filter|].
  split; [intros t Ht'%list_elem_of_filter; apply Hsub; tauto|].
  split; [|split; [|lia]]; rewrite Hd'.
  - intros t Ht0 Hnot. apply list_elem_of_filter. rewrite elem_of_app in Hnot. split; [tauto|]. apply Hkeep; tauto.
  - intros t. rewrite elem_of_app, list_elem_of_filter, Hdrop. split.
    + intros [[? (a & ? & ?)]|[? Ht'%list_elem_of_filter]].
      * split; [done|]. exists a. split; [lia|done].
      * split; [apply Hsub; tauto|]. exists (ex_attempt st). split; [lia|done].
    + intros [Ht0 (a & Ha' & Hok)].
      destruct (decide (a < ex_attempt st)%nat) as [Hlt|Hge].
      * left. split; [done|]. by exists a.
      * assert (a = ex_attempt st) as -> by lia.
        destruct (decide (t ∈ ex_drop st)) as [Hin|Hout]; [left; by apply Hdrop|].
        right. split; [done|]. apply list_elem_of_filter. split; [done|]. by apply Hkeep.
Qed.

Lemma ticker_step_attempt st t : ex_attempt (ticker_step get st t) = ex_attempt st.
Proof. unfold ticker_step. by destruct (_ ≫= _). Qed.

Lemma foldl_ticker_step_attempt ts st : ex_attempt (foldl (ticker_step get) st ts) = ex_attempt st.
Proof. revert st. induction ts as [|t ts IH]; intros st; [done|]. cbn [foldl]. by rewrite IH, ticker_step_attempt. Qed.

Lemma ex_round_attempt st : ex_attempt (ex_round get st) = S (ex_attempt st).
Proof. unfold ex_round. cbn [ex_attempt]. by rewrite foldl_ticker_step_attempt. Qed.

Lemma ex_loop_inv fuel st :
  ex_inv get tickers0 st → (3 - ex_attempt st < fuel)%nat →
  ∃ st', ex_loop fuel get st = Some st' ∧ ex_inv get tickers0 st' ∧
         (ex_tickers st' = [] ∨ ex_attempt st' = 3%nat).
Proof.
  revert st. induction fuel as [|fuel IH]; intros st Hinv Hf; [lia|]. cbn [ex_loop].
  destruct (bool_decide (length (ex_tickers st) ≠ 0%nat)) eqn:Hl; cbn [andb].
  - destruct (ex_attempt st <? 3)%nat eqn:Ha.
    + apply Nat.ltb_lt in Ha. apply IH; [by apply ex_round_inv|]. rewrite ex_round_attempt. lia.
    + apply Nat.ltb_ge in Ha. exists st. split; [done|]. split; [done|]. right.
      destruct Hinv as (_ & _ & _ & _ & _ & _ & ?). lia.
  - exists st. split; [done|]. split; [done|]. left.
    apply bool_decide_eq_false in Hl. apply length_zero_iff_nil. lia.
Qed.

End Inv.

Lemma download_all_inv tickers0 :
  NoDup tickers0 →
  ∃ st, download_all get tickers0 = Some st ∧ ex_inv get tickers0 st ∧
        (∀ t, t ∈ ex_drop st ↔ t ∈ tickers0 ∧ ∃ a, (a < 3)%nat ∧ is_ok (get a t) = true).
Proof.
  intros Hnd. destruct (ex_loop_inv tickers0 4 (mkEx tickers0 [] empty_frame 0 [])) as (st & Hst & Hinv & Hend).
  - unfold ex_inv, aligned. cbn [ex_close ex_drop ex_tickers ex_attempt fr_cols fr_index empty_frame].
    split; [split; [intros c Hc; by apply elem_of_nil in Hc|by left]|].
    split; [done|]. split; [done|]. split; [done|]. split; [intros t Ht _; done|]. split; [|lia].
    intros t. rewrite elem_of_nil. split; [done|]. intros (_ & a & ? & _). lia.
  - cbn. lia.
  - exists st. split; [done|]. split; [done|]. destruct Hinv as (_ & _ & _ & _ & Hkeep & Hdrop & Ha).
    intros t. rewrite Hdrop. split; intros [Ht0 (a & ? & ?)]; (split; [done|]).
    + exists a. split; [lia|done].
    + destruct Hend as [Hnil|H3].
      * destruct (decide (t ∈ ex_drop st)) as [Hin|Hout].
        -- apply Hdrop in Hin as [_ ?]. done.
        -- specialize (Hkeep t Ht0 Hout). rewrite Hnil in Hkeep. set_solver.
      * rewrite H3. by exists a.
Qed.

End Loop.

(** ** [YahooFinancials.py] never fetches a repeated date *)

Lemma dedup_first_NoDup seen (s : list (option json * pyfloat)) :
  NoDup (YahooFinancials.dedup_first seen s).*1 ∧ ∀ k, k ∈ (YahooFinancials.dedup_first seen s).*1 → k ∉ seen.
Proof.
  revert seen. induction s as [|[k v] s IH]; intros seen; cbn; [split; [constructor|set_solver]|].
  case_bool_decide as Hk; [apply IH|]. destruct (IH (k :: seen)) as [Hnd Hout]. cbn. split.
  - constructor; [|done]. intros Hin. apply (Hout k Hin). by left.
  - intros k' [->|Hk']%elem_of_cons; [done|]. intros Hs. apply (Hout k' Hk'). by right.
Qed.

Lemma yahoo_get_NoDup yahoo a t s : YahooFinancials.get yahoo a t = Ok s → NoDup s.*1.
Proof.
  unfold YahooFinancials.get. intros H.
  repeat match type of H with
         | (?m ≫= _) = Ok _ => destruct m; [cbn in H|discriminate]
         end.
  injection H as <-. apply dedup_first_NoDup.
Qed.

(** ** The statistics of [Pandas_Datareader.py] *)

Lemma aligned_wf {K} `{EqDecision K} ok (df : frame K) : aligned ok df → frame_wf df.
Proof.
  intros [Hc _]. apply Forall_forall. intros c Hin.
  destruct (Hc c Hin) as (s & _ & -> & _). apply length_map.
Qed.

Lemma NoDup_fst_filter {A B} (P : A * B → Prop) `{∀ x, Decision (P x)} (l : list (A * B)) :
  NoDup l.*1 → NoDup (filter P l).*1.
Proof.
  induction l as [|[a b] l IH]; [done|]. rewrite fmap_cons, NoDup_cons. intros [Ha Hl]. rewrite filter_cons.
  case_decide; [|auto]. rewrite fmap_cons. constructor; [|auto]. intros Hin. apply Ha.
  apply list_elem_of_fmap in Hin as ([a' b'] & -> & Hin'). apply list_elem_of_filter in Hin' as [_ Hin'].
  apply list_elem_of_fmap. by exists (a', b').
Qed.

Lemma col_apply_wf f (df : frame Z) :
  (∀ xs, length (f xs) = length xs) → frame_wf df → frame_wf (PandasDatareader.col_apply f df).
Proof.
  intros Hf Hwf. unfold frame_wf, PandasDatareader.col_apply. cbn.
  apply Forall_fmap. eapply Forall_impl; [exact Hwf|]. intros c Hc. cbn. by rewrite Hf.
Qed.

Lemma length_col_bfill xs : length (PandasDatareader.col_bfill xs) = length xs.
Proof. induction xs as [|x xs IH]; cbn; [done|]. by rewrite IH. Qed.

Lemma length_shift k xs : length (PandasDatareader.shift k xs) = length xs.
Proof. unfold PandasDatareader.shift. rewrite length_app, length_replicate, length_take. lia. Qed.

Lemma length_five_day xs : length (PandasDatareader.five_day xs) = length xs.
Proof. unfold PandasDatareader.five_day. rewrite length_zip_with, length_shift. lia. Qed.

(** Every frame of statistics has one entry per row of [close_prices]. *)
Lemma make_stats_wf cp :
  frame_wf cp →
  let s := PandasDatareader.make_stats cp in
  frame_wf (PandasDatareader.daily_return s) ∧ frame_wf (PandasDatareader.five_day_return s) ∧
  frame_wf (PandasDatareader.rolling_mean s) ∧ frame_wf (PandasDatareader.rolling_standard_deviation s) ∧
  frame_wf (PandasDatareader.exponential_moving_average s).
Proof.
  intros Hwf. cbn.
  assert (frame_wf (PandasDatareader.col_apply pct_change cp)) as Hd
    by (apply col_apply_wf; [apply length_pct_change|done]).
  split_and!; [done|apply col_apply_wf; [apply length_five_day|done]| | |];
    apply col_apply_wf; try done; intros xs; [apply length_rolling|apply length_rolling|apply length_ewm_mean].
Qed.

(** [Pandas_Datareader.py] on downloads without repeated dates: the
    loop returns, [close_prices] after the backward fill and every frame
    of statistics have one entry per row, and the script ends in an
    exception: the plot of a frame without columns, or line 68. *)
Theorem pandas_datareader_main_spec download :
  (∀ a t temp, download a t = Ok temp → NoDup temp.*1) →
  ∃ out cp s e, PandasDatareader.main download = Some (out, cp, s, Err e) ∧ frame_wf cp ∧
    frame_wf (PandasDatareader.daily_return s) ∧ frame_wf (PandasDatareader.rolling_mean s) ∧
    frame_wf (PandasDatareader.exponential_moving_average s).
Proof.
  intros Hdl.
  assert (∀ a t s, PandasDatareader.get download a t = Ok s → NoDup s.*1) as Hget.
  { intros a t s. unfold PandasDatareader.get. destruct (download a t) as [temp|] eqn:E; [|done].
    intros [= <-]. unfold PandasDatareader.adj_close_series. rewrite <-list_fmap_compose.
    change ((fst ∘ _) <$> dropna temp) with ((dropna temp).*1). apply NoDup_fst_filter, (Hdl a t temp E). }
  destruct (download_all_inv _ Hget PandasDatareader.tickers ltac:(decide_by_eval)) as (st & Hst & (Hal & _) & _).
  assert (frame_wf (PandasDatareader.col_apply PandasDatareader.col_bfill (ex_close st))) as Hwf
    by (apply col_apply_wf; [apply length_col_bfill|by eapply aligned_wf]).
  destruct (make_stats_wf _ Hwf) as (? & _ & ? & _ & ?).
  unfold PandasDatareader.main. rewrite Hst. cbn [mbind option_bind].
  case_bool_decide; (eexists _, _, _, _; split; [reflexivity|]); by split_and!.
Qed.

(** C25 (functional, termination, invariant) The download loop of
    [Pandas_Datareader.py] and [YahooFinancials.py], on distinct tickers
    and downloads without repeated dates, returns within the three
    rounds; [drop] holds exactly the tickers whose download succeeded in
    one of the three rounds, and [close_prices] has one column per ticker
    of [drop], in the same order; each column is the ticker's series
    reindexed on the frame's index (NaN on a date the series lacks), and
    that index is empty or the dates of one downloaded series: dates of
    the other series outside it are lost. *)
Theorem download_all_spec {K} `{EqDecision K} (get : nat → string → result (list (K * pyfloat))) tickers0 :
  NoDup tickers0 → (∀ a t s, get a t = Ok s → NoDup s.*1) →
  ∃ st, download_all get tickers0 = Some st ∧
    (∀ t, t ∈ ex_drop st ↔ t ∈ tickers0 ∧ ∃ a, (a < 3)%nat ∧ is_ok (get a t) = true) ∧
    (fr_cols (ex_close st)).*1 = ex_drop st ∧
    aligned (fetched get) (ex_close st).
Proof.
  intros Hnd Hget. destruct (download_all_inv get Hget tickers0 Hnd) as (st & ? & (Hal & Hn & _) & ?).
  by exists st.
Qed.

Lemma download_all_spec_witness :
  ∃ st, download_all (YahooFinancials.get demo_yahoo) YahooFinancials.tickers = Some st ∧
    (∀ t, t ∈ ex_drop st ↔ t ∈ YahooFinancials.tickers ∧
                            ∃ a, (a < 3)%nat ∧ is_ok (YahooFinancials.get demo_yahoo a t) = true) ∧
    (fr_cols (ex_close st)).*1 = ex_drop st ∧
    aligned (fetched (YahooFinancials.get demo_yahoo)) (ex_close st).
Proof.
  apply download_all_spec.
  - decide_by_eval.
  - apply yahoo_get_NoDup.
Defined.

(** [Pandas_Datareader.py] on the demo downloads: [SHOP]'s price of day
    5 is lost, [NVCR], listed from day 4, is filled backwards with its
    price of day 4, and the script ends in [AttributeError]. *)
Example pandas_datareader_demo :
  (λ '(out, cp, _, r), (out, cp, r)) <$> PandasDatareader.main demo_download =
  Some (["Attempt 0 NVCR failed to collect data"; "Attempt 0 ACAD failed to collect data";
         "Attempt 1 NVCR failed to collect data"; "Attempt 1 ACAD failed to collect data";
         "Attempt 2 ACAD failed to collect data"],
        mkFrame [1%Z; 3%Z; 4%Z] [("SQ", [Some 10; Some 12; Some 15]); ("SHOP", [Some 300; Some 330; None]);
                                 ("NVCR", [Some 60; Some 60; Some 60])],
        Err (AttributeError "'function' object has no attribute 'drop'")).
Proof. vm_compute. reflexivity. Qed.
